(** * dossier: commit harvesting and signature detection

    A shallow embedding of the three scanners of the repository
    ([github.go], [gitlab.go], [bitbucket.go]) and the properties of
    their detection pipeline, pagination and scan drivers.

    Go strings are byte strings: they are modelled by [string], whose
    characters are bytes.  An [int] is modelled by [Z]: the page counters
    and the indices of the scanners stay far from the bounds of a machine
    integer.  Printing and the calls of the HTTP client are recorded in a
    trace; a panic,
    [os.Exit] and a loop that runs out of fuel are outcomes of a run.  The
    network, the file system and the libraries the scanners import are
    parameters: within one run a server answers a request by a function of
    the request. *)

From Stdlib Require Import String Ascii ZArith Lia Bool DecimalString.
From stdpp Require Import base list strings.

Open Scope string_scope.
Open Scope list_scope.
Open Scope Z_scope.

(** ** The Go [strings] and [fmt] functions the scanners call *)

Module GoStrings.

(** [strings.Contains(s, substr)]. *)
Fixpoint Contains (s substr : string) : bool :=
  if String.prefix substr s then true
  else match s with
       | EmptyString => false
       | String _ s' => Contains s' substr
       end.

(** [strings.Index(s, substr)]: the first index, [-1] when absent. *)
Fixpoint Index (s substr : string) : Z :=
  if String.prefix substr s then 0
  else match s with
       | EmptyString => -1
       | String _ s' =>
           let r := Index s' substr in
           if 0 <=? r then r + 1 else -1
       end.

(** [strings.LastIndex(s, substr)]: the last index, [-1] when absent. *)
Fixpoint LastIndex (s substr : string) : Z :=
  match s with
  | EmptyString => if String.prefix substr s then 0 else -1
  | String _ s' =>
      let r := LastIndex s' substr in
      if 0 <=? r then r + 1
      else if String.prefix substr s then 0 else -1
  end.

Definition len (s : string) : Z := Z.of_nat (String.length s).

Fixpoint drop_bytes (n : nat) (s : string) : string :=
  match n, s with
  | O, _ => s
  | S _, EmptyString => EmptyString
  | S n', String _ s' => drop_bytes n' s'
  end.

Fixpoint take_bytes (n : nat) (s : string) : string :=
  match n, s with
  | O, _ => EmptyString
  | S _, EmptyString => EmptyString
  | S n', String c s' => String c (take_bytes n' s')
  end.

(** The slice expression [s[i:]]; [None] is the run-time panic of an
    index out of range. *)
Definition slice_from (s : string) (i : Z) : option string :=
  if (0 <=? i) && (i <=? len s) then Some (drop_bytes (Z.to_nat i) s)
  else None.

(** [strings.HasPrefix] and [strings.HasSuffix]. *)
Definition HasPrefix (s pre : string) : bool := String.prefix pre s.

Fixpoint HasSuffix (s suffix : string) : bool :=
  if String.eqb s suffix then true
  else match s with
       | EmptyString => false
       | String _ s' => HasSuffix s' suffix
       end.

(** [strings.TrimSuffix(s, suffix)]. *)
Definition TrimSuffix (s suffix : string) : string :=
  if HasSuffix s suffix
  then take_bytes (String.length s - String.length suffix) s
  else s.

(** [strings.SplitN(s, sep, n)] for a non-empty separator and [n >= 0]
    pieces: the last piece is the unsplit remainder. *)
Fixpoint SplitN (s sep : string) (n : nat) : list string :=
  match n with
  | O => []
  | S O => [s]
  | S n' =>
      let m := Index s sep in
      if m <? 0 then [s]
      else take_bytes (Z.to_nat m) s
             :: SplitN (drop_bytes (Z.to_nat m + String.length sep) s) sep n'
  end.

(** The UTF-8 encodings of the code points for which [unicode.IsSpace]
    holds: tab, line feed, vertical tab, form feed, carriage return,
    space, U+0085, U+00A0, U+1680, U+2000 to U+200A, U+2028, U+2029,
    U+202F, U+205F and U+3000. *)
Definition bytes (l : list Z) : string :=
  string_of_list_ascii (map (fun z => ascii_of_nat (Z.to_nat z)) l).

Definition space_runes : list string :=
  map bytes
    [ [9]; [10]; [11]; [12]; [13]; [32];
      [194; 133]; [194; 160]; [225; 154; 128];
      [226; 128; 128]; [226; 128; 129]; [226; 128; 130]; [226; 128; 131];
      [226; 128; 132]; [226; 128; 133]; [226; 128; 134]; [226; 128; 135];
      [226; 128; 136]; [226; 128; 137]; [226; 128; 138];
      [226; 128; 168]; [226; 128; 169]; [226; 128; 175];
      [226; 129; 159]; [227; 128; 128] ].

(** One leading (or trailing) white-space rune removed, if there is one. *)
Definition strip_space_left (s : string) : option string :=
  match filter (fun r => Is_true (HasPrefix s r)) space_runes with
  | r :: _ => Some (drop_bytes (String.length r) s)
  | [] => None
  end.

Definition strip_space_right (s : string) : option string :=
  match filter (fun r => Is_true (HasSuffix s r)) space_runes with
  | r :: _ => Some (take_bytes (String.length s - String.length r) s)
  | [] => None
  end.

Fixpoint iter_strip (strip : string -> option string) (n : nat) (s : string)
  : string :=
  match n with
  | O => s
  | S n' => match strip s with
            | Some s' => iter_strip strip n' s'
            | None => s
            end
  end.

(** [strings.TrimSpace(s)]: every rune removed takes at least one byte,
    so [length s] rounds are enough on each side. *)
Definition TrimSpace (s : string) : string :=
  let l := iter_strip strip_space_left (String.length s) s in
  iter_strip strip_space_right (String.length l) l.

(** The line feed of the format strings. *)
Definition newline : string := String (ascii_of_nat 10) EmptyString.

(** [strings.TrimPrefix(s, prefix)]. *)
Definition TrimPrefix (s pre : string) : string :=
  if HasPrefix s pre then drop_bytes (String.length pre) s else s.

(** The verb [%d] of [fmt.Sprintf]. *)
Definition itoa (z : Z) : string := NilZero.string_of_int (Z.to_int z).

End GoStrings.

Import GoStrings.

(** ** Runs of a scanner

    A run yields the trace of its effects, in order, and an outcome:
    normal completion, [os.Exit], a panic, or a paging loop that was cut
    short by the fuel of the model. *)

Inductive Outcome (A : Type) : Type :=
| Done (a : A)
| Exit (code : Z)
| Panic
| OutOfFuel.

Arguments Done {A} a.
Arguments Exit {A} code.
Arguments Panic {A}.
Arguments OutOfFuel {A}.

Definition Run (E A : Type) : Type := (list E * Outcome A)%type.

Definition trace {E A} (r : Run E A) : list E := fst r.
Definition outcome {E A} (r : Run E A) : Outcome A := snd r.

Definition run_bind {E A B} (f : A -> Run E B) (m : Run E A) : Run E B :=
  match snd m with
  | Done a => (fst m ++ fst (f a), snd (f a))
  | Exit c => (fst m, Exit c)
  | Panic => (fst m, Panic)
  | OutOfFuel => (fst m, OutOfFuel)
  end.

#[export] Instance Run_ret {E} : MRet (Run E) := fun A a => ([], Done a).
#[export] Instance Run_bind {E} : MBind (Run E) := fun A B f m => run_bind f m.

Definition emit {E} (e : E) : Run E unit := ([e], Done tt).
Definition os_Exit {E A} (code : Z) : Run E A := ([], Exit code).
Definition panic {E A} : Run E A := ([], Panic).
Definition out_of_fuel {E A} : Run E A := ([], OutOfFuel).

(** A value that a panicking computation may fail to deliver. *)
Definition or_panic {E A} (o : option A) : Run E A :=
  match o with
  | Some a => mret a
  | None => panic
  end.

(** [for _, x := range xs { body }]. *)
Fixpoint for_range {E A} (xs : list A) (body : A -> Run E unit) : Run E unit :=
  match xs with
  | [] => mret tt
  | x :: rest => body x;; for_range rest body
  end.

(** ** Library functions outside the repository

    The scanners call [regexp], [net/mail], [publicsuffix], [net/url] and
    [time]; their results are taken as given. *)

Definition error : Type := string.

Inductive result (A : Type) : Type :=
| Ok (a : A)
| Err (err : error).

Arguments Ok {A} a.
Arguments Err {A} err.

Record Pattern := { ID : string; Regex : string }.

Record Config := { OperatingSystems : list Pattern; Utilities : list Pattern }.

Record mail_Address := { mail_Name : string; Address : string }.

Class GoLibs := {
  Regexp : Type;
  (** [regexp.Compile]; [regexp.MustCompile] panics where it fails. *)
  regexp_Compile : string -> option Regexp;
  (** [re.MatchString(s)]: whether [s] contains any match of [re]. *)
  MatchString : Regexp -> string -> bool;
  (** [mail.ParseAddress]; [None] is a non-nil error. *)
  mail_ParseAddress : string -> option mail_Address;
  (** [publicsuffix.PublicSuffix]: the suffix and whether it is ICANN managed. *)
  publicsuffix_PublicSuffix : string -> string * bool;
  URL : Type;
  (** [url.Parse]; [None] is a non-nil error. *)
  url_Parse : string -> option URL;
  Time : Type;
  (** [time.Parse(time.RFC3339, s)] and [t.Format("2006-01-02 15:04:05 MST")]. *)
  time_Parse_RFC3339 : string -> option Time;
  time_Format : Time -> string;
  (** [os.ReadFile], and [os.Open] read through a [bufio.Scanner]: the
      lines scanned and [scanner.Err()]. *)
  os_ReadFile : string -> result string;
  os_Open : string -> result string;
  bufio_Scan : string -> list string * option error;
  (** [yaml.Unmarshal] into a [Config]. *)
  yaml_Unmarshal : string -> result Config
}.

(** ** Code shared verbatim by the three scanners *)

Section Shared.
Context `{GoLibs}.

(** The loop of [SearchPatterns], with the slice [matches] it appends to.
    [None] is the panic of [regexp.MustCompile]. *)
Fixpoint SearchPatterns_loop (text : string) (patterns : list Pattern)
  (matches : list string) : option (list string) :=
  match patterns with
  | [] => Some matches
  | pat :: rest =>
      match regexp_Compile (Regex pat) with
      | None => None
      | Some re =>
          if MatchString re text
          then SearchPatterns_loop text rest (matches ++ [ID pat])
          else SearchPatterns_loop text rest matches
      end
  end.

Definition SearchPatterns (text : string) (patterns : list Pattern)
  : option (list string) :=
  SearchPatterns_loop text patterns [].

Fixpoint IsBlacklisted (email : string) (blacklist : list Regexp) : bool :=
  match blacklist with
  | [] => false
  | re :: rest =>
      if MatchString re email then true else IsBlacklisted email rest
  end.

(** [None] would be the panic of the slice [parsed.Address[at+1:]]. *)
Definition IsValidEmail (addr : string) : option bool :=
  if negb (Contains addr "@") then Some false
  else
    match mail_ParseAddress addr with
    | None => Some false
    | Some parsed =>
        let at_ := LastIndex (Address parsed) "@" in
        if at_ <? 0 then Some false
        else
          match slice_from (Address parsed) (at_ + 1) with
          | None => None
          | Some domain =>
              if negb (Contains domain ".") then Some false
              else
                let '(eTLD, icann) := publicsuffix_PublicSuffix domain in
                if String.eqb eTLD "" || negb icann then Some false
                else
                  match url_Parse ("http://" +:+ domain) with
                  | None => Some false
                  | Some _ => Some true
                  end
          end
    end.

Definition LoadPatterns (filename : string) : result Config :=
  match os_ReadFile filename with
  | Err err => Err err
  | Ok data => yaml_Unmarshal data
  end.

Fixpoint LoadBlacklist_loop (lines : list string) (regexes : list Regexp)
  : option (list Regexp) :=
  match lines with
  | [] => Some regexes
  | l :: rest =>
      let line := TrimSpace l in
      if String.eqb line "" || HasPrefix line "#"
      then LoadBlacklist_loop rest regexes
      else
        match regexp_Compile line with
        | None => None
        | Some re => LoadBlacklist_loop rest (regexes ++ [re])
        end
  end.

(** [LoadBlacklist] returns the expressions and [scanner.Err()]; [None]
    is the panic of [regexp.MustCompile]. *)
Definition LoadBlacklist (filename : string)
  : option (list Regexp * option error) :=
  match os_Open filename with
  | Err err => Some ([], Some err)
  | Ok file =>
      let '(lines, scanErr) := bufio_Scan file in
      match LoadBlacklist_loop lines [] with
      | None => None
      | Some regexes => Some (regexes, scanErr)
      end
  end.

Fixpoint LoadEnvToken_loop (key : string) (lines : list string) : string :=
  match lines with
  | [] => ""
  | l :: rest =>
      let line := TrimSpace l in
      if HasPrefix line key then TrimPrefix line key
      else LoadEnvToken_loop key rest
  end.

(** [LoadEnvToken], for the key ["GITHUB_TOKEN="] or ["GITLAB_TOKEN="]. *)
Definition LoadEnvToken (key filename : string) : string :=
  match os_Open filename with
  | Err _ => ""
  | Ok file => LoadEnvToken_loop key (fst (bufio_Scan file))
  end.

(** The date shown in a finding: the formatted time when the commit date
    parses, the raw string otherwise. *)
Definition formatCommitDate (commitDate : string) : string :=
  match time_Parse_RFC3339 commitDate with
  | Some t => time_Format t
  | None => commitDate
  end.

End Shared.

(** The request [makeRequest] builds and passes to [client.Do]: the URL
    it is for and the header fields set on it with [req.Header.Set], in
    the order of the calls and under the names the source writes.  What
    [net/http] does with the request from there (the canonical form of
    the names, the header fields of the transport, the redirects that the
    default client follows) belongs to the answer of [client.Do]. *)
Record HttpRequest := { req_url : string; req_headers : list (string * string) }.

(** The loop that reverses a slice in place,
    [for i, j := 0, len(a)-1; i < j; i, j = i+1, j-1 { a[i], a[j] = a[j], a[i] }].
    An index out of range would panic. *)
Fixpoint reverse_loop {E A} (fuel : nat) (i j : Z) (a : list A)
  : Run E (list A) :=
  match fuel with
  | O => out_of_fuel
  | S fuel' =>
      if i <? j then
        x ← or_panic (a !! Z.to_nat i);
        y ← or_panic (a !! Z.to_nat j);
        reverse_loop fuel' (i + 1) (j - 1)
          (<[Z.to_nat j := x]> (<[Z.to_nat i := y]> a))
      else mret a
  end.

(** The distance between [i] and [j] shrinks by two at every round, so
    the length of the slice is fuel enough. *)
Definition reverse_in_place {E A} (a : list A) : Run E (list A) :=
  reverse_loop (S (length a)) 0 (Z.of_nat (length a) - 1) a.

(** ** The GitHub scanner ([github.go]) *)

Module GitHub.

Record Identity := { Name : string; Email : string; Date : string }.

Record CommitInfo := { Author : Identity; Committer : Identity; Message : string }.

Record CommitItem := { SHA : string; HTMLURL : string; Commit : CommitInfo }.

Record SearchResponse := { Items : list CommitItem }.

Record Repo := { Repo_Name : string; FullName : string; Fork : bool }.

(** What a run does, in order: the calls of [client.Do], each with the
    request it is given, and the blocks and lines printed. *)
Inductive Event : Type :=
| HttpDo (req : HttpRequest)
(** [Email:], [Name:], [Date:], [Location:] *)
| PrintEmail (email name date location : string)
(** [Operating System(s):], [Email:], [Date:], [Location:] *)
| PrintOS (m email date location : string)
(** [Detected Utility:], [Committer:], [Date:], [Location:] *)
| PrintUtility (m email date location : string)
(** [Error: %v] *)
| PrintError (err : error)
(** [Reached 1000-result limit for search API.] *)
| PrintSearchLimit
(** [GitHub API error %d] and the body *)
| PrintAPIError (status : Z) (body : string)
(** [Error parsing response: %v] *)
| PrintParseError (err : error)
| PrintUsage
| PrintTokenFound
| PrintNoToken
| PrintYAMLError (err : error)
| PrintBlacklistError (err : error)
(** [Scanning commits for user: %s] *)
| PrintScanning (username : string)
(** [=== First 1000 commits (oldest) ===] and the two other headings *)
| PrintHeading (title : string)
| PrintReposError (err : error)
(** [Scanning repo: %s] *)
| PrintScanningRepo (fullName : string).

Class World `{GoLibs} := {
  (** The error of [http.NewRequest], if any. *)
  http_NewRequest : string -> option error;
  (** [client.Do] and [io.ReadAll]: the body and the status code. *)
  client_Do : HttpRequest -> result (string * Z);
  json_Marshal : CommitItem -> string;
  json_Unmarshal_SearchResponse : string -> result SearchResponse;
  json_Unmarshal_Repos : string -> result (list Repo);
  json_Unmarshal_Commits : string -> result (list CommitItem)
}.

Section Scanner.
Context `{World}.

(** [githubToken] is the global the request helper reads. *)
Definition makeRequest (githubToken url : string)
  : Run Event (result (string * Z)) :=
  match http_NewRequest url with
  | Some err => mret (Err err)
  | None =>
      let req :=
        {| req_url := url;
           req_headers :=
             (if String.eqb githubToken "" then []
              else [("Authorization", "token " +:+ githubToken)])
             ++ [("Accept", "application/vnd.github.cloak-preview+json")] |} in
      emit (HttpDo req);;
      mret (client_Do req)
  end.

(** The two identities [ProcessCommits] ranges over. *)
Definition identities (c : CommitItem) : list (string * string) :=
  [ (Name (Author (Commit c)), Email (Author (Commit c)));
    (Name (Committer (Commit c)), Email (Committer (Commit c))) ].

(** One iteration of the loop of [ProcessCommits]. *)
Definition ProcessCommit (cfg : Config) (blacklist : list Regexp)
  (c : CommitItem) : Run Event unit :=
  let commitText := json_Marshal c in
  let commitDate := formatCommitDate (Date (Author (Commit c))) in
  for_range (identities c) (fun who =>
    valid ← or_panic (IsValidEmail (snd who));
    if valid && negb (IsBlacklisted (snd who) blacklist)
    then emit (PrintEmail (snd who) (fst who) commitDate (HTMLURL c))
    else mret tt);;
  os ← or_panic (SearchPatterns commitText (OperatingSystems cfg));
  for_range os (fun m =>
    emit (PrintOS m (Email (Author (Commit c))) commitDate (HTMLURL c)));;
  utils ← or_panic (SearchPatterns commitText (Utilities cfg));
  for_range utils (fun m =>
    emit (PrintUtility m (Email (Author (Commit c))) commitDate (HTMLURL c))).

Definition ProcessCommits (items : list CommitItem) (cfg : Config)
  (blacklist : list Regexp) : Run Event unit :=
  for_range items (ProcessCommit cfg blacklist).

Definition searchURL (username order : string) (page : Z) : string :=
  "https://api.github.com/search/commits?q=author:" +:+ username
  +:+ "&sort=author-date&order=" +:+ order
  +:+ "&per_page=100&page=" +:+ itoa page.

(** The paging loop of [ScanGlobalCommits]; [fuel] bounds the number of
    pages requested. *)
Fixpoint ScanGlobalCommits_loop (fuel : nat) (githubToken username : string)
  (cfg : Config) (blacklist : list Regexp) (order : string) (page : Z)
  : Run Event unit :=
  match fuel with
  | O => out_of_fuel
  | S fuel' =>
      r ← makeRequest githubToken (searchURL username order page);
      match r with
      | Err err => emit (PrintError err)
      | Ok (body, status) =>
          if negb (status =? 200) then
            if status =? 422 then emit PrintSearchLimit
            else emit (PrintAPIError status body)
          else
            match json_Unmarshal_SearchResponse body with
            | Err err => emit (PrintParseError err)
            | Ok searchResp =>
                match Items searchResp with
                | [] => mret tt
                | _ :: _ =>
                    ProcessCommits (Items searchResp) cfg blacklist;;
                    ScanGlobalCommits_loop fuel' githubToken username cfg
                      blacklist order (page + 1)
                end
            end
      end
  end.

Definition ScanGlobalCommits (fuel : nat) (githubToken username : string)
  (cfg : Config) (blacklist : list Regexp) (ascending : bool)
  : Run Event unit :=
  let order := if negb ascending then "desc" else "asc" in
  ScanGlobalCommits_loop fuel githubToken username cfg blacklist order 1.

Definition reposURL (username : string) (page : Z) : string :=
  "https://api.github.com/users/" +:+ username
  +:+ "/repos?per_page=100&page=" +:+ itoa page.

Fixpoint GetUserRepos_loop (fuel : nat) (githubToken username : string)
  (page : Z) (repos : list Repo) : Run Event (result (list Repo)) :=
  match fuel with
  | O => out_of_fuel
  | S fuel' =>
      r ← makeRequest githubToken (reposURL username page);
      match r with
      | Err err => mret (Err err)
      | Ok (body, status) =>
          if negb (status =? 200) then
            mret (Err ("GitHub API error " +:+ itoa status +:+ newline +:+ body))
          else
            match json_Unmarshal_Repos body with
            | Err err => mret (Err err)
            | Ok tmp =>
                match tmp with
                | [] => mret (Ok repos)
                | _ :: _ =>
                    GetUserRepos_loop fuel' githubToken username (page + 1)
                      (repos ++ tmp)
                end
            end
      end
  end.

Definition GetUserRepos (fuel : nat) (githubToken username : string)
  : Run Event (result (list Repo)) :=
  GetUserRepos_loop fuel githubToken username 1 [].

Definition commitsURL (repoFullName : string) (page : Z) : string :=
  "https://api.github.com/repos/" +:+ repoFullName
  +:+ "/commits?per_page=100&page=" +:+ itoa page.

Fixpoint ScanRepoCommits_loop (fuel : nat) (githubToken repoFullName : string)
  (cfg : Config) (blacklist : list Regexp) (page : Z) : Run Event unit :=
  match fuel with
  | O => out_of_fuel
  | S fuel' =>
      r ← makeRequest githubToken (commitsURL repoFullName page);
      match r with
      | Err err => emit (PrintError err)
      | Ok (body, status) =>
          if negb (status =? 200) then emit (PrintAPIError status body)
          else
            match json_Unmarshal_Commits body with
            | Err err => emit (PrintParseError err)
            | Ok commits =>
                match commits with
                | [] => mret tt
                | _ :: _ =>
                    ProcessCommits commits cfg blacklist;;
                    ScanRepoCommits_loop fuel' githubToken repoFullName cfg
                      blacklist (page + 1)
                end
            end
      end
  end.

Definition ScanRepoCommits (fuel : nat) (githubToken repoFullName : string)
  (cfg : Config) (blacklist : list Regexp) : Run Event unit :=
  ScanRepoCommits_loop fuel githubToken repoFullName cfg blacklist 1.

(** The body of the loop over the repositories in [main]. *)
Definition scanRepo (fuel : nat) (githubToken : string) (cfg : Config)
  (blacklist : list Regexp) (r : Repo) : Run Event unit :=
  if Fork r then mret tt
  else
    emit (PrintScanningRepo (FullName r));;
    ScanRepoCommits fuel githubToken (FullName r) cfg blacklist.

(** [main], from the arguments [os.Args]. *)
Definition main (fuel : nat) (args : list string) : Run Event unit :=
  match args !! 1%nat with
  | None => emit PrintUsage;; os_Exit 1
  | Some username =>
      let githubToken := LoadEnvToken "GITHUB_TOKEN=" ".env" in
      emit (if negb (String.eqb githubToken "") then PrintTokenFound
            else PrintNoToken);;
      match LoadPatterns "signatures.yaml" with
      | Err err => emit (PrintYAMLError err);; os_Exit 1
      | Ok cfg =>
          loaded ← or_panic (LoadBlacklist "blacklist.txt");
          match snd loaded with
          | Some err => emit (PrintBlacklistError err);; os_Exit 1
          | None =>
              let blacklist := fst loaded in
              emit (PrintScanning username);;
              emit (PrintHeading "=== First 1000 commits (oldest) ===");;
              ScanGlobalCommits fuel githubToken username cfg blacklist true;;
              emit (PrintHeading "=== Last 1000 commits (newest) ===");;
              ScanGlobalCommits fuel githubToken username cfg blacklist false;;
              emit (PrintHeading "=== Per-repo scan (all commits) ===");;
              repos ← GetUserRepos fuel githubToken username;
              match repos with
              | Err err => emit (PrintReposError err);; os_Exit 1
              | Ok repos => for_range repos (scanRepo fuel githubToken cfg blacklist)
              end
          end
      end
  end.

End Scanner.

End GitHub.

(** ** The GitLab scanner ([gitlab.go]) *)

Module GitLab.

Record GitLabCommit := {
  c_ID : string;
  ShortID : string;
  Title : string;
  AuthorName : string;
  AuthorEmail : string;
  AuthoredDate : string;
  c_WebURL : string
}.

(** [ForkedFromProject] is a pointer: [None] is [nil]. *)
Record GitLabProject := {
  p_ID : Z;
  p_Name : string;
  Path : string;
  WebURL : string;
  ForkedFromProject : option Z
}.

Record GitLabUser := { u_ID : Z; Username : string; u_Name : string }.

Inductive Event : Type :=
| HttpDo (req : HttpRequest)
(** [Email:], [Name:], [Date:], [Project:] *)
| PrintEmail (email name date project : string)
(** [Operating System:], [Committer: %s <%s>], [Date:], [Project:] *)
| PrintOS (m name email date project : string)
(** [Utility:], [Committer: %s <%s>], [Date:], [Project:] *)
| PrintUtility (m name email date project : string)
| PrintError (err : error)
| PrintAPIError (status : Z) (body : string)
| PrintParseError (err : error)
| PrintUsage
| PrintTokenFound
| PrintNoToken
| PrintYAMLError (err : error)
| PrintBlacklistError (err : error)
(** [Scanning GitLab commits for user: %s] *)
| PrintScanning (username : string)
| PrintUserError (err : error)
| PrintProjectsError (err : error)
(** [Scanning project: %s] *)
| PrintScanningProject (path : string).

Class World `{GoLibs} := {
  http_NewRequest : string -> option error;
  client_Do : HttpRequest -> result (string * Z);
  json_Unmarshal_Users : string -> result (list GitLabUser);
  json_Unmarshal_Projects : string -> result (list GitLabProject);
  json_Unmarshal_Commits : string -> result (list GitLabCommit)
}.

Section Scanner.
Context `{World}.

Definition makeRequest (gitlabToken url : string)
  : Run Event (result (string * Z)) :=
  match http_NewRequest url with
  | Some err => mret (Err err)
  | None =>
      let req :=
        {| req_url := url;
           req_headers :=
             if String.eqb gitlabToken "" then []
             else [("PRIVATE-TOKEN", gitlabToken)] |} in
      emit (HttpDo req);;
      mret (client_Do req)
  end.

(** One iteration of the loop of [ProcessCommits]. *)
Definition ProcessCommit (cfg : Config) (blacklist : list Regexp)
  (projectURL : string) (c : GitLabCommit) : Run Event unit :=
  let commitDate := formatCommitDate (AuthoredDate c) in
  valid ← or_panic (IsValidEmail (AuthorEmail c));
  (if valid && negb (IsBlacklisted (AuthorEmail c) blacklist)
   then emit (PrintEmail (AuthorEmail c) (AuthorName c) commitDate projectURL)
   else mret tt);;
  os ← or_panic (SearchPatterns (Title c) (OperatingSystems cfg));
  for_range os (fun m =>
    emit (PrintOS m (AuthorName c) (AuthorEmail c) commitDate projectURL));;
  utils ← or_panic (SearchPatterns (Title c) (Utilities cfg));
  for_range utils (fun m =>
    emit (PrintUtility m (AuthorName c) (AuthorEmail c) commitDate projectURL)).

Definition ProcessCommits (commits : list GitLabCommit) (cfg : Config)
  (blacklist : list Regexp) (projectURL : string) : Run Event unit :=
  for_range commits (ProcessCommit cfg blacklist projectURL).

Definition GetUserID (gitlabToken username : string) : Run Event (result Z) :=
  r ← makeRequest gitlabToken
        ("https://gitlab.com/api/v4/users?username=" +:+ username);
  match r with
  | Err err => mret (Err err)
  | Ok (body, status) =>
      if negb (status =? 200) then
        mret (Err ("GitLab API error " +:+ itoa status +:+ newline +:+ body))
      else
        match json_Unmarshal_Users body with
        | Err err => mret (Err err)
        | Ok users =>
            match users with
            | [] => mret (Err ("No GitLab user found for " +:+ username))
            | u :: _ => mret (Ok (u_ID u))
            end
        end
  end.

Definition projectsURL (userID page : Z) : string :=
  "https://gitlab.com/api/v4/users/" +:+ itoa userID
  +:+ "/projects?per_page=100&page=" +:+ itoa page.

Fixpoint GetUserProjects_loop (fuel : nat) (gitlabToken : string)
  (userID page : Z) (projects : list GitLabProject)
  : Run Event (result (list GitLabProject)) :=
  match fuel with
  | O => out_of_fuel
  | S fuel' =>
      r ← makeRequest gitlabToken (projectsURL userID page);
      match r with
      | Err err => mret (Err err)
      | Ok (body, status) =>
          if negb (status =? 200) then
            mret (Err ("GitLab API error " +:+ itoa status +:+ newline +:+ body))
          else
            match json_Unmarshal_Projects body with
            | Err err => mret (Err err)
            | Ok tmp =>
                match tmp with
                | [] => mret (Ok projects)
                | _ :: _ =>
                    GetUserProjects_loop fuel' gitlabToken userID (page + 1)
                      (projects ++ tmp)
                end
            end
      end
  end.

Definition GetUserProjects (fuel : nat) (gitlabToken : string) (userID : Z)
  : Run Event (result (list GitLabProject)) :=
  GetUserProjects_loop fuel gitlabToken userID 1 [].

Definition commitsURL (projectID page : Z) : string :=
  "https://gitlab.com/api/v4/projects/" +:+ itoa projectID
  +:+ "/repository/commits?per_page=100&page=" +:+ itoa page.

(** The paging loop of [ScanProjectCommits]: [Some allCommits] when the
    loop is left by [break], [None] when the function returns from inside
    it after printing a diagnostic. *)
Fixpoint fetchAllCommits (fuel : nat) (gitlabToken : string) (projectID : Z)
  (page : Z) (allCommits : list GitLabCommit)
  : Run Event (option (list GitLabCommit)) :=
  match fuel with
  | O => out_of_fuel
  | S fuel' =>
      r ← makeRequest gitlabToken (commitsURL projectID page);
      match r with
      | Err err => emit (PrintError err);; mret None
      | Ok (body, status) =>
          if negb (status =? 200) then
            emit (PrintAPIError status body);; mret None
          else
            match json_Unmarshal_Commits body with
            | Err err => emit (PrintParseError err);; mret None
            | Ok commits =>
                match commits with
                | [] => mret (Some allCommits)
                | _ :: _ =>
                    fetchAllCommits fuel' gitlabToken projectID (page + 1)
                      (allCommits ++ commits)
                end
            end
      end
  end.

Definition ScanProjectCommits (fuel : nat) (gitlabToken : string)
  (project : GitLabProject) (cfg : Config) (blacklist : list Regexp)
  (ascending : bool) : Run Event unit :=
  fetched ← fetchAllCommits fuel gitlabToken (p_ID project) 1 [];
  match fetched with
  | None => mret tt
  | Some allCommits =>
      allCommits ← (if ascending then reverse_in_place allCommits
                    else mret allCommits);
      ProcessCommits allCommits cfg blacklist (WebURL project)
  end.

(** The body of the loop over the projects in [main]. *)
Definition scanProject (fuel : nat) (gitlabToken : string) (cfg : Config)
  (blacklist : list Regexp) (p : GitLabProject) : Run Event unit :=
  match ForkedFromProject p with
  | Some _ => mret tt
  | None =>
      emit (PrintScanningProject (Path p));;
      ScanProjectCommits fuel gitlabToken p cfg blacklist true;;
      ScanProjectCommits fuel gitlabToken p cfg blacklist false
  end.

Definition main (fuel : nat) (args : list string) : Run Event unit :=
  match args !! 1%nat with
  | None => emit PrintUsage;; os_Exit 1
  | Some username =>
      let gitlabToken := LoadEnvToken "GITLAB_TOKEN=" ".env" in
      emit (if negb (String.eqb gitlabToken "") then PrintTokenFound
            else PrintNoToken);;
      match LoadPatterns "signatures.yaml" with
      | Err err => emit (PrintYAMLError err);; os_Exit 1
      | Ok cfg =>
          loaded ← or_panic (LoadBlacklist "blacklist.txt");
          match snd loaded with
          | Some err => emit (PrintBlacklistError err);; os_Exit 1
          | None =>
              let blacklist := fst loaded in
              emit (PrintScanning username);;
              userID ← GetUserID gitlabToken username;
              match userID with
              | Err err => emit (PrintUserError err);; os_Exit 1
              | Ok userID =>
                  projects ← GetUserProjects fuel gitlabToken userID;
                  match projects with
                  | Err err => emit (PrintProjectsError err);; os_Exit 1
                  | Ok projects =>
                      for_range projects
                        (scanProject fuel gitlabToken cfg blacklist)
                  end
              end
          end
      end
  end.

End Scanner.

End GitLab.

(** ** The Bitbucket scanner ([bitbucket.go]) *)

Module Bitbucket.

(** [Raw] is [Author.Raw] and [Href] is [Links.HTML.Href]. *)
Record BitbucketCommit := {
  Hash : string;
  Date : string;
  Message : string;
  Raw : string;
  Href : string
}.

Record BitbucketCommitPage := { Values : list BitbucketCommit; Next : string }.

Record Repo := { Slug : string; Repo_Name : string; Repo_Href : string }.

Record RepoPage := { Repo_Values : list Repo; Repo_Next : string }.

Inductive Event : Type :=
| HttpDo (req : HttpRequest)
(** [Email:], [Name:], [Date:], [Repo:], [Location:] *)
| PrintEmail (email name date repo location : string)
(** [Operating System:], [Date:], [Repo:], [Location:] *)
| PrintOS (m date repo location : string)
(** [Utility:], [Date:], [Repo:], [Location:] *)
| PrintUtility (m date repo location : string)
| PrintError (err : error)
| PrintAPIError (status : Z) (body : string)
| PrintParseError (err : error)
| PrintUsage
| PrintYAMLError (err : error)
| PrintBlacklistError (err : error)
(** [Scanning Bitbucket commits for user: %s] *)
| PrintScanning (username : string)
| PrintReposError (err : error)
(** [Scanning repo: %s] *)
| PrintScanningRepo (name : string).

Class World `{GoLibs} := {
  http_NewRequest : string -> option error;
  client_Do : HttpRequest -> result (string * Z);
  json_Unmarshal_RepoPage : string -> result RepoPage;
  json_Unmarshal_CommitPage : string -> result BitbucketCommitPage
}.

(** [parseRawAuthor]; [None] would be the panic of [parts[0]] or
    [parts[1]] out of range. *)
Definition parseRawAuthor (raw : string) : option (string * string) :=
  if Contains raw "<" && Contains raw ">" then
    let parts := SplitN raw "<" 2 in
    match parts !! 0%nat, parts !! 1%nat with
    | Some p0, Some p1 =>
        let name := TrimSpace p0 in
        let email := TrimSuffix p1 ">" in
        Some (name, email)
    | _, _ => None
    end
  else Some (raw, "").

Section Scanner.
Context `{World}.

Definition makeRequest (url : string) : Run Event (result (string * Z)) :=
  match http_NewRequest url with
  | Some err => mret (Err err)
  | None =>
      let req := {| req_url := url; req_headers := [] |} in
      emit (HttpDo req);;
      mret (client_Do req)
  end.

(** The text the signature patterns are matched against,
    [fmt.Sprintf("%s %s %s", c.Message, c.Author.Raw, repoName)]. *)
Definition commitText (c : BitbucketCommit) (repoName : string) : string :=
  Message c +:+ " " +:+ Raw c +:+ " " +:+ repoName.

(** One iteration of the loop of [ProcessCommits]. *)
Definition ProcessCommit (cfg : Config) (blacklist : list Regexp)
  (repoName : string) (c : BitbucketCommit) : Run Event unit :=
  let commitDate := formatCommitDate (Date c) in
  who ← or_panic (parseRawAuthor (Raw c));
  valid ← or_panic (IsValidEmail (snd who));
  (if valid && negb (IsBlacklisted (snd who) blacklist)
   then emit (PrintEmail (snd who) (fst who) commitDate repoName (Href c))
   else mret tt);;
  os ← or_panic (SearchPatterns (commitText c repoName) (OperatingSystems cfg));
  for_range os (fun m => emit (PrintOS m commitDate repoName (Href c)));;
  utils ← or_panic (SearchPatterns (commitText c repoName) (Utilities cfg));
  for_range utils (fun m => emit (PrintUtility m commitDate repoName (Href c))).

Definition ProcessCommits (commits : list BitbucketCommit) (cfg : Config)
  (blacklist : list Regexp) (repoName : string) : Run Event unit :=
  for_range commits (ProcessCommit cfg blacklist repoName).

(** The loop [for url != ""] of [GetUserRepos]. *)
Fixpoint GetUserRepos_loop (fuel : nat) (url : string) (repos : list Repo)
  : Run Event (result (list Repo)) :=
  match fuel with
  | O => out_of_fuel
  | S fuel' =>
      if String.eqb url "" then mret (Ok repos)
      else
        r ← makeRequest url;
        match r with
        | Err err => mret (Err err)
        | Ok (body, status) =>
            if negb (status =? 200) then
              mret (Err ("Bitbucket API error " +:+ itoa status +:+ newline
                         +:+ body))
            else
              match json_Unmarshal_RepoPage body with
              | Err err => mret (Err err)
              | Ok page =>
                  GetUserRepos_loop fuel' (Repo_Next page)
                    (repos ++ Repo_Values page)
              end
        end
  end.

Definition GetUserRepos (fuel : nat) (username : string)
  : Run Event (result (list Repo)) :=
  GetUserRepos_loop fuel
    ("https://api.bitbucket.org/2.0/repositories/" +:+ username
     +:+ "?pagelen=100") [].

Definition commitsURL (username repoSlug : string) : string :=
  "https://api.bitbucket.org/2.0/repositories/" +:+ username +:+ "/"
  +:+ repoSlug +:+ "/commits?pagelen=100".

(** The loop [for url != ""] of [ScanRepoCommits]: [Some allCommits] when
    the cursor runs out, [None] when the function returns from inside the
    loop after printing a diagnostic. *)
Fixpoint fetchAllCommits (fuel : nat) (url : string)
  (allCommits : list BitbucketCommit)
  : Run Event (option (list BitbucketCommit)) :=
  match fuel with
  | O => out_of_fuel
  | S fuel' =>
      if String.eqb url "" then mret (Some allCommits)
      else
        r ← makeRequest url;
        match r with
        | Err err => emit (PrintError err);; mret None
        | Ok (body, status) =>
            if negb (status =? 200) then
              emit (PrintAPIError status body);; mret None
            else
              match json_Unmarshal_CommitPage body with
              | Err err => emit (PrintParseError err);; mret None
              | Ok page =>
                  fetchAllCommits fuel' (Next page) (allCommits ++ Values page)
              end
        end
  end.

Definition ScanRepoCommits (fuel : nat) (username repoSlug repoName : string)
  (cfg : Config) (blacklist : list Regexp) (ascending : bool)
  : Run Event unit :=
  fetched ← fetchAllCommits fuel (commitsURL username repoSlug) [];
  match fetched with
  | None => mret tt
  | Some allCommits =>
      allCommits ← (if ascending then reverse_in_place allCommits
                    else mret allCommits);
      ProcessCommits allCommits cfg blacklist repoName
  end.

Definition main (fuel : nat) (args : list string) : Run Event unit :=
  match args !! 1%nat with
  | None => emit PrintUsage;; os_Exit 1
  | Some bitbucketUser =>
      match LoadPatterns "signatures.yaml" with
      | Err err => emit (PrintYAMLError err);; os_Exit 1
      | Ok cfg =>
          loaded ← or_panic (LoadBlacklist "blacklist.txt");
          match snd loaded with
          | Some err => emit (PrintBlacklistError err);; os_Exit 1
          | None =>
              let blacklist := fst loaded in
              emit (PrintScanning bitbucketUser);;
              repos ← GetUserRepos fuel bitbucketUser;
              match repos with
              | Err err => emit (PrintReposError err);; os_Exit 1
              | Ok repos =>
                  for_range repos (fun r =>
                    emit (PrintScanningRepo (Repo_Name r));;
                    ScanRepoCommits fuel bitbucketUser (Slug r) (Repo_Name r)
                      cfg blacklist true)
              end
          end
      end
  end.

End Scanner.

End Bitbucket.

(** ** Vocabulary of the specification *)

Section Vocabulary.
Context `{GoLibs}.

(** The pattern's expression compiles. *)
Definition compiles (p : Pattern) : Prop := is_Some (regexp_Compile (Regex p)).

(** The pattern's expression finds a match somewhere in the text. *)
Definition pattern_matches (text : string) (p : Pattern) : bool :=
  match regexp_Compile (Regex p) with
  | Some re => MatchString re text
  | None => false
  end.

(** The identifiers of the patterns that match, one per pattern, in the
    order of the patterns. *)
Definition matched (text : string) (patterns : list Pattern) : list string :=
  map ID (List.filter (pattern_matches text) patterns).

(** [domain] is what follows the last ["@"] of [address]. *)
Definition is_domain_of (address domain : string) : Prop :=
  exists l, address = l +:+ "@" +:+ domain /\ Contains domain "@" = false.

(** The five conditions of the email policy. *)
Definition valid_email (addr : string) : Prop :=
  Contains addr "@" = true
  /\ exists parsed domain,
       mail_ParseAddress addr = Some parsed
       /\ is_domain_of (Address parsed) domain
       /\ Contains domain "." = true
       /\ (fst (publicsuffix_PublicSuffix domain) <> ""
           /\ snd (publicsuffix_PublicSuffix domain) = true)
       /\ is_Some (url_Parse ("http://" +:+ domain)).

(** The gate of an email finding. *)
Definition email_reported (email : string) (blacklist : list Regexp) : Prop :=
  IsValidEmail email = Some true /\ IsBlacklisted email blacklist = false.

(** The same gate, as the condition of the [if] computes it. *)
Definition email_gate (email : string) (blacklist : list Regexp) : bool :=
  match IsValidEmail email with
  | Some true => negb (IsBlacklisted email blacklist)
  | _ => false
  end.

(** The statement every scanner guards its email block with. *)
Definition email_round {E} (email : string) (blacklist : list Regexp) (ev : E)
  : Run E unit :=
  valid ← or_panic (IsValidEmail email);
  if valid && negb (IsBlacklisted email blacklist) then emit ev else mret tt.

(** The two signature loops every scanner ends an iteration with. *)
Definition signature_rounds {E} (text : string) (cfg : Config)
  (printOS printUtility : string -> E) : Run E unit :=
  os ← or_panic (SearchPatterns text (OperatingSystems cfg));
  for_range os (fun m => emit (printOS m));;
  utils ← or_panic (SearchPatterns text (Utilities cfg));
  for_range utils (fun m => emit (printUtility m)).

End Vocabulary.

(** The reading of the matcher under which no identifier is ever returned
    twice, whatever the patterns. *)
Definition identifiers_never_repeat : Prop :=
  forall (libs : GoLibs) (text : string) (patterns : list Pattern)
         (ids : list string),
    Forall compiles patterns ->
    SearchPatterns text patterns = Some ids ->
    NoDup ids.

(** The reading of the author parser under which the email ends at the
    last [">"] of the string, wherever that is. *)
Definition email_ends_at_last_bracket : Prop :=
  forall pre mid post : string,
    Contains pre "<" = false ->
    Contains post ">" = false ->
    Bitbucket.parseRawAuthor (pre +:+ "<" +:+ mid +:+ ">" +:+ post)
    = Some (TrimSpace pre, mid).

(** An expression whose matches do not depend on what surrounds the
    text, as one without anchors. *)
Definition matches_in_context `{GoLibs} (re : Regexp) : Prop :=
  forall pre s post : string,
    MatchString re s = true -> MatchString re (pre +:+ s +:+ post) = true.

(** The tokens of a text: its maximal runs of bytes other than the space.
    [split_words] returns the token the text begins with (empty when it
    begins with a space) and the tokens after it. *)
Definition cons_word (w : string) (ws : list string) : list string :=
  match w with
  | EmptyString => ws
  | String _ _ => w :: ws
  end.

Fixpoint split_words (s : string) : string * list string :=
  match s with
  | EmptyString => (EmptyString, [])
  | String c s' =>
      let '(w, ws) := split_words s' in
      if Ascii.eqb c " "%char then (EmptyString, cons_word w ws)
      else (String c w, ws)
  end.

Definition words (s : string) : list string :=
  cons_word (fst (split_words s)) (snd (split_words s)).

(** Whether a pointer is set. *)
Definition is_Some_b {A} (o : option A) : bool :=
  match o with
  | Some _ => true
  | None => false
  end.

(** The pages that carry something. *)
Definition non_empty {A} (page : list A) : bool :=
  match page with
  | [] => false
  | _ :: _ => true
  end.

(** ** What each scanner is expected to print for one commit *)

Module GitHubSpec.
Import GitHub.

Definition is_request (e : Event) : bool :=
  match e with HttpDo _ => true | _ => false end.

Definition is_email (e : Event) : bool :=
  match e with PrintEmail _ _ _ _ => true | _ => false end.

Definition is_os (e : Event) : bool :=
  match e with PrintOS _ _ _ _ => true | _ => false end.

Definition is_utility (e : Event) : bool :=
  match e with PrintUtility _ _ _ _ => true | _ => false end.

Section Spec.
Context `{World}.

Definition commitDate (c : CommitItem) : string :=
  formatCommitDate (Date (Author (Commit c))).

Definition email_event (c : CommitItem) (who : string * string) : Event :=
  PrintEmail (snd who) (fst who) (commitDate c) (HTMLURL c).

Definition email_events (blacklist : list Regexp) (c : CommitItem) : list Event :=
  concat (map (fun who => if email_gate (snd who) blacklist
                          then [email_event c who] else [])
              (identities c)).

Definition os_event (c : CommitItem) (m : string) : Event :=
  PrintOS m (Email (Author (Commit c))) (commitDate c) (HTMLURL c).

Definition utility_event (c : CommitItem) (m : string) : Event :=
  PrintUtility m (Email (Author (Commit c))) (commitDate c) (HTMLURL c).

Definition commit_events (cfg : Config) (blacklist : list Regexp)
  (c : CommitItem) : list Event :=
  email_events blacklist c
  ++ map (os_event c) (matched (json_Marshal c) (OperatingSystems cfg))
  ++ map (utility_event c) (matched (json_Marshal c) (Utilities cfg)).

(** The request [makeRequest] sends for a URL. *)
Definition request (githubToken url : string) : HttpRequest :=
  {| req_url := url;
     req_headers :=
       (if String.eqb githubToken "" then []
        else [("Authorization", "token " +:+ githubToken)])
       ++ [("Accept", "application/vnd.github.cloak-preview+json")] |}.

(** The page of commits the server answers with, when the request goes
    through, the status is 200 and the body decodes. *)
Definition commits_page (githubToken repoFullName : string) (page : Z)
  : option (list CommitItem) :=
  match http_NewRequest (commitsURL repoFullName page) with
  | Some _ => None
  | None =>
      match client_Do (request githubToken (commitsURL repoFullName page)) with
      | Ok (body, status) =>
          if status =? 200 then
            match json_Unmarshal_Commits body with
            | Ok commits => Some commits
            | Err _ => None
            end
          else None
      | Err _ => None
      end
  end.

(** The server holds the commits of a repository as the non-empty
    [pages], numbered from 1, and answers the page after the last with an
    empty one. *)
Definition serves_commits (githubToken repoFullName : string)
  (pages : list (list CommitItem)) : Prop :=
  (forall k page,
      pages !! k = Some page ->
      page <> []
      /\ commits_page githubToken repoFullName (Z.of_nat k + 1) = Some page)
  /\ commits_page githubToken repoFullName (Z.of_nat (length pages) + 1)
     = Some [].

Definition page_request (githubToken repoFullName : string) (k : nat) : Event :=
  HttpDo (request githubToken (commitsURL repoFullName (Z.of_nat k))).

(** What a scan of the repository does when every page goes through the
    pipeline: a request, the blocks of the page, and so on up to the
    request that is answered with the empty page. *)
Fixpoint paged_trace (githubToken repoFullName : string) (cfg : Config)
  (blacklist : list Regexp) (first : nat) (pages : list (list CommitItem))
  : list Event :=
  match pages with
  | [] => [page_request githubToken repoFullName first]
  | page :: rest =>
      page_request githubToken repoFullName first
      :: concat (map (commit_events cfg blacklist) page)
      ++ paged_trace githubToken repoFullName cfg blacklist (S first) rest
  end.

(** The three passes of [main], once the configuration is loaded. *)
Definition ascending_pass (fuel : nat) (githubToken username : string)
  (cfg : Config) (blacklist : list Regexp) : Run Event unit :=
  emit (PrintHeading "=== First 1000 commits (oldest) ===");;
  ScanGlobalCommits fuel githubToken username cfg blacklist true.

Definition descending_pass (fuel : nat) (githubToken username : string)
  (cfg : Config) (blacklist : list Regexp) : Run Event unit :=
  emit (PrintHeading "=== Last 1000 commits (newest) ===");;
  ScanGlobalCommits fuel githubToken username cfg blacklist false.

Definition per_repo_pass (fuel : nat) (githubToken username : string)
  (cfg : Config) (blacklist : list Regexp) : Run Event unit :=
  emit (PrintHeading "=== Per-repo scan (all commits) ===");;
  repos ← GetUserRepos fuel githubToken username;
  match repos with
  | Err err => emit (PrintReposError err);; os_Exit 1
  | Ok repos => for_range repos (scanRepo fuel githubToken cfg blacklist)
  end.

(** What [main] prints before the first pass. *)
Definition preamble (githubToken username : string) : list Event :=
  [ (if negb (String.eqb githubToken "") then PrintTokenFound else PrintNoToken);
    PrintScanning username ].

(** The configuration [main] loads. *)
Definition loaded (args : list string) (githubToken username : string)
  (cfg : Config) (blacklist : list Regexp) : Prop :=
  args !! 1%nat = Some username
  /\ LoadEnvToken "GITHUB_TOKEN=" ".env" = githubToken
  /\ LoadPatterns "signatures.yaml" = Ok cfg
  /\ LoadBlacklist "blacklist.txt" = Some (blacklist, None).

End Spec.
End GitHubSpec.

Module GitLabSpec.
Import GitLab.

Definition is_request (e : Event) : bool :=
  match e with HttpDo _ => true | _ => false end.

Definition is_email (e : Event) : bool :=
  match e with PrintEmail _ _ _ _ => true | _ => false end.

Definition is_os (e : Event) : bool :=
  match e with PrintOS _ _ _ _ _ => true | _ => false end.

Definition is_utility (e : Event) : bool :=
  match e with PrintUtility _ _ _ _ _ => true | _ => false end.

(** The blocks that report a finding. *)
Definition is_finding (e : Event) : bool :=
  is_email e || is_os e || is_utility e.

Section Spec.
Context `{World}.

Definition commitDate (c : GitLabCommit) : string :=
  formatCommitDate (AuthoredDate c).

Definition email_event (projectURL : string) (c : GitLabCommit) : Event :=
  PrintEmail (AuthorEmail c) (AuthorName c) (commitDate c) projectURL.

Definition email_events (blacklist : list Regexp) (projectURL : string)
  (c : GitLabCommit) : list Event :=
  if email_gate (AuthorEmail c) blacklist then [email_event projectURL c]
  else [].

Definition os_event (projectURL : string) (c : GitLabCommit) (m : string)
  : Event :=
  PrintOS m (AuthorName c) (AuthorEmail c) (commitDate c) projectURL.

Definition utility_event (projectURL : string) (c : GitLabCommit) (m : string)
  : Event :=
  PrintUtility m (AuthorName c) (AuthorEmail c) (commitDate c) projectURL.

Definition commit_events (cfg : Config) (blacklist : list Regexp)
  (projectURL : string) (c : GitLabCommit) : list Event :=
  email_events blacklist projectURL c
  ++ map (os_event projectURL c) (matched (Title c) (OperatingSystems cfg))
  ++ map (utility_event projectURL c) (matched (Title c) (Utilities cfg)).

(** The request [makeRequest] sends for a URL. *)
Definition request (gitlabToken url : string) : HttpRequest :=
  {| req_url := url;
     req_headers :=
       if String.eqb gitlabToken "" then []
       else [("PRIVATE-TOKEN", gitlabToken)] |}.

(** The page of commits the server answers with, when the request goes
    through, the status is 200 and the body decodes. *)
Definition commits_page (gitlabToken : string) (projectID page : Z)
  : option (list GitLabCommit) :=
  match http_NewRequest (commitsURL projectID page) with
  | Some _ => None
  | None =>
      match client_Do (request gitlabToken (commitsURL projectID page)) with
      | Ok (body, status) =>
          if status =? 200 then
            match json_Unmarshal_Commits body with
            | Ok commits => Some commits
            | Err _ => None
            end
          else None
      | Err _ => None
      end
  end.

(** The server holds the commits of a project as the non-empty [pages],
    numbered from 1, and answers the page after the last with an empty
    one. *)
Definition serves_commits (gitlabToken : string) (projectID : Z)
  (pages : list (list GitLabCommit)) : Prop :=
  (forall k page,
      pages !! k = Some page ->
      page <> [] /\ commits_page gitlabToken projectID (Z.of_nat k + 1) = Some page)
  /\ commits_page gitlabToken projectID (Z.of_nat (length pages) + 1) = Some [].

(** The requests for the pages [first], [first + 1], ... *)
Definition page_requests (gitlabToken : string) (projectID : Z)
  (first count : nat) : list Event :=
  map (fun k => HttpDo (request gitlabToken (commitsURL projectID (Z.of_nat k))))
      (seq first count).

End Spec.
End GitLabSpec.

Module BitbucketSpec.
Import Bitbucket.

Definition is_request (e : Event) : bool :=
  match e with HttpDo _ => true | _ => false end.

Definition is_email (e : Event) : bool :=
  match e with PrintEmail _ _ _ _ _ => true | _ => false end.

Definition is_os (e : Event) : bool :=
  match e with PrintOS _ _ _ _ => true | _ => false end.

Definition is_utility (e : Event) : bool :=
  match e with PrintUtility _ _ _ _ => true | _ => false end.

Section Spec.
Context `{World}.

Definition commitDate (c : BitbucketCommit) : string :=
  formatCommitDate (Date c).

Definition email_event (repoName : string) (c : BitbucketCommit)
  (who : string * string) : Event :=
  PrintEmail (snd who) (fst who) (commitDate c) repoName (Href c).

Definition email_events (blacklist : list Regexp) (repoName : string)
  (c : BitbucketCommit) : list Event :=
  match parseRawAuthor (Raw c) with
  | Some who =>
      if email_gate (snd who) blacklist then [email_event repoName c who]
      else []
  | None => []
  end.

Definition os_event (repoName : string) (c : BitbucketCommit) (m : string)
  : Event :=
  PrintOS m (commitDate c) repoName (Href c).

Definition utility_event (repoName : string) (c : BitbucketCommit) (m : string)
  : Event :=
  PrintUtility m (commitDate c) repoName (Href c).

Definition commit_events (cfg : Config) (blacklist : list Regexp)
  (repoName : string) (c : BitbucketCommit) : list Event :=
  email_events blacklist repoName c
  ++ map (os_event repoName c)
       (matched (commitText c repoName) (OperatingSystems cfg))
  ++ map (utility_event repoName c)
       (matched (commitText c repoName) (Utilities cfg)).

(** The request [makeRequest] sends for a URL. *)
Definition request (url : string) : HttpRequest :=
  {| req_url := url; req_headers := [] |}.

(** The page the server answers with, when the request goes through, the
    status is 200 and the body decodes. *)
Definition commits_page (url : string) : option BitbucketCommitPage :=
  match http_NewRequest url with
  | Some _ => None
  | None =>
      match client_Do (request url) with
      | Ok (body, status) =>
          if status =? 200 then
            match json_Unmarshal_CommitPage body with
            | Ok page => Some page
            | Err _ => None
            end
          else None
      | Err _ => None
      end
  end.

(** The server answers [url] with the first of [pages], the cursor of
    each page leads to the next, and the last page has no cursor. *)
Fixpoint serves_commits (url : string) (pages : list BitbucketCommitPage)
  : Prop :=
  match pages with
  | [] => url = ""
  | page :: rest =>
      url <> "" /\ commits_page url = Some page
      /\ serves_commits (Next page) rest
  end.

(** The requests that follow the cursors. *)
Fixpoint cursor_requests (url : string) (pages : list BitbucketCommitPage)
  : list Event :=
  match pages with
  | [] => []
  | page :: rest => HttpDo (request url) :: cursor_requests (Next page) rest
  end.

End Spec.
End BitbucketSpec.

(** The reading of the pipeline under which every scanner matches the
    signatures against the identity of the commit too: here, the GitLab
    scanner and the name of the author. *)
Definition identity_is_searched : Prop :=
  forall (libs : GoLibs) (cfg : Config) (blacklist : list Regexp)
         (projectURL : string) (c : GitLab.GitLabCommit) (p : Pattern)
         (re : Regexp),
    Forall compiles (OperatingSystems cfg) ->
    Forall compiles (Utilities cfg) ->
    In p (Utilities cfg) ->
    regexp_Compile (Regex p) = Some re ->
    matches_in_context re ->
    MatchString re (GitLab.AuthorName c) = true ->
    In (GitLabSpec.utility_event projectURL c (ID p))
       (trace (GitLab.ProcessCommit cfg blacklist projectURL c)).

(** ** A small concrete world

    Stand-ins for the library functions, on which the scanners can be run:
    expressions without metacharacters (for which a match is an
    occurrence of the text), bare addresses [local@domain], a three-entry
    suffix list, and files given by a table. *)

Module Sample.

Definition is_meta (c : ascii) : bool :=
  existsb (Ascii.eqb c)
    (list_ascii_of_string "\.+*?()|[]{}^$").

Definition compile (expr : string) : option string :=
  if existsb is_meta (list_ascii_of_string expr) then None else Some expr.

Definition is_atext (c : ascii) : bool :=
  let n := nat_of_ascii c in
  ((48 <=? n) && (n <=? 57) || (65 <=? n) && (n <=? 90)
   || (97 <=? n) && (n <=? 122) || (n =? 45) || (n =? 95))%nat.

(** Atoms separated by single dots. *)
Fixpoint dot_atom_from (after_dot : bool) (s : string) : bool :=
  match s with
  | EmptyString => negb after_dot
  | String c s' =>
      if Ascii.eqb c "."%char then negb after_dot && dot_atom_from true s'
      else is_atext c && dot_atom_from false s'
  end.

Definition dot_atom (s : string) : bool := dot_atom_from true s.

Definition parse_address (addr : string) : option mail_Address :=
  let i := Index addr "@" in
  if (0 <=? i) && (i =? LastIndex addr "@")
     && dot_atom (take_bytes (Z.to_nat i) addr)
     && dot_atom (drop_bytes (Z.to_nat (i + 1)) addr)
  then Some {| mail_Name := ""; Address := addr |}
  else None.

(** The last label of a domain. *)
Definition last_label (domain : string) : string :=
  drop_bytes (Z.to_nat (LastIndex domain "." + 1)) domain.

Definition public_suffix (domain : string) : string * bool :=
  if HasSuffix domain ".github.io" then ("github.io", false)
  else
    let tld := last_label domain in
    (tld, existsb (String.eqb tld) ["com"; "org"; "net"]).

Definition parse_url (s : string) : option string :=
  if Contains s " " then None else Some s.

Definition parse_time (s : string) : option string :=
  if String.eqb s "2024-01-02T03:04:05Z" then Some "2024-01-02 03:04:05 UTC"
  else None.

Definition cfg : Config :=
  {| OperatingSystems :=
       [ {| ID := "arch"; Regex := "Arch Linux" |};
         {| ID := "debian"; Regex := "Debian" |} ];
     Utilities := [ {| ID := "zsh"; Regex := "zsh" |} ] |}.

Definition read_file (filename : string) : result string :=
  if String.eqb filename "signatures.yaml" then Ok "signatures"
  else if String.eqb filename "blacklist.txt" then Ok "blacklist"
  else Err ("open " +:+ filename +:+ ": no such file or directory").

Definition scan (file : string) : list string * option error :=
  if String.eqb file "blacklist" then (["# bots"; ""; " noreply "], None)
  else ([], None).

Definition unmarshal_yaml (data : string) : result Config :=
  if String.eqb data "signatures" then Ok cfg
  else Err "yaml: unmarshal errors".

Definition libs : GoLibs :=
  {| Regexp := string;
     regexp_Compile := compile;
     MatchString := fun re s => Contains s re;
     mail_ParseAddress := parse_address;
     publicsuffix_PublicSuffix := public_suffix;
     URL := string;
     url_Parse := parse_url;
     Time := string;
     time_Parse_RFC3339 := parse_time;
     time_Format := fun t => t;
     os_ReadFile := read_file;
     os_Open := read_file;
     bufio_Scan := scan;
     yaml_Unmarshal := unmarshal_yaml |}.

(** A response table: the first entry for the key, or the default. *)
Fixpoint lookup_table {A} (default : A) (table : list (string * A))
  (key : string) : A :=
  match table with
  | [] => default
  | (k, v) :: rest =>
      if String.eqb k key then v else lookup_table default rest key
  end.

Definition not_found : result (string * Z) := Ok ("Not Found", 404).

Definition bad_body {A} : result A := Err "invalid character".

(** *** An account on GitHub: one repository of its own and one fork; the
    ascending search is cut by the result cap on its second page. *)

Definition gh_commit (sha name email message : string) : GitHub.CommitItem :=
  {| GitHub.SHA := sha;
     GitHub.HTMLURL := "https://github.com/alice/dotfiles/commit/" +:+ sha;
     GitHub.Commit :=
       {| GitHub.Author :=
            {| GitHub.Name := name; GitHub.Email := email;
               GitHub.Date := "2024-01-02T03:04:05Z" |};
          GitHub.Committer :=
            {| GitHub.Name := "GitHub"; GitHub.Email := "noreply@github.com";
               GitHub.Date := "2024-01-02T03:04:05Z" |};
          GitHub.Message := message |} |}.

Definition gh_c1 : GitHub.CommitItem :=
  gh_commit "a1" "Alice" "alice@example.com" "Switched to Arch Linux and zsh".

Definition gh_c2 : GitHub.CommitItem :=
  gh_commit "a2" "Alice" "alice@localhost" "Fix typo".

Definition gh_c3 : GitHub.CommitItem :=
  gh_commit "a3" "Bob" "bob@example.org" "Debian packaging".

Definition gh_own : GitHub.Repo :=
  {| GitHub.Repo_Name := "dotfiles"; GitHub.FullName := "alice/dotfiles";
     GitHub.Fork := false |}.

Definition gh_fork : GitHub.Repo :=
  {| GitHub.Repo_Name := "linux"; GitHub.FullName := "alice/linux";
     GitHub.Fork := true |}.

Definition gh_marshal (c : GitHub.CommitItem) : string :=
  GitHub.SHA c +:+ " " +:+ GitHub.HTMLURL c
  +:+ " " +:+ GitHub.Name (GitHub.Author (GitHub.Commit c))
  +:+ " " +:+ GitHub.Email (GitHub.Author (GitHub.Commit c))
  +:+ " " +:+ GitHub.Message (GitHub.Commit c).

Definition github : @GitHub.World libs :=
  {| GitHub.http_NewRequest := fun _ => None;
     GitHub.client_Do := fun req =>
       lookup_table not_found
         [ (GitHub.searchURL "alice" "asc" 1, Ok ("search-1", 200));
           (GitHub.searchURL "alice" "asc" 2, Ok ("Validation Failed", 422));
           (GitHub.searchURL "alice" "desc" 1, Ok ("search-3", 200));
           (GitHub.searchURL "alice" "desc" 2, Ok ("none", 200));
           (GitHub.reposURL "alice" 1, Ok ("repos", 200));
           (GitHub.reposURL "alice" 2, Ok ("none", 200));
           (GitHub.commitsURL "alice/dotfiles" 1, Ok ("commits-1", 200));
           (GitHub.commitsURL "alice/dotfiles" 2, Ok ("commits-2", 200));
           (GitHub.commitsURL "alice/dotfiles" 3, Ok ("none", 200));
           (GitHub.commitsURL "alice/linux" 1, Ok ("commits-1", 200));
           (GitHub.commitsURL "alice/linux" 2, Ok ("none", 200)) ]
         (req_url req);
     GitHub.json_Marshal := gh_marshal;
     GitHub.json_Unmarshal_SearchResponse :=
       lookup_table bad_body
         [ ("search-1", Ok {| GitHub.Items := [gh_c1; gh_c2] |});
           ("search-3", Ok {| GitHub.Items := [gh_c3] |});
           ("none", Ok {| GitHub.Items := [] |}) ];
     GitHub.json_Unmarshal_Repos :=
       lookup_table bad_body [ ("repos", Ok [gh_fork; gh_own]); ("none", Ok []) ];
     GitHub.json_Unmarshal_Commits :=
       lookup_table bad_body
         [ ("commits-1", Ok [gh_c3; gh_c2]); ("commits-2", Ok [gh_c1]);
           ("none", Ok []) ] |}.

(** *** An account on GitLab: one project of its own, in two pages, and
    one fork. *)

Definition gl_commit (id title name email : string) : GitLab.GitLabCommit :=
  {| GitLab.c_ID := id; GitLab.ShortID := id; GitLab.Title := title;
     GitLab.AuthorName := name; GitLab.AuthorEmail := email;
     GitLab.AuthoredDate := "2024-01-02T03:04:05Z"; GitLab.c_WebURL := "" |}.

Definition gl_c1 : GitLab.GitLabCommit :=
  gl_commit "c1" "Debian packaging" "Bob" "bob@example.org".

Definition gl_c2 : GitLab.GitLabCommit :=
  gl_commit "c2" "Fix typo" "zsh fan" "alice@localhost".

Definition gl_c3 : GitLab.GitLabCommit :=
  gl_commit "c3" "Switched to Arch Linux and zsh" "Alice" "alice@example.com".

Definition gl_own : GitLab.GitLabProject :=
  {| GitLab.p_ID := 11; GitLab.p_Name := "dotfiles";
     GitLab.Path := "alice/dotfiles";
     GitLab.WebURL := "https://gitlab.com/alice/dotfiles";
     GitLab.ForkedFromProject := None |}.

Definition gl_fork : GitLab.GitLabProject :=
  {| GitLab.p_ID := 12; GitLab.p_Name := "linux";
     GitLab.Path := "alice/linux";
     GitLab.WebURL := "https://gitlab.com/alice/linux";
     GitLab.ForkedFromProject := Some 99 |}.

Definition gitlab : @GitLab.World libs :=
  {| GitLab.http_NewRequest := fun _ => None;
     GitLab.client_Do := fun req =>
       lookup_table not_found
         [ ("https://gitlab.com/api/v4/users?username=alice", Ok ("users", 200));
           (GitLab.projectsURL 7 1, Ok ("projects", 200));
           (GitLab.projectsURL 7 2, Ok ("none", 200));
           (GitLab.commitsURL 11 1, Ok ("commits-1", 200));
           (GitLab.commitsURL 11 2, Ok ("commits-2", 200));
           (GitLab.commitsURL 11 3, Ok ("none", 200));
           (GitLab.commitsURL 12 1, Ok ("commits-1", 200));
           (GitLab.commitsURL 12 2, Ok ("none", 200)) ]
         (req_url req);
     GitLab.json_Unmarshal_Users :=
       lookup_table bad_body
         [ ("users", Ok [ {| GitLab.u_ID := 7; GitLab.Username := "alice";
                             GitLab.u_Name := "Alice" |} ]) ];
     GitLab.json_Unmarshal_Projects :=
       lookup_table bad_body
         [ ("projects", Ok [gl_fork; gl_own]); ("none", Ok []) ];
     GitLab.json_Unmarshal_Commits :=
       lookup_table bad_body
         [ ("commits-1", Ok [gl_c3; gl_c2]); ("commits-2", Ok [gl_c1]);
           ("none", Ok []) ] |}.

(** *** An account on Bitbucket: one repository whose commits come in
    three pages, the second of them empty. *)

Definition bb_commit (hash message raw : string) : Bitbucket.BitbucketCommit :=
  {| Bitbucket.Hash := hash; Bitbucket.Date := "2024-01-02T03:04:05Z";
     Bitbucket.Message := message; Bitbucket.Raw := raw;
     Bitbucket.Href := "https://bitbucket.org/alice/dotfiles/commits/" +:+ hash |}.

Definition bb_c1 : Bitbucket.BitbucketCommit :=
  bb_commit "b1" "Debian packaging" "Bob <bob@example.org>".

Definition bb_c2 : Bitbucket.BitbucketCommit :=
  bb_commit "b2" "Fix typo" "zsh fan".

Definition bb_c3 : Bitbucket.BitbucketCommit :=
  bb_commit "b3" "Switched to Arch Linux" "Alice <alice@example.com>".

Definition bb_repo : Bitbucket.Repo :=
  {| Bitbucket.Slug := "dotfiles"; Bitbucket.Repo_Name := "Dotfiles";
     Bitbucket.Repo_Href := "https://bitbucket.org/alice/dotfiles" |}.

Definition bb_next (n : string) : string :=
  Bitbucket.commitsURL "alice" "dotfiles" +:+ "&page=" +:+ n.

Definition bb_pages : list Bitbucket.BitbucketCommitPage :=
  [ {| Bitbucket.Values := [bb_c3; bb_c2]; Bitbucket.Next := bb_next "2" |};
    {| Bitbucket.Values := []; Bitbucket.Next := bb_next "3" |};
    {| Bitbucket.Values := [bb_c1]; Bitbucket.Next := "" |} ].

Definition bitbucket : @Bitbucket.World libs :=
  {| Bitbucket.http_NewRequest := fun _ => None;
     Bitbucket.client_Do := fun req =>
       lookup_table not_found
         [ ("https://api.bitbucket.org/2.0/repositories/alice?pagelen=100",
            Ok ("repos", 200));
           (Bitbucket.commitsURL "alice" "dotfiles", Ok ("commits-1", 200));
           (bb_next "2", Ok ("commits-2", 200));
           (bb_next "3", Ok ("commits-3", 200)) ]
         (req_url req);
     Bitbucket.json_Unmarshal_RepoPage :=
       lookup_table bad_body
         [ ("repos", Ok {| Bitbucket.Repo_Values := [bb_repo];
                           Bitbucket.Repo_Next := "" |}) ];
     Bitbucket.json_Unmarshal_CommitPage :=
       lookup_table bad_body
         [ ("commits-1", Ok {| Bitbucket.Values := [bb_c3; bb_c2];
                               Bitbucket.Next := bb_next "2" |});
           ("commits-2", Ok {| Bitbucket.Values := [];
                               Bitbucket.Next := bb_next "3" |});
           ("commits-3", Ok {| Bitbucket.Values := [bb_c1];
                               Bitbucket.Next := "" |}) ] |}.

End Sample.

(** ** Further vocabulary: configuration files *)

(** The lines of a blacklist that carry an expression: those that are
    neither blank nor a comment once trimmed. *)
Definition blacklist_line (l : string) : bool :=
  negb (String.eqb (TrimSpace l) "" || HasPrefix (TrimSpace l) "#").

(** The trimmed text of those lines, in the order of the file. *)
Definition blacklist_sources (lines : list string) : list string :=
  map TrimSpace (List.filter blacklist_line lines).

(** A second file system: an [.env] file with two token lines after a
    comment, and a blacklist whose comment is not a valid expression. *)
Module SampleFiles.

Definition read_file (filename : string) : result string :=
  if String.eqb filename ".env" then Ok "env"
  else if String.eqb filename "blacklist.txt" then Ok "blacklist"
  else Sample.read_file filename.

Definition scan (file : string) : list string * option error :=
  if String.eqb file "env"
  then (["# tokens"; "  GITLAB_TOKEN=abc  "; "GITLAB_TOKEN=def";
         "GITHUB_TOKEN="], None)
  else if String.eqb file "blacklist"
  then (["# (unbalanced"; "  "; " noreply "; "bot"], None)
  else ([], None).

Definition libs : GoLibs :=
  {| Regexp := string;
     regexp_Compile := Sample.compile;
     MatchString := fun re s => Contains s re;
     mail_ParseAddress := Sample.parse_address;
     publicsuffix_PublicSuffix := Sample.public_suffix;
     URL := string;
     url_Parse := Sample.parse_url;
     Time := string;
     time_Parse_RFC3339 := Sample.parse_time;
     time_Format := fun t => t;
     os_ReadFile := read_file;
     os_Open := read_file;
     bufio_Scan := scan;
     yaml_Unmarshal := Sample.unmarshal_yaml |}.

End SampleFiles.

(** ** Further vocabulary: the blocks of a run *)

(** The blocks of the GitHub and of the Bitbucket scanner that report a
    finding. *)
Definition github_is_block (e : GitHub.Event) : bool :=
  GitHubSpec.is_email e || GitHubSpec.is_os e || GitHubSpec.is_utility e.

Definition bitbucket_is_block (e : Bitbucket.Event) : bool :=
  BitbucketSpec.is_email e || BitbucketSpec.is_os e
  || BitbucketSpec.is_utility e.

(** The GitLab server of the sample, reached with the files of
    [SampleFiles]: the token of its [.env] is ["abc"]. *)
Definition sample_gitlab_with_token : @GitLab.World SampleFiles.libs :=
  {| GitLab.http_NewRequest := @GitLab.http_NewRequest _ Sample.gitlab;
     GitLab.client_Do := @GitLab.client_Do _ Sample.gitlab;
     GitLab.json_Unmarshal_Users := @GitLab.json_Unmarshal_Users _ Sample.gitlab;
     GitLab.json_Unmarshal_Projects :=
       @GitLab.json_Unmarshal_Projects _ Sample.gitlab;
     GitLab.json_Unmarshal_Commits :=
       @GitLab.json_Unmarshal_Commits _ Sample.gitlab |}.

(** The GitHub and the Bitbucket server of the sample, reached with the
    same files. *)
Definition sample_github_with_token : @GitHub.World SampleFiles.libs :=
  {| GitHub.http_NewRequest := @GitHub.http_NewRequest _ Sample.github;
     GitHub.client_Do := @GitHub.client_Do _ Sample.github;
     GitHub.json_Marshal := @GitHub.json_Marshal _ Sample.github;
     GitHub.json_Unmarshal_SearchResponse :=
       @GitHub.json_Unmarshal_SearchResponse _ Sample.github;
     GitHub.json_Unmarshal_Repos :=
       @GitHub.json_Unmarshal_Repos _ Sample.github;
     GitHub.json_Unmarshal_Commits :=
       @GitHub.json_Unmarshal_Commits _ Sample.github |}.

Definition sample_bitbucket_with_token : @Bitbucket.World SampleFiles.libs :=
  {| Bitbucket.http_NewRequest :=
       @Bitbucket.http_NewRequest _ Sample.bitbucket;
     Bitbucket.client_Do := @Bitbucket.client_Do _ Sample.bitbucket;
     Bitbucket.json_Unmarshal_RepoPage :=
       @Bitbucket.json_Unmarshal_RepoPage _ Sample.bitbucket;
     Bitbucket.json_Unmarshal_CommitPage :=
       @Bitbucket.json_Unmarshal_CommitPage _ Sample.bitbucket |}.

(** The URLs a cursor loop reaches from [start]: [start] itself and, from
    a URL it reaches that is not empty and that the server answers with a
    page, the successor that this page names. *)
Inductive follows_cursors {Page : Type} (answer : string -> option Page)
  (next : Page -> string) (start : string) : string -> Prop :=
| cursor_start : follows_cursors answer next start start
| cursor_next (url : string) (page : Page) :
    follows_cursors answer next start url ->
    url <> "" ->
    answer url = Some page ->
    follows_cursors answer next start (next page).

(** ** Further vocabulary: the pages of a listing *)

Section GitHubListingPages.
Context `{GitHub.World}.

(** The page of repositories the server answers with, when the request
    goes through, the status is 200 and the body decodes. *)
Definition github_repos_page (githubToken username : string) (page : Z)
  : option (list GitHub.Repo) :=
  match GitHub.http_NewRequest (GitHub.reposURL username page) with
  | Some _ => None
  | None =>
      match GitHub.client_Do
              (GitHubSpec.request githubToken (GitHub.reposURL username page))
      with
      | Ok (body, status) =>
          if status =? 200 then
            match GitHub.json_Unmarshal_Repos body with
            | Ok repos => Some repos
            | Err _ => None
            end
          else None
      | Err _ => None
      end
  end.

(** The non-empty [pages] are the first pages of the listing, numbered
    from 1. *)
Definition github_lists_repos (githubToken username : string)
  (pages : list (list GitHub.Repo)) : Prop :=
  forall k page,
    pages !! k = Some page ->
    page <> []
    /\ github_repos_page githubToken username (Z.of_nat k + 1) = Some page.

Definition github_repos_requests (githubToken username : string)
  (count : nat) : list GitHub.Event :=
  map (fun k =>
         GitHub.HttpDo
           (GitHubSpec.request githubToken
              (GitHub.reposURL username (Z.of_nat k))))
      (seq 1 count).

End GitHubListingPages.

Section GitLabListingPages.
Context `{GitLab.World}.

Definition gitlab_projects_page (gitlabToken : string) (userID page : Z)
  : option (list GitLab.GitLabProject) :=
  match GitLab.http_NewRequest (GitLab.projectsURL userID page) with
  | Some _ => None
  | None =>
      match GitLab.client_Do
              (GitLabSpec.request gitlabToken (GitLab.projectsURL userID page))
      with
      | Ok (body, status) =>
          if status =? 200 then
            match GitLab.json_Unmarshal_Projects body with
            | Ok projects => Some projects
            | Err _ => None
            end
          else None
      | Err _ => None
      end
  end.

Definition gitlab_lists_projects (gitlabToken : string) (userID : Z)
  (pages : list (list GitLab.GitLabProject)) : Prop :=
  forall k page,
    pages !! k = Some page ->
    page <> []
    /\ gitlab_projects_page gitlabToken userID (Z.of_nat k + 1) = Some page.

Definition gitlab_projects_requests (gitlabToken : string) (userID : Z)
  (count : nat) : list GitLab.Event :=
  map (fun k =>
         GitLab.HttpDo
           (GitLabSpec.request gitlabToken
              (GitLab.projectsURL userID (Z.of_nat k))))
      (seq 1 count).

(** The non-empty [pages] are the first pages of the commits of a
    project. *)
Definition gitlab_lists_commits (gitlabToken : string) (projectID : Z)
  (pages : list (list GitLab.GitLabCommit)) : Prop :=
  forall k page,
    pages !! k = Some page ->
    page <> []
    /\ GitLabSpec.commits_page gitlabToken projectID (Z.of_nat k + 1)
       = Some page.

End GitLabListingPages.

Section BitbucketListingPages.
Context `{Bitbucket.World}.

Definition bitbucket_repos_page (url : string) : option Bitbucket.RepoPage :=
  match Bitbucket.http_NewRequest url with
  | Some _ => None
  | None =>
      match Bitbucket.client_Do (BitbucketSpec.request url) with
      | Ok (body, status) =>
          if status =? 200 then
            match Bitbucket.json_Unmarshal_RepoPage body with
            | Ok page => Some page
            | Err _ => None
            end
          else None
      | Err _ => None
      end
  end.

(** The server answers [url] with the first of [pages] and the cursor of
    each page leads to the next; [last] is the cursor of the last page. *)
Fixpoint bitbucket_lists_repos (url : string)
  (pages : list Bitbucket.RepoPage) (last : string) : Prop :=
  match pages with
  | [] => url = last
  | page :: rest =>
      url <> "" /\ bitbucket_repos_page url = Some page
      /\ bitbucket_lists_repos (Bitbucket.Repo_Next page) rest last
  end.

Fixpoint bitbucket_repos_requests (url : string)
  (pages : list Bitbucket.RepoPage) : list Bitbucket.Event :=
  match pages with
  | [] => []
  | page :: rest =>
      Bitbucket.HttpDo (BitbucketSpec.request url)
      :: bitbucket_repos_requests (Bitbucket.Repo_Next page) rest
  end.

(** The same for the pages of the commits of a repository. *)
Fixpoint bitbucket_lists_commits (url : string)
  (pages : list Bitbucket.BitbucketCommitPage) (last : string) : Prop :=
  match pages with
  | [] => url = last
  | page :: rest =>
      url <> "" /\ BitbucketSpec.commits_page url = Some page
      /\ bitbucket_lists_commits (Bitbucket.Next page) rest last
  end.

End BitbucketListingPages.

(** The non-empty [pages] are the first pages of the commits of a
    repository on GitHub. *)
Definition github_lists_commits `{GitHub.World}
  (githubToken repoFullName : string) (pages : list (list GitHub.CommitItem))
  : Prop :=
  forall k page,
    pages !! k = Some page ->
    page <> []
    /\ GitHubSpec.commits_page githubToken repoFullName (Z.of_nat k + 1)
       = Some page.

(** The servers of the sample during an outage: the second page of each
    listing and the second page of the commits of the repository
    [dotfiles] (on Bitbucket the third) are answered with an error. *)
Module SampleOutage.

Definition unavailable : result (string * Z) := Ok ("Service Unavailable", 503).

Definition github : @GitHub.World Sample.libs :=
  {| GitHub.http_NewRequest := fun _ => None;
     GitHub.client_Do := fun req =>
       if String.eqb (req_url req) (GitHub.reposURL "alice" 2)
          || String.eqb (req_url req) (GitHub.commitsURL "alice/dotfiles" 2)
       then unavailable
       else @GitHub.client_Do _ Sample.github req;
     GitHub.json_Marshal := Sample.gh_marshal;
     GitHub.json_Unmarshal_SearchResponse :=
       @GitHub.json_Unmarshal_SearchResponse _ Sample.github;
     GitHub.json_Unmarshal_Repos := @GitHub.json_Unmarshal_Repos _ Sample.github;
     GitHub.json_Unmarshal_Commits :=
       @GitHub.json_Unmarshal_Commits _ Sample.github |}.

Definition gitlab : @GitLab.World Sample.libs :=
  {| GitLab.http_NewRequest := fun _ => None;
     GitLab.client_Do := fun req =>
       if String.eqb (req_url req) (GitLab.projectsURL 7 2)
          || String.eqb (req_url req) (GitLab.commitsURL 11 2)
       then unavailable
       else @GitLab.client_Do _ Sample.gitlab req;
     GitLab.json_Unmarshal_Users := @GitLab.json_Unmarshal_Users _ Sample.gitlab;
     GitLab.json_Unmarshal_Projects :=
       @GitLab.json_Unmarshal_Projects _ Sample.gitlab;
     GitLab.json_Unmarshal_Commits :=
       @GitLab.json_Unmarshal_Commits _ Sample.gitlab |}.

Definition bb_repos_next : string :=
  "https://api.bitbucket.org/2.0/repositories/alice?pagelen=100&page=2".

Definition bb_repos : Bitbucket.RepoPage :=
  {| Bitbucket.Repo_Values := [Sample.bb_repo];
     Bitbucket.Repo_Next := bb_repos_next |}.

Definition bitbucket : @Bitbucket.World Sample.libs :=
  {| Bitbucket.http_NewRequest := fun _ => None;
     Bitbucket.client_Do := fun req =>
       if String.eqb (req_url req) bb_repos_next
          || String.eqb (req_url req) (Sample.bb_next "3")
       then unavailable
       else @Bitbucket.client_Do _ Sample.bitbucket req;
     Bitbucket.json_Unmarshal_RepoPage :=
       Sample.lookup_table Sample.bad_body [ ("repos", Ok bb_repos) ];
     Bitbucket.json_Unmarshal_CommitPage :=
       @Bitbucket.json_Unmarshal_CommitPage _ Sample.bitbucket |}.

End SampleOutage.

Section GitHubSearchVocabulary.
Context `{GitHub.World}.

(** The page of search results the server answers with, when the request
    goes through, the status is 200 and the body decodes. *)
Definition github_search_page (githubToken username order : string)
  (page : Z) : option (list GitHub.CommitItem) :=
  match GitHub.http_NewRequest (GitHub.searchURL username order page) with
  | Some _ => None
  | None =>
      match GitHub.client_Do
              (GitHubSpec.request githubToken
                 (GitHub.searchURL username order page))
      with
      | Ok (body, status) =>
          if status =? 200 then
            match GitHub.json_Unmarshal_SearchResponse body with
            | Ok searchResp => Some (GitHub.Items searchResp)
            | Err _ => None
            end
          else None
      | Err _ => None
      end
  end.

(** The non-empty [pages] are the first pages of the results of a
    search. *)
Definition github_lists_search (githubToken username order : string)
  (pages : list (list GitHub.CommitItem)) : Prop :=
  forall k page,
    pages !! k = Some page ->
    page <> []
    /\ github_search_page githubToken username order (Z.of_nat k + 1)
       = Some page.

End GitHubSearchVocabulary.

(** A commit whose author and committer are the same identity. *)
Definition sample_own_commit : GitHub.CommitItem :=
  let alice :=
    {| GitHub.Name := "Alice"; GitHub.Email := "alice@example.com";
       GitHub.Date := "2024-01-02T03:04:05Z" |} in
  {| GitHub.SHA := "a9";
     GitHub.HTMLURL := "https://github.com/alice/dotfiles/commit/a9";
     GitHub.Commit :=
       {| GitHub.Author := alice; GitHub.Committer := alice;
          GitHub.Message := "Fix typo" |} |}.

(** A commit of a blacklisted address that mentions a utility. *)
Definition sample_bot_commit : GitLab.GitLabCommit :=
  Sample.gl_commit "c9" "Switched to zsh" "Bot" "noreply@example.com".

(** A configuration with an expression that does not compile. *)
Definition sample_bad_cfg : Config :=
  {| OperatingSystems := [ {| ID := "arch"; Regex := "Arch Linux" |} ];
     Utilities := [ {| ID := "sh"; Regex := "(ba|z)sh" |} ] |}.

(** An expression that, when it matches a value, still matches the value
    where it stands in a longer text, set off on each side by a space or
    by an end of the text: so do expressions without anchors, and so do
    those that ask for a word boundary, as [\bzsh\b]. *)
Definition matches_between_spaces `{GoLibs} (re : Regexp) : Prop :=
  forall pre s post : string,
    MatchString re s = true ->
    (pre = "" \/ exists p, pre = p +:+ " ") ->
    (post = "" \/ exists q, post = " " +:+ q) ->
    MatchString re (pre +:+ s +:+ post) = true.

(** Two more matchers for the sample: one for which an expression is a
    word and matches the texts that have it as a token, as [\bzsh\b]
    matches where [zsh] stands between spaces; and one for expressions
    that are anchored at the end of the text, as [typo$]. *)
Module SampleWords.

Definition word_match (w s : string) : bool :=
  existsb (String.eqb w) (words s).

Definition libs : GoLibs :=
  {| Regexp := string;
     regexp_Compile := fun expr => Some expr;
     MatchString := word_match;
     mail_ParseAddress := Sample.parse_address;
     publicsuffix_PublicSuffix := Sample.public_suffix;
     URL := string;
     url_Parse := Sample.parse_url;
     Time := string;
     time_Parse_RFC3339 := Sample.parse_time;
     time_Format := fun t => t;
     os_ReadFile := Sample.read_file;
     os_Open := Sample.read_file;
     bufio_Scan := Sample.scan;
     yaml_Unmarshal := Sample.unmarshal_yaml |}.

Definition github : @GitHub.World libs :=
  {| GitHub.http_NewRequest := @GitHub.http_NewRequest _ Sample.github;
     GitHub.client_Do := @GitHub.client_Do _ Sample.github;
     GitHub.json_Marshal := Sample.gh_marshal;
     GitHub.json_Unmarshal_SearchResponse :=
       @GitHub.json_Unmarshal_SearchResponse _ Sample.github;
     GitHub.json_Unmarshal_Repos :=
       @GitHub.json_Unmarshal_Repos _ Sample.github;
     GitHub.json_Unmarshal_Commits :=
       @GitHub.json_Unmarshal_Commits _ Sample.github |}.

(** The expressions [text$], which match the texts that end with
    [text]. *)
Definition anchored : GoLibs :=
  {| Regexp := string;
     regexp_Compile := fun expr =>
       if HasSuffix expr "$" then Some (TrimSuffix expr "$") else None;
     MatchString := fun re s => HasSuffix s re;
     mail_ParseAddress := Sample.parse_address;
     publicsuffix_PublicSuffix := Sample.public_suffix;
     URL := string;
     url_Parse := Sample.parse_url;
     Time := string;
     time_Parse_RFC3339 := Sample.parse_time;
     time_Format := fun t => t;
     os_ReadFile := Sample.read_file;
     os_Open := Sample.read_file;
     bufio_Scan := Sample.scan;
     yaml_Unmarshal := Sample.unmarshal_yaml |}.

End SampleWords.

(** A configuration with an expression that is anchored at the end of
    the text. *)
Definition sample_anchored_cfg : Config :=
  {| OperatingSystems := [];
     Utilities := [ {| ID := "typo"; Regex := "typo$" |} ] |}.

(** The reading of the composition under which every expression that
    matches the message of a commit yields its block, whatever the
    expression asks of what surrounds its match: here, the Bitbucket
    scanner and the utilities. *)
Definition every_expression_is_detected : Prop :=
  forall (libs : GoLibs) (cfg : Config) (blacklist : list Regexp)
         (repoName : string) (c : Bitbucket.BitbucketCommit) (p : Pattern)
         (re : Regexp),
    Forall compiles (OperatingSystems cfg) ->
    Forall compiles (Utilities cfg) ->
    In p (Utilities cfg) ->
    regexp_Compile (Regex p) = Some re ->
    MatchString re (Bitbucket.Message c) = true ->
    In (BitbucketSpec.utility_event repoName c (ID p))
       (trace (Bitbucket.ProcessCommit cfg blacklist repoName c)).

(** * Properties *)

Example Contains_ex : Contains "bot@localhost" "@" = true /\ Contains "localhost" "." = false.
Proof. split; reflexivity. Qed.

Example LastIndex_ex : LastIndex "a@b@c" "@" = 3 /\ LastIndex "abc" "@" = -1.
Proof. split; reflexivity. Qed.

Example SplitN_ex : SplitN "John Doe <john@example.com>" "<" 2 = ["John Doe "; "john@example.com>"].
Proof. reflexivity. Qed.

Example TrimSpace_ex : TrimSpace "  John Doe  " = "John Doe".
Proof. vm_compute. reflexivity. Qed.

Example reverse_in_place_ex :
  reverse_in_place (E := Empty_set) [1; 2; 3; 4; 5] = ([], Done [5; 4; 3; 2; 1])
  /\ reverse_in_place (E := Empty_set) (@nil Z) = ([], Done []).
Proof. split; reflexivity. Qed.

Example TrimSuffix_ex : TrimSuffix "john@example.com>" ">" = "john@example.com" /\ TrimSuffix "a> b" ">" = "a> b".
Proof. split; reflexivity. Qed.

Example sample_valid : @IsValidEmail Sample.libs "john@sub.example.com" = Some true.
Proof. vm_compute. reflexivity. Qed.

Example sample_localhost : @IsValidEmail Sample.libs "bot@localhost" = Some false.
Proof. vm_compute. reflexivity. Qed.

Example sample_private_suffix : @IsValidEmail Sample.libs "me@me.github.io" = Some false.
Proof. vm_compute. reflexivity. Qed.

Example sample_search : @SearchPatterns Sample.libs "Switched to Arch Linux and zsh" (OperatingSystems Sample.cfg) = Some ["arch"] /\ @SearchPatterns Sample.libs "Switched to Arch Linux and zsh" (Utilities Sample.cfg) = Some ["zsh"].
Proof. split; vm_compute; reflexivity. Qed.

(** ** Runs *)

Section RunFacts.
Context {E : Type}.

Lemma bind_done {A B} (m : Run E A) (f : A -> Run E B) (a : A) :
  snd m = Done a -> m ≫= f = (fst m ++ fst (f a), snd (f a)).
Proof. intros Hm. unfold mbind, Run_bind, run_bind. now rewrite Hm. Qed.

Lemma bind_ret {A B} (a : A) (f : A -> Run E B) : mret a ≫= f = f a.
Proof.
  unfold mbind, Run_bind, run_bind, mret, Run_ret. simpl. now destruct (f a).
Qed.

Lemma bind_emit {B} (e : E) (k : unit -> Run E B) :
  emit e ≫= k = (e :: fst (k tt), snd (k tt)).
Proof. reflexivity. Qed.

Lemma bind_pair {A B} (t : list E) (a : A) (f : A -> Run E B) :
  ((t, Done a) : Run E A) ≫= f = (t ++ fst (f a), snd (f a)).
Proof. reflexivity. Qed.

Lemma bind_or_panic_some {A B} (o : option A) (a : A) (f : A -> Run E B) :
  o = Some a -> or_panic o ≫= f = f a.
Proof. intros ->. apply bind_ret. Qed.

(** A run's trace begins with the trace of its first part. *)
Lemma bind_trace_prefix {A B} (m : Run E A) (f : A -> Run E B) :
  exists rest, fst (m ≫= f) = fst m ++ rest.
Proof.
  unfold mbind, Run_bind, run_bind.
  destruct (snd m); simpl; eauto using app_nil_r.
  all: exists []; now rewrite app_nil_r.
Qed.

(** A loop that only prints. *)
Lemma for_range_emit {A} (xs : list A) (g : A -> E) :
  for_range xs (fun x => emit (g x)) = (map g xs, Done tt).
Proof.
  induction xs as [|x xs IH]; [reflexivity|].
  cbn [for_range]. rewrite IH. reflexivity.
Qed.

(** A loop whose rounds all complete is the concatenation of its rounds. *)
Lemma for_range_done {A} (xs : list A) (body : A -> Run E unit) :
  Forall (fun x => snd (body x) = Done tt) xs ->
  for_range xs body = (concat (map (fun x => fst (body x)) xs), Done tt).
Proof.
  induction 1 as [|x xs Hx _ IH]; [reflexivity|].
  cbn [for_range]. rewrite (bind_done _ _ tt Hx), IH. reflexivity.
Qed.

(** Whatever the outcome, an event of a loop comes from one of its rounds. *)
Lemma for_range_event {A} (xs : list A) (body : A -> Run E unit) (e : E) :
  In e (fst (for_range xs body)) -> exists x, In x xs /\ In e (fst (body x)).
Proof.
  induction xs as [|x xs IH]; [simpl; tauto|].
  cbn [for_range]. unfold mbind, Run_bind, run_bind.
  destruct (snd (body x)) as [[]| | |]; simpl; intros Hin.
  - apply in_app_or in Hin as [Hin|Hin]; [eauto|].
    destruct (IH Hin) as (y & Hy & He). eauto.
  - eauto.
  - eauto.
  - eauto.
Qed.

End RunFacts.

(** ** Searching a string for one byte *)

Section OneByte.
Variable a : ascii.

Local Abbreviation needle := (String a EmptyString).

Lemma Contains_cons (c : ascii) (s : string) :
  Contains (String c s) needle
  = if ascii_dec a c then true else Contains s needle.
Proof.
  cbn [Contains String.prefix].
  destruct (ascii_dec a c); [now destruct s|reflexivity].
Qed.

Lemma Contains_nil : Contains EmptyString needle = false.
Proof. reflexivity. Qed.

Lemma Contains_app (s1 s2 : string) :
  Contains (s1 +:+ s2) needle = Contains s1 needle || Contains s2 needle.
Proof.
  induction s1 as [|c s1 IH]; [reflexivity|].
  change (String c s1 +:+ s2) with (String c (s1 +:+ s2)).
  rewrite !Contains_cons. destruct (ascii_dec a c); [reflexivity|exact IH].
Qed.

Lemma Contains_needle : Contains needle needle = true.
Proof. rewrite Contains_cons. now destruct (ascii_dec a a). Qed.

Lemma LastIndex_cons (c : ascii) (s : string) :
  LastIndex (String c s) needle
  = if 0 <=? LastIndex s needle then LastIndex s needle + 1
    else if ascii_dec a c then 0 else -1.
Proof.
  cbn [LastIndex String.prefix].
  destruct (0 <=? _); [reflexivity|].
  destruct (ascii_dec a c); [now destruct s|reflexivity].
Qed.

Lemma LastIndex_bounds (s : string) :
  -1 <= LastIndex s needle < len s.
Proof.
  unfold len. induction s as [|c s IH]; [cbn; lia|].
  rewrite LastIndex_cons. cbn [String.length].
  destruct (Z.leb_spec 0 (LastIndex s needle)); [lia|].
  destruct (ascii_dec a c); lia.
Qed.

(** [LastIndex] finds the one way to cut [s] around its last [a]. *)
Lemma LastIndex_found (s : string) :
  0 <= LastIndex s needle ->
  exists l d, s = l +:+ needle +:+ d /\ Contains d needle = false
              /\ drop_bytes (Z.to_nat (LastIndex s needle + 1)) s = d.
Proof.
  induction s as [|c s IH]; [cbn; lia|].
  rewrite LastIndex_cons.
  destruct (Z.leb_spec 0 (LastIndex s needle)) as [Hr|Hr].
  - intros _. destruct (IH Hr) as (l & d & Hs & Hd & Hdrop).
    exists (String c l), d.
    split; [change (String c s = String c (l +:+ needle +:+ d)); now f_equal|].
    split; [exact Hd|].
    replace (Z.to_nat (LastIndex s needle + 1 + 1))
      with (S (Z.to_nat (LastIndex s needle + 1))) by lia.
    exact Hdrop.
  - destruct (ascii_dec a c) as [<-|]; [|lia]. intros _.
    exists EmptyString, s. split; [reflexivity|]. split; [|reflexivity].
    clear IH. induction s as [|c' s IH]; [reflexivity|].
    rewrite LastIndex_cons in Hr. rewrite Contains_cons.
    destruct (Z.leb_spec 0 (LastIndex s needle)); [lia|].
    destruct (ascii_dec a c'); [lia|]. apply IH. lia.
Qed.

Lemma LastIndex_absent (s : string) :
  LastIndex s needle < 0 <-> Contains s needle = false.
Proof.
  induction s as [|c s IH]; [cbn; split; [reflexivity|lia]|].
  rewrite LastIndex_cons, Contains_cons.
  destruct (Z.leb_spec 0 (LastIndex s needle)) as [Hr|Hr];
    destruct (ascii_dec a c); split; intros Hx; try lia; try discriminate.
  - apply IH in Hx. lia.
  - now apply IH.
Qed.

Lemma Contains_cut (l d : string) : Contains (l +:+ needle +:+ d) needle = true.
Proof.
  rewrite Contains_app. change (needle +:+ d) with (String a d).
  rewrite Contains_cons. destruct (ascii_dec a a); [|congruence].
  apply orb_true_r.
Qed.

(** There is one way only to cut a string around its last [a]. *)
Lemma last_cut_unique (l1 l2 d1 d2 : string) :
  l1 +:+ needle +:+ d1 = l2 +:+ needle +:+ d2 ->
  Contains d1 needle = false -> Contains d2 needle = false ->
  d1 = d2.
Proof.
  revert l2. induction l1 as [|c l1 IH]; intros [|c2 l2] Heq H1 H2.
  - now injection Heq.
  - injection Heq as _ Heq. change ("" +:+ d1) with d1 in Heq.
    rewrite Heq, Contains_cut in H1. discriminate.
  - injection Heq as _ Heq. change ("" +:+ d2) with d2 in Heq.
    rewrite <- Heq, Contains_cut in H2. discriminate.
  - injection Heq as _ Heq. eapply IH; eauto.
Qed.

End OneByte.

(** ** The shared detection functions *)

Section SharedFacts.
Context `{GoLibs}.

Lemma IsBlacklisted_true_iff (email : string) (blacklist : list Regexp) :
  IsBlacklisted email blacklist = true
  <-> exists re, In re blacklist /\ MatchString re email = true.
Proof.
  induction blacklist as [|re rest IH]; simpl.
  - split; [discriminate|]. intros (re & [] & _).
  - destruct (MatchString re email) eqn:Hre.
    + split; [eauto|reflexivity].
    + rewrite IH. split.
      * intros (re' & Hin & Hm). eauto.
      * intros (re' & [->|Hin] & Hm); [congruence|eauto].
Qed.

(** The answer is settled by the first expression that matches: what
    follows it in the blacklist is not consulted. *)
Lemma IsBlacklisted_first_match (email : string) (blacklist : list Regexp) :
  IsBlacklisted email blacklist = true
  <-> exists pre re post,
        blacklist = pre ++ re :: post
        /\ Forall (fun r => MatchString r email = false) pre
        /\ MatchString re email = true.
Proof.
  induction blacklist as [|re rest IH]; simpl.
  - split; [discriminate|]. intros ([|] & ? & ? & Heq & _); discriminate.
  - destruct (MatchString re email) eqn:Hre.
    + split; [|reflexivity]. intros _. exists [], re, rest. auto.
    + rewrite IH. split.
      * intros (pre & re' & post & -> & Hpre & Hm).
        exists (re :: pre), re', post. auto.
      * intros ([|r pre] & re' & post & Heq & Hpre & Hm).
        -- injection Heq as -> ->. congruence.
        -- injection Heq as -> ->. inversion Hpre; subst. eauto 6.
Qed.

Lemma IsBlacklisted_false_iff (email : string) (blacklist : list Regexp) :
  IsBlacklisted email blacklist = false
  <-> Forall (fun re => MatchString re email = false) blacklist.
Proof.
  induction blacklist as [|re rest IH]; simpl.
  - split; auto.
  - destruct (MatchString re email) eqn:Hre.
    + split; [discriminate|]. intros Hall. inversion Hall; congruence.
    + rewrite IH. split; [auto|]. intros Hall. now inversion Hall.
Qed.

Lemma SearchPatterns_loop_ok (text : string) (patterns : list Pattern)
  (matches : list string) :
  Forall compiles patterns ->
  SearchPatterns_loop text patterns matches
  = Some (matches ++ matched text patterns).
Proof.
  intros Hall. revert matches.
  induction Hall as [|p rest [re Hre] _ IH]; intros matches.
  - simpl. now rewrite app_nil_r.
  - cbn [SearchPatterns_loop]. unfold matched. cbn [List.filter].
    unfold pattern_matches at 1. rewrite Hre.
    destruct (MatchString re text).
    + rewrite IH. cbn [map]. unfold matched. now rewrite <- app_assoc.
    + apply IH.
Qed.

Lemma SearchPatterns_ok (text : string) (patterns : list Pattern) :
  Forall compiles patterns ->
  SearchPatterns text patterns = Some (matched text patterns).
Proof. intros Hall. unfold SearchPatterns. now rewrite SearchPatterns_loop_ok. Qed.

(** [regexp.MustCompile] stops the matcher at the first expression that
    does not compile. *)
Lemma SearchPatterns_loop_panics (text : string) (patterns : list Pattern)
  (matches : list string) :
  Exists (fun p => regexp_Compile (Regex p) = None) patterns ->
  SearchPatterns_loop text patterns matches = None.
Proof.
  revert matches. induction patterns as [|p rest IH]; intros matches Hex.
  - inversion Hex.
  - cbn [SearchPatterns_loop].
    destruct (regexp_Compile (Regex p)) as [re|] eqn:Hre; [|reflexivity].
    assert (Hrest : Exists (fun p => regexp_Compile (Regex p) = None) rest).
    { inversion Hex; subst; [congruence|assumption]. }
    destruct (MatchString re text); now apply IH.
Qed.

Lemma in_matched (text : string) (patterns : list Pattern) (id : string) :
  In id (matched text patterns)
  <-> exists p re, In p patterns /\ ID p = id
                   /\ regexp_Compile (Regex p) = Some re
                   /\ MatchString re text = true.
Proof.
  unfold matched. rewrite in_map_iff. split.
  - intros (p & Hid & Hin). apply filter_In in Hin as [Hin Hm].
    unfold pattern_matches in Hm.
    destruct (regexp_Compile (Regex p)) as [re|] eqn:Hre; [|discriminate].
    eauto 10.
  - intros (p & re & Hin & Hid & Hre & Hm). exists p. split; [exact Hid|].
    apply filter_In. split; [exact Hin|]. unfold pattern_matches. now rewrite Hre.
Qed.

Lemma NoDup_matched (text : string) (patterns : list Pattern) :
  NoDup (map ID patterns) -> NoDup (matched text patterns).
Proof.
  unfold matched. induction patterns as [|p rest IH]; cbn [map List.filter].
  - constructor.
  - intros Hnd. apply NoDup_cons in Hnd as [Hnotin Hnd].
    destruct (pattern_matches text p); [|auto].
    cbn [map]. apply NoDup_cons. split; [|auto].
    intros Hin. apply Hnotin. apply list_elem_of_In.
    apply list_elem_of_In in Hin.
    apply in_map_iff in Hin as (q & Hq & Hin). apply filter_In in Hin as [Hin _].
    apply in_map_iff. eauto.
Qed.

Lemma length_matched (text : string) (patterns : list Pattern) :
  length (matched text patterns)
  = length (List.filter (pattern_matches text) patterns).
Proof. unfold matched. apply length_map. Qed.

(** The slice of [IsValidEmail] cannot go out of range. *)
Lemma IsValidEmail_total (addr : string) : exists b, IsValidEmail addr = Some b.
Proof.
  unfold IsValidEmail.
  destruct (negb (Contains addr "@")); [eauto|].
  destruct (mail_ParseAddress addr) as [parsed|]; [|eauto].
  pose proof (LastIndex_bounds "@"%char (Address parsed)) as Hb.
  destruct (Z.ltb_spec (LastIndex (Address parsed) "@") 0); [eauto|].
  unfold slice_from.
  destruct (Z.leb_spec 0 (LastIndex (Address parsed) "@" + 1)); [|lia].
  destruct (Z.leb_spec (LastIndex (Address parsed) "@" + 1) (len (Address parsed)));
    [|lia].
  cbn [andb].
  destruct (negb (Contains _ ".")); [eauto|].
  destruct (publicsuffix_PublicSuffix _) as [eTLD icann].
  destruct (String.eqb eTLD "" || negb icann); [eauto|].
  destruct (url_Parse _); eauto.
Qed.

Lemma IsValidEmail_true_iff (addr : string) :
  IsValidEmail addr = Some true <-> valid_email addr.
Proof.
  unfold IsValidEmail, valid_email.
  destruct (Contains addr "@"); cbn [negb]; [|split; [discriminate|intros [? _]; discriminate]].
  destruct (mail_ParseAddress addr) as [parsed|];
    [|split; [discriminate|intros (_ & ? & ? & ? & _); discriminate]].
  pose proof (LastIndex_bounds "@"%char (Address parsed)) as Hb.
  destruct (Z.ltb_spec (LastIndex (Address parsed) "@") 0) as [Hlt|Hge].
  { split; [discriminate|]. intros (_ & p & d & Hp & (l & Hl & Hd) & _).
    injection Hp as <-.
    apply (LastIndex_absent "@"%char) in Hlt.
    rewrite Hl, (Contains_cut "@"%char) in Hlt. discriminate. }
  destruct (LastIndex_found "@"%char _ Hge) as (l & d & Hl & Hd & Hdrop).
  unfold slice_from.
  destruct (Z.leb_spec 0 (LastIndex (Address parsed) "@" + 1)); [|lia].
  destruct (Z.leb_spec (LastIndex (Address parsed) "@" + 1) (len (Address parsed)));
    [|lia].
  cbn [andb]. rewrite Hdrop.
  assert (Hdom : forall d', is_domain_of (Address parsed) d' -> d' = d).
  { intros d' (l' & Hl' & Hd'). rewrite Hl in Hl'.
    symmetry. eapply (last_cut_unique "@"%char); eauto. }
  destruct (Contains d ".") eqn:Hdot; cbn [negb].
  2:{ split; [discriminate|]. intros (_ & p & d' & Hp & Hd' & Hdot' & _).
      injection Hp as <-. apply Hdom in Hd' as ->. congruence. }
  destruct (publicsuffix_PublicSuffix d) as [eTLD icann] eqn:Hps.
  destruct (String.eqb_spec eTLD "") as [->|Hne]; cbn [orb].
  { split; [discriminate|]. intros (_ & p & d' & Hp & Hd' & _ & [Hs _] & _).
    injection Hp as <-. apply Hdom in Hd' as ->. rewrite Hps in Hs.
    now contradiction Hs. }
  destruct icann; cbn [negb].
  2:{ split; [discriminate|]. intros (_ & p & d' & Hp & Hd' & _ & [_ Hs] & _).
      injection Hp as <-. apply Hdom in Hd' as ->. rewrite Hps in Hs.
      discriminate. }
  destruct (url_Parse ("http://" +:+ d)) as [u|] eqn:Hurl.
  - split; [|reflexivity]. intros _. split; [reflexivity|].
    exists parsed, d. rewrite Hps, Hurl. cbn [fst snd].
    repeat split; eauto. exists l. auto.
  - split; [discriminate|]. intros (_ & p & d' & Hp & Hd' & _ & _ & [u Hu]).
    injection Hp as <-. apply Hdom in Hd' as ->. congruence.
Qed.

Lemma IsValidEmail_cases (addr : string) :
  IsValidEmail addr = Some true \/ IsValidEmail addr = Some false.
Proof. destruct (IsValidEmail_total addr) as [[] Hb]; auto. Qed.

Lemma email_gate_iff (email : string) (blacklist : list Regexp) :
  email_gate email blacklist = true <-> email_reported email blacklist.
Proof.
  unfold email_gate, email_reported.
  destruct (IsValidEmail email) as [[]|].
  - rewrite negb_true_iff. tauto.
  - split; [discriminate|]. intros [? _]. discriminate.
  - split; [discriminate|]. intros [? _]. discriminate.
Qed.

Lemma email_round_run {E} (email : string) (blacklist : list Regexp) (ev : E) :
  email_round email blacklist ev
  = (if email_gate email blacklist then [ev] else [], Done tt).
Proof.
  unfold email_round, email_gate.
  destruct (IsValidEmail_total email) as [b ->].
  rewrite (bind_or_panic_some _ b) by reflexivity.
  destruct b; cbn [andb]; [|reflexivity].
  now destruct (negb (IsBlacklisted email blacklist)).
Qed.

(** A guarded email block followed by the rest of the iteration. *)
Lemma gated_round {E} (email : string) (blacklist : list Regexp) (ev : E)
  (k : Run E unit) :
  (valid ← or_panic (IsValidEmail email);
   (if valid && negb (IsBlacklisted email blacklist) then emit ev else mret tt);;
   k)
  = ((if email_gate email blacklist then [ev] else []) ++ fst k, snd k).
Proof.
  unfold email_gate. destruct (IsValidEmail_total email) as [b ->].
  rewrite (bind_or_panic_some _ b) by reflexivity.
  destruct b; cbn [andb].
  - destruct (negb (IsBlacklisted email blacklist)).
    + apply bind_emit.
    + rewrite bind_ret. now destruct k.
  - rewrite bind_ret. now destruct k.
Qed.

Lemma SearchPatterns_cases (text : string) (patterns : list Pattern) :
  (Forall compiles patterns
   /\ SearchPatterns text patterns = Some (matched text patterns))
  \/ (Exists (fun p => regexp_Compile (Regex p) = None) patterns
      /\ SearchPatterns text patterns = None).
Proof.
  assert (Hdec : Forall compiles patterns
                 \/ Exists (fun p => regexp_Compile (Regex p) = None) patterns).
  { induction patterns as [|p rest [IH|IH]]; [left; constructor| |].
    - destruct (regexp_Compile (Regex p)) as [re|] eqn:Hre.
      + left. constructor; [now exists re|exact IH].
      + right. now constructor.
    - right. now constructor 2. }
  destruct Hdec as [Hall|Hex].
  - left. split; [exact Hall|now apply SearchPatterns_ok].
  - right. split; [exact Hex|now apply SearchPatterns_loop_panics].
Qed.

Lemma signature_rounds_ok {E} (text : string) (cfg : Config)
  (printOS printUtility : string -> E) :
  Forall compiles (OperatingSystems cfg) ->
  Forall compiles (Utilities cfg) ->
  signature_rounds text cfg printOS printUtility
  = (map printOS (matched text (OperatingSystems cfg))
     ++ map printUtility (matched text (Utilities cfg)), Done tt).
Proof.
  intros Hos Hut. unfold signature_rounds.
  rewrite (SearchPatterns_ok _ _ Hos), (SearchPatterns_ok _ _ Hut).
  rewrite (bind_or_panic_some _ _ _ eq_refl), !for_range_emit, bind_pair.
  rewrite (bind_or_panic_some _ _ _ eq_refl), for_range_emit. reflexivity.
Qed.

(** With or without a panic, the signature loops print signature blocks
    only, each for a pattern that matched. *)
Lemma signature_rounds_events {E} (text : string) (cfg : Config)
  (printOS printUtility : string -> E) (e : E) :
  In e (fst (signature_rounds text cfg printOS printUtility)) ->
  (exists m, In m (matched text (OperatingSystems cfg)) /\ e = printOS m)
  \/ (exists m, In m (matched text (Utilities cfg)) /\ e = printUtility m).
Proof.
  unfold signature_rounds.
  destruct (SearchPatterns_cases text (OperatingSystems cfg)) as [[_ ->]|[_ ->]];
    [|intros []].
  rewrite (bind_or_panic_some _ _ _ eq_refl), for_range_emit, bind_pair.
  destruct (SearchPatterns_cases text (Utilities cfg)) as [[_ ->]|[_ ->]].
  - rewrite (bind_or_panic_some _ _ _ eq_refl), for_range_emit. cbn [fst].
    intros Hin. apply in_app_or in Hin as [Hin|Hin];
      apply in_map_iff in Hin as (m & <- & Hm); eauto.
  - cbn. rewrite app_nil_r. intros Hin.
    apply in_map_iff in Hin as (m & <- & Hm); eauto.
Qed.

(** The signature loops complete unless an expression fails to compile. *)
Lemma signature_rounds_outcome {E} (text : string) (cfg : Config)
  (printOS printUtility : string -> E) :
  snd (signature_rounds text cfg printOS printUtility) = Done tt
  \/ snd (signature_rounds text cfg printOS printUtility) = Panic.
Proof.
  unfold signature_rounds.
  destruct (SearchPatterns_cases text (OperatingSystems cfg)) as [[_ ->]|[_ ->]];
    [|now right].
  rewrite (bind_or_panic_some _ _ _ eq_refl), for_range_emit, bind_pair.
  destruct (SearchPatterns_cases text (Utilities cfg)) as [[_ ->]|[_ ->]].
  - rewrite (bind_or_panic_some _ _ _ eq_refl), for_range_emit. now left.
  - now right.
Qed.

End SharedFacts.

(** ** The email policy *)

(** C2. [IsValidEmail] answers [true] exactly when the five conditions of
    the policy hold: the address contains ["@"], it parses as a mail
    address, the domain after the last ["@"] of the parsed address contains
    a ["."], the public suffix of the domain is non-empty and ICANN
    managed, and the domain parses as a URL behind ["http://"].  It always
    answers (the slice cannot panic); an address without ["@"] and an
    address whose domain has no ["."] are invalid. *)
Theorem IsValidEmail_policy `{GoLibs} (addr : string) :
  (IsValidEmail addr = Some true <-> valid_email addr)
  /\ (IsValidEmail addr = Some false <-> ~ valid_email addr)
  /\ (exists b, IsValidEmail addr = Some b)
  /\ (Contains addr "@" = false -> IsValidEmail addr = Some false)
  /\ (mail_ParseAddress addr = None -> IsValidEmail addr = Some false)
  /\ (forall parsed domain,
        mail_ParseAddress addr = Some parsed ->
        is_domain_of (Address parsed) domain ->
        Contains domain "." = false ->
        IsValidEmail addr = Some false).
Proof.
  pose proof (IsValidEmail_true_iff addr) as Hiff.
  assert (Hfalse : IsValidEmail addr = Some false <-> ~ valid_email addr).
  { destruct (IsValidEmail_cases addr) as [Hv|Hv]; rewrite Hv in *.
    - split; [discriminate|]. intros Hn. exfalso. apply Hn, Hiff. reflexivity.
    - split; [|reflexivity]. intros _ Hval. apply Hiff in Hval. discriminate. }
  split; [exact Hiff|]. split; [exact Hfalse|].
  split; [apply IsValidEmail_total|].
  split; [|split].
  - intros Hno. apply Hfalse. intros [Hat _]. congruence.
  - intros Hno. apply Hfalse. intros (_ & p & d & Hp & _). congruence.
  - intros parsed domain Hp Hd Hdot. apply Hfalse.
    intros (_ & p & d & Hp' & (l' & Hl' & Hd') & Hdot' & _).
    rewrite Hp in Hp'. injection Hp' as <-.
    destruct Hd as (l & Hl & Hdom). rewrite Hl in Hl'.
    assert (domain = d) as -> by (eapply (last_cut_unique "@"%char); eauto).
    congruence.
Qed.

Lemma IsValidEmail_policy_witness :
  @IsValidEmail Sample.libs "bot@localhost" = Some false
  /\ @IsValidEmail Sample.libs "no-at-sign.example.com" = Some false
  /\ @valid_email Sample.libs "john@sub.example.com".
Proof.
  split; [|split].
  - apply (proj2 (proj2 (proj2 (proj2 (proj2
             (@IsValidEmail_policy Sample.libs "bot@localhost"))))))
      with (parsed := {| mail_Name := ""; Address := "bot@localhost" |})
           (domain := "localhost").
    + reflexivity.
    + exists "bot". split; reflexivity.
    + reflexivity.
  - apply (proj1 (proj2 (proj2 (proj2
             (@IsValidEmail_policy Sample.libs "no-at-sign.example.com"))))).
    reflexivity.
  - apply (proj1 (@IsValidEmail_policy Sample.libs "john@sub.example.com")).
    vm_compute. reflexivity.
Defined.

(** ** One commit through the pipeline of each scanner *)

Module GitHubFacts.
Import GitHub GitHubSpec.

Section Facts.
Context `{World}.

Lemma email_loop_run (blacklist : list Regexp) (c : CommitItem) :
  for_range (identities c)
    (fun who => email_round (snd who) blacklist (email_event c who))
  = (email_events blacklist c, Done tt).
Proof.
  rewrite for_range_done.
  - unfold email_events. f_equal. f_equal. apply map_ext. intros who.
    now rewrite email_round_run.
  - apply Forall_forall. intros who _. now rewrite email_round_run.
Qed.

(** The trace of one iteration: the email blocks, then what the two
    signature loops print. *)
Lemma gh_ProcessCommit_split (cfg : Config) (blacklist : list Regexp)
  (c : CommitItem) :
  ProcessCommit cfg blacklist c
  = (email_events blacklist c
     ++ fst (signature_rounds (json_Marshal c) cfg (os_event c) (utility_event c)),
     snd (signature_rounds (json_Marshal c) cfg (os_event c) (utility_event c))).
Proof.
  change (ProcessCommit cfg blacklist c)
    with (for_range (identities c)
            (fun who => email_round (snd who) blacklist (email_event c who));;
          signature_rounds (json_Marshal c) cfg (os_event c) (utility_event c)).
  now rewrite email_loop_run, bind_pair.
Qed.

Lemma gh_ProcessCommit_ok (cfg : Config) (blacklist : list Regexp) (c : CommitItem) :
  Forall compiles (OperatingSystems cfg) ->
  Forall compiles (Utilities cfg) ->
  ProcessCommit cfg blacklist c = (commit_events cfg blacklist c, Done tt).
Proof.
  intros Hos Hut. rewrite gh_ProcessCommit_split, signature_rounds_ok by assumption.
  reflexivity.
Qed.

Lemma gh_ProcessCommits_ok (cfg : Config) (blacklist : list Regexp)
  (items : list CommitItem) :
  Forall compiles (OperatingSystems cfg) ->
  Forall compiles (Utilities cfg) ->
  ProcessCommits items cfg blacklist
  = (concat (map (commit_events cfg blacklist) items), Done tt).
Proof.
  intros Hos Hut. unfold ProcessCommits. rewrite for_range_done.
  - f_equal. f_equal. apply map_ext. intros c. now rewrite gh_ProcessCommit_ok.
  - apply Forall_forall. intros c _. now rewrite gh_ProcessCommit_ok.
Qed.

Lemma gh_in_email_events (blacklist : list Regexp) (c : CommitItem) (e : Event) :
  In e (email_events blacklist c)
  <-> exists who, In who (identities c) /\ email_reported (snd who) blacklist
                  /\ e = email_event c who.
Proof.
  unfold email_events. rewrite in_concat. split.
  - intros (l & Hl & He). apply in_map_iff in Hl as (who & <- & Hwho).
    destruct (email_gate (snd who) blacklist) eqn:Hg; [|destruct He].
    destruct He as [<-|[]]. exists who. now rewrite <- email_gate_iff.
  - intros (who & Hwho & Hrep & ->). apply email_gate_iff in Hrep.
    exists [email_event c who]. split; [|now left].
    apply in_map_iff. exists who. now rewrite Hrep.
Qed.

(** The email blocks of an iteration are those of its first loop, whether
    or not a signature expression later panics. *)
Lemma gh_ProcessCommit_email (cfg : Config) (blacklist : list Regexp)
  (c : CommitItem) (e : Event) :
  is_email e = true ->
  In e (fst (ProcessCommit cfg blacklist c)) <-> In e (email_events blacklist c).
Proof.
  intros He. rewrite gh_ProcessCommit_split. cbn [fst]. rewrite in_app_iff.
  split; [|auto]. intros [Hin|Hin]; [exact Hin|].
  apply signature_rounds_events in Hin as [(m & _ & ->)|(m & _ & ->)];
    discriminate.
Qed.

Lemma gh_ProcessCommit_no_request (cfg : Config) (blacklist : list Regexp)
  (c : CommitItem) (e : Event) :
  In e (fst (ProcessCommit cfg blacklist c)) -> is_request e = false.
Proof.
  rewrite gh_ProcessCommit_split. cbn [fst]. rewrite in_app_iff.
  intros [Hin|Hin].
  - apply gh_in_email_events in Hin as (who & _ & _ & ->). reflexivity.
  - apply signature_rounds_events in Hin as [(m & _ & ->)|(m & _ & ->)];
      reflexivity.
Qed.

Lemma ProcessCommits_no_request (cfg : Config) (blacklist : list Regexp)
  (items : list CommitItem) (e : Event) :
  In e (fst (ProcessCommits items cfg blacklist)) -> is_request e = false.
Proof.
  intros Hin. apply for_range_event in Hin as (c & _ & Hin).
  eapply gh_ProcessCommit_no_request; eauto.
Qed.

End Facts.
End GitHubFacts.

(** ** Cutting a string at the first occurrence of a byte *)

Lemma length_append (s1 s2 : string) :
  String.length (s1 +:+ s2) = (String.length s1 + String.length s2)%nat.
Proof.
  induction s1 as [|c s1 IH]; [reflexivity|].
  change (String c s1 +:+ s2) with (String c (s1 +:+ s2)).
  cbn [String.length]. now rewrite IH.
Qed.

Lemma take_bytes_append (s1 s2 : string) :
  take_bytes (String.length s1) (s1 +:+ s2) = s1.
Proof.
  induction s1 as [|c s1 IH]; [reflexivity|].
  change (String c s1 +:+ s2) with (String c (s1 +:+ s2)).
  cbn [String.length take_bytes]. now rewrite IH.
Qed.

Lemma drop_bytes_append (s1 s2 : string) (n : nat) :
  drop_bytes (String.length s1 + n) (s1 +:+ s2) = drop_bytes n s2.
Proof. induction s1 as [|c s1 IH]; [reflexivity|]. exact IH. Qed.

Lemma HasSuffix_refl (s : string) : HasSuffix s s = true.
Proof. destruct s; cbn [HasSuffix]; now rewrite String.eqb_refl. Qed.

Lemma HasSuffix_append (s suffix : string) : HasSuffix (s +:+ suffix) suffix = true.
Proof.
  induction s as [|c s IH]; [apply HasSuffix_refl|].
  change (String c s +:+ suffix) with (String c (s +:+ suffix)).
  cbn [HasSuffix]. rewrite IH. now destruct (String.eqb _ _).
Qed.

Lemma TrimSuffix_append (s suffix : string) : TrimSuffix (s +:+ suffix) suffix = s.
Proof.
  unfold TrimSuffix. rewrite HasSuffix_append, length_append.
  replace (String.length s + String.length suffix - String.length suffix)%nat
    with (String.length s) by lia.
  apply take_bytes_append.
Qed.

Lemma TrimSuffix_absent (s suffix : string) :
  HasSuffix s suffix = false -> TrimSuffix s suffix = s.
Proof. unfold TrimSuffix. now intros ->. Qed.

Section FirstByte.
Variable a : ascii.

Local Abbreviation needle := (String a EmptyString).

Lemma Index_cons (c : ascii) (s : string) :
  Index (String c s) needle
  = if ascii_dec a c then 0
    else if 0 <=? Index s needle then Index s needle + 1 else -1.
Proof.
  cbn [Index String.prefix].
  destruct (ascii_dec a c); [now destruct s|reflexivity].
Qed.

Lemma Index_absent (s : string) :
  Index s needle < 0 <-> Contains s needle = false.
Proof.
  induction s as [|c s IH]; [cbn; split; [reflexivity|lia]|].
  rewrite Index_cons, Contains_cons.
  destruct (ascii_dec a c); [split; [lia|discriminate]|].
  destruct (Z.leb_spec 0 (Index s needle)); split; intros Hx; try lia.
  - apply IH in Hx. lia.
  - now apply IH.
Qed.

(** [Index] is the length of what precedes the first [a]. *)
Lemma Index_first (pre rest : string) :
  Contains pre needle = false ->
  Index (pre +:+ needle +:+ rest) needle = len pre.
Proof.
  unfold len. induction pre as [|c pre IH]; intros Hpre.
  - change (EmptyString +:+ needle +:+ rest) with (String a rest).
    rewrite Index_cons. now destruct (ascii_dec a a).
  - change (String c pre +:+ needle +:+ rest)
      with (String c (pre +:+ needle +:+ rest)).
    rewrite Contains_cons in Hpre. rewrite Index_cons.
    destruct (ascii_dec a c); [discriminate|].
    rewrite (IH Hpre). cbn [String.length].
    destruct (Z.leb_spec 0 (Z.of_nat (String.length pre))); lia.
Qed.

Lemma first_cut_exists (s : string) :
  Contains s needle = true ->
  exists pre rest, s = pre +:+ needle +:+ rest /\ Contains pre needle = false.
Proof.
  induction s as [|c s IH]; [discriminate|].
  rewrite Contains_cons. destruct (ascii_dec a c) as [<-|Hne].
  - intros _. exists EmptyString, s. split; reflexivity.
  - intros Hs. destruct (IH Hs) as (pre & rest & -> & Hpre).
    exists (String c pre), rest. split; [reflexivity|].
    rewrite Contains_cons. now destruct (ascii_dec a c).
Qed.

(** [strings.SplitN(s, sep, 2)] cuts at the first separator. *)
Lemma SplitN_first (pre rest : string) :
  Contains pre needle = false ->
  SplitN (pre +:+ needle +:+ rest) needle 2 = [pre; rest].
Proof.
  intros Hpre. cbn [SplitN]. rewrite (Index_first _ _ Hpre). unfold len.
  destruct (Z.ltb_spec (Z.of_nat (String.length pre)) 0); [lia|].
  rewrite Nat2Z.id, take_bytes_append, drop_bytes_append. reflexivity.
Qed.

End FirstByte.

(** ** The combined author string of Bitbucket *)

Module BitbucketFacts.
Import Bitbucket BitbucketSpec.

Lemma parseRawAuthor_cut (pre rest : string) :
  Contains pre "<" = false ->
  Contains (pre +:+ "<" +:+ rest) ">" = true ->
  parseRawAuthor (pre +:+ "<" +:+ rest)
  = Some (TrimSpace pre, TrimSuffix rest ">").
Proof.
  intros Hpre Hgt. unfold parseRawAuthor.
  rewrite (Contains_cut "<"%char), Hgt. cbn [andb].
  rewrite (SplitN_first "<"%char _ _ Hpre). reflexivity.
Qed.

Lemma parseRawAuthor_plain (raw : string) :
  Contains raw "<" && Contains raw ">" = false ->
  parseRawAuthor raw = Some (raw, "").
Proof. unfold parseRawAuthor. now intros ->. Qed.

Lemma parseRawAuthor_total (raw : string) :
  exists who, parseRawAuthor raw = Some who.
Proof.
  destruct (Contains raw "<" && Contains raw ">") eqn:Hboth.
  - apply andb_true_iff in Hboth as [Hlt Hgt].
    destruct (first_cut_exists "<"%char raw Hlt) as (pre & rest & -> & Hpre).
    rewrite (parseRawAuthor_cut _ _ Hpre Hgt). eauto.
  - rewrite (parseRawAuthor_plain _ Hboth). eauto.
Qed.

Section Facts.
Context `{World}.

(** The trace of one iteration: the email block, then what the two
    signature loops print. *)
Lemma bb_ProcessCommit_split (cfg : Config) (blacklist : list Regexp)
  (repoName : string) (c : BitbucketCommit) :
  ProcessCommit cfg blacklist repoName c
  = (email_events blacklist repoName c
     ++ fst (signature_rounds (commitText c repoName) cfg
               (os_event repoName c) (utility_event repoName c)),
     snd (signature_rounds (commitText c repoName) cfg
            (os_event repoName c) (utility_event repoName c))).
Proof.
  unfold ProcessCommit, email_events.
  destruct (parseRawAuthor_total (Raw c)) as [who ->].
  rewrite (bind_or_panic_some _ who) by reflexivity.
  apply gated_round.
Qed.

Lemma bb_ProcessCommit_ok (cfg : Config) (blacklist : list Regexp)
  (repoName : string) (c : BitbucketCommit) :
  Forall compiles (OperatingSystems cfg) ->
  Forall compiles (Utilities cfg) ->
  ProcessCommit cfg blacklist repoName c
  = (commit_events cfg blacklist repoName c, Done tt).
Proof.
  intros Hos Hut. rewrite bb_ProcessCommit_split, signature_rounds_ok by assumption.
  reflexivity.
Qed.

Lemma bb_ProcessCommits_ok (cfg : Config) (blacklist : list Regexp)
  (repoName : string) (commits : list BitbucketCommit) :
  Forall compiles (OperatingSystems cfg) ->
  Forall compiles (Utilities cfg) ->
  ProcessCommits commits cfg blacklist repoName
  = (concat (map (commit_events cfg blacklist repoName) commits), Done tt).
Proof.
  intros Hos Hut. unfold ProcessCommits. rewrite for_range_done.
  - f_equal. f_equal. apply map_ext. intros c. now rewrite bb_ProcessCommit_ok.
  - apply Forall_forall. intros c _. now rewrite bb_ProcessCommit_ok.
Qed.

Lemma bb_in_email_events (blacklist : list Regexp) (repoName : string)
  (c : BitbucketCommit) (e : Event) :
  In e (email_events blacklist repoName c)
  <-> exists who, parseRawAuthor (Raw c) = Some who
                  /\ email_reported (snd who) blacklist
                  /\ e = email_event repoName c who.
Proof.
  unfold email_events.
  destruct (parseRawAuthor_total (Raw c)) as [who ->].
  destruct (email_gate (snd who) blacklist) eqn:Hg.
  - split.
    + intros [<-|[]]. exists who. now rewrite <- email_gate_iff.
    + intros (who' & [= <-] & _ & ->). now left.
  - split; [intros []|]. intros (who' & [= <-] & Hrep & _).
    apply email_gate_iff in Hrep. congruence.
Qed.

Lemma bb_ProcessCommit_email (cfg : Config) (blacklist : list Regexp)
  (repoName : string) (c : BitbucketCommit) (e : Event) :
  is_email e = true ->
  In e (fst (ProcessCommit cfg blacklist repoName c))
  <-> In e (email_events blacklist repoName c).
Proof.
  intros He. rewrite bb_ProcessCommit_split. cbn [fst]. rewrite in_app_iff.
  split; [|auto]. intros [Hin|Hin]; [exact Hin|].
  apply signature_rounds_events in Hin as [(m & _ & ->)|(m & _ & ->)];
    discriminate.
Qed.

Lemma bb_ProcessCommit_no_request (cfg : Config) (blacklist : list Regexp)
  (repoName : string) (c : BitbucketCommit) (e : Event) :
  In e (fst (ProcessCommit cfg blacklist repoName c)) -> is_request e = false.
Proof.
  rewrite bb_ProcessCommit_split. cbn [fst]. rewrite in_app_iff.
  intros [Hin|Hin].
  - apply bb_in_email_events in Hin as (who & _ & _ & ->). reflexivity.
  - apply signature_rounds_events in Hin as [(m & _ & ->)|(m & _ & ->)];
      reflexivity.
Qed.

End Facts.
End BitbucketFacts.

Module GitLabFacts.
Import GitLab GitLabSpec.

Section Facts.
Context `{World}.

Lemma gl_ProcessCommit_split (cfg : Config) (blacklist : list Regexp)
  (projectURL : string) (c : GitLabCommit) :
  ProcessCommit cfg blacklist projectURL c
  = (email_events blacklist projectURL c
     ++ fst (signature_rounds (Title c) cfg
               (os_event projectURL c) (utility_event projectURL c)),
     snd (signature_rounds (Title c) cfg
            (os_event projectURL c) (utility_event projectURL c))).
Proof. unfold ProcessCommit, email_events. apply gated_round. Qed.

Lemma gl_ProcessCommit_ok (cfg : Config) (blacklist : list Regexp)
  (projectURL : string) (c : GitLabCommit) :
  Forall compiles (OperatingSystems cfg) ->
  Forall compiles (Utilities cfg) ->
  ProcessCommit cfg blacklist projectURL c
  = (commit_events cfg blacklist projectURL c, Done tt).
Proof.
  intros Hos Hut. rewrite gl_ProcessCommit_split, signature_rounds_ok by assumption.
  reflexivity.
Qed.

Lemma gl_ProcessCommits_ok (cfg : Config) (blacklist : list Regexp)
  (projectURL : string) (commits : list GitLabCommit) :
  Forall compiles (OperatingSystems cfg) ->
  Forall compiles (Utilities cfg) ->
  ProcessCommits commits cfg blacklist projectURL
  = (concat (map (commit_events cfg blacklist projectURL) commits), Done tt).
Proof.
  intros Hos Hut. unfold ProcessCommits. rewrite for_range_done.
  - f_equal. f_equal. apply map_ext. intros c. now rewrite gl_ProcessCommit_ok.
  - apply Forall_forall. intros c _. now rewrite gl_ProcessCommit_ok.
Qed.

Lemma gl_in_email_events (blacklist : list Regexp) (projectURL : string)
  (c : GitLabCommit) (e : Event) :
  In e (email_events blacklist projectURL c)
  <-> email_reported (AuthorEmail c) blacklist /\ e = email_event projectURL c.
Proof.
  unfold email_events. rewrite <- email_gate_iff.
  destruct (email_gate (AuthorEmail c) blacklist).
  - split; [intros [<-|[]]; auto|]. intros [_ ->]. now left.
  - split; [intros []|]. intros [? _]. discriminate.
Qed.

Lemma gl_ProcessCommit_email (cfg : Config) (blacklist : list Regexp)
  (projectURL : string) (c : GitLabCommit) (e : Event) :
  is_email e = true ->
  In e (fst (ProcessCommit cfg blacklist projectURL c))
  <-> In e (email_events blacklist projectURL c).
Proof.
  intros He. rewrite gl_ProcessCommit_split. cbn [fst]. rewrite in_app_iff.
  split; [|auto]. intros [Hin|Hin]; [exact Hin|].
  apply signature_rounds_events in Hin as [(m & _ & ->)|(m & _ & ->)];
    discriminate.
Qed.

Lemma gl_ProcessCommit_no_request (cfg : Config) (blacklist : list Regexp)
  (projectURL : string) (c : GitLabCommit) (e : Event) :
  In e (fst (ProcessCommit cfg blacklist projectURL c)) -> is_request e = false.
Proof.
  rewrite gl_ProcessCommit_split. cbn [fst]. rewrite in_app_iff.
  intros [Hin|Hin].
  - apply gl_in_email_events in Hin as (_ & ->). reflexivity.
  - apply signature_rounds_events in Hin as [(m & _ & ->)|(m & _ & ->)];
      reflexivity.
Qed.

End Facts.
End GitLabFacts.

(** ** The detection pipeline *)

Lemma for_range_event_iff {E A} (xs : list A) (body : A -> Run E unit) (e : E) :
  Forall (fun x => snd (body x) = Done tt) xs ->
  In e (fst (for_range xs body)) <-> exists x, In x xs /\ In e (fst (body x)).
Proof.
  intros Hdone. rewrite (for_range_done _ _ Hdone). cbn [fst].
  rewrite in_concat. split.
  - intros (l & Hl & He). apply in_map_iff in Hl as (x & <- & Hx). eauto.
  - intros (x & Hx & He). exists (fst (body x)). split; [|exact He].
    apply in_map_iff. eauto.
Qed.

Section Detection.
Context `{libs : GoLibs} {gh : GitHub.World}.

(** C1. In each scanner, an iteration of [ProcessCommits] prints the email
    block of an identity of the commit exactly when [IsValidEmail] holds
    of its address and [IsBlacklisted] does not, and it prints no other
    email block; when no expression panics the same holds of a whole list
    of commits.  A blacklisted address is never reported, and
    [IsBlacklisted] holds exactly when some expression of the blacklist
    matches, the first one that does settling the answer. *)
Theorem email_finding_gate (cfg : Config) (blacklist : list Regexp) :
  (forall c e,
      GitHubSpec.is_email e = true ->
      In e (trace (GitHub.ProcessCommit cfg blacklist c))
      <-> exists who, In who (GitHub.identities c)
                      /\ (IsValidEmail (snd who) = Some true
                          /\ IsBlacklisted (snd who) blacklist = false)
                      /\ e = GitHubSpec.email_event c who)
  /\ (forall projectURL c e,
        GitLabSpec.is_email e = true ->
        In e (trace (GitLab.ProcessCommit cfg blacklist projectURL c))
        <-> (IsValidEmail (GitLab.AuthorEmail c) = Some true
             /\ IsBlacklisted (GitLab.AuthorEmail c) blacklist = false)
            /\ e = GitLabSpec.email_event projectURL c)
  /\ (forall repoName c e,
        BitbucketSpec.is_email e = true ->
        In e (trace (Bitbucket.ProcessCommit cfg blacklist repoName c))
        <-> exists who, Bitbucket.parseRawAuthor (Bitbucket.Raw c) = Some who
                        /\ (IsValidEmail (snd who) = Some true
                            /\ IsBlacklisted (snd who) blacklist = false)
                        /\ e = BitbucketSpec.email_event repoName c who)
  /\ (Forall compiles (OperatingSystems cfg) ->
      Forall compiles (Utilities cfg) ->
      (forall items e,
          In e (trace (GitHub.ProcessCommits items cfg blacklist))
          <-> exists c, In c items
                        /\ In e (trace (GitHub.ProcessCommit cfg blacklist c)))
      /\ (forall commits projectURL e,
            In e (trace (GitLab.ProcessCommits commits cfg blacklist projectURL))
            <-> exists c, In c commits
                          /\ In e (trace (GitLab.ProcessCommit cfg blacklist
                                            projectURL c)))
      /\ (forall commits repoName e,
            In e (trace (Bitbucket.ProcessCommits commits cfg blacklist repoName))
            <-> exists c, In c commits
                          /\ In e (trace (Bitbucket.ProcessCommit cfg blacklist
                                            repoName c))))
  /\ (forall email,
        IsBlacklisted email blacklist = true ->
        ~ (IsValidEmail email = Some true
           /\ IsBlacklisted email blacklist = false))
  /\ (forall email,
        IsBlacklisted email blacklist = true
        <-> exists re, In re blacklist /\ MatchString re email = true)
  /\ (forall email,
        IsBlacklisted email blacklist = true
        <-> exists pre re post,
              blacklist = pre ++ re :: post
              /\ Forall (fun r => MatchString r email = false) pre
              /\ MatchString re email = true).
Proof.
  unfold trace. repeat apply conj.
  - intros c e He. rewrite (GitHubFacts.gh_ProcessCommit_email _ _ _ _ He).
    apply GitHubFacts.gh_in_email_events.
  - intros projectURL c e He.
    rewrite (GitLabFacts.gl_ProcessCommit_email _ _ _ _ _ He).
    apply GitLabFacts.gl_in_email_events.
  - intros repoName c e He.
    rewrite (BitbucketFacts.bb_ProcessCommit_email _ _ _ _ _ He).
    apply BitbucketFacts.bb_in_email_events.
  - intros Hos Hut. repeat apply conj.
    + intros items e. apply for_range_event_iff, Forall_forall.
      intros c _. now rewrite GitHubFacts.gh_ProcessCommit_ok.
    + intros commits projectURL e. apply for_range_event_iff, Forall_forall.
      intros c _. now rewrite GitLabFacts.gl_ProcessCommit_ok.
    + intros commits repoName e. apply for_range_event_iff, Forall_forall.
      intros c _. now rewrite BitbucketFacts.bb_ProcessCommit_ok.
  - intros email Hbl [_ Hnot]. congruence.
  - intros email. apply IsBlacklisted_true_iff.
  - intros email. apply IsBlacklisted_first_match.
Qed.

End Detection.

(** The committer of the sample commit is blacklisted, its author is not. *)
Lemma email_finding_gate_witness :
  In (GitHub.PrintEmail "alice@example.com" "Alice" "2024-01-02 03:04:05 UTC"
        "https://github.com/alice/dotfiles/commit/a1")
     (trace (@GitHub.ProcessCommits Sample.libs Sample.github
               [Sample.gh_c2; Sample.gh_c1] Sample.cfg ["noreply"]))
  /\ ~ (@IsValidEmail Sample.libs "noreply@github.com" = Some true
        /\ @IsBlacklisted Sample.libs "noreply@github.com" ["noreply"] = false).
Proof.
  pose proof (@email_finding_gate Sample.libs Sample.github Sample.cfg
                ["noreply"])
    as (Hgh & _ & _ & Hlist & Hbl & _).
  split.
  - assert (Hos : Forall (@compiles Sample.libs) (OperatingSystems Sample.cfg)).
    { repeat constructor; eexists; vm_compute; reflexivity. }
    assert (Hut : Forall (@compiles Sample.libs) (Utilities Sample.cfg)).
    { repeat constructor; eexists; vm_compute; reflexivity. }
    destruct (Hlist Hos Hut) as (Hitems & _ & _).
    apply Hitems. exists Sample.gh_c1. split; [right; left; reflexivity|].
    apply Hgh; [reflexivity|].
    exists ("Alice", "alice@example.com").
    split; [left; reflexivity|].
    split; [split; vm_compute; reflexivity|].
    vm_compute. reflexivity.
  - apply Hbl. vm_compute. reflexivity.
Defined.

(** ** The signature matcher *)

Lemma filter_keep_all {A} (f : A -> bool) (l : list A) :
  Forall (fun x => f x = true) l -> List.filter f l = l.
Proof.
  induction 1 as [|x l Hx _ IH]; [reflexivity|].
  cbn [List.filter]. now rewrite Hx, IH.
Qed.

Lemma filter_keep_none {A} (f : A -> bool) (l : list A) :
  Forall (fun x => f x = false) l -> List.filter f l = [].
Proof.
  induction 1 as [|x l Hx _ IH]; [reflexivity|].
  cbn [List.filter]. now rewrite Hx, IH.
Qed.

(** Counting the blocks of one kind in the trace of an iteration. *)
Lemma count_blocks {E} (kind : E -> bool) (first : list E) (f g : string -> E)
  (ms ns : list string) :
  Forall (fun e => kind e = false) first ->
  (forall m, kind (f m) = true) ->
  (forall m, kind (g m) = false) ->
  length (List.filter kind (first ++ map f ms ++ map g ns)) = length ms
  /\ length (List.filter kind (first ++ map g ns ++ map f ms)) = length ms.
Proof.
  intros Hfirst Hf Hg.
  assert (Hms : List.filter kind (map f ms) = map f ms).
  { apply filter_keep_all, List.Forall_forall. intros e He.
    apply in_map_iff in He as (m & <- & _). apply Hf. }
  assert (Hns : List.filter kind (map g ns) = []).
  { apply filter_keep_none, List.Forall_forall. intros e He.
    apply in_map_iff in He as (m & <- & _). apply Hg. }
  rewrite !List.filter_app, (filter_keep_none _ _ Hfirst), Hms, Hns.
  cbn [app]. rewrite app_nil_r, length_map. auto.
Qed.

Section Matcher.
Context `{libs : GoLibs} {gh : GitHub.World}.

Lemma github_emails_kind (blacklist : list Regexp) (c : GitHub.CommitItem) :
  Forall (fun e => GitHubSpec.is_os e = false /\ GitHubSpec.is_utility e = false)
    (GitHubSpec.email_events blacklist c).
Proof.
  apply List.Forall_forall. intros e He.
  apply GitHubFacts.gh_in_email_events in He as (who & _ & _ & ->). now split.
Qed.

Lemma gitlab_emails_kind (blacklist : list Regexp) (projectURL : string)
  (c : GitLab.GitLabCommit) :
  Forall (fun e => GitLabSpec.is_os e = false /\ GitLabSpec.is_utility e = false)
    (GitLabSpec.email_events blacklist projectURL c).
Proof.
  apply List.Forall_forall. intros e He.
  apply GitLabFacts.gl_in_email_events in He as (_ & ->). now split.
Qed.

Lemma bitbucket_emails_kind (blacklist : list Regexp) (repoName : string)
  (c : Bitbucket.BitbucketCommit) :
  Forall (fun e => BitbucketSpec.is_os e = false
                   /\ BitbucketSpec.is_utility e = false)
    (BitbucketSpec.email_events blacklist repoName c).
Proof.
  apply List.Forall_forall. intros e He.
  apply BitbucketFacts.bb_in_email_events in He as (who & _ & _ & ->). now split.
Qed.

(** C3, as the code has it.  When the expressions compile,
    [SearchPatterns] returns the identifiers of the patterns whose
    expression finds a match in the text, one entry per matching pattern
    and in the order of the patterns; text and expression are passed to
    the library as they are.  An identifier is returned once when the
    identifiers of the patterns are distinct.  In each scanner the number
    of operating-system blocks and of utility blocks printed for a commit
    is the number of patterns of that category that match its text. *)
Theorem SearchPatterns_matches (text : string) (patterns : list Pattern) :
  Forall compiles patterns ->
  SearchPatterns text patterns
  = Some (map ID (List.filter (pattern_matches text) patterns))
  /\ (forall id,
        In id (map ID (List.filter (pattern_matches text) patterns))
        <-> exists p re, In p patterns /\ ID p = id
                         /\ regexp_Compile (Regex p) = Some re
                         /\ MatchString re text = true)
  /\ (NoDup (map ID patterns) ->
      NoDup (map ID (List.filter (pattern_matches text) patterns)))
  /\ (forall cfg blacklist,
        Forall compiles (OperatingSystems cfg) ->
        Forall compiles (Utilities cfg) ->
        (forall c,
            let events := trace (GitHub.ProcessCommit cfg blacklist c) in
            length (List.filter GitHubSpec.is_os events)
            = length (List.filter (pattern_matches (GitHub.json_Marshal c))
                        (OperatingSystems cfg))
            /\ length (List.filter GitHubSpec.is_utility events)
               = length (List.filter (pattern_matches (GitHub.json_Marshal c))
                           (Utilities cfg)))
        /\ (forall projectURL c,
              let events :=
                trace (GitLab.ProcessCommit cfg blacklist projectURL c) in
              length (List.filter GitLabSpec.is_os events)
              = length (List.filter (pattern_matches (GitLab.Title c))
                          (OperatingSystems cfg))
              /\ length (List.filter GitLabSpec.is_utility events)
                 = length (List.filter (pattern_matches (GitLab.Title c))
                             (Utilities cfg)))
        /\ (forall repoName c,
              let events :=
                trace (Bitbucket.ProcessCommit cfg blacklist repoName c) in
              length (List.filter BitbucketSpec.is_os events)
              = length (List.filter
                          (pattern_matches (Bitbucket.commitText c repoName))
                          (OperatingSystems cfg))
              /\ length (List.filter BitbucketSpec.is_utility events)
                 = length (List.filter
                             (pattern_matches (Bitbucket.commitText c repoName))
                             (Utilities cfg)))).
Proof.
  intros Hall. split; [now apply SearchPatterns_ok|].
  split; [intros id; apply in_matched|].
  split; [apply NoDup_matched|].
  intros cfg blacklist Hos Hut. unfold trace. repeat apply conj.
  - intros c. cbn zeta. rewrite GitHubFacts.gh_ProcessCommit_ok by assumption.
    cbn [fst]. unfold GitHubSpec.commit_events. rewrite <- !length_matched.
    pose proof (github_emails_kind blacklist c) as Hk. split.
    + apply count_blocks; [|reflexivity|reflexivity].
      eapply List.Forall_impl; [|exact Hk]. now intros e [? _].
    + apply count_blocks; [|reflexivity|reflexivity].
      eapply List.Forall_impl; [|exact Hk]. now intros e [_ ?].
  - intros projectURL c. cbn zeta.
    rewrite GitLabFacts.gl_ProcessCommit_ok by assumption.
    cbn [fst]. unfold GitLabSpec.commit_events. rewrite <- !length_matched.
    pose proof (gitlab_emails_kind blacklist projectURL c) as Hk. split.
    + apply count_blocks; [|reflexivity|reflexivity].
      eapply List.Forall_impl; [|exact Hk]. now intros e [? _].
    + apply count_blocks; [|reflexivity|reflexivity].
      eapply List.Forall_impl; [|exact Hk]. now intros e [_ ?].
  - intros repoName c. cbn zeta.
    rewrite BitbucketFacts.bb_ProcessCommit_ok by assumption.
    cbn [fst]. unfold BitbucketSpec.commit_events. rewrite <- !length_matched.
    pose proof (bitbucket_emails_kind blacklist repoName c) as Hk. split.
    + apply count_blocks; [|reflexivity|reflexivity].
      eapply List.Forall_impl; [|exact Hk]. now intros e [? _].
    + apply count_blocks; [|reflexivity|reflexivity].
      eapply List.Forall_impl; [|exact Hk]. now intros e [_ ?].
Qed.

End Matcher.

Lemma sample_cfg_compiles :
  Forall (@compiles Sample.libs) (OperatingSystems Sample.cfg)
  /\ Forall (@compiles Sample.libs) (Utilities Sample.cfg).
Proof. split; repeat constructor; eexists; vm_compute; reflexivity. Qed.

(** Two operating systems and one utility in one message: two blocks and
    one block. *)
Lemma SearchPatterns_matches_witness :
  @SearchPatterns Sample.libs "Arch Linux, Debian and zsh"
    (OperatingSystems Sample.cfg) = Some ["arch"; "debian"]
  /\ (let events :=
        trace (@Bitbucket.ProcessCommit Sample.libs Sample.cfg [] "Dotfiles"
                 (Sample.bb_commit "b4" "Arch Linux, Debian and zsh" "Alice")) in
      length (List.filter BitbucketSpec.is_os events) = 2%nat
      /\ length (List.filter BitbucketSpec.is_utility events) = 1%nat).
Proof.
  destruct sample_cfg_compiles as [Hos Hut].
  destruct (@SearchPatterns_matches Sample.libs Sample.github
              "Arch Linux, Debian and zsh" (OperatingSystems Sample.cfg) Hos)
    as (Heq & _ & _ & Hcount).
  split; [exact Heq|].
  destruct (Hcount Sample.cfg [] Hos Hut) as (_ & _ & Hbb).
  exact (Hbb "Dotfiles" (Sample.bb_commit "b4" "Arch Linux, Debian and zsh" "Alice")).
Defined.

(** Two patterns that share an identifier and both match return it twice. *)
Lemma identifiers_repeat : ~ identifiers_never_repeat.
Proof.
  intros Hclaim.
  specialize (Hclaim Sample.libs "xy"
                [ {| ID := "a"; Regex := "x" |}; {| ID := "a"; Regex := "y" |} ]
                ["a"; "a"]).
  assert (Hnd : NoDup ["a"; "a"]).
  { apply Hclaim; [|vm_compute; reflexivity].
    repeat constructor; eexists; vm_compute; reflexivity. }
  apply NoDup_cons in Hnd as [Hnotin _]. apply Hnotin. now left.
Qed.

(** ** The author parser *)

(** C7, as the code has it.  [parseRawAuthor] always returns.  When the
    string holds both brackets, the name is the trimmed text before the
    first ["<"] and the email is what follows that ["<"], less one
    trailing [">"] if the string ends with one: for a string that ends
    with [">"] this is the text between the first ["<"] and that last
    [">"]; otherwise the rest of the string is kept whole.  When a bracket
    is missing, the whole string is the name and the email is empty. *)
Theorem parseRawAuthor_split (raw : string) :
  (exists who, Bitbucket.parseRawAuthor raw = Some who)
  /\ (forall pre rest,
        raw = pre +:+ "<" +:+ rest ->
        Contains pre "<" = false ->
        Contains raw ">" = true ->
        Bitbucket.parseRawAuthor raw = Some (TrimSpace pre, TrimSuffix rest ">"))
  /\ (forall pre mid,
        raw = pre +:+ "<" +:+ mid +:+ ">" ->
        Contains pre "<" = false ->
        Bitbucket.parseRawAuthor raw = Some (TrimSpace pre, mid))
  /\ (forall pre rest,
        raw = pre +:+ "<" +:+ rest ->
        Contains pre "<" = false ->
        Contains raw ">" = true ->
        HasSuffix rest ">" = false ->
        Bitbucket.parseRawAuthor raw = Some (TrimSpace pre, rest))
  /\ (Contains raw "<" = false \/ Contains raw ">" = false ->
      Bitbucket.parseRawAuthor raw = Some (raw, "")).
Proof.
  split; [apply BitbucketFacts.parseRawAuthor_total|].
  split; [|split; [|split]].
  - intros pre rest -> Hpre Hgt. now apply BitbucketFacts.parseRawAuthor_cut.
  - intros pre mid -> Hpre.
    rewrite BitbucketFacts.parseRawAuthor_cut; [|exact Hpre|].
    + now rewrite TrimSuffix_append.
    + rewrite !(Contains_app ">"%char). cbn. now rewrite !orb_true_r.
  - intros pre rest -> Hpre Hgt Hsuf.
    rewrite BitbucketFacts.parseRawAuthor_cut by assumption.
    now rewrite (TrimSuffix_absent _ _ Hsuf).
  - intros Hmiss. apply BitbucketFacts.parseRawAuthor_plain.
    destruct Hmiss as [-> | ->]; [reflexivity|apply andb_false_r].
Qed.

Lemma parseRawAuthor_split_witness :
  Bitbucket.parseRawAuthor "John Doe <john@example.com>"
  = Some ("John Doe", "john@example.com")
  /\ Bitbucket.parseRawAuthor "A <b> <c>" = Some ("A", "b> <c")
  /\ Bitbucket.parseRawAuthor "John <j@x.com> (work)"
     = Some ("John", "j@x.com> (work)")
  /\ Bitbucket.parseRawAuthor "John Doe" = Some ("John Doe", "").
Proof.
  split; [|split; [|split]].
  - apply (proj1 (proj2 (proj2
             (parseRawAuthor_split "John Doe <john@example.com>"))))
      with (pre := "John Doe ") (mid := "john@example.com"); reflexivity.
  - apply (proj1 (proj2 (proj2 (parseRawAuthor_split "A <b> <c>"))))
      with (pre := "A ") (mid := "b> <c"); reflexivity.
  - apply (proj1 (proj2 (proj2 (proj2
             (parseRawAuthor_split "John <j@x.com> (work)")))))
      with (pre := "John ") (rest := "j@x.com> (work)"); reflexivity.
  - apply (proj2 (proj2 (proj2 (proj2 (parseRawAuthor_split "John Doe"))))).
    left. reflexivity.
Defined.

(** Text after the closing bracket stays in the email. *)
Lemma email_keeps_trailing_text : ~ email_ends_at_last_bracket.
Proof.
  intros Hclaim.
  specialize (Hclaim "John " "j@x.com" " (work)" eq_refl eq_refl).
  vm_compute in Hclaim. discriminate.
Qed.

(** ** Commits without an email *)

Section NoEmail.
Context `{libs : GoLibs}.

(** C10. [IsValidEmail] rejects the empty string.  For a Bitbucket commit
    whose author string lacks an angle bracket, the parsed email is empty
    and no email block is printed, whatever the blacklist; signature
    blocks are still printed when a pattern matches (the sample commit of
    the author ["zsh fan"] yields a utility block). *)
Theorem no_email_without_brackets :
  IsValidEmail "" = Some false
  /\ (forall cfg blacklist repoName c,
        Contains (Bitbucket.Raw c) "<" = false
        \/ Contains (Bitbucket.Raw c) ">" = false ->
        Bitbucket.parseRawAuthor (Bitbucket.Raw c) = Some (Bitbucket.Raw c, "")
        /\ forall e,
             In e (trace (Bitbucket.ProcessCommit cfg blacklist repoName c)) ->
             BitbucketSpec.is_email e = false)
  /\ (Contains (Bitbucket.Raw Sample.bb_c2) "<" = false
      /\ In (Bitbucket.PrintUtility "zsh" "2024-01-02 03:04:05 UTC" "Dotfiles"
               "https://bitbucket.org/alice/dotfiles/commits/b2")
            (trace (@Bitbucket.ProcessCommit Sample.libs Sample.cfg []
                      "Dotfiles" Sample.bb_c2))).
Proof.
  split; [reflexivity|]. split.
  - intros cfg blacklist repoName c Hmiss.
    assert (Hparse : Bitbucket.parseRawAuthor (Bitbucket.Raw c)
                     = Some (Bitbucket.Raw c, "")).
    { apply BitbucketFacts.parseRawAuthor_plain.
      destruct Hmiss as [-> | ->]; [reflexivity|apply andb_false_r]. }
    split; [exact Hparse|]. intros e Hin.
    destruct (BitbucketSpec.is_email e) eqn:He; [|reflexivity].
    apply (BitbucketFacts.bb_ProcessCommit_email _ _ _ _ _ He) in Hin.
    apply BitbucketFacts.bb_in_email_events in Hin as (who & Hwho & [Hvalid _] & _).
    rewrite Hparse in Hwho. injection Hwho as <-. discriminate.
  - split; [reflexivity|]. vm_compute. auto.
Qed.

End NoEmail.

Lemma no_email_without_brackets_witness :
  Bitbucket.parseRawAuthor (Bitbucket.Raw Sample.bb_c2) = Some ("zsh fan", "")
  /\ Forall (fun e => BitbucketSpec.is_email e = false)
       (trace (@Bitbucket.ProcessCommit Sample.libs Sample.cfg ["noreply"]
                 "Dotfiles" Sample.bb_c2)).
Proof.
  destruct (proj1 (proj2 (@no_email_without_brackets Sample.libs))
              Sample.cfg ["noreply"] "Dotfiles" Sample.bb_c2
              (or_introl eq_refl)) as [Hparse Hnone].
  split; [exact Hparse|]. apply List.Forall_forall. exact Hnone.
Defined.

(** ** The text the signatures are matched against *)

Lemma append_assoc (s1 s2 s3 : string) :
  (s1 +:+ s2) +:+ s3 = s1 +:+ s2 +:+ s3.
Proof.
  induction s1 as [|c s1 IH]; [reflexivity|].
  change ((String c s1 +:+ s2) +:+ s3) with (String c ((s1 +:+ s2) +:+ s3)).
  now rewrite IH.
Qed.

Lemma append_empty_r (s : string) : s +:+ "" = s.
Proof.
  induction s as [|c s IH]; [reflexivity|].
  change (String c s +:+ "") with (String c (s +:+ "")). now rewrite IH.
Qed.

Lemma cons_word_app (w : string) (l1 l2 : list string) :
  cons_word w (l1 ++ l2) = cons_word w l1 ++ l2.
Proof. now destruct w. Qed.

Lemma split_words_join (s1 s2 : string) :
  split_words (s1 +:+ " " +:+ s2)
  = (fst (split_words s1), snd (split_words s1) ++ words s2).
Proof.
  induction s1 as [|c s1 IH].
  - change ("" +:+ " " +:+ s2) with (String " "%char s2).
    cbn [split_words]. unfold words. now destruct (split_words s2).
  - change (String c s1 +:+ " " +:+ s2) with (String c (s1 +:+ " " +:+ s2)).
    cbn [split_words]. rewrite IH.
    destruct (split_words s1) as [w ws]. cbn [fst snd].
    destruct (Ascii.eqb c " "); cbn [fst snd]; [|reflexivity].
    now rewrite cons_word_app.
Qed.

(** Two values joined by a space keep their tokens apart. *)
Lemma words_join (s1 s2 : string) :
  words (s1 +:+ " " +:+ s2) = words s1 ++ words s2.
Proof.
  unfold words at 1. rewrite split_words_join. cbn [fst snd].
  apply cons_word_app.
Qed.

Lemma prefix_append (sub s post : string) :
  String.prefix sub s = true -> String.prefix sub (s +:+ post) = true.
Proof.
  revert s. induction sub as [|a sub IH]; intros s.
  { intros _. now destruct (s +:+ post). }
  destruct s as [|c s]; [discriminate|].
  change (String c s +:+ post) with (String c (s +:+ post)).
  cbn [String.prefix]. destruct (ascii_dec a c); [apply IH|auto].
Qed.

Lemma Contains_here (s sub : string) :
  String.prefix sub s = true -> Contains s sub = true.
Proof. intros Hp. destruct s; cbn [Contains]; now rewrite Hp. Qed.

Lemma Contains_later (c : ascii) (s sub : string) :
  Contains s sub = true -> Contains (String c s) sub = true.
Proof. intros Hs. cbn [Contains]. rewrite Hs. now destruct (String.prefix _ _). Qed.

Lemma Contains_append_r (s sub post : string) :
  Contains s sub = true -> Contains (s +:+ post) sub = true.
Proof.
  induction s as [|c s IH]; cbn [Contains].
  - destruct (String.prefix sub "") eqn:Hp; [|discriminate]. intros _.
    apply Contains_here. now apply (prefix_append sub "" post).
  - destruct (String.prefix sub (String c s)) eqn:Hp.
    + intros _. apply Contains_here. now apply prefix_append.
    + intros Hs. change (String c s +:+ post) with (String c (s +:+ post)).
      apply Contains_later. now apply IH.
Qed.

Lemma Contains_append_l (s sub pre : string) :
  Contains s sub = true -> Contains (pre +:+ s) sub = true.
Proof.
  intros Hs. induction pre as [|c pre IH]; [exact Hs|].
  change (String c pre +:+ s) with (String c (pre +:+ s)).
  now apply Contains_later.
Qed.

(** Every expression of the sample library matches in context. *)
Lemma sample_matches_in_context (re : string) :
  @matches_in_context Sample.libs re.
Proof.
  intros pre s post Hs. cbn in *.
  apply Contains_append_l, Contains_append_r, Hs.
Qed.

(** Every expression that matches in context matches between spaces. *)
Lemma matches_in_context_between_spaces `{GoLibs} (re : Regexp) :
  matches_in_context re -> matches_between_spaces re.
Proof. intros Hctx pre s post Hs _ _. now apply Hctx. Qed.

(** The tokens of a value that stands between spaces in a text are tokens
    of the text. *)
Lemma words_between_spaces (pre s post : string) :
  (pre = "" \/ exists p, pre = p +:+ " ") ->
  (post = "" \/ exists q, post = " " +:+ q) ->
  exists before after,
    words (pre +:+ s +:+ post) = before ++ words s ++ after.
Proof.
  intros [->|[p ->]] [->|[q ->]].
  - exists [], []. now rewrite append_empty_r, app_nil_r.
  - exists [], (words q).
    change ("" +:+ s +:+ " " +:+ q) with (s +:+ " " +:+ q).
    now rewrite words_join.
  - exists (words p), []. rewrite append_empty_r, append_assoc, words_join.
    now rewrite app_nil_r.
  - exists (words p), (words q). now rewrite append_assoc, !words_join.
Qed.

(** The matcher of words matches between spaces, whatever the word. *)
Lemma sample_words_between_spaces (re : string) :
  @matches_between_spaces SampleWords.libs re.
Proof.
  intros pre s post Hs Hpre Hpost. cbn in *. unfold SampleWords.word_match in *.
  destruct (words_between_spaces pre s post Hpre Hpost)
    as (before & after & ->).
  rewrite !existsb_app, Hs. now rewrite orb_true_r.
Qed.

(** Without the spaces the values fuse, and the word is lost. *)
Lemma fusing_hides_a_signature :
  let c := Sample.bb_c2 in
  @MatchString SampleWords.libs "zsh" (Bitbucket.Raw c) = true
  /\ @MatchString SampleWords.libs "zsh"
       (Bitbucket.Message c +:+ Bitbucket.Raw c +:+ "Dotfiles") = false
  /\ @MatchString SampleWords.libs "zsh" (Bitbucket.commitText c "Dotfiles")
     = true
  /\ ~ @matches_in_context SampleWords.libs "zsh".
Proof.
  repeat split; try reflexivity.
  intros Hctx. specialize (Hctx "a" "zsh" "" eq_refl). discriminate.
Qed.

Section ComposedText.
Context `{libs : GoLibs} {gh : GitHub.World}.

(** An expression that matches between spaces and matches one of the
    three values matches the text composed by the Bitbucket scanner. *)
Lemma commitText_detects (re : Regexp) (c : Bitbucket.BitbucketCommit)
  (repoName : string) :
  matches_between_spaces re ->
  MatchString re (Bitbucket.Message c) = true
  \/ MatchString re (Bitbucket.Raw c) = true
  \/ MatchString re repoName = true ->
  MatchString re (Bitbucket.commitText c repoName) = true.
Proof.
  intros Hctx Hfield. unfold Bitbucket.commitText.
  destruct Hfield as [Hm|[Hr|Hn]].
  - apply (Hctx "" _ (" " +:+ Bitbucket.Raw c +:+ " " +:+ repoName) Hm);
      eauto.
  - rewrite <- (append_assoc (Bitbucket.Message c) " ").
    apply (Hctx (Bitbucket.Message c +:+ " ") _ (" " +:+ repoName) Hr); eauto.
  - replace (Bitbucket.Message c +:+ " " +:+ Bitbucket.Raw c +:+ " " +:+ repoName)
      with (((Bitbucket.Message c +:+ " " +:+ Bitbucket.Raw c) +:+ " ")
            +:+ repoName +:+ "").
    + apply (Hctx _ _ "" Hn); eauto.
    + now rewrite append_empty_r, !append_assoc.
Qed.

(** C4, as the code has it.  The Bitbucket scanner matches the signatures
    against the message, the raw author string and the name of the
    repository joined by single spaces.  The spaces keep the three values
    apart: the tokens of the text are those of the values, and an
    expression that matches one of the values, and matches it too where
    the value stands between spaces, yields its block.  The GitHub
    scanner matches the signatures against the JSON encoding of the
    commit item. *)
Theorem signature_text (cfg : Config) (blacklist : list Regexp) :
  Forall compiles (OperatingSystems cfg) ->
  Forall compiles (Utilities cfg) ->
  (forall repoName c,
      let text :=
        Bitbucket.Message c +:+ " " +:+ Bitbucket.Raw c +:+ " " +:+ repoName in
      trace (Bitbucket.ProcessCommit cfg blacklist repoName c)
      = BitbucketSpec.email_events blacklist repoName c
        ++ map (BitbucketSpec.os_event repoName c)
             (matched text (OperatingSystems cfg))
        ++ map (BitbucketSpec.utility_event repoName c)
             (matched text (Utilities cfg))
      /\ words text
         = words (Bitbucket.Message c) ++ words (Bitbucket.Raw c)
           ++ words repoName
      /\ (forall p re,
            regexp_Compile (Regex p) = Some re ->
            matches_between_spaces re ->
            MatchString re (Bitbucket.Message c) = true
            \/ MatchString re (Bitbucket.Raw c) = true
            \/ MatchString re repoName = true ->
            (In p (OperatingSystems cfg) ->
             In (BitbucketSpec.os_event repoName c (ID p))
                (trace (Bitbucket.ProcessCommit cfg blacklist repoName c)))
            /\ (In p (Utilities cfg) ->
                In (BitbucketSpec.utility_event repoName c (ID p))
                   (trace (Bitbucket.ProcessCommit cfg blacklist repoName c)))))
  /\ (forall c,
        trace (GitHub.ProcessCommit cfg blacklist c)
        = GitHubSpec.email_events blacklist c
          ++ map (GitHubSpec.os_event c)
               (matched (GitHub.json_Marshal c) (OperatingSystems cfg))
          ++ map (GitHubSpec.utility_event c)
               (matched (GitHub.json_Marshal c) (Utilities cfg))).
Proof.
  intros Hos Hut. unfold trace. split.
  - intros repoName c. cbn zeta.
    rewrite BitbucketFacts.bb_ProcessCommit_ok by assumption. cbn [fst].
    split; [reflexivity|]. split.
    + now rewrite !words_join.
    + intros p re Hre Hctx Hfield.
      pose proof (commitText_detects re c repoName Hctx Hfield) as Hm.
      unfold BitbucketSpec.commit_events. split; intros Hin.
      * apply in_or_app. right. apply in_or_app. left.
        apply in_map, in_matched. eauto 10.
      * apply in_or_app. right. apply in_or_app. right.
        apply in_map, in_matched. eauto 10.
  - intros c. now rewrite GitHubFacts.gh_ProcessCommit_ok.
Qed.

End ComposedText.

(** The author ["zsh fan"] is found by Bitbucket's scanner, also by the
    matcher of words, for which the spaces count. *)
Lemma signature_text_witness :
  In (Bitbucket.PrintUtility "zsh" "2024-01-02 03:04:05 UTC" "Dotfiles"
        "https://bitbucket.org/alice/dotfiles/commits/b2")
     (trace (@Bitbucket.ProcessCommit SampleWords.libs Sample.cfg []
               "Dotfiles" Sample.bb_c2)).
Proof.
  assert (Hos : Forall (@compiles SampleWords.libs)
                  (OperatingSystems Sample.cfg))
    by (repeat constructor; eexists; reflexivity).
  assert (Hut : Forall (@compiles SampleWords.libs) (Utilities Sample.cfg))
    by (repeat constructor; eexists; reflexivity).
  destruct (@signature_text SampleWords.libs SampleWords.github Sample.cfg []
              Hos Hut) as (Hbb & _).
  destruct (Hbb "Dotfiles" Sample.bb_c2) as (_ & _ & Hdetect).
  apply (Hdetect {| ID := "zsh"; Regex := "zsh" |} "zsh").
  - reflexivity.
  - apply sample_words_between_spaces.
  - right. left. reflexivity.
  - left. reflexivity.
Defined.

(** The same author is not found by GitLab's scanner, which reads the
    title only. *)
Lemma identity_is_not_searched : ~ identity_is_searched.
Proof.
  intros Hclaim.
  destruct sample_cfg_compiles as [Hos Hut].
  specialize (Hclaim Sample.libs Sample.cfg [] "https://gitlab.com/alice/dotfiles"
                Sample.gl_c2 {| ID := "zsh"; Regex := "zsh" |} "zsh" Hos Hut
                (or_introl eq_refl) eq_refl (sample_matches_in_context "zsh")
                eq_refl).
  vm_compute in Hclaim. exact Hclaim.
Qed.

(** Nor is every expression that matches the message of a commit found
    by Bitbucket's scanner: [typo$] matches the message ["Fix typo"] and
    not the text composed from it, which goes on with the author. *)
Lemma signature_is_not_always_detected :
  ~ identity_is_searched /\ ~ every_expression_is_detected.
Proof.
  split; [exact identity_is_not_searched|].
  intros Hclaim.
  specialize (Hclaim SampleWords.anchored sample_anchored_cfg []
                "Dotfiles" Sample.bb_c2 {| ID := "typo"; Regex := "typo$" |}
                "typo").
  assert (Hin : In (@BitbucketSpec.utility_event SampleWords.anchored
                      "Dotfiles" Sample.bb_c2 "typo")
                  (trace (@Bitbucket.ProcessCommit SampleWords.anchored
                            sample_anchored_cfg [] "Dotfiles" Sample.bb_c2))).
  { apply Hclaim; try reflexivity.
    - constructor.
    - repeat constructor. eexists. reflexivity.
    - now left. }
  vm_compute in Hin. exact Hin.
Qed.

(** ** Reversal in place *)

Lemma two_ends {A} (l : list A) :
  l = [] \/ (exists x, l = [x]) \/ exists x mid y, l = x :: mid ++ [y].
Proof.
  destruct l as [|x l]; [now left|]. right.
  destruct l as [|z l] using rev_ind; [left; eauto|].
  right. eauto.
Qed.

(** [a[i], a[j] = a[j], a[i]] on the two ends of a segment. *)
Lemma swap_ends {A} (front mid back : list A) (x y : A) :
  <[(length front + S (length mid))%nat := x]>
    (<[length front := y]> (front ++ x :: mid ++ y :: back))
  = front ++ y :: mid ++ x :: back.
Proof.
  rewrite (insert_app_r_alt front _ (length front)) by lia.
  rewrite Nat.sub_diag.
  change (<[0%nat:=y]> (x :: mid ++ y :: back)) with (y :: mid ++ y :: back).
  rewrite insert_app_r_alt by lia.
  replace (length front + S (length mid) - length front)%nat
    with (S (length mid)) by lia.
  change (<[S (length mid):=x]> (y :: mid ++ y :: back))
    with (y :: <[length mid:=x]> (mid ++ y :: back)).
  rewrite insert_app_r_alt by lia. rewrite Nat.sub_diag. reflexivity.
Qed.

(** The loop between [i] and [j] reverses the part of the slice they
    enclose and leaves the rest alone. *)
Lemma reverse_loop_segment {E A} (fuel : nat) :
  forall (mid front back : list A),
    (length mid < fuel)%nat ->
    reverse_loop (E := E) fuel (Z.of_nat (length front))
      (Z.of_nat (length front + length mid) - 1) (front ++ mid ++ back)
    = mret (front ++ rev mid ++ back).
Proof.
  induction fuel as [|fuel IH]; intros mid front back Hfuel; [lia|].
  cbn [reverse_loop].
  destruct (two_ends mid) as [->|[[x ->]|(x & mid' & y & ->)]].
  - cbn [length]. destruct (Z.ltb_spec (Z.of_nat (length front))
                              (Z.of_nat (length front + 0) - 1)); [lia|].
    reflexivity.
  - cbn [length]. destruct (Z.ltb_spec (Z.of_nat (length front))
                              (Z.of_nat (length front + 1) - 1)); [lia|].
    reflexivity.
  - cbn [length] in *. rewrite length_app in *. cbn [length] in *.
    destruct (Z.ltb_spec (Z.of_nat (length front))
                (Z.of_nat (length front + S (length mid' + 1)) - 1)); [|lia].
    rewrite Nat2Z.id.
    replace (Z.to_nat (Z.of_nat (length front + S (length mid' + 1)) - 1))
      with (length front + S (length mid'))%nat by lia.
    replace (front ++ (x :: mid' ++ [y]) ++ back)
      with (front ++ x :: mid' ++ y :: back)
      by (cbn [app]; now rewrite <- app_assoc).
    assert (Hi : (front ++ x :: mid' ++ y :: back) !! length front = Some x).
    { now apply list_lookup_middle. }
    assert (Hj : (front ++ x :: mid' ++ y :: back)
                   !! (length front + S (length mid'))%nat = Some y).
    { replace (front ++ x :: mid' ++ y :: back)
        with ((front ++ x :: mid') ++ y :: back)
        by (now rewrite <- app_assoc).
      apply list_lookup_middle. rewrite length_app. reflexivity. }
    rewrite Hi, (bind_or_panic_some _ x) by reflexivity.
    rewrite Hj, (bind_or_panic_some _ y) by reflexivity.
    rewrite swap_ends.
    replace (front ++ y :: mid' ++ x :: back)
      with ((front ++ [y]) ++ mid' ++ (x :: back))
      by (now rewrite <- app_assoc).
    replace (Z.of_nat (length front) + 1) with (Z.of_nat (length (front ++ [y])))
      by (rewrite length_app; cbn [length]; lia).
    replace (Z.of_nat (length front + S (length mid' + 1)) - 1 - 1)
      with (Z.of_nat (length (front ++ [y]) + length mid') - 1)
      by (rewrite length_app; cbn [length]; lia).
    rewrite IH by lia. f_equal.
    cbn [rev]. rewrite rev_app_distr. cbn [rev app].
    now rewrite <- !app_assoc.
Qed.

Lemma reverse_in_place_rev {E A} (a : list A) :
  reverse_in_place (E := E) a = mret (rev a).
Proof.
  unfold reverse_in_place.
  pose proof (reverse_loop_segment (E := E) (S (length a)) a [] []) as Hloop.
  cbn [length app Nat.add] in Hloop. rewrite !app_nil_r in Hloop.
  apply Hloop. lia.
Qed.

(** ** Pagination *)

Module GitLabPages.
Import GitLab GitLabSpec.

Section Pages.
Context `{World}.
Variables (gitlabToken : string) (projectID : Z).

Lemma gl_page_makeRequest_ok (url : string) :
  http_NewRequest url = None ->
  makeRequest gitlabToken url
  = ([HttpDo (request gitlabToken url)],
     Done (client_Do (request gitlabToken url))).
Proof. unfold makeRequest. now intros ->. Qed.

(** One round of the paging loop on a page the server delivers. *)
Lemma gl_page_fetch_step (fuel : nat) (page : Z) (allCommits commits : list GitLabCommit) :
  commits_page gitlabToken projectID page = Some commits ->
  fetchAllCommits (S fuel) gitlabToken projectID page allCommits
  = let rest :=
      match commits with
      | [] => mret (Some allCommits)
      | _ :: _ =>
          fetchAllCommits fuel gitlabToken projectID (page + 1)
            (allCommits ++ commits)
      end in
    (HttpDo (request gitlabToken (commitsURL projectID page)) :: fst rest,
     snd rest).
Proof.
  unfold commits_page. cbn [fetchAllCommits].
  destruct (http_NewRequest _) eqn:Hnew; [discriminate|].
  rewrite (gl_page_makeRequest_ok _ Hnew), bind_pair.
  destruct (client_Do _) as [[body status]|]; [|discriminate].
  destruct (status =? 200) eqn:Hst; [|discriminate].
  destruct (json_Unmarshal_Commits body) as [l|] eqn:Hl; [|discriminate].
  intros [= ->]. cbn [negb]. now destruct commits.
Qed.

Lemma gl_page_fetchAllCommits_from (pages : list (list GitLabCommit)) :
  forall (fuel j : nat) (allCommits : list GitLabCommit),
    (forall k page,
        pages !! k = Some page ->
        page <> []
        /\ commits_page gitlabToken projectID (Z.of_nat (j + k) + 1) = Some page) ->
    commits_page gitlabToken projectID (Z.of_nat (j + length pages) + 1)
    = Some [] ->
    (length pages < fuel)%nat ->
    fetchAllCommits fuel gitlabToken projectID (Z.of_nat j + 1) allCommits
    = (page_requests gitlabToken projectID (S j) (S (length pages)),
       Done (Some (allCommits ++ concat pages))).
Proof.
  induction pages as [|page pages IH]; intros fuel j allCommits Hpages Hlast Hfuel;
    (destruct fuel as [|fuel]; [cbn [length] in Hfuel; lia|]).
  - cbn [length] in Hlast. rewrite Nat.add_0_r in Hlast.
    rewrite (gl_page_fetch_step _ _ _ _ Hlast). cbn. rewrite app_nil_r.
    unfold page_requests. cbn [seq map].
    now replace (Z.of_nat (S j)) with (Z.of_nat j + 1) by lia.
  - destruct (Hpages 0%nat page eq_refl) as [Hne Hpage].
    rewrite Nat.add_0_r in Hpage.
    rewrite (gl_page_fetch_step _ _ _ _ Hpage). cbn zeta.
    destruct page as [|c page]; [congruence|].
    replace (Z.of_nat j + 1 + 1) with (Z.of_nat (S j) + 1) by lia.
    rewrite (IH fuel (S j)).
    + cbn [fst snd length concat]. unfold page_requests.
      cbn [seq map]. rewrite <- app_assoc.
      now replace (Z.of_nat (S j)) with (Z.of_nat j + 1) by lia.
    + intros k p Hk. destruct (Hpages (S k) p Hk) as [Hp Hat].
      split; [exact Hp|].
      now replace (S j + k)%nat with (j + S k)%nat by lia.
    + cbn [length] in Hlast.
      now replace (S j + length pages)%nat with (j + S (length pages))%nat by lia.
    + cbn [length] in Hfuel. lia.
Qed.

Lemma fetchAllCommits_pages (fuel : nat) (pages : list (list GitLabCommit)) :
  serves_commits gitlabToken projectID pages ->
  (length pages < fuel)%nat ->
  fetchAllCommits fuel gitlabToken projectID 1 []
  = (page_requests gitlabToken projectID 1 (S (length pages)),
     Done (Some (concat pages))).
Proof.
  intros [Hpages Hlast] Hfuel.
  apply (gl_page_fetchAllCommits_from pages fuel 0 []); assumption.
Qed.

End Pages.

Section Scan.
Context `{World}.

(** The two directions of [ScanProjectCommits] on a project whose
    commits the server delivers. *)
Lemma ScanProjectCommits_pages (fuel : nat) (gitlabToken : string)
  (project : GitLabProject) (cfg : Config) (blacklist : list Regexp)
  (pages : list (list GitLabCommit)) (ascending : bool) :
  serves_commits gitlabToken (p_ID project) pages ->
  (length pages < fuel)%nat ->
  ScanProjectCommits fuel gitlabToken project cfg blacklist ascending
  = let processed :=
      ProcessCommits (if ascending then rev (concat pages) else concat pages)
        cfg blacklist (WebURL project) in
    (page_requests gitlabToken (p_ID project) 1 (S (length pages))
     ++ fst processed, snd processed).
Proof.
  intros Hserves Hfuel. unfold ScanProjectCommits.
  rewrite (fetchAllCommits_pages _ _ _ _ Hserves Hfuel), bind_pair.
  destruct ascending.
  - now rewrite reverse_in_place_rev, bind_ret.
  - now rewrite bind_ret.
Qed.

End Scan.
End GitLabPages.

Module BitbucketPages.
Import Bitbucket BitbucketSpec.

Section Pages.
Context `{World}.

Lemma bb_page_makeRequest_ok (url : string) :
  http_NewRequest url = None ->
  makeRequest url = ([HttpDo (request url)], Done (client_Do (request url))).
Proof. unfold makeRequest. now intros ->. Qed.

(** One round of the cursor loop on a page the server delivers. *)
Lemma bb_page_fetch_step (fuel : nat) (url : string) (page : BitbucketCommitPage)
  (allCommits : list BitbucketCommit) :
  url <> "" ->
  commits_page url = Some page ->
  fetchAllCommits (S fuel) url allCommits
  = let rest := fetchAllCommits fuel (Next page) (allCommits ++ Values page) in
    (HttpDo (request url) :: fst rest, snd rest).
Proof.
  unfold commits_page. cbn [fetchAllCommits]. intros Hurl.
  destruct (String.eqb_spec url ""); [congruence|].
  destruct (http_NewRequest _) eqn:Hnew; [discriminate|].
  rewrite (bb_page_makeRequest_ok _ Hnew), bind_pair.
  destruct (client_Do _) as [[body status]|]; [|discriminate].
  destruct (status =? 200) eqn:Hst; [|discriminate].
  destruct (json_Unmarshal_CommitPage body) as [l|] eqn:Hl; [|discriminate].
  now intros [= ->].
Qed.

Lemma bb_page_fetchAllCommits_from (pages : list BitbucketCommitPage) :
  forall (fuel : nat) (url : string) (allCommits : list BitbucketCommit),
    serves_commits url pages ->
    (length pages < fuel)%nat ->
    fetchAllCommits fuel url allCommits
    = (cursor_requests url pages,
       Done (Some (allCommits ++ concat (map Values pages)))).
Proof.
  induction pages as [|page pages IH]; intros fuel url allCommits Hserves Hfuel;
    (destruct fuel as [|fuel]; [cbn [length] in Hfuel; lia|]).
  - cbn in Hserves. subst url. cbn. now rewrite app_nil_r.
  - destruct Hserves as (Hurl & Hpage & Hrest).
    rewrite (bb_page_fetch_step _ _ _ _ Hurl Hpage). cbn zeta.
    rewrite (IH fuel _ _ Hrest) by (cbn [length] in Hfuel; lia).
    cbn [fst snd cursor_requests map concat]. now rewrite <- app_assoc.
Qed.

(** The two directions of [ScanRepoCommits] on a repository whose commits
    the server delivers. *)
Lemma ScanRepoCommits_pages (fuel : nat) (username repoSlug repoName : string)
  (cfg : Config) (blacklist : list Regexp) (pages : list BitbucketCommitPage)
  (ascending : bool) :
  serves_commits (commitsURL username repoSlug) pages ->
  (length pages < fuel)%nat ->
  ScanRepoCommits fuel username repoSlug repoName cfg blacklist ascending
  = let all := concat (map Values pages) in
    let processed :=
      ProcessCommits (if ascending then rev all else all) cfg blacklist repoName in
    (cursor_requests (commitsURL username repoSlug) pages ++ fst processed,
     snd processed).
Proof.
  intros Hserves Hfuel. unfold ScanRepoCommits.
  rewrite (bb_page_fetchAllCommits_from _ _ _ [] Hserves Hfuel), bind_pair.
  destruct ascending.
  - now rewrite reverse_in_place_rev, bind_ret.
  - now rewrite bind_ret.
Qed.

End Pages.
End BitbucketPages.

Module GitHubPages.
Import GitHub GitHubSpec.

Section Pages.
Context `{World}.
Variables (githubToken repoFullName : string) (cfg : Config)
  (blacklist : list Regexp).
Hypothesis Hos : Forall compiles (OperatingSystems cfg).
Hypothesis Hut : Forall compiles (Utilities cfg).

Lemma gh_page_makeRequest_ok (url : string) :
  http_NewRequest url = None ->
  makeRequest githubToken url
  = ([HttpDo (request githubToken url)],
     Done (client_Do (request githubToken url))).
Proof. unfold makeRequest. now intros ->. Qed.

(** One round of the paging loop on a page the server delivers. *)
Lemma scan_step (fuel : nat) (page : Z) (commits : list CommitItem) :
  commits_page githubToken repoFullName page = Some commits ->
  ScanRepoCommits_loop (S fuel) githubToken repoFullName cfg blacklist page
  = let rest :=
      match commits with
      | [] => mret tt
      | _ :: _ =>
          ScanRepoCommits_loop fuel githubToken repoFullName cfg blacklist
            (page + 1)
      end in
    (HttpDo (request githubToken (commitsURL repoFullName page))
     :: concat (map (commit_events cfg blacklist) commits) ++ fst rest,
     snd rest).
Proof.
  unfold commits_page. cbn [ScanRepoCommits_loop].
  destruct (http_NewRequest _) eqn:Hnew; [discriminate|].
  rewrite (gh_page_makeRequest_ok _ Hnew), bind_pair.
  destruct (client_Do _) as [[body status]|]; [|discriminate].
  destruct (status =? 200) eqn:Hst; [|discriminate].
  destruct (json_Unmarshal_Commits body) as [l|] eqn:Hl; [|discriminate].
  intros [= ->]. cbn [negb]. destruct commits as [|c commits]; [reflexivity|].
  rewrite GitHubFacts.gh_ProcessCommits_ok, bind_pair by assumption. reflexivity.
Qed.

Lemma ScanRepoCommits_from (pages : list (list CommitItem)) :
  forall (fuel j : nat),
    (forall k page,
        pages !! k = Some page ->
        page <> []
        /\ commits_page githubToken repoFullName (Z.of_nat (j + k) + 1)
           = Some page) ->
    commits_page githubToken repoFullName (Z.of_nat (j + length pages) + 1)
    = Some [] ->
    (length pages < fuel)%nat ->
    ScanRepoCommits_loop fuel githubToken repoFullName cfg blacklist
      (Z.of_nat j + 1)
    = (paged_trace githubToken repoFullName cfg blacklist (S j) pages, Done tt).
Proof.
  induction pages as [|page pages IH]; intros fuel j Hpages Hlast Hfuel;
    (destruct fuel as [|fuel]; [cbn [length] in Hfuel; lia|]).
  - cbn [length] in Hlast. rewrite Nat.add_0_r in Hlast.
    rewrite (scan_step _ _ _ Hlast). cbn. unfold page_request.
    now replace (Z.of_nat (S j)) with (Z.of_nat j + 1) by lia.
  - destruct (Hpages 0%nat page eq_refl) as [Hne Hpage].
    rewrite Nat.add_0_r in Hpage.
    rewrite (scan_step _ _ _ Hpage). cbn zeta.
    destruct page as [|c page]; [congruence|].
    replace (Z.of_nat j + 1 + 1) with (Z.of_nat (S j) + 1) by lia.
    rewrite (IH fuel (S j)).
    + cbn [fst snd paged_trace]. unfold page_request.
      now replace (Z.of_nat (S j)) with (Z.of_nat j + 1) by lia.
    + intros k p Hk. destruct (Hpages (S k) p Hk) as [Hp Hat].
      split; [exact Hp|].
      now replace (S j + k)%nat with (j + S k)%nat by lia.
    + cbn [length] in Hlast.
      now replace (S j + length pages)%nat with (j + S (length pages))%nat by lia.
    + cbn [length] in Hfuel. lia.
Qed.

Lemma commit_events_not_requests (commits : list CommitItem) :
  Forall (fun e => is_request e = false)
    (concat (map (commit_events cfg blacklist) commits)).
Proof.
  apply List.Forall_forall. intros e He.
  apply in_concat in He as (l & Hl & He).
  apply in_map_iff in Hl as (c & <- & _).
  apply (GitHubFacts.gh_ProcessCommit_no_request cfg blacklist c).
  now rewrite GitHubFacts.gh_ProcessCommit_ok.
Qed.

(** Without the requests, the trace of the pages is the trace of their
    concatenation. *)
Lemma paged_trace_blocks (pages : list (list CommitItem)) (first : nat) :
  List.filter (fun e => negb (is_request e))
    (paged_trace githubToken repoFullName cfg blacklist first pages)
  = concat (map (commit_events cfg blacklist) (concat pages)).
Proof.
  revert first. induction pages as [|page pages IH]; intros first;
    [reflexivity|].
  cbn [paged_trace concat List.filter is_request page_request negb].
  rewrite List.filter_app, IH, map_app, concat_app. f_equal.
  apply filter_keep_all.
  eapply List.Forall_impl; [|apply commit_events_not_requests].
  now intros e ->.
Qed.

Lemma paged_trace_requests (pages : list (list CommitItem)) (first : nat) :
  List.filter is_request
    (paged_trace githubToken repoFullName cfg blacklist first pages)
  = map (page_request githubToken repoFullName) (seq first (S (length pages))).
Proof.
  revert first. induction pages as [|page pages IH]; intros first;
    [reflexivity|].
  cbn [paged_trace List.filter is_request page_request].
  fold (page_request githubToken repoFullName first).
  rewrite List.filter_app, IH.
  rewrite (filter_keep_none _ _ (commit_events_not_requests page)).
  reflexivity.
Qed.

End Pages.
End GitHubPages.

Lemma concat_non_empty {A} (pages : list (list A)) :
  concat pages = concat (List.filter non_empty pages).
Proof.
  induction pages as [|[|x page] pages IH]; [reflexivity|exact IH|].
  cbn [List.filter non_empty concat]. now rewrite IH.
Qed.

Section Pagination.
Context `{libs : GoLibs} {gh : GitHub.World} {gl : GitLab.World}
  {bb : Bitbucket.World}.

(** C5. When the server delivers the commits of a project in pages and
    the loop has fuel for them, each scanner requests the pages in order
    and works on the concatenation of the non-empty pages, in the order
    of the requests: GitLab stops at the first empty page, Bitbucket when
    a page has no cursor, GitHub passes each page to the pipeline as it
    arrives.  An ascending scan of GitLab or Bitbucket, which cannot ask
    the server for an order, processes exactly the reverse of the list a
    descending scan processes: the loop that swaps the ends of the buffer
    computes its reverse. *)
Theorem pagination_concatenates (fuel : nat) (cfg : Config)
  (blacklist : list Regexp) :
  (forall gitlabToken project pages,
      GitLabSpec.serves_commits gitlabToken (GitLab.p_ID project) pages ->
      (length pages < fuel)%nat ->
      let requests :=
        GitLabSpec.page_requests gitlabToken (GitLab.p_ID project) 1
          (S (length pages)) in
      let scan := GitLab.ScanProjectCommits fuel gitlabToken project cfg blacklist in
      let process commits :=
        GitLab.ProcessCommits commits cfg blacklist (GitLab.WebURL project) in
      GitLab.fetchAllCommits fuel gitlabToken (GitLab.p_ID project) 1 []
      = (requests, Done (Some (concat pages)))
      /\ concat pages = concat (List.filter non_empty pages)
      /\ scan false
         = (requests ++ trace (process (concat pages)),
            outcome (process (concat pages)))
      /\ scan true
         = (requests ++ trace (process (rev (concat pages))),
            outcome (process (rev (concat pages)))))
  /\ (forall username repoSlug repoName pages,
        BitbucketSpec.serves_commits (Bitbucket.commitsURL username repoSlug)
          pages ->
        (length pages < fuel)%nat ->
        let requests :=
          BitbucketSpec.cursor_requests (Bitbucket.commitsURL username repoSlug)
            pages in
        let all := concat (map Bitbucket.Values pages) in
        let scan :=
          Bitbucket.ScanRepoCommits fuel username repoSlug repoName cfg
            blacklist in
        let process commits :=
          Bitbucket.ProcessCommits commits cfg blacklist repoName in
        Bitbucket.fetchAllCommits fuel (Bitbucket.commitsURL username repoSlug) []
        = (requests, Done (Some all))
        /\ all = concat (List.filter non_empty (map Bitbucket.Values pages))
        /\ scan false = (requests ++ trace (process all), outcome (process all))
        /\ scan true
           = (requests ++ trace (process (rev all)),
              outcome (process (rev all))))
  /\ (forall githubToken repoFullName pages,
        Forall compiles (OperatingSystems cfg) ->
        Forall compiles (Utilities cfg) ->
        GitHubSpec.serves_commits githubToken repoFullName pages ->
        (length pages < fuel)%nat ->
        let scan :=
          GitHub.ScanRepoCommits fuel githubToken repoFullName cfg blacklist in
        outcome scan = Done tt
        /\ List.filter GitHubSpec.is_request (trace scan)
           = map (GitHubSpec.page_request githubToken repoFullName)
               (seq 1 (S (length pages)))
        /\ List.filter (fun e => negb (GitHubSpec.is_request e)) (trace scan)
           = trace (GitHub.ProcessCommits (concat pages) cfg blacklist)
        /\ concat pages = concat (List.filter non_empty pages))
  /\ (forall (A : Type) (a : list A),
        reverse_in_place (E := Empty_set) a = ([], Done (rev a))).
Proof.
  unfold trace, outcome. repeat apply conj.
  - intros gitlabToken project pages Hserves Hfuel. cbn zeta.
    split; [now apply GitLabPages.fetchAllCommits_pages|].
    split; [apply concat_non_empty|].
    split.
    + now rewrite (GitLabPages.ScanProjectCommits_pages _ _ _ _ _ pages false).
    + now rewrite (GitLabPages.ScanProjectCommits_pages _ _ _ _ _ pages true).
  - intros username repoSlug repoName pages Hserves Hfuel. cbn zeta.
    split; [now apply (BitbucketPages.bb_page_fetchAllCommits_from pages fuel _ [])|].
    split; [apply concat_non_empty|].
    split.
    + now rewrite (BitbucketPages.ScanRepoCommits_pages _ _ _ _ _ _ pages false).
    + now rewrite (BitbucketPages.ScanRepoCommits_pages _ _ _ _ _ _ pages true).
  - intros githubToken repoFullName pages Hos Hut [Hpages Hlast] Hfuel. cbn zeta.
    unfold GitHub.ScanRepoCommits.
    rewrite (GitHubPages.ScanRepoCommits_from githubToken repoFullName cfg
               blacklist Hos Hut pages fuel 0) by assumption.
    cbn [fst snd]. split; [reflexivity|].
    split; [now apply GitHubPages.paged_trace_requests|].
    split; [|apply concat_non_empty].
    rewrite GitHubPages.paged_trace_blocks by assumption.
    now rewrite GitHubFacts.gh_ProcessCommits_ok.
  - intros A a. apply reverse_in_place_rev.
Qed.

End Pagination.

Lemma sample_gitlab_serves :
  @GitLabSpec.serves_commits Sample.libs Sample.gitlab "" 11
    [[Sample.gl_c3; Sample.gl_c2]; [Sample.gl_c1]].
Proof.
  split; [|vm_compute; reflexivity].
  intros [|[|k]] page Hk; try discriminate; injection Hk as <-;
    (split; [discriminate|vm_compute; reflexivity]).
Qed.

Lemma sample_github_serves :
  @GitHubSpec.serves_commits Sample.libs Sample.github "" "alice/dotfiles"
    [[Sample.gh_c3; Sample.gh_c2]; [Sample.gh_c1]].
Proof.
  split; [|vm_compute; reflexivity].
  intros [|[|k]] page Hk; try discriminate; injection Hk as <-;
    (split; [discriminate|vm_compute; reflexivity]).
Qed.

Lemma sample_bitbucket_serves :
  @BitbucketSpec.serves_commits Sample.libs Sample.bitbucket
    (Bitbucket.commitsURL "alice" "dotfiles") Sample.bb_pages.
Proof.
  cbn [BitbucketSpec.serves_commits Sample.bb_pages Bitbucket.Next].
  repeat split; try discriminate; vm_compute; reflexivity.
Qed.

(** Three pages on each server; Bitbucket's second page is empty. *)
Lemma pagination_concatenates_witness :
  outcome (@GitLab.fetchAllCommits Sample.libs Sample.gitlab 5 "" 11 1 [])
  = Done (Some [Sample.gl_c3; Sample.gl_c2; Sample.gl_c1])
  /\ outcome (@Bitbucket.fetchAllCommits Sample.libs Sample.bitbucket 5
                (Bitbucket.commitsURL "alice" "dotfiles") [])
     = Done (Some [Sample.bb_c3; Sample.bb_c2; Sample.bb_c1])
  /\ List.filter (fun e => negb (GitHubSpec.is_request e))
       (trace (@GitHub.ScanRepoCommits Sample.libs Sample.github 5 ""
                 "alice/dotfiles" Sample.cfg []))
     = trace (@GitHub.ProcessCommits Sample.libs Sample.github
                [Sample.gh_c3; Sample.gh_c2; Sample.gh_c1] Sample.cfg []).
Proof.
  destruct (@pagination_concatenates Sample.libs Sample.github Sample.gitlab
              Sample.bitbucket 5 Sample.cfg [])
    as (Hgl & Hbb & Hgh & _).
  destruct sample_cfg_compiles as [Hos Hut].
  split; [|split].
  - destruct (Hgl "" Sample.gl_own _ sample_gitlab_serves) as (Heq & _);
      [cbn; lia|]. exact (f_equal snd Heq).
  - destruct (Hbb "alice" "dotfiles" "Dotfiles" _ sample_bitbucket_serves)
      as (Heq & _); [cbn; lia|]. exact (f_equal snd Heq).
  - destruct (Hgh "" "alice/dotfiles" _ Hos Hut sample_github_serves)
      as (_ & _ & Heq & _); [cbn; lia|]. exact Heq.
Defined.

(** ** The result cap of the search endpoint *)

Module GitHubSearch.
Import GitHub GitHubSpec.

Section Search.
Context `{World}.

Lemma gh_search_makeRequest_ok (githubToken url : string) :
  http_NewRequest url = None ->
  makeRequest githubToken url
  = ([HttpDo (request githubToken url)],
     Done (client_Do (request githubToken url))).
Proof. unfold makeRequest. now intros ->. Qed.

(** A round of the search loop on a response whose status is not 200. *)
Lemma search_step_not_200 (fuel : nat) (githubToken username : string)
  (cfg : Config) (blacklist : list Regexp) (order : string) (page : Z)
  (body : string) (status : Z) :
  http_NewRequest (searchURL username order page) = None ->
  client_Do (request githubToken (searchURL username order page))
  = Ok (body, status) ->
  status <> 200 ->
  ScanGlobalCommits_loop (S fuel) githubToken username cfg blacklist order page
  = ([HttpDo (request githubToken (searchURL username order page));
      if status =? 422 then PrintSearchLimit else PrintAPIError status body],
     Done tt).
Proof.
  intros Hnew Hdo Hst. cbn [ScanGlobalCommits_loop].
  rewrite (gh_search_makeRequest_ok _ _ Hnew), bind_pair, Hdo.
  destruct (Z.eqb_spec status 200); [contradiction|]. cbn [negb].
  now destruct (status =? 422).
Qed.

(** [main] is made of its three passes. *)
Lemma main_passes (fuel : nat) (args : list string)
  (githubToken username : string) (cfg : Config) (blacklist : list Regexp) :
  loaded args githubToken username cfg blacklist ->
  main fuel args
  = (for_range (preamble githubToken username) emit;;
     ascending_pass fuel githubToken username cfg blacklist;;
     descending_pass fuel githubToken username cfg blacklist;;
     per_repo_pass fuel githubToken username cfg blacklist).
Proof.
  intros (Hargs & Htoken & Hcfg & Hbl). unfold main.
  rewrite Hargs, Htoken, Hcfg, Hbl.
  rewrite (bind_or_panic_some _ _ _ eq_refl). cbn [fst snd].
  unfold ascending_pass, descending_pass, per_repo_pass, preamble.
  set (asc := ScanGlobalCommits fuel githubToken username cfg blacklist true).
  set (desc := ScanGlobalCommits fuel githubToken username cfg blacklist false).
  set (repos := GetUserRepos fuel githubToken username ≫= _).
  cbn [for_range].
  unfold mbind, Run_bind, run_bind, emit, mret, Run_ret. cbn [fst snd app].
  destruct asc as [ta [[]| | |]]; cbn [fst snd app]; try reflexivity.
  destruct desc as [tb [[]| | |]]; cbn [fst snd app]; reflexivity.
Qed.

End Search.
End GitHubSearch.

Lemma for_range_outcome {E A} (xs : list A) (body : A -> Run E unit) :
  (forall x, snd (body x) = Done tt \/ snd (body x) = Panic) ->
  snd (for_range xs body) = Done tt \/ snd (for_range xs body) = Panic.
Proof.
  intros Hbody. induction xs as [|x xs IH]; [now left|].
  cbn [for_range]. unfold mbind, Run_bind, run_bind.
  destruct (Hbody x) as [-> | ->]; [exact IH|now right].
Qed.

Section SearchCap.
Context `{libs : GoLibs} {gh : GitHub.World}.

Lemma github_ProcessCommits_outcome (items : list GitHub.CommitItem)
  (cfg : Config) (blacklist : list Regexp) :
  snd (GitHub.ProcessCommits items cfg blacklist) = Done tt
  \/ snd (GitHub.ProcessCommits items cfg blacklist) = Panic.
Proof.
  apply for_range_outcome. intros c. rewrite GitHubFacts.gh_ProcessCommit_split.
  apply signature_rounds_outcome.
Qed.

(** A search pass never ends the process. *)
Lemma ScanGlobalCommits_loop_no_exit (fuel : nat) (githubToken username : string)
  (cfg : Config) (blacklist : list Regexp) (order : string) :
  forall (page code : Z),
    snd (GitHub.ScanGlobalCommits_loop fuel githubToken username cfg blacklist
           order page) <> Exit code.
Proof.
  induction fuel as [|fuel IH]; intros page code; [discriminate|].
  cbn [GitHub.ScanGlobalCommits_loop].
  destruct (GitHub.http_NewRequest (GitHub.searchURL username order page))
    eqn:Hnew.
  { unfold GitHub.makeRequest. rewrite Hnew, bind_ret. discriminate. }
  rewrite (GitHubSearch.gh_search_makeRequest_ok _ _ Hnew), bind_pair. cbn [snd].
  destruct (GitHub.client_Do _) as [[body status]|]; [|discriminate].
  destruct (negb (status =? 200)).
  { destruct (status =? 422); discriminate. }
  destruct (GitHub.json_Unmarshal_SearchResponse body) as [resp|]; [|discriminate].
  destruct (GitHub.Items resp) as [|c items]; [discriminate|].
  unfold mbind, Run_bind, run_bind.
  destruct (github_ProcessCommits_outcome (c :: items) cfg blacklist) as [-> | ->];
    [apply IH|discriminate].
Qed.

(** C6. On the search endpoint a response with status 422 ends the pass
    it belongs to: the loop prints the notice of the result cap and
    returns normally.  Any other status than 200 ends it with the
    diagnostic that carries the status and the body, which is not decoded.
    No search pass ends the process, and when the ascending and the
    descending pass have returned, [main] has run them and the scan of the
    repositories one after the other, each as it runs on its own. *)
Theorem search_cap_ends_pass (fuel : nat) (githubToken username : string)
  (cfg : Config) (blacklist : list Regexp) :
  (forall order page body status,
      GitHub.http_NewRequest (GitHub.searchURL username order page) = None ->
      GitHub.client_Do
        (GitHubSpec.request githubToken (GitHub.searchURL username order page))
      = Ok (body, status) ->
      let request :=
        GitHub.HttpDo
          (GitHubSpec.request githubToken (GitHub.searchURL username order page)) in
      let pass :=
        GitHub.ScanGlobalCommits_loop (S fuel) githubToken username cfg
          blacklist order page in
      (status = 422 -> pass = ([request; GitHub.PrintSearchLimit], Done tt))
      /\ (status <> 200 -> status <> 422 ->
          pass = ([request; GitHub.PrintAPIError status body], Done tt)))
  /\ (forall ascending code,
        outcome (GitHub.ScanGlobalCommits fuel githubToken username cfg
                   blacklist ascending) <> Exit code)
  /\ (forall args,
        GitHubSpec.loaded args githubToken username cfg blacklist ->
        let asc :=
          GitHub.ScanGlobalCommits fuel githubToken username cfg blacklist true in
        let desc :=
          GitHub.ScanGlobalCommits fuel githubToken username cfg blacklist false in
        let repos :=
          GitHubSpec.per_repo_pass fuel githubToken username cfg blacklist in
        outcome asc = Done tt ->
        outcome desc = Done tt ->
        GitHub.main fuel args
        = (GitHubSpec.preamble githubToken username
           ++ GitHub.PrintHeading "=== First 1000 commits (oldest) ==="
              :: trace asc
           ++ GitHub.PrintHeading "=== Last 1000 commits (newest) ==="
              :: trace desc
           ++ trace repos,
           outcome repos)).
Proof.
  split; [|split].
  - intros order page body status Hnew Hdo. cbn zeta. split.
    + intros ->.
      now rewrite (GitHubSearch.search_step_not_200 _ _ _ _ _ _ _ _ _ Hnew Hdo).
    + intros H200 H422.
      rewrite (GitHubSearch.search_step_not_200 _ _ _ _ _ _ _ _ _ Hnew Hdo H200).
      now destruct (Z.eqb_spec status 422).
  - intros ascending code. apply ScanGlobalCommits_loop_no_exit.
  - intros args Hloaded. cbn zeta. unfold outcome, trace. intros Hasc Hdesc.
    rewrite (GitHubSearch.main_passes _ _ _ _ _ _ Hloaded).
    unfold GitHubSpec.ascending_pass, GitHubSpec.descending_pass.
    rewrite for_range_emit, map_id, bind_pair.
    rewrite bind_emit. cbn [fst snd].
    destruct (GitHub.ScanGlobalCommits fuel githubToken username cfg blacklist true)
      as [ta oa].
    destruct (GitHub.ScanGlobalCommits fuel githubToken username cfg blacklist false)
      as [tb ob].
    cbn [fst snd] in *. subst oa ob.
    rewrite !bind_pair. cbn [fst snd].
    rewrite bind_emit. cbn [fst snd]. rewrite bind_pair. cbn [fst snd].
    reflexivity.
Qed.

End SearchCap.

Lemma sample_github_loaded :
  @GitHubSpec.loaded Sample.libs ["dossier"; "alice"] "" "alice" Sample.cfg
    ["noreply"].
Proof. repeat split; vm_compute; reflexivity. Qed.

(** The ascending search of the sample account is capped on its second
    page; the descending search and the scan of the repositories follow. *)
Lemma search_cap_ends_pass_witness :
  @GitHub.ScanGlobalCommits_loop Sample.libs Sample.github 5 "" "alice"
    Sample.cfg ["noreply"] "asc" 2
  = ([GitHub.HttpDo (GitHubSpec.request "" (GitHub.searchURL "alice" "asc" 2));
      GitHub.PrintSearchLimit], Done tt)
  /\ outcome (@GitHub.main Sample.libs Sample.github 5 ["dossier"; "alice"])
     = Done tt.
Proof.
  destruct (@search_cap_ends_pass Sample.libs Sample.github 4 "" "alice"
              Sample.cfg ["noreply"]) as (Hstep & _ & _).
  destruct (@search_cap_ends_pass Sample.libs Sample.github 5 "" "alice"
              Sample.cfg ["noreply"]) as (_ & _ & Hmain).
  split.
  - apply (proj1 (Hstep "asc" 2 "Validation Failed" 422 eq_refl eq_refl)).
    reflexivity.
  - rewrite (Hmain _ sample_github_loaded); vm_compute; reflexivity.
Defined.

(** ** Forks *)

Lemma in_bind {E A B} (m : Run E A) (f : A -> Run E B) (e : E) :
  In e (fst (m ≫= f)) ->
  In e (fst m) \/ exists a, snd m = Done a /\ In e (fst (f a)).
Proof.
  unfold mbind, Run_bind, run_bind.
  destruct (snd m) as [a| | |]; cbn [fst]; auto.
  intros Hin. apply in_app_or in Hin as [Hin|Hin]; eauto.
Qed.

Lemma in_emit {E} (e e' : E) : In e (fst (emit e')) -> e = e'.
Proof. intros [<-|[]]. reflexivity. Qed.

(** A loop that skips some elements is the loop over the others. *)
Lemma for_range_filter {E A} (keep : A -> bool) (body body' : A -> Run E unit)
  (xs : list A) :
  (forall x, body x = if keep x then body' x else mret tt) ->
  for_range xs body = for_range (List.filter keep xs) body'.
Proof.
  intros Hbody. induction xs as [|x xs IH]; [reflexivity|].
  cbn [for_range List.filter]. rewrite Hbody.
  destruct (keep x); cbn [for_range]; [now rewrite IH|].
  now rewrite bind_ret.
Qed.

Lemma bind_ret_r {E} (m : Run E unit) : (m;; mret tt) = m.
Proof.
  unfold mbind, Run_bind, run_bind.
  destruct m as [t [[]| | |]]; cbn; now rewrite ?app_nil_r.
Qed.

Module GitHubForks.
Import GitHub GitHubSpec.

Section Forks.
Context `{World}.
Variables (githubToken : string) (cfg : Config) (blacklist : list Regexp).

Lemma ScanGlobalCommits_loop_requests (fuel : nat) (username order : string) :
  forall (page : Z) (req : HttpRequest),
    In (HttpDo req)
       (fst (ScanGlobalCommits_loop fuel githubToken username cfg blacklist
               order page)) ->
    exists p, req = request githubToken (searchURL username order p).
Proof.
  induction fuel as [|fuel IH]; intros page req; [intros []|].
  cbn [ScanGlobalCommits_loop].
  destruct (http_NewRequest (searchURL username order page)) eqn:Hnew.
  { unfold makeRequest. rewrite Hnew, bind_ret. intros Hin.
    apply in_emit in Hin. discriminate. }
  rewrite (GitHubSearch.gh_search_makeRequest_ok _ _ Hnew), bind_pair. cbn [fst app].
  intros [Heq|Hin]; [injection Heq as <-; eauto|].
  destruct (client_Do _) as [[body status]|];
    [|apply in_emit in Hin; discriminate].
  destruct (negb (status =? 200)).
  { destruct (status =? 422); apply in_emit in Hin; discriminate. }
  destruct (json_Unmarshal_SearchResponse body) as [resp|];
    [|apply in_emit in Hin; discriminate].
  destruct (Items resp) as [|c items]; [destruct Hin|].
  apply in_bind in Hin as [Hin|(_ & _ & Hin)]; [|eauto].
  apply GitHubFacts.ProcessCommits_no_request in Hin. discriminate.
Qed.

Lemma ScanRepoCommits_loop_requests (fuel : nat) (repoFullName : string) :
  forall (page : Z) (req : HttpRequest),
    In (HttpDo req)
       (fst (ScanRepoCommits_loop fuel githubToken repoFullName cfg blacklist
               page)) ->
    exists p, req = request githubToken (commitsURL repoFullName p).
Proof.
  induction fuel as [|fuel IH]; intros page req; [intros []|].
  cbn [ScanRepoCommits_loop].
  destruct (http_NewRequest (commitsURL repoFullName page)) eqn:Hnew.
  { unfold makeRequest. rewrite Hnew, bind_ret. intros Hin.
    apply in_emit in Hin. discriminate. }
  rewrite (GitHubSearch.gh_search_makeRequest_ok _ _ Hnew), bind_pair. cbn [fst app].
  intros [Heq|Hin]; [injection Heq as <-; eauto|].
  destruct (client_Do _) as [[body status]|];
    [|apply in_emit in Hin; discriminate].
  destruct (negb (status =? 200)); [apply in_emit in Hin; discriminate|].
  destruct (json_Unmarshal_Commits body) as [[|c commits]|];
    [destruct Hin| |apply in_emit in Hin; discriminate].
  apply in_bind in Hin as [Hin|(_ & _ & Hin)]; [|eauto].
  apply GitHubFacts.ProcessCommits_no_request in Hin. discriminate.
Qed.

Lemma GetUserRepos_loop_requests (fuel : nat) (username : string) :
  forall (page : Z) (repos : list Repo) (e : Event),
    In e (fst (GetUserRepos_loop fuel githubToken username page repos)) ->
    exists p, e = HttpDo (request githubToken (reposURL username p)).
Proof.
  induction fuel as [|fuel IH]; intros page repos e; [intros []|].
  cbn [GetUserRepos_loop].
  destruct (http_NewRequest (reposURL username page)) eqn:Hnew.
  { unfold makeRequest. rewrite Hnew, bind_ret. intros []. }
  rewrite (GitHubSearch.gh_search_makeRequest_ok _ _ Hnew), bind_pair. cbn [fst app].
  intros [<-|Hin]; [eauto|].
  destruct (client_Do _) as [[body status]|]; [|destruct Hin].
  destruct (negb (status =? 200)); [destruct Hin|].
  destruct (json_Unmarshal_Repos body) as [[|r tmp]|];
    [destruct Hin| |destruct Hin].
  eauto.
Qed.

(** The loop of [main] over the repositories is the loop over those that
    are not forks. *)
Lemma gh_fork_scan_loop_skips_forks (fuel : nat) (repos : list Repo) :
  for_range repos (scanRepo fuel githubToken cfg blacklist)
  = for_range (List.filter (fun r => negb (Fork r)) repos)
      (fun r =>
         emit (PrintScanningRepo (FullName r));;
         ScanRepoCommits fuel githubToken (FullName r) cfg blacklist).
Proof.
  apply for_range_filter. intros r. unfold scanRepo. now destruct (Fork r).
Qed.

Lemma gh_fork_scan_loop_requests (fuel : nat) (repos : list Repo) (req : HttpRequest) :
  In (HttpDo req)
     (fst (for_range repos (scanRepo fuel githubToken cfg blacklist))) ->
  exists r page,
    In r repos /\ Fork r = false
    /\ req = request githubToken (commitsURL (FullName r) page).
Proof.
  intros Hin. apply for_range_event in Hin as (r & Hr & Hin).
  unfold scanRepo in Hin. destruct (Fork r) eqn:Hfork; [destruct Hin|].
  rewrite bind_emit in Hin. cbn [fst] in Hin.
  destruct Hin as [Heq|Hin]; [discriminate|].
  apply ScanRepoCommits_loop_requests in Hin as [page ->]. eauto.
Qed.

End Forks.
End GitHubForks.

Module GitHubMain.
Import GitHub GitHubSpec.

Section Main.
Context `{World}.

(** Every request of a run of [main] is a search, a listing of the
    repositories, or a page of commits of a listed repository that is not
    a fork. *)
Lemma gh_main_requests (fuel : nat) (args : list string) (req : HttpRequest) :
  In (HttpDo req) (fst (main fuel args)) ->
  exists githubToken username,
    (exists order page,
        req = request githubToken (searchURL username order page))
    \/ (exists page, req = request githubToken (reposURL username page))
    \/ (exists repos r page,
          snd (GetUserRepos fuel githubToken username) = Done (Ok repos)
          /\ In r repos /\ Fork r = false
          /\ req = request githubToken (commitsURL (FullName r) page)).
Proof.
  unfold main. destruct (args !! 1%nat) as [username|].
  2:{ intros Hin. apply in_bind in Hin as [Hin|(_ & _ & [])].
      apply in_emit in Hin. discriminate. }
  set (githubToken := LoadEnvToken "GITHUB_TOKEN=" ".env").
  intros Hin. exists githubToken, username.
  apply in_bind in Hin as [Hin|(_ & _ & Hin)];
    [apply in_emit in Hin; destruct (negb _); discriminate|].
  destruct (LoadPatterns "signatures.yaml") as [cfg|err].
  2:{ apply in_bind in Hin as [Hin|(_ & _ & [])].
      apply in_emit in Hin. discriminate. }
  destruct (LoadBlacklist "blacklist.txt") as [[blacklist scanErr]|];
    [|destruct Hin].
  rewrite (bind_or_panic_some _ _ _ eq_refl) in Hin. cbn [fst snd] in Hin.
  destruct scanErr as [err|].
  { apply in_bind in Hin as [Hin|(_ & _ & [])].
    apply in_emit in Hin. discriminate. }
  apply in_bind in Hin as [Hin|(_ & _ & Hin)];
    [apply in_emit in Hin; discriminate|].
  apply in_bind in Hin as [Hin|(_ & _ & Hin)];
    [apply in_emit in Hin; discriminate|].
  apply in_bind in Hin as [Hin|(_ & _ & Hin)].
  { left. apply GitHubForks.ScanGlobalCommits_loop_requests in Hin as [p ->].
    eauto. }
  apply in_bind in Hin as [Hin|(_ & _ & Hin)];
    [apply in_emit in Hin; discriminate|].
  apply in_bind in Hin as [Hin|(_ & _ & Hin)].
  { left. apply GitHubForks.ScanGlobalCommits_loop_requests in Hin as [p ->].
    eauto. }
  apply in_bind in Hin as [Hin|(_ & _ & Hin)];
    [apply in_emit in Hin; discriminate|].
  apply in_bind in Hin as [Hin|(listed & Hlisted & Hin)].
  { right. left. apply GitHubForks.GetUserRepos_loop_requests in Hin as [p Hp].
    injection Hp as ->. eauto. }
  destruct listed as [repos|err].
  2:{ apply in_bind in Hin as [Hin|(_ & _ & [])].
      apply in_emit in Hin. discriminate. }
  right. right.
  apply GitHubForks.gh_fork_scan_loop_requests in Hin as (r & page & Hr & Hfork & ->).
  eauto 10.
Qed.

End Main.
End GitHubMain.

Module GitLabForks.
Import GitLab GitLabSpec.

Section Forks.
Context `{World}.
Variables (gitlabToken : string) (cfg : Config) (blacklist : list Regexp).

Lemma fetchAllCommits_requests (fuel : nat) (projectID : Z) :
  forall (page : Z) (allCommits : list GitLabCommit) (req : HttpRequest),
    In (HttpDo req)
       (fst (fetchAllCommits fuel gitlabToken projectID page allCommits)) ->
    exists p, req = request gitlabToken (commitsURL projectID p).
Proof.
  induction fuel as [|fuel IH]; intros page allCommits req; [intros []|].
  cbn [fetchAllCommits].
  destruct (http_NewRequest (commitsURL projectID page)) eqn:Hnew.
  { unfold makeRequest. rewrite Hnew, bind_ret. intros Hin.
    apply in_bind in Hin as [Hin|(_ & _ & [])].
    apply in_emit in Hin. discriminate. }
  rewrite (GitLabPages.gl_page_makeRequest_ok _ _ Hnew), bind_pair. cbn [fst app].
  intros [Heq|Hin]; [injection Heq as <-; eauto|].
  destruct (client_Do _) as [[body status]|].
  2:{ apply in_bind in Hin as [Hin|(_ & _ & [])].
      apply in_emit in Hin. discriminate. }
  destruct (negb (status =? 200)).
  { apply in_bind in Hin as [Hin|(_ & _ & [])].
    apply in_emit in Hin. discriminate. }
  destruct (json_Unmarshal_Commits body) as [[|c commits]|].
  - destruct Hin.
  - eauto.
  - apply in_bind in Hin as [Hin|(_ & _ & [])].
    apply in_emit in Hin. discriminate.
Qed.

Lemma ScanProjectCommits_requests (fuel : nat) (project : GitLabProject)
  (ascending : bool) (req : HttpRequest) :
  In (HttpDo req)
     (fst (ScanProjectCommits fuel gitlabToken project cfg blacklist ascending)) ->
  exists p, req = request gitlabToken (commitsURL (p_ID project) p).
Proof.
  unfold ScanProjectCommits. intros Hin.
  apply in_bind in Hin as [Hin|(fetched & _ & Hin)];
    [now apply fetchAllCommits_requests in Hin|].
  destruct fetched as [allCommits|]; [|destruct Hin].
  apply in_bind in Hin as [Hin|(commits & _ & Hin)].
  - destruct ascending; [|destruct Hin].
    rewrite reverse_in_place_rev in Hin. destruct Hin.
  - apply for_range_event in Hin as (c & _ & Hin).
    apply GitLabFacts.gl_ProcessCommit_no_request in Hin. discriminate.
Qed.

Lemma GetUserProjects_loop_requests (fuel : nat) (userID : Z) :
  forall (page : Z) (projects : list GitLabProject) (e : Event),
    In e (fst (GetUserProjects_loop fuel gitlabToken userID page projects)) ->
    exists p, e = HttpDo (request gitlabToken (projectsURL userID p)).
Proof.
  induction fuel as [|fuel IH]; intros page projects e; [intros []|].
  cbn [GetUserProjects_loop].
  destruct (http_NewRequest (projectsURL userID page)) eqn:Hnew.
  { unfold makeRequest. rewrite Hnew, bind_ret. intros []. }
  rewrite (GitLabPages.gl_page_makeRequest_ok _ _ Hnew), bind_pair. cbn [fst app].
  intros [<-|Hin]; [eauto|].
  destruct (client_Do _) as [[body status]|]; [|destruct Hin].
  destruct (negb (status =? 200)); [destruct Hin|].
  destruct (json_Unmarshal_Projects body) as [[|r tmp]|];
    [destruct Hin| |destruct Hin].
  eauto.
Qed.

Lemma GetUserID_requests (username : string) (e : Event) :
  In e (fst (GetUserID gitlabToken username)) ->
  e = HttpDo (request gitlabToken
                ("https://gitlab.com/api/v4/users?username=" +:+ username)).
Proof.
  unfold GetUserID.
  destruct (http_NewRequest ("https://gitlab.com/api/v4/users?username="
                             +:+ username)) eqn:Hnew.
  { unfold makeRequest. rewrite Hnew, bind_ret. intros []. }
  rewrite (GitLabPages.gl_page_makeRequest_ok _ _ Hnew), bind_pair. cbn [fst app].
  intros [<-|Hin]; [reflexivity|].
  destruct (client_Do _) as [[body status]|]; [|destruct Hin].
  destruct (negb (status =? 200)); [destruct Hin|].
  destruct (json_Unmarshal_Users body) as [[|u users]|]; destruct Hin.
Qed.

(** The loop of [main] over the projects is the loop over those that are
    not forks. *)
Lemma gl_fork_scan_loop_skips_forks (fuel : nat) (projects : list GitLabProject) :
  for_range projects (scanProject fuel gitlabToken cfg blacklist)
  = for_range
      (List.filter (fun p => negb (is_Some_b (ForkedFromProject p))) projects)
      (fun p =>
         emit (PrintScanningProject (Path p));;
         ScanProjectCommits fuel gitlabToken p cfg blacklist true;;
         ScanProjectCommits fuel gitlabToken p cfg blacklist false).
Proof.
  apply for_range_filter. intros p. unfold scanProject.
  now destruct (ForkedFromProject p).
Qed.

Lemma gl_fork_scan_loop_requests (fuel : nat) (projects : list GitLabProject)
  (req : HttpRequest) :
  In (HttpDo req)
     (fst (for_range projects (scanProject fuel gitlabToken cfg blacklist))) ->
  exists p page,
    In p projects /\ ForkedFromProject p = None
    /\ req = request gitlabToken (commitsURL (p_ID p) page).
Proof.
  intros Hin. apply for_range_event in Hin as (p & Hp & Hin).
  unfold scanProject in Hin.
  destruct (ForkedFromProject p) eqn:Hfork; [destruct Hin|].
  rewrite bind_emit in Hin. cbn [fst] in Hin.
  destruct Hin as [Heq|Hin]; [discriminate|].
  apply in_bind in Hin as [Hin|(_ & _ & Hin)];
    apply ScanProjectCommits_requests in Hin as [page ->]; eauto.
Qed.

End Forks.

Section Main.
Context `{World}.

Lemma gl_fork_main_requests (fuel : nat) (args : list string) (req : HttpRequest) :
  In (HttpDo req) (fst (main fuel args)) ->
  exists gitlabToken username,
    req = request gitlabToken
            ("https://gitlab.com/api/v4/users?username=" +:+ username)
    \/ (exists userID page,
          req = request gitlabToken (projectsURL userID page))
    \/ (exists userID projects p page,
          snd (GetUserProjects fuel gitlabToken userID) = Done (Ok projects)
          /\ In p projects /\ ForkedFromProject p = None
          /\ req = request gitlabToken (commitsURL (p_ID p) page)).
Proof.
  unfold main. destruct (args !! 1%nat) as [username|].
  2:{ intros Hin. apply in_bind in Hin as [Hin|(_ & _ & [])].
      apply in_emit in Hin. discriminate. }
  set (gitlabToken := LoadEnvToken "GITLAB_TOKEN=" ".env").
  intros Hin. exists gitlabToken, username.
  apply in_bind in Hin as [Hin|(_ & _ & Hin)];
    [apply in_emit in Hin; destruct (negb _); discriminate|].
  destruct (LoadPatterns "signatures.yaml") as [cfg|err].
  2:{ apply in_bind in Hin as [Hin|(_ & _ & [])].
      apply in_emit in Hin. discriminate. }
  destruct (LoadBlacklist "blacklist.txt") as [[blacklist scanErr]|];
    [|destruct Hin].
  rewrite (bind_or_panic_some _ _ _ eq_refl) in Hin. cbn [fst snd] in Hin.
  destruct scanErr as [err|].
  { apply in_bind in Hin as [Hin|(_ & _ & [])].
    apply in_emit in Hin. discriminate. }
  apply in_bind in Hin as [Hin|(_ & _ & Hin)];
    [apply in_emit in Hin; discriminate|].
  apply in_bind in Hin as [Hin|(found & _ & Hin)].
  { left. apply GetUserID_requests in Hin. now injection Hin. }
  destruct found as [userID|err].
  2:{ apply in_bind in Hin as [Hin|(_ & _ & [])].
      apply in_emit in Hin. discriminate. }
  apply in_bind in Hin as [Hin|(listed & Hlisted & Hin)].
  { right. left. apply GetUserProjects_loop_requests in Hin as [p Hp].
    injection Hp as ->. eauto. }
  destruct listed as [projects|err].
  2:{ apply in_bind in Hin as [Hin|(_ & _ & [])].
      apply in_emit in Hin. discriminate. }
  right. right.
  apply gl_fork_scan_loop_requests in Hin as (p & page & Hp & Hfork & ->).
  eauto 10.
Qed.

End Main.
End GitLabForks.

Section ForkExclusion.
Context `{libs : GoLibs} {gh : GitHub.World} {gl : GitLab.World}.

(** C8. In the GitHub and the GitLab scanner the loop of [main] over the
    listed projects fetches commits for those that are not forks, and for
    no other: it is the loop over the projects whose fork flag is unset; a
    list of one fork and one project of the account's own yields the scan
    of the latter only; and every request of a whole run is a search, a
    listing, or a page of commits of a listed project that is not a
    fork. *)
Theorem forks_are_skipped (fuel : nat) :
  (forall githubToken cfg blacklist repos,
      for_range repos (GitHub.scanRepo fuel githubToken cfg blacklist)
      = for_range (List.filter (fun r => negb (GitHub.Fork r)) repos)
          (fun r =>
             emit (GitHub.PrintScanningRepo (GitHub.FullName r));;
             GitHub.ScanRepoCommits fuel githubToken (GitHub.FullName r) cfg
               blacklist))
  /\ (forall githubToken cfg blacklist fork own,
        GitHub.Fork fork = true ->
        GitHub.Fork own = false ->
        for_range [fork; own] (GitHub.scanRepo fuel githubToken cfg blacklist)
        = (emit (GitHub.PrintScanningRepo (GitHub.FullName own));;
           GitHub.ScanRepoCommits fuel githubToken (GitHub.FullName own) cfg
             blacklist))
  /\ (forall args req,
        In (GitHub.HttpDo req) (trace (GitHub.main fuel args)) ->
        exists githubToken username,
          (exists order page,
              req = GitHubSpec.request githubToken
                      (GitHub.searchURL username order page))
          \/ (exists page,
                req = GitHubSpec.request githubToken
                        (GitHub.reposURL username page))
          \/ (exists repos r page,
                outcome (GitHub.GetUserRepos fuel githubToken username)
                = Done (Ok repos)
                /\ In r repos /\ GitHub.Fork r = false
                /\ req = GitHubSpec.request githubToken
                           (GitHub.commitsURL (GitHub.FullName r) page)))
  /\ (forall gitlabToken cfg blacklist projects,
        for_range projects (GitLab.scanProject fuel gitlabToken cfg blacklist)
        = for_range
            (List.filter
               (fun p => negb (is_Some_b (GitLab.ForkedFromProject p)))
               projects)
            (fun p =>
               emit (GitLab.PrintScanningProject (GitLab.Path p));;
               GitLab.ScanProjectCommits fuel gitlabToken p cfg blacklist true;;
               GitLab.ScanProjectCommits fuel gitlabToken p cfg blacklist false))
  /\ (forall gitlabToken cfg blacklist fork own parent,
        GitLab.ForkedFromProject fork = Some parent ->
        GitLab.ForkedFromProject own = None ->
        for_range [fork; own] (GitLab.scanProject fuel gitlabToken cfg blacklist)
        = (emit (GitLab.PrintScanningProject (GitLab.Path own));;
           GitLab.ScanProjectCommits fuel gitlabToken own cfg blacklist true;;
           GitLab.ScanProjectCommits fuel gitlabToken own cfg blacklist false))
  /\ (forall args req,
        In (GitLab.HttpDo req) (trace (GitLab.main fuel args)) ->
        exists gitlabToken username,
          req = GitLabSpec.request gitlabToken
                  ("https://gitlab.com/api/v4/users?username=" +:+ username)
          \/ (exists userID page,
                req = GitLabSpec.request gitlabToken
                        (GitLab.projectsURL userID page))
          \/ (exists userID projects p page,
                outcome (GitLab.GetUserProjects fuel gitlabToken userID)
                = Done (Ok projects)
                /\ In p projects /\ GitLab.ForkedFromProject p = None
                /\ req = GitLabSpec.request gitlabToken
                           (GitLab.commitsURL (GitLab.p_ID p) page))).
Proof.
  unfold trace, outcome. repeat apply conj.
  - intros. apply GitHubForks.gh_fork_scan_loop_skips_forks.
  - intros githubToken cfg blacklist fork own Hfork Hown.
    rewrite GitHubForks.gh_fork_scan_loop_skips_forks. cbn [List.filter].
    rewrite Hfork, Hown. cbn [negb for_range]. apply bind_ret_r.
  - intros args req. apply GitHubMain.gh_main_requests.
  - intros. apply GitLabForks.gl_fork_scan_loop_skips_forks.
  - intros gitlabToken cfg blacklist fork own parent Hfork Hown.
    rewrite GitLabForks.gl_fork_scan_loop_skips_forks. cbn [List.filter].
    rewrite Hfork, Hown. cbn [negb is_Some_b for_range]. apply bind_ret_r.
  - intros args req. apply GitLabForks.gl_fork_main_requests.
Qed.

End ForkExclusion.

(** The fork of the sample account is listed first and is not scanned. *)
Lemma forks_are_skipped_witness :
  for_range [Sample.gh_fork; Sample.gh_own]
    (@GitHub.scanRepo Sample.libs Sample.github 5 "" Sample.cfg ["noreply"])
  = (emit (GitHub.PrintScanningRepo "alice/dotfiles");;
     @GitHub.ScanRepoCommits Sample.libs Sample.github 5 "" "alice/dotfiles"
       Sample.cfg ["noreply"])
  /\ for_range [Sample.gl_fork; Sample.gl_own]
       (@GitLab.scanProject Sample.libs Sample.gitlab 5 "" Sample.cfg ["noreply"])
     = (emit (GitLab.PrintScanningProject "alice/dotfiles");;
        @GitLab.ScanProjectCommits Sample.libs Sample.gitlab 5 "" Sample.gl_own
          Sample.cfg ["noreply"] true;;
        @GitLab.ScanProjectCommits Sample.libs Sample.gitlab 5 "" Sample.gl_own
          Sample.cfg ["noreply"] false).
Proof.
  destruct (@forks_are_skipped Sample.libs Sample.github Sample.gitlab 5)
    as (_ & Hgh & _ & _ & Hgl & _).
  split.
  - apply (Hgh "" Sample.cfg ["noreply"] Sample.gh_fork Sample.gh_own);
      reflexivity.
  - apply (Hgl "" Sample.cfg ["noreply"] Sample.gl_fork Sample.gl_own 99);
      reflexivity.
Defined.

(** ** The two passes of the GitLab scanner *)

Lemma Permutation_concat {A} (l l' : list (list A)) :
  Permutation l l' -> Permutation (concat l) (concat l').
Proof.
  induction 1 as [|x l l' _ IH|x y l|l l' l'' _ IH1 _ IH2]; cbn [concat].
  - constructor.
  - now apply Permutation_app_head.
  - rewrite !app_assoc. apply Permutation_app_tail, Permutation_app_comm.
  - now transitivity (concat l').
Qed.

Section TwoPasses.
Context `{libs : GoLibs} {gl : GitLab.World}.

Lemma gitlab_commit_events_findings (cfg : Config) (blacklist : list Regexp)
  (projectURL : string) (commits : list GitLab.GitLabCommit) :
  Forall (fun e => GitLabSpec.is_finding e = true)
    (concat (map (GitLabSpec.commit_events cfg blacklist projectURL) commits)).
Proof.
  apply List.Forall_forall. intros e He.
  apply in_concat in He as (l & Hl & He).
  apply in_map_iff in Hl as (c & <- & _).
  unfold GitLabSpec.commit_events in He.
  apply in_app_or in He as [He|He].
  - apply GitLabFacts.gl_in_email_events in He as (_ & ->). reflexivity.
  - apply in_app_or in He as [He|He];
      apply in_map_iff in He as (m & <- & _); reflexivity.
Qed.

Lemma gitlab_requests_not_findings (gitlabToken : string) (projectID : Z)
  (first count : nat) :
  Forall (fun e => GitLabSpec.is_finding e = false)
    (GitLabSpec.page_requests gitlabToken projectID first count).
Proof.
  apply List.Forall_forall. intros e He.
  apply in_map_iff in He as (k & <- & _). reflexivity.
Qed.

(** The two passes over a project that is not a fork. *)
Lemma gitlab_two_passes (fuel : nat) (gitlabToken : string) (cfg : Config)
  (blacklist : list Regexp) (p : GitLab.GitLabProject)
  (pages : list (list GitLab.GitLabCommit)) :
  GitLab.ForkedFromProject p = None ->
  GitLabSpec.serves_commits gitlabToken (GitLab.p_ID p) pages ->
  (length pages < fuel)%nat ->
  Forall compiles (OperatingSystems cfg) ->
  Forall compiles (Utilities cfg) ->
  let requests :=
    GitLabSpec.page_requests gitlabToken (GitLab.p_ID p) 1 (S (length pages)) in
  let newest_first :=
    fst (GitLab.ProcessCommits (concat pages) cfg blacklist (GitLab.WebURL p)) in
  let oldest_first :=
    fst (GitLab.ProcessCommits (rev (concat pages)) cfg blacklist
           (GitLab.WebURL p)) in
  let scan := GitLab.scanProject fuel gitlabToken cfg blacklist p in
  scan
  = (GitLab.PrintScanningProject (GitLab.Path p)
     :: requests ++ oldest_first ++ requests ++ newest_first, Done tt)
  /\ Permutation oldest_first newest_first
  /\ List.filter GitLabSpec.is_finding (fst scan) = oldest_first ++ newest_first.
Proof.
  intros Hfork Hserves Hfuel Hos Hut. cbn zeta.
  assert (Hscan :
    GitLab.scanProject fuel gitlabToken cfg blacklist p
    = (GitLab.PrintScanningProject (GitLab.Path p)
       :: GitLabSpec.page_requests gitlabToken (GitLab.p_ID p) 1
            (S (length pages))
       ++ fst (GitLab.ProcessCommits (rev (concat pages)) cfg blacklist
                 (GitLab.WebURL p))
       ++ GitLabSpec.page_requests gitlabToken (GitLab.p_ID p) 1
            (S (length pages))
       ++ fst (GitLab.ProcessCommits (concat pages) cfg blacklist
                 (GitLab.WebURL p)), Done tt)).
  { unfold GitLab.scanProject. rewrite Hfork, bind_emit.
    rewrite (GitLabPages.ScanProjectCommits_pages _ _ _ _ _ pages true)
      by assumption.
    rewrite (GitLabPages.ScanProjectCommits_pages _ _ _ _ _ pages false)
      by assumption.
    cbn zeta. rewrite !GitLabFacts.gl_ProcessCommits_ok by assumption.
    cbn [fst snd]. rewrite bind_pair. cbn [fst snd].
    now rewrite <- !app_assoc. }
  split; [exact Hscan|]. split.
  - rewrite !GitLabFacts.gl_ProcessCommits_ok by assumption. cbn [fst].
    apply Permutation_concat, Permutation_map. symmetry. apply Permutation_rev.
  - rewrite Hscan. cbn [fst List.filter GitLabSpec.is_finding
                          GitLabSpec.is_email GitLabSpec.is_os
                          GitLabSpec.is_utility orb].
    rewrite !List.filter_app.
    rewrite !(filter_keep_none _ _ (gitlab_requests_not_findings _ _ _ _)).
    rewrite !GitLabFacts.gl_ProcessCommits_ok by assumption. cbn [fst app].
    now rewrite !(filter_keep_all _ _ (gitlab_commit_events_findings _ _ _ _)).
Qed.

End TwoPasses.

(** * Further properties of the scanners *)

(** ** The configuration files *)

Section ConfigFiles.
Context `{libs : GoLibs}.

Lemma LoadBlacklist_loop_compiled (lines : list string) :
  forall regexes compiled,
    Forall2 (fun src re => regexp_Compile src = Some re)
      (blacklist_sources lines) compiled ->
    LoadBlacklist_loop lines regexes = Some (regexes ++ compiled).
Proof.
  unfold blacklist_sources.
  induction lines as [|l lines IH]; intros regexes compiled Hall.
  - inversion Hall. cbn. now rewrite app_nil_r.
  - cbn [LoadBlacklist_loop List.filter] in *. unfold blacklist_line in Hall.
    destruct (String.eqb (TrimSpace l) "" || HasPrefix (TrimSpace l) "#");
      cbn [negb] in Hall; [now apply IH|].
    cbn [map] in Hall. inversion Hall as [|src re srcs res Hre Hrest]; subst.
    rewrite Hre, (IH _ _ Hrest). now rewrite <- app_assoc.
Qed.

Lemma LoadBlacklist_loop_panics (lines : list string) :
  forall regexes,
    Exists (fun src => regexp_Compile src = None) (blacklist_sources lines) ->
    LoadBlacklist_loop lines regexes = None.
Proof.
  unfold blacklist_sources.
  induction lines as [|l lines IH]; intros regexes Hex; [inversion Hex|].
  cbn [LoadBlacklist_loop List.filter] in *. unfold blacklist_line in Hex.
  destruct (String.eqb (TrimSpace l) "" || HasPrefix (TrimSpace l) "#");
    cbn [negb] in Hex; [now apply IH|].
  cbn [map] in Hex.
  destruct (regexp_Compile (TrimSpace l)) as [re|] eqn:Hre; [|reflexivity].
  apply IH. inversion Hex; subst; [congruence|assumption].
Qed.

(** X1. [LoadBlacklist] compiles the trimmed text of the lines that are
    neither blank nor comments, in the order of the file, and returns them
    with the error of the scanner; blank lines and comments are never
    compiled.  It panics when one of the other lines does not compile, and
    returns no expression and the error when the file cannot be opened. *)
Theorem LoadBlacklist_lines (filename : string) :
  (forall err,
      os_Open filename = Err err ->
      LoadBlacklist filename = Some ([], Some err))
  /\ (forall file lines scanErr,
        os_Open filename = Ok file ->
        bufio_Scan file = (lines, scanErr) ->
        (forall compiled,
            Forall2 (fun src re => regexp_Compile src = Some re)
              (blacklist_sources lines) compiled ->
            LoadBlacklist filename = Some (compiled, scanErr))
        /\ (Exists (fun src => regexp_Compile src = None)
              (blacklist_sources lines) ->
            LoadBlacklist filename = None)).
Proof.
  unfold LoadBlacklist. split.
  - now intros err ->.
  - intros file lines scanErr -> ->. split.
    + intros compiled Hall.
      now rewrite (LoadBlacklist_loop_compiled lines [] compiled Hall).
    + intros Hex. now rewrite (LoadBlacklist_loop_panics lines [] Hex).
Qed.

Lemma LoadEnvToken_loop_none (key : string) (lines : list string) :
  Forall (fun l => HasPrefix (TrimSpace l) key = false) lines ->
  LoadEnvToken_loop key lines = "".
Proof.
  induction 1 as [|l lines Hl _ IH]; [reflexivity|].
  cbn [LoadEnvToken_loop]. now rewrite Hl.
Qed.

Lemma LoadEnvToken_loop_first (key : string) (pre post : list string)
  (l : string) :
  Forall (fun l => HasPrefix (TrimSpace l) key = false) pre ->
  HasPrefix (TrimSpace l) key = true ->
  LoadEnvToken_loop key (pre ++ l :: post)
  = drop_bytes (String.length key) (TrimSpace l).
Proof.
  intros Hpre Hl. induction Hpre as [|l' pre Hl' _ IH].
  - cbn [app LoadEnvToken_loop]. rewrite Hl. unfold TrimPrefix. now rewrite Hl.
  - cbn [app LoadEnvToken_loop]. now rewrite Hl'.
Qed.

(** X2. [LoadEnvToken] returns what follows the key on the first line
    that begins with it once trimmed, whatever the later lines hold; it
    returns the empty string when no line begins with the key and when the
    file cannot be opened. *)
Theorem LoadEnvToken_first_line (key filename : string) :
  (forall err, os_Open filename = Err err -> LoadEnvToken key filename = "")
  /\ (forall file,
        os_Open filename = Ok file ->
        (Forall (fun l => HasPrefix (TrimSpace l) key = false)
           (fst (bufio_Scan file)) ->
         LoadEnvToken key filename = "")
        /\ (forall pre l post,
              fst (bufio_Scan file) = pre ++ l :: post ->
              Forall (fun l => HasPrefix (TrimSpace l) key = false) pre ->
              HasPrefix (TrimSpace l) key = true ->
              LoadEnvToken key filename
              = drop_bytes (String.length key) (TrimSpace l))).
Proof.
  unfold LoadEnvToken. split.
  - now intros err ->.
  - intros file ->. split.
    + apply LoadEnvToken_loop_none.
    + intros pre l post -> Hpre Hl. now apply LoadEnvToken_loop_first.
Qed.

End ConfigFiles.

(** The comment of the sample blacklist is not compiled although it is no
    valid expression; the two other lines are, trimmed. *)
Lemma LoadBlacklist_lines_witness :
  @LoadBlacklist SampleFiles.libs "blacklist.txt" = Some (["noreply"; "bot"], None)
  /\ @LoadBlacklist SampleFiles.libs "missing.txt"
     = Some ([], Some "open missing.txt: no such file or directory").
Proof.
  destruct (@LoadBlacklist_lines SampleFiles.libs "blacklist.txt")
    as [_ Hopen].
  destruct (@LoadBlacklist_lines SampleFiles.libs "missing.txt")
    as [Hmissing _].
  split.
  - apply (proj1 (Hopen "blacklist" _ None eq_refl eq_refl)).
    vm_compute. repeat constructor.
  - apply Hmissing. reflexivity.
Defined.

(** The first of the two token lines of the sample file wins. *)
Lemma LoadEnvToken_first_line_witness :
  @LoadEnvToken SampleFiles.libs "GITLAB_TOKEN=" ".env" = "abc"
  /\ @LoadEnvToken SampleFiles.libs "BITBUCKET_TOKEN=" ".env" = ""
  /\ @LoadEnvToken SampleFiles.libs "GITLAB_TOKEN=" "missing.env" = "".
Proof.
  destruct (@LoadEnvToken_first_line SampleFiles.libs "GITLAB_TOKEN=" ".env")
    as [_ Hopen].
  destruct (@LoadEnvToken_first_line SampleFiles.libs "BITBUCKET_TOKEN=" ".env")
    as [_ Hother].
  destruct (@LoadEnvToken_first_line SampleFiles.libs "GITLAB_TOKEN="
              "missing.env") as [Hmissing _].
  split; [|split].
  - apply (proj2 (Hopen "env" eq_refl) ["# tokens"] "  GITLAB_TOKEN=abc  "
             ["GITLAB_TOKEN=def"; "GITHUB_TOKEN="]).
    + reflexivity.
    + repeat constructor.
    + vm_compute. reflexivity.
  - apply (proj1 (Hother "env" eq_refl)).
    change (fst (bufio_Scan "env"))
      with ["# tokens"; "  GITLAB_TOKEN=abc  "; "GITLAB_TOKEN=def";
            "GITHUB_TOKEN="].
    repeat constructor.
  - apply (Hmissing "open missing.env: no such file or directory"). reflexivity.
Defined.

(** ** What holds of every event of a run *)

Module GitHubRun.
Import GitHub GitHubSpec.

Section Invariant.
Context `{World}.
Variables (githubToken : string) (cfg : Config) (blacklist : list Regexp).
Variable P : Event -> Prop.
Hypothesis Hreq : forall url, P (HttpDo (request githubToken url)).
Hypothesis Hline :
  forall e, is_request e = false -> github_is_block e = false -> P e.
Hypothesis Hcommit :
  forall c e, In e (fst (ProcessCommit cfg blacklist c)) -> P e.

Lemma gh_ProcessCommits_inv (items : list CommitItem) (e : Event) :
  In e (fst (ProcessCommits items cfg blacklist)) -> P e.
Proof. intros Hin. apply for_range_event in Hin as (c & _ & Hin). eauto. Qed.

Lemma gh_search_inv (fuel : nat) (username order : string) :
  forall (page : Z) (e : Event),
    In e (fst (ScanGlobalCommits_loop fuel githubToken username cfg blacklist
                 order page)) ->
    P e.
Proof.
  induction fuel as [|fuel IH]; intros page e; [intros []|].
  cbn [ScanGlobalCommits_loop].
  destruct (http_NewRequest (searchURL username order page)) eqn:Hnew.
  { unfold makeRequest. rewrite Hnew, bind_ret. intros Hin.
    apply in_emit in Hin as ->. now apply Hline. }
  rewrite (GitHubSearch.gh_search_makeRequest_ok _ _ Hnew), bind_pair.
  cbn [fst app]. intros [<-|Hin]; [apply Hreq|].
  destruct (client_Do _) as [[body status]|];
    [|apply in_emit in Hin as ->; now apply Hline].
  destruct (negb (status =? 200)).
  { destruct (status =? 422); apply in_emit in Hin as ->; now apply Hline. }
  destruct (json_Unmarshal_SearchResponse body) as [resp|];
    [|apply in_emit in Hin as ->; now apply Hline].
  destruct (Items resp) as [|c items]; [destruct Hin|].
  apply in_bind in Hin as [Hin|(_ & _ & Hin)]; [|eauto].
  now apply gh_ProcessCommits_inv in Hin.
Qed.

Lemma gh_commits_inv (fuel : nat) (repoFullName : string) :
  forall (page : Z) (e : Event),
    In e (fst (ScanRepoCommits_loop fuel githubToken repoFullName cfg blacklist
                 page)) ->
    P e.
Proof.
  induction fuel as [|fuel IH]; intros page e; [intros []|].
  cbn [ScanRepoCommits_loop].
  destruct (http_NewRequest (commitsURL repoFullName page)) eqn:Hnew.
  { unfold makeRequest. rewrite Hnew, bind_ret. intros Hin.
    apply in_emit in Hin as ->. now apply Hline. }
  rewrite (GitHubSearch.gh_search_makeRequest_ok _ _ Hnew), bind_pair.
  cbn [fst app]. intros [<-|Hin]; [apply Hreq|].
  destruct (client_Do _) as [[body status]|];
    [|apply in_emit in Hin as ->; now apply Hline].
  destruct (negb (status =? 200));
    [apply in_emit in Hin as ->; now apply Hline|].
  destruct (json_Unmarshal_Commits body) as [[|c commits]|];
    [destruct Hin| |apply in_emit in Hin as ->; now apply Hline].
  apply in_bind in Hin as [Hin|(_ & _ & Hin)]; [|eauto].
  now apply gh_ProcessCommits_inv in Hin.
Qed.

Lemma gh_repos_inv (fuel : nat) (username : string) (e : Event) :
  In e (fst (GetUserRepos fuel githubToken username)) -> P e.
Proof.
  intros Hin.
  apply GitHubForks.GetUserRepos_loop_requests in Hin as [page ->].
  apply Hreq.
Qed.

Lemma gh_scanRepo_inv (fuel : nat) (repos : list Repo) (e : Event) :
  In e (fst (for_range repos (scanRepo fuel githubToken cfg blacklist))) -> P e.
Proof.
  intros Hin. apply for_range_event in Hin as (r & _ & Hin).
  unfold scanRepo in Hin. destruct (Fork r); [destruct Hin|].
  rewrite bind_emit in Hin. cbn [fst] in Hin.
  destruct Hin as [<-|Hin]; [now apply Hline|].
  now apply gh_commits_inv in Hin.
Qed.

End Invariant.

Section Main.
Context `{World}.

(** A property of the requests that carry the loaded token, of the lines
    that are no finding, and of what the pipeline prints with the loaded
    configuration, is a property of every event of a run of [main]. *)
Lemma gh_main_inv (P : Event -> Prop) (fuel : nat) (args : list string) :
  (forall url,
      P (HttpDo (request (LoadEnvToken "GITHUB_TOKEN=" ".env") url))) ->
  (forall e, is_request e = false -> github_is_block e = false -> P e) ->
  (forall cfg blacklist c e,
      LoadPatterns "signatures.yaml" = Ok cfg ->
      LoadBlacklist "blacklist.txt" = Some (blacklist, None) ->
      In e (fst (ProcessCommit cfg blacklist c)) -> P e) ->
  forall e, In e (fst (main fuel args)) -> P e.
Proof.
  intros Hreq Hline Hcommit e. unfold main.
  destruct (args !! 1%nat) as [username|].
  2:{ intros Hin. apply in_bind in Hin as [Hin|(_ & _ & [])].
      apply in_emit in Hin as ->. now apply Hline. }
  set (githubToken := LoadEnvToken "GITHUB_TOKEN=" ".env") in *.
  intros Hin.
  apply in_bind in Hin as [Hin|(_ & _ & Hin)].
  { apply in_emit in Hin as ->. apply Hline; now destruct (negb _). }
  destruct (LoadPatterns "signatures.yaml") as [cfg|err] eqn:Hcfg.
  2:{ apply in_bind in Hin as [Hin|(_ & _ & [])].
      apply in_emit in Hin as ->. now apply Hline. }
  destruct (LoadBlacklist "blacklist.txt") as [[blacklist scanErr]|] eqn:Hbl;
    [|destruct Hin].
  rewrite (bind_or_panic_some _ _ _ eq_refl) in Hin. cbn [fst snd] in Hin.
  destruct scanErr as [err|].
  { apply in_bind in Hin as [Hin|(_ & _ & [])].
    apply in_emit in Hin as ->. now apply Hline. }
  specialize (Hcommit cfg blacklist).
  assert (Hc : forall c e, In e (fst (ProcessCommit cfg blacklist c)) -> P e)
    by eauto.
  apply in_bind in Hin as [Hin|(_ & _ & Hin)];
    [apply in_emit in Hin as ->; now apply Hline|].
  apply in_bind in Hin as [Hin|(_ & _ & Hin)];
    [apply in_emit in Hin as ->; now apply Hline|].
  apply in_bind in Hin as [Hin|(_ & _ & Hin)];
    [now apply (gh_search_inv githubToken cfg blacklist P Hreq Hline Hc) in Hin|].
  apply in_bind in Hin as [Hin|(_ & _ & Hin)];
    [apply in_emit in Hin as ->; now apply Hline|].
  apply in_bind in Hin as [Hin|(_ & _ & Hin)];
    [now apply (gh_search_inv githubToken cfg blacklist P Hreq Hline Hc) in Hin|].
  apply in_bind in Hin as [Hin|(_ & _ & Hin)];
    [apply in_emit in Hin as ->; now apply Hline|].
  apply in_bind in Hin as [Hin|(listed & _ & Hin)];
    [now apply (gh_repos_inv githubToken P Hreq) in Hin|].
  destruct listed as [repos|err].
  - now apply (gh_scanRepo_inv githubToken cfg blacklist P Hreq Hline Hc) in Hin.
  - apply in_bind in Hin as [Hin|(_ & _ & [])].
    apply in_emit in Hin as ->. now apply Hline.
Qed.

End Main.
End GitHubRun.

Module GitLabRun.
Import GitLab GitLabSpec.

Section Invariant.
Context `{World}.
Variables (gitlabToken : string) (cfg : Config) (blacklist : list Regexp).
Variable P : Event -> Prop.
Hypothesis Hreq : forall url, P (HttpDo (request gitlabToken url)).
Hypothesis Hline :
  forall e, is_request e = false -> is_finding e = false -> P e.
Hypothesis Hcommit :
  forall projectURL c e,
    In e (fst (ProcessCommit cfg blacklist projectURL c)) -> P e.

Lemma gl_fetch_inv (fuel : nat) (projectID : Z) :
  forall (page : Z) (allCommits : list GitLabCommit) (e : Event),
    In e (fst (fetchAllCommits fuel gitlabToken projectID page allCommits)) ->
    P e.
Proof.
  induction fuel as [|fuel IH]; intros page allCommits e; [intros []|].
  cbn [fetchAllCommits].
  destruct (http_NewRequest (commitsURL projectID page)) eqn:Hnew.
  { unfold makeRequest. rewrite Hnew, bind_ret. intros Hin.
    apply in_bind in Hin as [Hin|(_ & _ & [])].
    apply in_emit in Hin as ->. now apply Hline. }
  rewrite (GitLabPages.gl_page_makeRequest_ok _ _ Hnew), bind_pair.
  cbn [fst app]. intros [<-|Hin]; [apply Hreq|].
  destruct (client_Do _) as [[body status]|].
  2:{ apply in_bind in Hin as [Hin|(_ & _ & [])].
      apply in_emit in Hin as ->. now apply Hline. }
  destruct (negb (status =? 200)).
  { apply in_bind in Hin as [Hin|(_ & _ & [])].
    apply in_emit in Hin as ->. now apply Hline. }
  destruct (json_Unmarshal_Commits body) as [[|c commits]|].
  - destruct Hin.
  - eauto.
  - apply in_bind in Hin as [Hin|(_ & _ & [])].
    apply in_emit in Hin as ->. now apply Hline.
Qed.

Lemma gl_scan_inv (fuel : nat) (project : GitLabProject) (ascending : bool)
  (e : Event) :
  In e (fst (ScanProjectCommits fuel gitlabToken project cfg blacklist
               ascending)) ->
  P e.
Proof.
  unfold ScanProjectCommits. intros Hin.
  apply in_bind in Hin as [Hin|(fetched & _ & Hin)];
    [now apply gl_fetch_inv in Hin|].
  destruct fetched as [allCommits|]; [|destruct Hin].
  apply in_bind in Hin as [Hin|(commits & _ & Hin)].
  - destruct ascending; [|destruct Hin].
    rewrite reverse_in_place_rev in Hin. destruct Hin.
  - apply for_range_event in Hin as (c & _ & Hin). eauto.
Qed.

Lemma gl_scanProject_inv (fuel : nat) (projects : list GitLabProject)
  (e : Event) :
  In e (fst (for_range projects (scanProject fuel gitlabToken cfg blacklist))) ->
  P e.
Proof.
  intros Hin. apply for_range_event in Hin as (p & _ & Hin).
  unfold scanProject in Hin. destruct (ForkedFromProject p); [destruct Hin|].
  rewrite bind_emit in Hin. cbn [fst] in Hin.
  destruct Hin as [<-|Hin]; [now apply Hline|].
  apply in_bind in Hin as [Hin|(_ & _ & Hin)]; now apply gl_scan_inv in Hin.
Qed.

End Invariant.

Section Main.
Context `{World}.

Lemma gl_main_inv (P : Event -> Prop) (fuel : nat) (args : list string) :
  (forall url,
      P (HttpDo (request (LoadEnvToken "GITLAB_TOKEN=" ".env") url))) ->
  (forall e, is_request e = false -> is_finding e = false -> P e) ->
  (forall cfg blacklist projectURL c e,
      LoadPatterns "signatures.yaml" = Ok cfg ->
      LoadBlacklist "blacklist.txt" = Some (blacklist, None) ->
      In e (fst (ProcessCommit cfg blacklist projectURL c)) -> P e) ->
  forall e, In e (fst (main fuel args)) -> P e.
Proof.
  intros Hreq Hline Hcommit e. unfold main.
  destruct (args !! 1%nat) as [username|].
  2:{ intros Hin. apply in_bind in Hin as [Hin|(_ & _ & [])].
      apply in_emit in Hin as ->. now apply Hline. }
  set (gitlabToken := LoadEnvToken "GITLAB_TOKEN=" ".env") in *.
  intros Hin.
  apply in_bind in Hin as [Hin|(_ & _ & Hin)].
  { apply in_emit in Hin as ->. apply Hline; now destruct (negb _). }
  destruct (LoadPatterns "signatures.yaml") as [cfg|err] eqn:Hcfg.
  2:{ apply in_bind in Hin as [Hin|(_ & _ & [])].
      apply in_emit in Hin as ->. now apply Hline. }
  destruct (LoadBlacklist "blacklist.txt") as [[blacklist scanErr]|] eqn:Hbl;
    [|destruct Hin].
  rewrite (bind_or_panic_some _ _ _ eq_refl) in Hin. cbn [fst snd] in Hin.
  destruct scanErr as [err|].
  { apply in_bind in Hin as [Hin|(_ & _ & [])].
    apply in_emit in Hin as ->. now apply Hline. }
  assert (Hc : forall projectURL c e,
             In e (fst (ProcessCommit cfg blacklist projectURL c)) -> P e)
    by eauto.
  apply in_bind in Hin as [Hin|(_ & _ & Hin)];
    [apply in_emit in Hin as ->; now apply Hline|].
  apply in_bind in Hin as [Hin|(found & _ & Hin)].
  { apply GitLabForks.GetUserID_requests in Hin as ->. apply Hreq. }
  destruct found as [userID|err].
  2:{ apply in_bind in Hin as [Hin|(_ & _ & [])].
      apply in_emit in Hin as ->. now apply Hline. }
  apply in_bind in Hin as [Hin|(listed & _ & Hin)].
  { apply GitLabForks.GetUserProjects_loop_requests in Hin as [page ->].
    apply Hreq. }
  destruct listed as [projects|err].
  - now apply (gl_scanProject_inv gitlabToken cfg blacklist P Hreq Hline Hc)
      in Hin.
  - apply in_bind in Hin as [Hin|(_ & _ & [])].
    apply in_emit in Hin as ->. now apply Hline.
Qed.

End Main.
End GitLabRun.

Module BitbucketRun.
Import Bitbucket BitbucketSpec.

Section Invariant.
Context `{World}.
Variables (cfg : Config) (blacklist : list Regexp).
Variable P : Event -> Prop.
Hypothesis Hreq : forall url, P (HttpDo (request url)).
Hypothesis Hline :
  forall e, is_request e = false -> bitbucket_is_block e = false -> P e.
Hypothesis Hcommit :
  forall repoName c e,
    In e (fst (ProcessCommit cfg blacklist repoName c)) -> P e.

Lemma bb_fetch_inv (fuel : nat) :
  forall (url : string) (allCommits : list BitbucketCommit) (e : Event),
    In e (fst (fetchAllCommits fuel url allCommits)) -> P e.
Proof.
  induction fuel as [|fuel IH]; intros url allCommits e; [intros []|].
  cbn [fetchAllCommits]. destruct (String.eqb url ""); [intros []|].
  destruct (http_NewRequest url) eqn:Hnew.
  { unfold makeRequest. rewrite Hnew, bind_ret. intros Hin.
    apply in_bind in Hin as [Hin|(_ & _ & [])].
    apply in_emit in Hin as ->. now apply Hline. }
  rewrite (BitbucketPages.bb_page_makeRequest_ok _ Hnew), bind_pair.
  cbn [fst app]. intros [<-|Hin]; [apply Hreq|].
  destruct (client_Do _) as [[body status]|].
  2:{ apply in_bind in Hin as [Hin|(_ & _ & [])].
      apply in_emit in Hin as ->. now apply Hline. }
  destruct (negb (status =? 200)).
  { apply in_bind in Hin as [Hin|(_ & _ & [])].
    apply in_emit in Hin as ->. now apply Hline. }
  destruct (json_Unmarshal_CommitPage body) as [page|].
  - eauto.
  - apply in_bind in Hin as [Hin|(_ & _ & [])].
    apply in_emit in Hin as ->. now apply Hline.
Qed.

Lemma bb_scan_inv (fuel : nat) (username repoSlug repoName : string)
  (ascending : bool) (e : Event) :
  In e (fst (ScanRepoCommits fuel username repoSlug repoName cfg blacklist
               ascending)) ->
  P e.
Proof.
  unfold ScanRepoCommits. intros Hin.
  apply in_bind in Hin as [Hin|(fetched & _ & Hin)];
    [now apply bb_fetch_inv in Hin|].
  destruct fetched as [allCommits|]; [|destruct Hin].
  apply in_bind in Hin as [Hin|(commits & _ & Hin)].
  - destruct ascending; [|destruct Hin].
    rewrite reverse_in_place_rev in Hin. destruct Hin.
  - apply for_range_event in Hin as (c & _ & Hin). eauto.
Qed.

Lemma bb_repos_inv (fuel : nat) :
  forall (url : string) (repos : list Repo) (e : Event),
    In e (fst (GetUserRepos_loop fuel url repos)) -> P e.
Proof.
  induction fuel as [|fuel IH]; intros url repos e; [intros []|].
  cbn [GetUserRepos_loop]. destruct (String.eqb url ""); [intros []|].
  destruct (http_NewRequest url) eqn:Hnew.
  { unfold makeRequest. rewrite Hnew, bind_ret. intros []. }
  rewrite (BitbucketPages.bb_page_makeRequest_ok _ Hnew), bind_pair.
  cbn [fst app]. intros [<-|Hin]; [apply Hreq|].
  destruct (client_Do _) as [[body status]|]; [|destruct Hin].
  destruct (negb (status =? 200)); [destruct Hin|].
  destruct (json_Unmarshal_RepoPage body) as [page|]; [eauto|destruct Hin].
Qed.

End Invariant.

Section Main.
Context `{World}.

Lemma bb_main_inv (P : Event -> Prop) (fuel : nat) (args : list string) :
  (forall url, P (HttpDo (request url))) ->
  (forall e, is_request e = false -> bitbucket_is_block e = false -> P e) ->
  (forall cfg blacklist repoName c e,
      LoadPatterns "signatures.yaml" = Ok cfg ->
      LoadBlacklist "blacklist.txt" = Some (blacklist, None) ->
      In e (fst (ProcessCommit cfg blacklist repoName c)) -> P e) ->
  forall e, In e (fst (main fuel args)) -> P e.
Proof.
  intros Hreq Hline Hcommit e. unfold main.
  destruct (args !! 1%nat) as [bitbucketUser|].
  2:{ intros Hin. apply in_bind in Hin as [Hin|(_ & _ & [])].
      apply in_emit in Hin as ->. now apply Hline. }
  intros Hin.
  destruct (LoadPatterns "signatures.yaml") as [cfg|err] eqn:Hcfg.
  2:{ apply in_bind in Hin as [Hin|(_ & _ & [])].
      apply in_emit in Hin as ->. now apply Hline. }
  destruct (LoadBlacklist "blacklist.txt") as [[blacklist scanErr]|] eqn:Hbl;
    [|destruct Hin].
  rewrite (bind_or_panic_some _ _ _ eq_refl) in Hin. cbn [fst snd] in Hin.
  destruct scanErr as [err|].
  { apply in_bind in Hin as [Hin|(_ & _ & [])].
    apply in_emit in Hin as ->. now apply Hline. }
  assert (Hc : forall repoName c e,
             In e (fst (ProcessCommit cfg blacklist repoName c)) -> P e)
    by eauto.
  apply in_bind in Hin as [Hin|(_ & _ & Hin)];
    [apply in_emit in Hin as ->; now apply Hline|].
  apply in_bind in Hin as [Hin|(listed & _ & Hin)];
    [now apply (bb_repos_inv P Hreq) in Hin|].
  destruct listed as [repos|err].
  - apply for_range_event in Hin as (r & _ & Hin).
    rewrite bind_emit in Hin. cbn [fst] in Hin.
    destruct Hin as [<-|Hin]; [now apply Hline|].
    now apply (bb_scan_inv cfg blacklist P Hreq Hline Hc) in Hin.
  - apply in_bind in Hin as [Hin|(_ & _ & [])].
    apply in_emit in Hin as ->. now apply Hline.
Qed.

End Main.
End BitbucketRun.

Section WholeRun.
Context `{libs : GoLibs} {gh : GitHub.World} {gl : GitLab.World}
  {bb : Bitbucket.World}.

(** X3. The header fields a scanner sets on the requests it passes to
    [client.Do], in every call of a run and whatever the servers answer,
    are those it builds from the token it loaded: on GitHub [Accept],
    preceded by [Authorization] when [.env] holds a token; on GitLab
    [PRIVATE-TOKEN] when [.env] holds a token and none otherwise; on
    Bitbucket none.  The statement is about what the scanner sets: the
    fields that [net/http] adds or rewrites when it sends a request or
    follows a redirect are not calls of the scanner. *)
Theorem run_request_headers (fuel : nat) (args : list string) :
  (forall req,
      In (GitHub.HttpDo req) (trace (GitHub.main fuel args)) ->
      let githubToken := LoadEnvToken "GITHUB_TOKEN=" ".env" in
      req_headers req
      = (if String.eqb githubToken "" then []
         else [("Authorization", "token " +:+ githubToken)])
        ++ [("Accept", "application/vnd.github.cloak-preview+json")])
  /\ (forall req,
        In (GitLab.HttpDo req) (trace (GitLab.main fuel args)) ->
        let gitlabToken := LoadEnvToken "GITLAB_TOKEN=" ".env" in
        req_headers req
        = if String.eqb gitlabToken "" then []
          else [("PRIVATE-TOKEN", gitlabToken)])
  /\ (forall req,
        In (Bitbucket.HttpDo req) (trace (Bitbucket.main fuel args)) ->
        req_headers req = []).
Proof.
  unfold trace. split; [|split].
  - intros req Hin. cbn zeta.
    refine (GitHubRun.gh_main_inv
              (fun e => forall req, e = GitHub.HttpDo req -> _ = _)
              fuel args _ _ _ _ Hin req eq_refl).
    + intros url r [= <-]. reflexivity.
    + intros e He _ r ->. discriminate.
    + intros cfg blacklist c e _ _ He r ->.
      apply GitHubFacts.gh_ProcessCommit_no_request in He. discriminate.
  - intros req Hin. cbn zeta.
    refine (GitLabRun.gl_main_inv
              (fun e => forall req, e = GitLab.HttpDo req -> _ = _)
              fuel args _ _ _ _ Hin req eq_refl).
    + intros url r [= <-]. reflexivity.
    + intros e He _ r ->. discriminate.
    + intros cfg blacklist projectURL c e _ _ He r ->.
      apply GitLabFacts.gl_ProcessCommit_no_request in He. discriminate.
  - intros req Hin.
    refine (BitbucketRun.bb_main_inv
              (fun e => forall req, e = Bitbucket.HttpDo req -> _ = _)
              fuel args _ _ _ _ Hin req eq_refl).
    + intros url r [= <-]. reflexivity.
    + intros e He _ r ->. discriminate.
    + intros cfg blacklist repoName c e _ _ He r ->.
      apply BitbucketFacts.bb_ProcessCommit_no_request in He. discriminate.
Qed.

(** X4. Whatever the servers answer, every email block of a run shows an
    address that [IsValidEmail] accepts and that no expression of the
    loaded blacklist matches. *)
Theorem run_emails_pass_the_gate (fuel : nat) (args : list string) :
  (forall email name date location,
      In (GitHub.PrintEmail email name date location)
         (trace (GitHub.main fuel args)) ->
      exists blacklist,
        LoadBlacklist "blacklist.txt" = Some (blacklist, None)
        /\ IsValidEmail email = Some true
        /\ Forall (fun re => MatchString re email = false) blacklist)
  /\ (forall email name date project,
        In (GitLab.PrintEmail email name date project)
           (trace (GitLab.main fuel args)) ->
        exists blacklist,
          LoadBlacklist "blacklist.txt" = Some (blacklist, None)
          /\ IsValidEmail email = Some true
          /\ Forall (fun re => MatchString re email = false) blacklist)
  /\ (forall email name date repo location,
        In (Bitbucket.PrintEmail email name date repo location)
           (trace (Bitbucket.main fuel args)) ->
        exists blacklist,
          LoadBlacklist "blacklist.txt" = Some (blacklist, None)
          /\ IsValidEmail email = Some true
          /\ Forall (fun re => MatchString re email = false) blacklist).
Proof.
  unfold trace. split; [|split].
  - intros email name date location Hin.
    refine (GitHubRun.gh_main_inv
              (fun e => forall email name date location,
                   e = GitHub.PrintEmail email name date location ->
                   exists blacklist, _ /\ _ /\ _)
              fuel args _ _ _ _ Hin email name date location eq_refl).
    + intros url ? ? ? ? [=].
    + intros e _ He ? ? ? ? ->. discriminate.
    + intros cfg blacklist c e _ Hbl He em na da lo ->.
      apply GitHubFacts.gh_ProcessCommit_email in He; [|reflexivity].
      apply GitHubFacts.gh_in_email_events in He
        as (who & _ & [Hvalid Hnot] & [= -> _ _ _]).
      exists blacklist. now rewrite <- IsBlacklisted_false_iff.
  - intros email name date project Hin.
    refine (GitLabRun.gl_main_inv
              (fun e => forall email name date project,
                   e = GitLab.PrintEmail email name date project ->
                   exists blacklist, _ /\ _ /\ _)
              fuel args _ _ _ _ Hin email name date project eq_refl).
    + intros url ? ? ? ? [=].
    + intros e _ He ? ? ? ? ->. discriminate.
    + intros cfg blacklist projectURL c e _ Hbl He em na da pr ->.
      apply GitLabFacts.gl_ProcessCommit_email in He; [|reflexivity].
      apply GitLabFacts.gl_in_email_events in He
        as ([Hvalid Hnot] & [= -> _ _ _]).
      exists blacklist. now rewrite <- IsBlacklisted_false_iff.
  - intros email name date repo location Hin.
    refine (BitbucketRun.bb_main_inv
              (fun e => forall email name date repo location,
                   e = Bitbucket.PrintEmail email name date repo location ->
                   exists blacklist, _ /\ _ /\ _)
              fuel args _ _ _ _ Hin email name date repo location eq_refl).
    + intros url ? ? ? ? ? [=].
    + intros e _ He ? ? ? ? ? ->. discriminate.
    + intros cfg blacklist repoName c e _ Hbl He em na da re lo ->.
      apply BitbucketFacts.bb_ProcessCommit_email in He; [|reflexivity].
      apply BitbucketFacts.bb_in_email_events in He
        as (who & _ & [Hvalid Hnot] & [= -> _ _ _ _]).
      exists blacklist. now rewrite <- IsBlacklisted_false_iff.
Qed.

End WholeRun.

Section RunSignatures.
Context `{libs : GoLibs} {gh : GitHub.World} {gl : GitLab.World}
  {bb : Bitbucket.World}.

Lemma signature_rounds_from_config {E} (text : string) (cfg : Config)
  (printOS printUtility : string -> E) (e : E) :
  In e (fst (signature_rounds text cfg printOS printUtility)) ->
  (exists p re,
      In p (OperatingSystems cfg) /\ regexp_Compile (Regex p) = Some re
      /\ MatchString re text = true /\ e = printOS (ID p))
  \/ (exists p re,
        In p (Utilities cfg) /\ regexp_Compile (Regex p) = Some re
        /\ MatchString re text = true /\ e = printUtility (ID p)).
Proof.
  intros Hin.
  apply signature_rounds_events in Hin as [(m & Hm & ->)|(m & Hm & ->)];
    apply in_matched in Hm as (p & re & Hp & <- & Hre & Hmatch); eauto 10.
Qed.

(** X5. Every signature block of a run names a pattern of the loaded
    configuration, of the category of the block, whose expression
    compiled: an operating-system block a pattern of [operating_systems],
    a utility block a pattern of [utilities]. *)
Theorem run_signatures_come_from_config (fuel : nat) (args : list string) :
  (forall e m,
      In e (trace (GitHub.main fuel args)) ->
      (exists email date location,
          e = GitHub.PrintOS m email date location) ->
      exists cfg p,
        LoadPatterns "signatures.yaml" = Ok cfg
        /\ In p (OperatingSystems cfg) /\ ID p = m /\ compiles p)
  /\ (forall e m,
        In e (trace (GitHub.main fuel args)) ->
        (exists email date location,
            e = GitHub.PrintUtility m email date location) ->
        exists cfg p,
          LoadPatterns "signatures.yaml" = Ok cfg
          /\ In p (Utilities cfg) /\ ID p = m /\ compiles p)
  /\ (forall e m,
        In e (trace (GitLab.main fuel args)) ->
        (exists name email date project,
            e = GitLab.PrintOS m name email date project) ->
        exists cfg p,
          LoadPatterns "signatures.yaml" = Ok cfg
          /\ In p (OperatingSystems cfg) /\ ID p = m /\ compiles p)
  /\ (forall e m,
        In e (trace (GitLab.main fuel args)) ->
        (exists name email date project,
            e = GitLab.PrintUtility m name email date project) ->
        exists cfg p,
          LoadPatterns "signatures.yaml" = Ok cfg
          /\ In p (Utilities cfg) /\ ID p = m /\ compiles p)
  /\ (forall e m,
        In e (trace (Bitbucket.main fuel args)) ->
        (exists date repo location,
            e = Bitbucket.PrintOS m date repo location) ->
        exists cfg p,
          LoadPatterns "signatures.yaml" = Ok cfg
          /\ In p (OperatingSystems cfg) /\ ID p = m /\ compiles p)
  /\ (forall e m,
        In e (trace (Bitbucket.main fuel args)) ->
        (exists date repo location,
            e = Bitbucket.PrintUtility m date repo location) ->
        exists cfg p,
          LoadPatterns "signatures.yaml" = Ok cfg
          /\ In p (Utilities cfg) /\ ID p = m /\ compiles p).
Proof.
  unfold trace. repeat apply conj; intros e m Hin Hshape.
  - refine (GitHubRun.gh_main_inv
              (fun e => forall m,
                   (exists email date location,
                       e = GitHub.PrintOS m email date location) ->
                   exists cfg p, _ /\ _ /\ _ /\ _)
              fuel args _ _ _ _ Hin m Hshape).
    + intros url ? (? & ? & ? & [=]).
    + intros e' _ He ? (? & ? & ? & ->). discriminate.
    + intros cfg blacklist c e' Hcfg _ He m' (? & ? & ? & ->).
      rewrite GitHubFacts.gh_ProcessCommit_split in He. cbn [fst] in He.
      apply in_app_or in He as [He|He].
      { apply GitHubFacts.gh_in_email_events in He as (? & _ & _ & [=]). }
      apply signature_rounds_from_config in He
        as [(p & re & Hp & Hre & _ & [= -> _ _ _])|(p & re & _ & _ & _ & [=])].
      exists cfg, p. repeat split; auto. now exists re.
  - refine (GitHubRun.gh_main_inv
              (fun e => forall m,
                   (exists email date location,
                       e = GitHub.PrintUtility m email date location) ->
                   exists cfg p, _ /\ _ /\ _ /\ _)
              fuel args _ _ _ _ Hin m Hshape).
    + intros url ? (? & ? & ? & [=]).
    + intros e' _ He ? (? & ? & ? & ->). discriminate.
    + intros cfg blacklist c e' Hcfg _ He m' (? & ? & ? & ->).
      rewrite GitHubFacts.gh_ProcessCommit_split in He. cbn [fst] in He.
      apply in_app_or in He as [He|He].
      { apply GitHubFacts.gh_in_email_events in He as (? & _ & _ & [=]). }
      apply signature_rounds_from_config in He
        as [(p & re & _ & _ & _ & [=])|(p & re & Hp & Hre & _ & [= -> _ _ _])].
      exists cfg, p. repeat split; auto. now exists re.
  - refine (GitLabRun.gl_main_inv
              (fun e => forall m,
                   (exists name email date project,
                       e = GitLab.PrintOS m name email date project) ->
                   exists cfg p, _ /\ _ /\ _ /\ _)
              fuel args _ _ _ _ Hin m Hshape).
    + intros url ? (? & ? & ? & ? & [=]).
    + intros e' _ He ? (? & ? & ? & ? & ->). discriminate.
    + intros cfg blacklist projectURL c e' Hcfg _ He m' (? & ? & ? & ? & ->).
      rewrite GitLabFacts.gl_ProcessCommit_split in He. cbn [fst] in He.
      apply in_app_or in He as [He|He].
      { apply GitLabFacts.gl_in_email_events in He as (_ & [=]). }
      apply signature_rounds_from_config in He
        as [(p & re & Hp & Hre & _ & [= -> _ _ _ _])|(p & re & _ & _ & _ & [=])].
      exists cfg, p. repeat split; auto. now exists re.
  - refine (GitLabRun.gl_main_inv
              (fun e => forall m,
                   (exists name email date project,
                       e = GitLab.PrintUtility m name email date project) ->
                   exists cfg p, _ /\ _ /\ _ /\ _)
              fuel args _ _ _ _ Hin m Hshape).
    + intros url ? (? & ? & ? & ? & [=]).
    + intros e' _ He ? (? & ? & ? & ? & ->). discriminate.
    + intros cfg blacklist projectURL c e' Hcfg _ He m' (? & ? & ? & ? & ->).
      rewrite GitLabFacts.gl_ProcessCommit_split in He. cbn [fst] in He.
      apply in_app_or in He as [He|He].
      { apply GitLabFacts.gl_in_email_events in He as (_ & [=]). }
      apply signature_rounds_from_config in He
        as [(p & re & _ & _ & _ & [=])|(p & re & Hp & Hre & _ & [= -> _ _ _ _])].
      exists cfg, p. repeat split; auto. now exists re.
  - refine (BitbucketRun.bb_main_inv
              (fun e => forall m,
                   (exists date repo location,
                       e = Bitbucket.PrintOS m date repo location) ->
                   exists cfg p, _ /\ _ /\ _ /\ _)
              fuel args _ _ _ _ Hin m Hshape).
    + intros url ? (? & ? & ? & [=]).
    + intros e' _ He ? (? & ? & ? & ->). discriminate.
    + intros cfg blacklist repoName c e' Hcfg _ He m' (? & ? & ? & ->).
      rewrite BitbucketFacts.bb_ProcessCommit_split in He. cbn [fst] in He.
      apply in_app_or in He as [He|He].
      { apply BitbucketFacts.bb_in_email_events in He as (? & _ & _ & [=]). }
      apply signature_rounds_from_config in He
        as [(p & re & Hp & Hre & _ & [= -> _ _ _])|(p & re & _ & _ & _ & [=])].
      exists cfg, p. repeat split; auto. now exists re.
  - refine (BitbucketRun.bb_main_inv
              (fun e => forall m,
                   (exists date repo location,
                       e = Bitbucket.PrintUtility m date repo location) ->
                   exists cfg p, _ /\ _ /\ _ /\ _)
              fuel args _ _ _ _ Hin m Hshape).
    + intros url ? (? & ? & ? & [=]).
    + intros e' _ He ? (? & ? & ? & ->). discriminate.
    + intros cfg blacklist repoName c e' Hcfg _ He m' (? & ? & ? & ->).
      rewrite BitbucketFacts.bb_ProcessCommit_split in He. cbn [fst] in He.
      apply in_app_or in He as [He|He].
      { apply BitbucketFacts.bb_in_email_events in He as (? & _ & _ & [=]). }
      apply signature_rounds_from_config in He
        as [(p & re & _ & _ & _ & [=])|(p & re & Hp & Hre & _ & [= -> _ _ _])].
      exists cfg, p. repeat split; auto. now exists re.
Qed.

End RunSignatures.

(** The token of the sample [.env] travels with the lookup of the user. *)
Lemma run_request_headers_witness :
  let req :=
    {| req_url := "https://gitlab.com/api/v4/users?username=alice";
       req_headers := [("PRIVATE-TOKEN", "abc")] |} in
  In (GitLab.HttpDo req)
     (trace (@GitLab.main SampleFiles.libs sample_gitlab_with_token 5
               ["dossier"; "alice"]))
  /\ req_headers req = [("PRIVATE-TOKEN", "abc")].
Proof.
  cbn zeta.
  assert (Hin : In (GitLab.HttpDo
                      {| req_url := "https://gitlab.com/api/v4/users?username=alice";
                         req_headers := [("PRIVATE-TOKEN", "abc")] |})
                   (trace (@GitLab.main SampleFiles.libs sample_gitlab_with_token
                             5 ["dossier"; "alice"]))).
  { vm_compute. right. right. left. reflexivity. }
  split; [exact Hin|].
  exact (proj1 (proj2 (@run_request_headers SampleFiles.libs sample_github_with_token
                         sample_gitlab_with_token sample_bitbucket_with_token 5
                         ["dossier"; "alice"])) _ Hin).
Defined.

(** The first email block of the sample Bitbucket run. *)
Lemma run_emails_pass_the_gate_witness :
  In (Bitbucket.PrintEmail "bob@example.org" "Bob" "2024-01-02 03:04:05 UTC"
        "Dotfiles" "https://bitbucket.org/alice/dotfiles/commits/b1")
     (trace (@Bitbucket.main SampleFiles.libs sample_bitbucket_with_token 5
               ["dossier"; "alice"]))
  /\ exists blacklist,
      @LoadBlacklist SampleFiles.libs "blacklist.txt" = Some (blacklist, None)
      /\ @IsValidEmail SampleFiles.libs "bob@example.org" = Some true
      /\ Forall (fun re => @MatchString SampleFiles.libs re "bob@example.org"
                           = false) blacklist.
Proof.
  assert (Hin : In (Bitbucket.PrintEmail "bob@example.org" "Bob"
                      "2024-01-02 03:04:05 UTC" "Dotfiles"
                      "https://bitbucket.org/alice/dotfiles/commits/b1")
                   (trace (@Bitbucket.main SampleFiles.libs
                             sample_bitbucket_with_token 5
                             ["dossier"; "alice"]))).
  { apply (nth_error_In _ 6). vm_compute. reflexivity. }
  split; [exact Hin|].
  exact (proj2 (proj2 (@run_emails_pass_the_gate SampleFiles.libs
                         sample_github_with_token sample_gitlab_with_token
                         sample_bitbucket_with_token 5 ["dossier"; "alice"]))
           _ _ _ _ _ Hin).
Defined.

(** The first operating-system block of the sample Bitbucket run. *)
Lemma run_signatures_come_from_config_witness :
  In (Bitbucket.PrintOS "debian" "2024-01-02 03:04:05 UTC" "Dotfiles"
        "https://bitbucket.org/alice/dotfiles/commits/b1")
     (trace (@Bitbucket.main SampleFiles.libs sample_bitbucket_with_token 5
               ["dossier"; "alice"]))
  /\ exists cfg p,
      @LoadPatterns SampleFiles.libs "signatures.yaml" = Ok cfg
      /\ In p (OperatingSystems cfg) /\ ID p = "debian"
      /\ @compiles SampleFiles.libs p.
Proof.
  assert (Hin : In (Bitbucket.PrintOS "debian" "2024-01-02 03:04:05 UTC"
                      "Dotfiles"
                      "https://bitbucket.org/alice/dotfiles/commits/b1")
                   (trace (@Bitbucket.main SampleFiles.libs
                             sample_bitbucket_with_token 5
                             ["dossier"; "alice"]))).
  { apply (nth_error_In _ 7). vm_compute. reflexivity. }
  split; [exact Hin|].
  exact (proj1 (proj2 (proj2 (proj2 (proj2
           (@run_signatures_come_from_config SampleFiles.libs
              sample_github_with_token sample_gitlab_with_token
              sample_bitbucket_with_token 5 ["dossier"; "alice"])))))
           _ "debian" Hin
           (ex_intro _ _ (ex_intro _ _ (ex_intro _ _ eq_refl)))).
Defined.

(** ** Runs that stop before the first request *)

Section StartUp.
Context `{libs : GoLibs} {gh : GitHub.World} {gl : GitLab.World}
  {bb : Bitbucket.World}.

(** X6. A run that is given no user name, that cannot load
    [signatures.yaml], or that cannot open or read [blacklist.txt] to its
    end, exits with status 1 having sent no request and reported no
    finding. *)
Theorem run_stops_before_any_request (fuel : nat) (args : list string) :
  args !! 1%nat = None
  \/ (exists err, LoadPatterns "signatures.yaml" = Err err)
  \/ (exists blacklist err,
        LoadBlacklist "blacklist.txt" = Some (blacklist, Some err)) ->
  (outcome (GitHub.main fuel args) = Exit 1
   /\ Forall (fun e => GitHubSpec.is_request e = false
                       /\ github_is_block e = false)
        (trace (GitHub.main fuel args)))
  /\ (outcome (GitLab.main fuel args) = Exit 1
      /\ Forall (fun e => GitLabSpec.is_request e = false
                          /\ GitLabSpec.is_finding e = false)
           (trace (GitLab.main fuel args)))
  /\ (outcome (Bitbucket.main fuel args) = Exit 1
      /\ Forall (fun e => BitbucketSpec.is_request e = false
                          /\ bitbucket_is_block e = false)
           (trace (Bitbucket.main fuel args))).
Proof.
  intros Hfail. unfold outcome, trace.
  assert (Hcases :
            args !! 1%nat = None
            \/ (exists username, args !! 1%nat = Some username)
               /\ ((exists err, LoadPatterns "signatures.yaml" = Err err)
                   \/ (exists cfg blacklist err,
                          LoadPatterns "signatures.yaml" = Ok cfg
                          /\ LoadBlacklist "blacklist.txt"
                             = Some (blacklist, Some err)))).
  { destruct (args !! 1%nat) as [username|]; [right|now left].
    split; [eauto|].
    destruct Hfail as [Hfail|[Hfail|(blacklist & err & Hfail)]];
      [discriminate|now left|].
    destruct (LoadPatterns "signatures.yaml") as [cfg|err']; eauto 10. }
  clear Hfail.
  unfold GitHub.main, GitLab.main, Bitbucket.main.
  destruct Hcases as [->|[[username ->] [[err ->]|(cfg & blacklist & err & -> & ->)]]].
  - rewrite !bind_emit. cbn. repeat split; repeat constructor.
  - rewrite !bind_emit. cbn [fst snd os_Exit].
    repeat split; repeat constructor; now destruct (negb _).
  - rewrite !bind_emit, !(bind_or_panic_some _ _ _ eq_refl).
    cbn [fst snd]. rewrite !bind_emit. cbn [fst snd os_Exit].
    repeat split; repeat constructor; now destruct (negb _).
Qed.

End StartUp.

(** A run of each sample scanner without a user name. *)
Lemma run_stops_before_any_request_witness :
  outcome (@GitHub.main Sample.libs Sample.github 5 ["dossier"]) = Exit 1
  /\ outcome (@GitLab.main Sample.libs Sample.gitlab 5 ["dossier"]) = Exit 1
  /\ outcome (@Bitbucket.main Sample.libs Sample.bitbucket 5 ["dossier"])
     = Exit 1.
Proof.
  destruct (@run_stops_before_any_request Sample.libs Sample.github
              Sample.gitlab Sample.bitbucket 5 ["dossier"]
              (or_introl eq_refl))
    as ((Hgh & _) & (Hgl & _) & (Hbb & _)).
  exact (conj Hgh (conj Hgl Hbb)).
Defined.

(** ** Where the requests go *)

Module BitbucketHosts.
Import Bitbucket BitbucketSpec.

Section Hosts.
Context `{World}.

Lemma bb_host_repos (fuel : nat) (start : string) :
  forall (url : string) (repos : list Repo) (e : Event),
    follows_cursors bitbucket_repos_page Repo_Next start url ->
    In e (fst (GetUserRepos_loop fuel url repos)) ->
    exists u,
      follows_cursors bitbucket_repos_page Repo_Next start u
      /\ e = HttpDo (request u).
Proof.
  induction fuel as [|fuel IH]; intros url repos e Hurl; [intros []|].
  cbn [GetUserRepos_loop].
  destruct (String.eqb_spec url "") as [|Hne]; [intros []|].
  destruct (http_NewRequest url) eqn:Hnew.
  { unfold makeRequest. rewrite Hnew, bind_ret. intros []. }
  rewrite (BitbucketPages.bb_page_makeRequest_ok _ Hnew), bind_pair.
  cbn [fst app].
  intros [<-|Hin]; [eauto|].
  destruct (client_Do (request url)) as [[body status]|] eqn:Hdo;
    [|destruct Hin].
  destruct (status =? 200) eqn:Hst; [|destruct Hin]. cbn [negb] in Hin.
  destruct (json_Unmarshal_RepoPage body) as [page|] eqn:Hpage;
    [|destruct Hin].
  apply IH in Hin; [exact Hin|].
  apply (cursor_next _ _ _ url page Hurl Hne).
  unfold bitbucket_repos_page. now rewrite Hnew, Hdo, Hst, Hpage.
Qed.

Lemma bb_host_fetch (fuel : nat) (start : string) :
  forall (url : string) (allCommits : list BitbucketCommit) (req : HttpRequest),
    follows_cursors commits_page Next start url ->
    In (HttpDo req) (fst (fetchAllCommits fuel url allCommits)) ->
    follows_cursors commits_page Next start (req_url req).
Proof.
  induction fuel as [|fuel IH]; intros url allCommits req Hurl; [intros []|].
  cbn [fetchAllCommits].
  destruct (String.eqb_spec url "") as [|Hne]; [intros []|].
  destruct (http_NewRequest url) eqn:Hnew.
  { unfold makeRequest. rewrite Hnew, bind_ret. intros Hin.
    apply in_bind in Hin as [Hin|(_ & _ & [])].
    apply in_emit in Hin. discriminate. }
  rewrite (BitbucketPages.bb_page_makeRequest_ok _ Hnew), bind_pair.
  cbn [fst app].
  intros [Heq|Hin]; [injection Heq as <-; exact Hurl|].
  destruct (client_Do (request url)) as [[body status]|] eqn:Hdo.
  2:{ apply in_bind in Hin as [Hin|(_ & _ & [])].
      apply in_emit in Hin. discriminate. }
  destruct (status =? 200) eqn:Hst; cbn [negb] in Hin.
  2:{ apply in_bind in Hin as [Hin|(_ & _ & [])].
      apply in_emit in Hin. discriminate. }
  destruct (json_Unmarshal_CommitPage body) as [page|] eqn:Hpage.
  - apply IH in Hin; [exact Hin|].
    apply (cursor_next _ _ _ url page Hurl Hne).
    unfold commits_page. now rewrite Hnew, Hdo, Hst, Hpage.
  - apply in_bind in Hin as [Hin|(_ & _ & [])].
    apply in_emit in Hin. discriminate.
Qed.

Lemma bb_host_scan (fuel : nat) (username repoSlug repoName : string)
  (cfg : Config) (blacklist : list Regexp) (ascending : bool)
  (req : HttpRequest) :
  In (HttpDo req)
     (fst (ScanRepoCommits fuel username repoSlug repoName cfg blacklist
             ascending)) ->
  follows_cursors commits_page Next (commitsURL username repoSlug)
    (req_url req).
Proof.
  unfold ScanRepoCommits. intros Hin.
  apply in_bind in Hin as [Hin|(fetched & _ & Hin)].
  { apply bb_host_fetch with (start := commitsURL username repoSlug) in Hin;
      [exact Hin|constructor]. }
  destruct fetched as [allCommits|]; [|destruct Hin].
  apply in_bind in Hin as [Hin|(commits & _ & Hin)].
  - destruct ascending; [|destruct Hin].
    rewrite reverse_in_place_rev in Hin. destruct Hin.
  - apply for_range_event in Hin as (c & _ & Hin).
    apply BitbucketFacts.bb_ProcessCommit_no_request in Hin. discriminate.
Qed.

Lemma bb_host_main (fuel : nat) (args : list string) (req : HttpRequest) :
  In (HttpDo req) (fst (main fuel args)) ->
  exists username,
    args !! 1%nat = Some username
    /\ (follows_cursors bitbucket_repos_page Repo_Next
          ("https://api.bitbucket.org/2.0/repositories/" +:+ username
           +:+ "?pagelen=100") (req_url req)
        \/ exists repos r,
             snd (GetUserRepos fuel username) = Done (Ok repos)
             /\ In r repos
             /\ follows_cursors commits_page Next
                  (commitsURL username (Slug r)) (req_url req)).
Proof.
  unfold main. destruct (args !! 1%nat) as [bitbucketUser|].
  2:{ intros Hin. apply in_bind in Hin as [Hin|(_ & _ & [])].
      apply in_emit in Hin. discriminate. }
  intros Hin. exists bitbucketUser. split; [reflexivity|].
  destruct (LoadPatterns "signatures.yaml") as [cfg|err].
  2:{ apply in_bind in Hin as [Hin|(_ & _ & [])].
      apply in_emit in Hin. discriminate. }
  destruct (LoadBlacklist "blacklist.txt") as [[blacklist scanErr]|];
    [|destruct Hin].
  rewrite (bind_or_panic_some _ _ _ eq_refl) in Hin. cbn [fst snd] in Hin.
  destruct scanErr as [err|].
  { apply in_bind in Hin as [Hin|(_ & _ & [])].
    apply in_emit in Hin. discriminate. }
  apply in_bind in Hin as [Hin|(_ & _ & Hin)];
    [apply in_emit in Hin; discriminate|].
  apply in_bind in Hin as [Hin|(listed & Hlisted & Hin)].
  { left. unfold GetUserRepos in Hin.
    apply bb_host_repos
      with (start := "https://api.bitbucket.org/2.0/repositories/"
                     +:+ bitbucketUser +:+ "?pagelen=100") in Hin
      as (u & Hu & Heq); [|constructor].
    now injection Heq as ->. }
  destruct listed as [repos|err].
  - right. apply for_range_event in Hin as (r & Hr & Hin).
    rewrite bind_emit in Hin. cbn [fst] in Hin.
    destruct Hin as [Heq|Hin]; [discriminate|].
    exists repos, r. split; [exact Hlisted|]. split; [exact Hr|].
    now apply bb_host_scan in Hin.
  - apply in_bind in Hin as [Hin|(_ & _ & [])].
    apply in_emit in Hin. discriminate.
Qed.

End Hosts.
End BitbucketHosts.

Section RequestHosts.
Context `{libs : GoLibs} {gh : GitHub.World} {gl : GitLab.World}
  {bb : Bitbucket.World}.

(** X7. The URLs a run asks [client.Do] for, whatever the servers
    answer.  The GitHub scanner only asks for URLs under
    [https://api.github.com/] and the GitLab scanner only for URLs under
    [https://gitlab.com/api/v4/].  The Bitbucket scanner asks for the
    listing of the user and for what the [next] cursors of the pages of
    the listing lead to from there, and, for a repository of the listing,
    for its commits and for what the [next] cursors of the pages of
    commits lead to from there: a cursor is followed wherever it points.
    The redirects that the client follows while it answers a call are not
    calls of the scanner. *)
Theorem run_request_hosts (fuel : nat) (args : list string) :
  (forall req,
      In (GitHub.HttpDo req) (trace (GitHub.main fuel args)) ->
      HasPrefix (req_url req) "https://api.github.com/" = true)
  /\ (forall req,
        In (GitLab.HttpDo req) (trace (GitLab.main fuel args)) ->
        HasPrefix (req_url req) "https://gitlab.com/api/v4/" = true)
  /\ (forall req,
        In (Bitbucket.HttpDo req) (trace (Bitbucket.main fuel args)) ->
        exists username,
          args !! 1%nat = Some username
          /\ (follows_cursors bitbucket_repos_page Bitbucket.Repo_Next
                ("https://api.bitbucket.org/2.0/repositories/" +:+ username
                 +:+ "?pagelen=100") (req_url req)
              \/ exists repos r,
                   outcome (Bitbucket.GetUserRepos fuel username)
                   = Done (Ok repos)
                   /\ In r repos
                   /\ follows_cursors BitbucketSpec.commits_page
                        Bitbucket.Next
                        (Bitbucket.commitsURL username (Bitbucket.Slug r))
                        (req_url req))).
Proof.
  unfold trace. repeat apply conj; intros req Hin.
  - apply GitHubMain.gh_main_requests in Hin
      as (githubToken & username
          & [(order & page & ->)|[(page & ->)|(repos & r & page & _ & _ & _ & ->)]]);
      reflexivity.
  - apply GitLabForks.gl_fork_main_requests in Hin
      as (gitlabToken & username
          & [->|[(userID & page & ->)
                |(userID & projects & p & page & _ & _ & _ & ->)]]);
      reflexivity.
  - exact (BitbucketHosts.bb_host_main fuel args req Hin).
Qed.

End RequestHosts.

(** The listing of the repositories of an unknown GitHub user, and the
    third page of the commits of the sample Bitbucket repository, which
    is asked for because the second page names it. *)
Lemma run_request_hosts_witness :
  HasPrefix "https://api.github.com/users/nobody/repos?per_page=100&page=1"
    "https://api.github.com/" = true
  /\ exists username,
      ["dossier"; "alice"] !! 1%nat = Some username
      /\ (follows_cursors
            (@bitbucket_repos_page Sample.libs Sample.bitbucket)
            Bitbucket.Repo_Next
            ("https://api.bitbucket.org/2.0/repositories/" +:+ username
             +:+ "?pagelen=100") (Sample.bb_next "3")
          \/ exists repos r,
               outcome (@Bitbucket.GetUserRepos Sample.libs Sample.bitbucket
                          5 username) = Done (Ok repos)
               /\ In r repos
               /\ follows_cursors
                    (@BitbucketSpec.commits_page Sample.libs Sample.bitbucket)
                    Bitbucket.Next
                    (Bitbucket.commitsURL username (Bitbucket.Slug r))
                    (Sample.bb_next "3")).
Proof.
  destruct (@run_request_hosts Sample.libs Sample.github Sample.gitlab
              Sample.bitbucket 5 ["dossier"; "nobody"]) as (Hgh & _ & _).
  destruct (@run_request_hosts Sample.libs Sample.github Sample.gitlab
              Sample.bitbucket 5 ["dossier"; "alice"]) as (_ & _ & Hbb).
  split.
  - apply (Hgh {| req_url :=
                    "https://api.github.com/users/nobody/repos?per_page=100&page=1";
                  req_headers :=
                    [("Accept", "application/vnd.github.cloak-preview+json")] |}).
    apply (nth_error_In _ 9). vm_compute. reflexivity.
  - apply (Hbb (BitbucketSpec.request (Sample.bb_next "3"))).
    apply (nth_error_In _ 5). vm_compute. reflexivity.
Defined.

(** ** The listings of repositories *)

Module GitHubListing.
Import GitHub GitHubSpec.

Section Listing.
Context `{World}.
Variables (githubToken username : string).

(** One round of the listing loop on a page the server delivers. *)
Lemma gh_list_step (fuel : nat) (page : Z) (repos tmp : list Repo) :
  github_repos_page githubToken username page = Some tmp ->
  GetUserRepos_loop (S fuel) githubToken username page repos
  = let rest :=
      match tmp with
      | [] => mret (Ok repos)
      | _ :: _ =>
          GetUserRepos_loop fuel githubToken username (page + 1) (repos ++ tmp)
      end in
    (HttpDo (request githubToken (reposURL username page)) :: fst rest,
     snd rest).
Proof.
  unfold github_repos_page. cbn [GetUserRepos_loop].
  destruct (http_NewRequest _) eqn:Hnew; [discriminate|].
  rewrite (GitHubSearch.gh_search_makeRequest_ok _ _ Hnew), bind_pair.
  destruct (client_Do _) as [[body status]|]; [|discriminate].
  destruct (status =? 200) eqn:Hst; [|discriminate].
  destruct (json_Unmarshal_Repos body) as [l|] eqn:Hl; [|discriminate].
  intros [= ->]. cbn [negb]. now destruct tmp.
Qed.

(** One round on a page that fails. *)
Lemma gh_list_fail (fuel : nat) (page : Z) (repos : list Repo) :
  github_repos_page githubToken username page = None ->
  exists err,
    snd (GetUserRepos_loop (S fuel) githubToken username page repos)
    = Done (Err err).
Proof.
  unfold github_repos_page. cbn [GetUserRepos_loop].
  destruct (http_NewRequest _) as [err|] eqn:Hnew.
  { intros _. exists err. unfold makeRequest. now rewrite Hnew, bind_ret. }
  rewrite (GitHubSearch.gh_search_makeRequest_ok _ _ Hnew), bind_pair.
  destruct (client_Do _) as [[body status]|err]; [|now exists err].
  destruct (status =? 200) eqn:Hst; [|cbn; eauto].
  destruct (json_Unmarshal_Repos body) as [l|err] eqn:Hl; [discriminate|].
  now exists err.
Qed.

(** The rounds on the pages the server delivers. *)
Lemma gh_list_prefix (pages : list (list Repo)) :
  forall (fuel j : nat) (repos : list Repo),
    (forall k page,
        pages !! k = Some page ->
        page <> []
        /\ github_repos_page githubToken username (Z.of_nat (j + k) + 1)
           = Some page) ->
    GetUserRepos_loop (length pages + fuel) githubToken username
      (Z.of_nat j + 1) repos
    = let rest :=
        GetUserRepos_loop fuel githubToken username
          (Z.of_nat (j + length pages) + 1) (repos ++ concat pages) in
      (map (fun k => HttpDo (request githubToken
                               (reposURL username (Z.of_nat k))))
           (seq (S j) (length pages))
       ++ fst rest, snd rest).
Proof.
  induction pages as [|page pages IH]; intros fuel j repos Hpages.
  - cbn. rewrite Nat.add_0_r, app_nil_r. now destruct (GetUserRepos_loop _ _ _ _ _).
  - destruct (Hpages 0%nat page eq_refl) as [Hne Hpage].
    rewrite Nat.add_0_r in Hpage.
    cbn [length Nat.add]. rewrite (gh_list_step _ _ _ _ Hpage). cbn zeta.
    destruct page as [|r page]; [congruence|].
    replace (Z.of_nat j + 1 + 1) with (Z.of_nat (S j) + 1) by lia.
    rewrite (IH fuel (S j)).
    + cbn [fst snd concat seq map app]. rewrite <- app_assoc.
      replace (S j + length pages)%nat with (j + S (length pages))%nat by lia.
      now replace (Z.of_nat (S j)) with (Z.of_nat j + 1) by lia.
    + intros k p Hk. destruct (Hpages (S k) p Hk) as [Hp Hat].
      split; [exact Hp|].
      now replace (S j + k)%nat with (j + S k)%nat by lia.
Qed.

Lemma gh_list_ok (fuel : nat) (pages : list (list Repo)) :
  github_lists_repos githubToken username pages ->
  github_repos_page githubToken username (Z.of_nat (length pages) + 1)
  = Some [] ->
  (length pages < fuel)%nat ->
  GetUserRepos fuel githubToken username
  = (github_repos_requests githubToken username (S (length pages)),
     Done (Ok (concat pages))).
Proof.
  intros Hpages Hlast Hfuel. unfold GetUserRepos.
  replace fuel with (length pages + S (fuel - S (length pages)))%nat by lia.
  change 1 with (Z.of_nat 0 + 1).
  rewrite (gh_list_prefix pages _ 0 []) by exact Hpages.
  cbn [Nat.add app]. rewrite (gh_list_step _ _ _ _ Hlast). cbn [fst snd].
  unfold github_repos_requests. rewrite seq_S, map_app. cbn [map fst snd].
  now replace (Z.of_nat (1 + length pages)) with (Z.of_nat (length pages) + 1)
    by lia.
Qed.

Lemma gh_list_err (fuel : nat) (pages : list (list Repo)) :
  github_lists_repos githubToken username pages ->
  github_repos_page githubToken username (Z.of_nat (length pages) + 1) = None ->
  (length pages < fuel)%nat ->
  exists err,
    snd (GetUserRepos fuel githubToken username) = Done (Err err).
Proof.
  intros Hpages Hlast Hfuel. unfold GetUserRepos.
  replace fuel with (length pages + S (fuel - S (length pages)))%nat by lia.
  change 1 with (Z.of_nat 0 + 1).
  rewrite (gh_list_prefix pages _ 0 []) by exact Hpages.
  cbn [Nat.add app snd]. now apply gh_list_fail.
Qed.

End Listing.
End GitHubListing.

Module GitLabListing.
Import GitLab GitLabSpec.

Section Listing.
Context `{World}.
Variables (gitlabToken : string) (userID : Z).

(** One round of the listing loop on a page the server delivers. *)
Lemma gl_list_step (fuel : nat) (page : Z) (projects tmp : list GitLabProject) :
  gitlab_projects_page gitlabToken userID page = Some tmp ->
  GetUserProjects_loop (S fuel) gitlabToken userID page projects
  = let rest :=
      match tmp with
      | [] => mret (Ok projects)
      | _ :: _ =>
          GetUserProjects_loop fuel gitlabToken userID (page + 1)
            (projects ++ tmp)
      end in
    (HttpDo (request gitlabToken (projectsURL userID page)) :: fst rest,
     snd rest).
Proof.
  unfold gitlab_projects_page. cbn [GetUserProjects_loop].
  destruct (http_NewRequest _) eqn:Hnew; [discriminate|].
  rewrite (GitLabPages.gl_page_makeRequest_ok _ _ Hnew), bind_pair.
  destruct (client_Do _) as [[body status]|]; [|discriminate].
  destruct (status =? 200) eqn:Hst; [|discriminate].
  destruct (json_Unmarshal_Projects body) as [l|] eqn:Hl; [|discriminate].
  intros [= ->]. cbn [negb]. now destruct tmp.
Qed.

(** One round on a page that fails. *)
Lemma gl_list_fail (fuel : nat) (page : Z) (projects : list GitLabProject) :
  gitlab_projects_page gitlabToken userID page = None ->
  exists err,
    snd (GetUserProjects_loop (S fuel) gitlabToken userID page projects)
    = Done (Err err).
Proof.
  unfold gitlab_projects_page. cbn [GetUserProjects_loop].
  destruct (http_NewRequest _) as [err|] eqn:Hnew.
  { intros _. exists err. unfold makeRequest. now rewrite Hnew, bind_ret. }
  rewrite (GitLabPages.gl_page_makeRequest_ok _ _ Hnew), bind_pair.
  destruct (client_Do _) as [[body status]|err]; [|now exists err].
  destruct (status =? 200) eqn:Hst; [|cbn; eauto].
  destruct (json_Unmarshal_Projects body) as [l|err] eqn:Hl; [discriminate|].
  now exists err.
Qed.

(** The rounds on the pages the server delivers. *)
Lemma gl_list_prefix (pages : list (list GitLabProject)) :
  forall (fuel j : nat) (projects : list GitLabProject),
    (forall k page,
        pages !! k = Some page ->
        page <> []
        /\ gitlab_projects_page gitlabToken userID (Z.of_nat (j + k) + 1)
           = Some page) ->
    GetUserProjects_loop (length pages + fuel) gitlabToken userID
      (Z.of_nat j + 1) projects
    = let rest :=
        GetUserProjects_loop fuel gitlabToken userID
          (Z.of_nat (j + length pages) + 1) (projects ++ concat pages) in
      (map (fun k => HttpDo (request gitlabToken
                               (projectsURL userID (Z.of_nat k))))
           (seq (S j) (length pages))
       ++ fst rest, snd rest).
Proof.
  induction pages as [|page pages IH]; intros fuel j projects Hpages.
  - cbn. rewrite Nat.add_0_r, app_nil_r.
    now destruct (GetUserProjects_loop _ _ _ _ _).
  - destruct (Hpages 0%nat page eq_refl) as [Hne Hpage].
    rewrite Nat.add_0_r in Hpage.
    cbn [length Nat.add]. rewrite (gl_list_step _ _ _ _ Hpage). cbn zeta.
    destruct page as [|r page]; [congruence|].
    replace (Z.of_nat j + 1 + 1) with (Z.of_nat (S j) + 1) by lia.
    rewrite (IH fuel (S j)).
    + cbn [fst snd concat seq map app]. rewrite <- app_assoc.
      replace (S j + length pages)%nat with (j + S (length pages))%nat by lia.
      now replace (Z.of_nat (S j)) with (Z.of_nat j + 1) by lia.
    + intros k p Hk. destruct (Hpages (S k) p Hk) as [Hp Hat].
      split; [exact Hp|].
      now replace (S j + k)%nat with (j + S k)%nat by lia.
Qed.

Lemma gl_list_ok (fuel : nat) (pages : list (list GitLabProject)) :
  gitlab_lists_projects gitlabToken userID pages ->
  gitlab_projects_page gitlabToken userID (Z.of_nat (length pages) + 1)
  = Some [] ->
  (length pages < fuel)%nat ->
  GetUserProjects fuel gitlabToken userID
  = (gitlab_projects_requests gitlabToken userID (S (length pages)),
     Done (Ok (concat pages))).
Proof.
  intros Hpages Hlast Hfuel. unfold GetUserProjects.
  replace fuel with (length pages + S (fuel - S (length pages)))%nat by lia.
  change 1 with (Z.of_nat 0 + 1).
  rewrite (gl_list_prefix pages _ 0 []) by exact Hpages.
  cbn [Nat.add app]. rewrite (gl_list_step _ _ _ _ Hlast). cbn [fst snd].
  unfold gitlab_projects_requests. rewrite seq_S, map_app. cbn [map fst snd].
  now replace (Z.of_nat (1 + length pages)) with (Z.of_nat (length pages) + 1)
    by lia.
Qed.

Lemma gl_list_err (fuel : nat) (pages : list (list GitLabProject)) :
  gitlab_lists_projects gitlabToken userID pages ->
  gitlab_projects_page gitlabToken userID (Z.of_nat (length pages) + 1)
  = None ->
  (length pages < fuel)%nat ->
  exists err,
    snd (GetUserProjects fuel gitlabToken userID) = Done (Err err).
Proof.
  intros Hpages Hlast Hfuel. unfold GetUserProjects.
  replace fuel with (length pages + S (fuel - S (length pages)))%nat by lia.
  change 1 with (Z.of_nat 0 + 1).
  rewrite (gl_list_prefix pages _ 0 []) by exact Hpages.
  cbn [Nat.add app snd]. now apply gl_list_fail.
Qed.

End Listing.
End GitLabListing.

Module BitbucketListing.
Import Bitbucket BitbucketSpec.

Section Listing.
Context `{World}.

(** One round of the cursor loop on a page the server delivers. *)
Lemma bb_list_step (fuel : nat) (url : string) (page : RepoPage)
  (repos : list Repo) :
  url <> "" ->
  bitbucket_repos_page url = Some page ->
  GetUserRepos_loop (S fuel) url repos
  = let rest :=
      GetUserRepos_loop fuel (Repo_Next page) (repos ++ Repo_Values page) in
    (HttpDo (request url) :: fst rest, snd rest).
Proof.
  unfold bitbucket_repos_page. cbn [GetUserRepos_loop]. intros Hurl.
  destruct (String.eqb_spec url ""); [congruence|].
  destruct (http_NewRequest _) eqn:Hnew; [discriminate|].
  rewrite (BitbucketPages.bb_page_makeRequest_ok _ Hnew), bind_pair.
  destruct (client_Do _) as [[body status]|]; [|discriminate].
  destruct (status =? 200) eqn:Hst; [|discriminate].
  destruct (json_Unmarshal_RepoPage body) as [l|] eqn:Hl; [|discriminate].
  now intros [= ->].
Qed.

(** One round on a page that fails. *)
Lemma bb_list_fail (fuel : nat) (url : string) (repos : list Repo) :
  url <> "" ->
  bitbucket_repos_page url = None ->
  exists err, snd (GetUserRepos_loop (S fuel) url repos) = Done (Err err).
Proof.
  unfold bitbucket_repos_page. cbn [GetUserRepos_loop]. intros Hurl.
  destruct (String.eqb_spec url ""); [congruence|].
  destruct (http_NewRequest _) as [err|] eqn:Hnew.
  { intros _. exists err. unfold makeRequest. now rewrite Hnew, bind_ret. }
  rewrite (BitbucketPages.bb_page_makeRequest_ok _ Hnew), bind_pair.
  destruct (client_Do _) as [[body status]|err]; [|now exists err].
  destruct (status =? 200) eqn:Hst; [|cbn; eauto].
  destruct (json_Unmarshal_RepoPage body) as [l|err] eqn:Hl; [discriminate|].
  now exists err.
Qed.

(** The rounds on the pages the server delivers. *)
Lemma bb_list_prefix (pages : list RepoPage) :
  forall (fuel : nat) (url last : string) (repos : list Repo),
    bitbucket_lists_repos url pages last ->
    GetUserRepos_loop (length pages + fuel) url repos
    = let rest :=
        GetUserRepos_loop fuel last
          (repos ++ concat (map Repo_Values pages)) in
      (bitbucket_repos_requests url pages ++ fst rest, snd rest).
Proof.
  induction pages as [|page pages IH]; intros fuel url last repos Hlists.
  - cbn in Hlists. subst last. cbn. rewrite app_nil_r.
    now destruct (GetUserRepos_loop _ _ _).
  - destruct Hlists as (Hurl & Hpage & Hrest).
    cbn [length Nat.add]. rewrite (bb_list_step _ _ _ _ Hurl Hpage). cbn zeta.
    rewrite (IH fuel _ _ _ Hrest).
    cbn [fst snd bitbucket_repos_requests map concat app].
    now rewrite <- app_assoc.
Qed.

Lemma bb_list_ok (fuel : nat) (username : string) (pages : list RepoPage) :
  bitbucket_lists_repos
    ("https://api.bitbucket.org/2.0/repositories/" +:+ username
     +:+ "?pagelen=100") pages "" ->
  (length pages < fuel)%nat ->
  GetUserRepos fuel username
  = (bitbucket_repos_requests
       ("https://api.bitbucket.org/2.0/repositories/" +:+ username
        +:+ "?pagelen=100") pages,
     Done (Ok (concat (map Repo_Values pages)))).
Proof.
  intros Hpages Hfuel. unfold GetUserRepos.
  replace fuel with (length pages + S (fuel - S (length pages)))%nat by lia.
  rewrite (bb_list_prefix pages _ _ _ [] Hpages).
  cbn. now rewrite app_nil_r.
Qed.

Lemma bb_list_err (fuel : nat) (username : string) (pages : list RepoPage)
  (last : string) :
  bitbucket_lists_repos
    ("https://api.bitbucket.org/2.0/repositories/" +:+ username
     +:+ "?pagelen=100") pages last ->
  last <> "" ->
  bitbucket_repos_page last = None ->
  (length pages < fuel)%nat ->
  exists err, snd (GetUserRepos fuel username) = Done (Err err).
Proof.
  intros Hpages Hlast Hfail Hfuel. unfold GetUserRepos.
  replace fuel with (length pages + S (fuel - S (length pages)))%nat by lia.
  rewrite (bb_list_prefix pages _ _ _ [] Hpages).
  cbn [snd]. now apply bb_list_fail.
Qed.

End Listing.
End BitbucketListing.

Section Listings.
Context `{libs : GoLibs} {gh : GitHub.World} {gl : GitLab.World}
  {bb : Bitbucket.World}.

(** X8. When the server delivers the repositories of a user in pages and
    the loop has fuel for them, each scanner requests the pages in order
    and returns their concatenation, in the order of the requests: GitHub
    and GitLab stop at the first empty page, Bitbucket when a page has no
    cursor. *)
Theorem listing_concatenates (fuel : nat) :
  (forall githubToken username pages,
      github_lists_repos githubToken username pages ->
      github_repos_page githubToken username (Z.of_nat (length pages) + 1)
      = Some [] ->
      (length pages < fuel)%nat ->
      GitHub.GetUserRepos fuel githubToken username
      = (github_repos_requests githubToken username (S (length pages)),
         Done (Ok (concat pages))))
  /\ (forall gitlabToken userID pages,
        gitlab_lists_projects gitlabToken userID pages ->
        gitlab_projects_page gitlabToken userID (Z.of_nat (length pages) + 1)
        = Some [] ->
        (length pages < fuel)%nat ->
        GitLab.GetUserProjects fuel gitlabToken userID
        = (gitlab_projects_requests gitlabToken userID (S (length pages)),
           Done (Ok (concat pages))))
  /\ (forall username pages,
        let url :=
          "https://api.bitbucket.org/2.0/repositories/" +:+ username
          +:+ "?pagelen=100" in
        bitbucket_lists_repos url pages "" ->
        (length pages < fuel)%nat ->
        Bitbucket.GetUserRepos fuel username
        = (bitbucket_repos_requests url pages,
           Done (Ok (concat (map Bitbucket.Repo_Values pages))))).
Proof.
  repeat apply conj.
  - intros. now apply GitHubListing.gh_list_ok.
  - intros. now apply GitLabListing.gl_list_ok.
  - intros. now apply BitbucketListing.bb_list_ok.
Qed.

End Listings.

(** ** A listing that fails *)

(** A run that ends normally went through every stage. *)
Lemma bind_outcome_done {E A B} (m : Run E A) (f : A -> Run E B) (b : B) :
  snd (m ≫= f) = Done b -> exists a, snd m = Done a /\ snd (f a) = Done b.
Proof.
  unfold mbind, Run_bind, run_bind.
  destruct (snd m) as [a| | |]; cbn [snd]; try discriminate. eauto.
Qed.

Section FailedListing.
Context `{libs : GoLibs} {gh : GitHub.World} {gl : GitLab.World}
  {bb : Bitbucket.World}.

(** X9. A listing keeps nothing of the pages it received when a later
    page fails (the request cannot be built or sent, the status is not
    200, or the body does not decode): the run then scans no repository
    at all.  On GitLab and Bitbucket, and on GitLab also when the user is
    not found, the run exits with status 1 without a finding; on GitHub,
    where the two search passes come first, it does not end normally and
    requests the commits of no repository. *)
Theorem failed_listing_ends_run (fuel : nat) (args : list string)
  (username : string) (cfg : Config) (blacklist : list Regexp) :
  args !! 1%nat = Some username ->
  LoadPatterns "signatures.yaml" = Ok cfg ->
  LoadBlacklist "blacklist.txt" = Some (blacklist, None) ->
  (forall pages,
      let githubToken := LoadEnvToken "GITHUB_TOKEN=" ".env" in
      github_lists_repos githubToken username pages ->
      github_repos_page githubToken username (Z.of_nat (length pages) + 1)
      = None ->
      (length pages < fuel)%nat ->
      outcome (GitHub.main fuel args) <> Done tt
      /\ forall req,
          In (GitHub.HttpDo req) (trace (GitHub.main fuel args)) ->
          (exists order page,
              req = GitHubSpec.request githubToken
                      (GitHub.searchURL username order page))
          \/ (exists page,
                req = GitHubSpec.request githubToken
                        (GitHub.reposURL username page)))
  /\ (let gitlabToken := LoadEnvToken "GITLAB_TOKEN=" ".env" in
      (exists err,
          outcome (GitLab.GetUserID gitlabToken username) = Done (Err err))
      \/ (exists userID pages,
            outcome (GitLab.GetUserID gitlabToken username) = Done (Ok userID)
            /\ gitlab_lists_projects gitlabToken userID pages
            /\ gitlab_projects_page gitlabToken userID
                 (Z.of_nat (length pages) + 1) = None
            /\ (length pages < fuel)%nat) ->
      outcome (GitLab.main fuel args) = Exit 1
      /\ List.filter GitLabSpec.is_finding (trace (GitLab.main fuel args)) = [])
  /\ (forall pages last,
        bitbucket_lists_repos
          ("https://api.bitbucket.org/2.0/repositories/" +:+ username
           +:+ "?pagelen=100") pages last ->
        last <> "" ->
        bitbucket_repos_page last = None ->
        (length pages < fuel)%nat ->
        outcome (Bitbucket.main fuel args) = Exit 1
        /\ List.filter bitbucket_is_block (trace (Bitbucket.main fuel args))
           = []).
Proof.
  intros Hargs Hcfg Hbl. unfold outcome, trace. repeat apply conj.
  - intros pages Hpages Hfail Hfuel.
    set (githubToken := LoadEnvToken "GITHUB_TOKEN=" ".env") in *.
    destruct (GitHubListing.gh_list_err githubToken username fuel pages
                Hpages Hfail Hfuel) as [err Herr].
    unfold GitHub.main. rewrite Hargs, Hcfg, Hbl.
    rewrite (bind_or_panic_some _ _ _ eq_refl). cbn [fst snd].
    fold githubToken. split.
    + intros Hdone.
      apply bind_outcome_done in Hdone as (_ & _ & Hdone).
      apply bind_outcome_done in Hdone as (_ & _ & Hdone).
      apply bind_outcome_done in Hdone as (_ & _ & Hdone).
      apply bind_outcome_done in Hdone as (_ & _ & Hdone).
      apply bind_outcome_done in Hdone as (_ & _ & Hdone).
      apply bind_outcome_done in Hdone as (_ & _ & Hdone).
      apply bind_outcome_done in Hdone as (_ & _ & Hdone).
      apply bind_outcome_done in Hdone as (listed & Hlisted & Hdone).
      rewrite Herr in Hlisted. injection Hlisted as <-.
      apply bind_outcome_done in Hdone as (_ & _ & Hdone). discriminate.
    + intros req Hin.
      apply in_bind in Hin as [Hin|(_ & _ & Hin)];
        [apply in_emit in Hin; destruct (negb _); discriminate|].
      apply in_bind in Hin as [Hin|(_ & _ & Hin)];
        [apply in_emit in Hin; discriminate|].
      apply in_bind in Hin as [Hin|(_ & _ & Hin)];
        [apply in_emit in Hin; discriminate|].
      apply in_bind in Hin as [Hin|(_ & _ & Hin)].
      { left. apply GitHubForks.ScanGlobalCommits_loop_requests in Hin
          as [p ->]. eauto. }
      apply in_bind in Hin as [Hin|(_ & _ & Hin)];
        [apply in_emit in Hin; discriminate|].
      apply in_bind in Hin as [Hin|(_ & _ & Hin)].
      { left. apply GitHubForks.ScanGlobalCommits_loop_requests in Hin
          as [p ->]. eauto. }
      apply in_bind in Hin as [Hin|(_ & _ & Hin)];
        [apply in_emit in Hin; discriminate|].
      apply in_bind in Hin as [Hin|(listed & Hlisted & Hin)].
      { right. apply GitHubForks.GetUserRepos_loop_requests in Hin as [p Hp].
        injection Hp as ->. eauto. }
      rewrite Herr in Hlisted. injection Hlisted as <-.
      apply in_bind in Hin as [Hin|(_ & _ & [])].
      apply in_emit in Hin. discriminate.
  - set (gitlabToken := LoadEnvToken "GITLAB_TOKEN=" ".env").
    intros Hfail. unfold GitLab.main. rewrite Hargs, Hcfg, Hbl.
    rewrite (bind_or_panic_some _ _ _ eq_refl). cbn [fst snd].
    fold gitlabToken. rewrite !bind_emit. cbn [fst snd].
    assert (Hid : Forall (fun e => GitLabSpec.is_finding e = false)
                    (fst (GitLab.GetUserID gitlabToken username))).
    { apply List.Forall_forall. intros e He.
      now apply GitLabForks.GetUserID_requests in He as ->. }
    destruct (GitLab.GetUserID gitlabToken username) as [T0 found].
    cbn [fst snd] in *.
    destruct Hfail as [[err ->]|(userID & pages & -> & Hpages & Hlast & Hfuel)].
    { rewrite bind_pair, bind_emit. cbn [fst snd os_Exit].
      split; [reflexivity|].
      apply filter_keep_none. repeat constructor.
      - now destruct (negb _).
      - apply Forall_app. split; [exact Hid|]. repeat constructor. }
    destruct (GitLabListing.gl_list_err gitlabToken userID fuel pages
                Hpages Hlast Hfuel) as [err Herr].
    assert (Hlist : Forall (fun e => GitLabSpec.is_finding e = false)
                      (fst (GitLab.GetUserProjects fuel gitlabToken userID))).
    { apply List.Forall_forall. intros e He.
      now apply GitLabForks.GetUserProjects_loop_requests in He as [p ->]. }
    rewrite bind_pair.
    destruct (GitLab.GetUserProjects fuel gitlabToken userID) as [T listed].
    cbn [fst snd] in *. subst listed.
    rewrite bind_pair, bind_emit. cbn [fst snd os_Exit].
    split; [reflexivity|].
    apply filter_keep_none. repeat constructor.
    + now destruct (negb _).
    + apply Forall_app. split; [exact Hid|].
      apply Forall_app. split; [exact Hlist|]. repeat constructor.
  - intros pages last Hpages Hlast Hfail Hfuel.
    destruct (BitbucketListing.bb_list_err fuel username pages last
                Hpages Hlast Hfail Hfuel) as [err Herr].
    unfold Bitbucket.main. rewrite Hargs, Hcfg, Hbl.
    rewrite (bind_or_panic_some _ _ _ eq_refl). cbn [fst snd].
    rewrite bind_emit. cbn [fst snd].
    assert (Hlist : Forall (fun e => bitbucket_is_block e = false)
                      (fst (Bitbucket.GetUserRepos fuel username))).
    { apply List.Forall_forall. intros e He.
      unfold Bitbucket.GetUserRepos in He.
      apply (BitbucketHosts.bb_host_repos fuel _ _ _ _ (cursor_start _ _ _))
        in He as (u & _ & ->).
      reflexivity. }
    destruct (Bitbucket.GetUserRepos fuel username) as [T listed].
    cbn [fst snd] in *. subst listed.
    rewrite bind_pair, bind_emit. cbn [fst snd os_Exit].
    split; [reflexivity|].
    apply filter_keep_none. repeat constructor.
    apply Forall_app. split; [exact Hlist|]. repeat constructor.
Qed.

End FailedListing.

(** ** A page of commits that fails *)

Module GitLabOutage.
Import GitLab GitLabSpec.

Section Outage.
Context `{World}.
Variables (gitlabToken : string) (projectID : Z).

(** The rounds of the paging loop on the pages the server delivers. *)
Lemma gl_out_prefix (pages : list (list GitLabCommit)) :
  forall (fuel j : nat) (allCommits : list GitLabCommit),
    (forall k page,
        pages !! k = Some page ->
        page <> []
        /\ commits_page gitlabToken projectID (Z.of_nat (j + k) + 1)
           = Some page) ->
    fetchAllCommits (length pages + fuel) gitlabToken projectID
      (Z.of_nat j + 1) allCommits
    = let rest :=
        fetchAllCommits fuel gitlabToken projectID
          (Z.of_nat (j + length pages) + 1) (allCommits ++ concat pages) in
      (page_requests gitlabToken projectID (S j) (length pages) ++ fst rest,
       snd rest).
Proof.
  induction pages as [|page pages IH]; intros fuel j allCommits Hpages.
  - cbn. rewrite Nat.add_0_r, app_nil_r.
    now destruct (fetchAllCommits _ _ _ _ _).
  - destruct (Hpages 0%nat page eq_refl) as [Hne Hpage].
    rewrite Nat.add_0_r in Hpage.
    cbn [length Nat.add].
    rewrite (GitLabPages.gl_page_fetch_step _ _ _ _ _ _ Hpage). cbn zeta.
    destruct page as [|c page]; [congruence|].
    replace (Z.of_nat j + 1 + 1) with (Z.of_nat (S j) + 1) by lia.
    rewrite (IH fuel (S j)).
    + cbn [fst snd concat]. unfold page_requests. cbn [seq map app].
      rewrite <- app_assoc.
      replace (S j + length pages)%nat with (j + S (length pages))%nat by lia.
      now replace (Z.of_nat (S j)) with (Z.of_nat j + 1) by lia.
    + intros k p Hk. destruct (Hpages (S k) p Hk) as [Hp Hat].
      split; [exact Hp|].
      now replace (S j + k)%nat with (j + S k)%nat by lia.
Qed.

(** One round on a page that fails: a diagnostic and nothing fetched. *)
Lemma gl_out_fail (fuel : nat) (page : Z) (allCommits : list GitLabCommit) :
  commits_page gitlabToken projectID page = None ->
  snd (fetchAllCommits (S fuel) gitlabToken projectID page allCommits)
  = Done None.
Proof.
  unfold commits_page. cbn [fetchAllCommits].
  destruct (http_NewRequest _) as [err|] eqn:Hnew.
  { intros _. unfold makeRequest. now rewrite Hnew, bind_ret. }
  rewrite (GitLabPages.gl_page_makeRequest_ok _ _ Hnew), bind_pair.
  destruct (client_Do _) as [[body status]|err]; [|reflexivity].
  destruct (status =? 200) eqn:Hst; [|reflexivity].
  now destruct (json_Unmarshal_Commits body) as [l|err] eqn:Hl.
Qed.

Lemma gl_out_fetch (fuel : nat) (pages : list (list GitLabCommit)) :
  gitlab_lists_commits gitlabToken projectID pages ->
  commits_page gitlabToken projectID (Z.of_nat (length pages) + 1) = None ->
  (length pages < fuel)%nat ->
  snd (fetchAllCommits fuel gitlabToken projectID 1 []) = Done None.
Proof.
  intros Hpages Hlast Hfuel.
  replace fuel with (length pages + S (fuel - S (length pages)))%nat by lia.
  change 1 with (Z.of_nat 0 + 1).
  rewrite (gl_out_prefix pages _ 0 []) by exact Hpages.
  cbn [Nat.add snd]. now apply gl_out_fail.
Qed.

(** The paging loop itself reports no finding. *)
Lemma gl_out_quiet (fuel : nat) (page : Z) (allCommits : list GitLabCommit) :
  Forall (fun e => is_finding e = false)
    (fst (fetchAllCommits fuel gitlabToken projectID page allCommits)).
Proof.
  apply List.Forall_forall. intros e.
  apply (GitLabRun.gl_fetch_inv gitlabToken (fun e => is_finding e = false)).
  - reflexivity.
  - auto.
Qed.

End Outage.
End GitLabOutage.

Module BitbucketOutage.
Import Bitbucket BitbucketSpec.

Section Outage.
Context `{World}.

Lemma bb_out_prefix (pages : list BitbucketCommitPage) :
  forall (fuel : nat) (url last : string) (allCommits : list BitbucketCommit),
    bitbucket_lists_commits url pages last ->
    fetchAllCommits (length pages + fuel) url allCommits
    = let rest :=
        fetchAllCommits fuel last (allCommits ++ concat (map Values pages)) in
      (cursor_requests url pages ++ fst rest, snd rest).
Proof.
  induction pages as [|page pages IH]; intros fuel url last allCommits Hlists.
  - cbn in Hlists. subst last. cbn. rewrite app_nil_r.
    now destruct (fetchAllCommits _ _ _).
  - destruct Hlists as (Hurl & Hpage & Hrest).
    cbn [length Nat.add].
    rewrite (BitbucketPages.bb_page_fetch_step _ _ _ _ Hurl Hpage). cbn zeta.
    rewrite (IH fuel _ _ _ Hrest).
    cbn [fst snd cursor_requests map concat app].
    now rewrite <- app_assoc.
Qed.

Lemma bb_out_fail (fuel : nat) (url : string)
  (allCommits : list BitbucketCommit) :
  url <> "" ->
  commits_page url = None ->
  snd (fetchAllCommits (S fuel) url allCommits) = Done None.
Proof.
  unfold commits_page. cbn [fetchAllCommits]. intros Hurl.
  destruct (String.eqb_spec url ""); [congruence|].
  destruct (http_NewRequest _) as [err|] eqn:Hnew.
  { intros _. unfold makeRequest. now rewrite Hnew, bind_ret. }
  rewrite (BitbucketPages.bb_page_makeRequest_ok _ Hnew), bind_pair.
  destruct (client_Do _) as [[body status]|err]; [|reflexivity].
  destruct (status =? 200) eqn:Hst; [|reflexivity].
  now destruct (json_Unmarshal_CommitPage body) as [l|err] eqn:Hl.
Qed.

Lemma bb_out_fetch (fuel : nat) (url last : string)
  (pages : list BitbucketCommitPage) :
  bitbucket_lists_commits url pages last ->
  last <> "" ->
  commits_page last = None ->
  (length pages < fuel)%nat ->
  snd (fetchAllCommits fuel url []) = Done None.
Proof.
  intros Hpages Hlast Hfail Hfuel.
  replace fuel with (length pages + S (fuel - S (length pages)))%nat by lia.
  rewrite (bb_out_prefix pages _ _ _ [] Hpages).
  cbn [snd]. now apply bb_out_fail.
Qed.

Lemma bb_out_quiet (fuel : nat) (url : string)
  (allCommits : list BitbucketCommit) :
  Forall (fun e => bitbucket_is_block e = false)
    (fst (fetchAllCommits fuel url allCommits)).
Proof.
  apply List.Forall_forall. intros e.
  apply (BitbucketRun.bb_fetch_inv (fun e => bitbucket_is_block e = false)).
  - reflexivity.
  - auto.
Qed.

End Outage.
End BitbucketOutage.

Module GitHubOutage.
Import GitHub GitHubSpec.

Section Outage.
Context `{World}.
Variables (githubToken repoFullName : string) (cfg : Config)
  (blacklist : list Regexp).
Hypothesis Hos : Forall compiles (OperatingSystems cfg).
Hypothesis Hut : Forall compiles (Utilities cfg).

(** The blocks of the commits are blocks, and all of them. *)
Lemma gh_out_blocks (commits : list CommitItem) :
  List.filter github_is_block
    (concat (map (commit_events cfg blacklist) commits))
  = concat (map (commit_events cfg blacklist) commits).
Proof.
  apply filter_keep_all, List.Forall_forall. intros e He.
  apply in_concat in He as (l & Hl & He).
  apply in_map_iff in Hl as (c & <- & _).
  unfold commit_events in He.
  apply in_app_or in He as [He|He].
  { apply GitHubFacts.gh_in_email_events in He as (who & _ & _ & ->).
    reflexivity. }
  apply in_app_or in He as [He|He];
    apply in_map_iff in He as (m & <- & _); reflexivity.
Qed.

(** The rounds of the paging loop on the pages the server delivers. *)
Lemma gh_out_prefix (pages : list (list CommitItem)) :
  forall (fuel j : nat),
    (forall k page,
        pages !! k = Some page ->
        page <> []
        /\ commits_page githubToken repoFullName (Z.of_nat (j + k) + 1)
           = Some page) ->
    exists t,
      List.filter github_is_block t
      = concat (map (commit_events cfg blacklist) (concat pages))
      /\ ScanRepoCommits_loop (length pages + fuel) githubToken repoFullName
           cfg blacklist (Z.of_nat j + 1)
         = let rest :=
             ScanRepoCommits_loop fuel githubToken repoFullName cfg blacklist
               (Z.of_nat (j + length pages) + 1) in
           (t ++ fst rest, snd rest).
Proof.
  induction pages as [|page pages IH]; intros fuel j Hpages.
  - exists []. split; [reflexivity|].
    cbn. rewrite Nat.add_0_r. now destruct (ScanRepoCommits_loop _ _ _ _ _ _).
  - destruct (Hpages 0%nat page eq_refl) as [Hne Hpage].
    rewrite Nat.add_0_r in Hpage.
    destruct (IH fuel (S j)) as (t & Ht & Hrun).
    { intros k p Hk. destruct (Hpages (S k) p Hk) as [Hp Hat].
      split; [exact Hp|].
      now replace (S j + k)%nat with (j + S k)%nat by lia. }
    exists (HttpDo (request githubToken
                      (commitsURL repoFullName (Z.of_nat j + 1)))
            :: concat (map (commit_events cfg blacklist) page) ++ t).
    split.
    + cbn [List.filter github_is_block is_email is_os is_utility orb concat].
      rewrite List.filter_app, gh_out_blocks, Ht, map_app, concat_app.
      reflexivity.
    + cbn [length Nat.add].
      rewrite (GitHubPages.scan_step _ _ _ _ Hos Hut _ _ _ Hpage). cbn zeta.
      destruct page as [|c page]; [congruence|].
      replace (Z.of_nat j + 1 + 1) with (Z.of_nat (S j) + 1) by lia.
      rewrite Hrun. cbn [fst snd].
      replace (S j + length pages)%nat with (j + S (length pages))%nat by lia.
      cbn [app]. now rewrite <- app_assoc.
Qed.

(** One round on a page that fails: a diagnostic. *)
Lemma gh_out_fail (fuel : nat) (page : Z) :
  commits_page githubToken repoFullName page = None ->
  snd (ScanRepoCommits_loop (S fuel) githubToken repoFullName cfg blacklist
         page) = Done tt
  /\ List.filter github_is_block
       (fst (ScanRepoCommits_loop (S fuel) githubToken repoFullName cfg
               blacklist page)) = [].
Proof.
  unfold commits_page. cbn [ScanRepoCommits_loop].
  destruct (http_NewRequest _) as [err|] eqn:Hnew.
  { intros _. unfold makeRequest. now rewrite Hnew, bind_ret. }
  rewrite (GitHubPages.gh_page_makeRequest_ok _ _ Hnew), bind_pair.
  destruct (client_Do _) as [[body status]|err]; [|now split].
  destruct (status =? 200) eqn:Hst; [|now split].
  now destruct (json_Unmarshal_Commits body) as [l|err] eqn:Hl.
Qed.

Lemma gh_out_scan (fuel : nat) (pages : list (list CommitItem)) :
  github_lists_commits githubToken repoFullName pages ->
  commits_page githubToken repoFullName (Z.of_nat (length pages) + 1) = None ->
  (length pages < fuel)%nat ->
  snd (ScanRepoCommits fuel githubToken repoFullName cfg blacklist) = Done tt
  /\ List.filter github_is_block
       (fst (ScanRepoCommits fuel githubToken repoFullName cfg blacklist))
     = concat (map (commit_events cfg blacklist) (concat pages)).
Proof.
  intros Hpages Hlast Hfuel. unfold ScanRepoCommits.
  replace fuel with (length pages + S (fuel - S (length pages)))%nat by lia.
  change 1 with (Z.of_nat 0 + 1).
  destruct (gh_out_prefix pages (S (fuel - S (length pages))) 0 Hpages)
    as (t & Ht & ->).
  cbn [Nat.add fst snd].
  destruct (gh_out_fail (fuel - S (length pages)) _ Hlast) as [Hdone Hnone].
  split; [exact Hdone|].
  now rewrite List.filter_app, Ht, Hnone, app_nil_r.
Qed.

End Outage.
End GitHubOutage.

Section FailingPage.
Context `{libs : GoLibs} {gh : GitHub.World} {gl : GitLab.World}
  {bb : Bitbucket.World}.

(** X10. When a page of the commits of a repository fails after the
    server delivered the pages before it, the GitLab and the Bitbucket
    scanner, which buffer the commits, report no finding for the
    repository at all; the GitHub scanner, which passes each page to the
    pipeline as it arrives, has reported the findings of the pages before
    the failure.  All three return normally. *)
Theorem failing_page_of_commits (fuel : nat) (cfg : Config)
  (blacklist : list Regexp) :
  (forall gitlabToken project pages ascending,
      gitlab_lists_commits gitlabToken (GitLab.p_ID project) pages ->
      GitLabSpec.commits_page gitlabToken (GitLab.p_ID project)
        (Z.of_nat (length pages) + 1) = None ->
      (length pages < fuel)%nat ->
      let scan :=
        GitLab.ScanProjectCommits fuel gitlabToken project cfg blacklist
          ascending in
      outcome scan = Done tt
      /\ List.filter GitLabSpec.is_finding (trace scan) = [])
  /\ (forall username repoSlug repoName pages last ascending,
        bitbucket_lists_commits (Bitbucket.commitsURL username repoSlug)
          pages last ->
        last <> "" ->
        BitbucketSpec.commits_page last = None ->
        (length pages < fuel)%nat ->
        let scan :=
          Bitbucket.ScanRepoCommits fuel username repoSlug repoName cfg
            blacklist ascending in
        outcome scan = Done tt
        /\ List.filter bitbucket_is_block (trace scan) = [])
  /\ (forall githubToken repoFullName pages,
        Forall compiles (OperatingSystems cfg) ->
        Forall compiles (Utilities cfg) ->
        github_lists_commits githubToken repoFullName pages ->
        GitHubSpec.commits_page githubToken repoFullName
          (Z.of_nat (length pages) + 1) = None ->
        (length pages < fuel)%nat ->
        let scan :=
          GitHub.ScanRepoCommits fuel githubToken repoFullName cfg blacklist in
        outcome scan = Done tt
        /\ List.filter github_is_block (trace scan)
           = concat (map (GitHubSpec.commit_events cfg blacklist)
                       (concat pages))).
Proof.
  unfold outcome, trace. repeat apply conj.
  - intros gitlabToken project pages ascending Hpages Hlast Hfuel.
    unfold GitLab.ScanProjectCommits.
    pose proof (GitLabOutage.gl_out_fetch gitlabToken (GitLab.p_ID project)
                  fuel pages Hpages Hlast Hfuel) as Hnone.
    pose proof (GitLabOutage.gl_out_quiet gitlabToken (GitLab.p_ID project)
                  fuel 1 []) as Hquiet.
    destruct (GitLab.fetchAllCommits fuel gitlabToken (GitLab.p_ID project)
                1 []) as [t fetched].
    cbn [fst snd] in *. subst fetched. rewrite bind_pair. cbn [fst snd].
    split; [reflexivity|].
    rewrite app_nil_r. now apply filter_keep_none.
  - intros username repoSlug repoName pages last ascending Hpages Hlast Hfail
      Hfuel.
    unfold Bitbucket.ScanRepoCommits.
    pose proof (BitbucketOutage.bb_out_fetch fuel _ last pages Hpages Hlast
                  Hfail Hfuel) as Hnone.
    pose proof (BitbucketOutage.bb_out_quiet fuel
                  (Bitbucket.commitsURL username repoSlug) []) as Hquiet.
    destruct (Bitbucket.fetchAllCommits fuel
                (Bitbucket.commitsURL username repoSlug) []) as [t fetched].
    cbn [fst snd] in *. subst fetched. rewrite bind_pair. cbn [fst snd].
    split; [reflexivity|].
    rewrite app_nil_r. now apply filter_keep_none.
  - intros githubToken repoFullName pages Hos Hut Hpages Hlast Hfuel.
    now apply GitHubOutage.gh_out_scan.
Qed.

End FailingPage.

(** ** The sample servers, with and without an outage *)

(** One page of repositories on each sample server. *)
Lemma listing_concatenates_witness :
  outcome (@GitHub.GetUserRepos Sample.libs Sample.github 5 "" "alice")
  = Done (Ok [Sample.gh_fork; Sample.gh_own])
  /\ outcome (@GitLab.GetUserProjects Sample.libs Sample.gitlab 5 "" 7)
     = Done (Ok [Sample.gl_fork; Sample.gl_own])
  /\ outcome (@Bitbucket.GetUserRepos Sample.libs Sample.bitbucket 5 "alice")
     = Done (Ok [Sample.bb_repo]).
Proof.
  destruct (@listing_concatenates Sample.libs Sample.github Sample.gitlab
              Sample.bitbucket 5) as (Hgh & Hgl & Hbb).
  split; [|split].
  - rewrite (Hgh "" "alice" [[Sample.gh_fork; Sample.gh_own]]);
      [reflexivity| |vm_compute; reflexivity|cbn; lia].
    intros [|k] page Hk; try discriminate; injection Hk as <-.
    split; [discriminate|vm_compute; reflexivity].
  - rewrite (Hgl "" 7 [[Sample.gl_fork; Sample.gl_own]]);
      [reflexivity| |vm_compute; reflexivity|cbn; lia].
    intros [|k] page Hk; try discriminate; injection Hk as <-.
    split; [discriminate|vm_compute; reflexivity].
  - rewrite (Hbb "alice"
               [ {| Bitbucket.Repo_Values := [Sample.bb_repo];
                    Bitbucket.Repo_Next := "" |} ]);
      [reflexivity| |cbn; lia].
    cbn [bitbucket_lists_repos Bitbucket.Repo_Next].
    repeat split; try discriminate; vm_compute; reflexivity.
Defined.

(** The listings of the sample during the outage: one page, then an
    error. *)
Lemma failed_listing_ends_run_witness :
  outcome (@GitHub.main Sample.libs SampleOutage.github 5 ["dossier"; "alice"])
  <> Done tt
  /\ outcome (@GitLab.main Sample.libs SampleOutage.gitlab 5
                ["dossier"; "alice"]) = Exit 1
  /\ outcome (@Bitbucket.main Sample.libs SampleOutage.bitbucket 5
                ["dossier"; "alice"]) = Exit 1.
Proof.
  destruct (@failed_listing_ends_run Sample.libs SampleOutage.github
              SampleOutage.gitlab SampleOutage.bitbucket 5
              ["dossier"; "alice"] "alice" Sample.cfg ["noreply"]
              eq_refl eq_refl eq_refl) as (Hgh & Hgl & Hbb).
  split; [|split].
  - apply (Hgh [[Sample.gh_fork; Sample.gh_own]]);
      [|vm_compute; reflexivity|cbn; lia].
    intros [|k] page Hk; try discriminate; injection Hk as <-.
    split; [discriminate|vm_compute; reflexivity].
  - apply Hgl. right. exists 7, [[Sample.gl_fork; Sample.gl_own]].
    split; [vm_compute; reflexivity|].
    split; [|split; [vm_compute; reflexivity|cbn; lia]].
    intros [|k] page Hk; try discriminate; injection Hk as <-.
    split; [discriminate|vm_compute; reflexivity].
  - apply (Hbb [SampleOutage.bb_repos] SampleOutage.bb_repos_next);
      [|discriminate|vm_compute; reflexivity|cbn; lia].
    cbn [bitbucket_lists_repos SampleOutage.bb_repos Bitbucket.Repo_Next].
    repeat split; try discriminate; vm_compute; reflexivity.
Defined.

(** The commits of [dotfiles] during the outage: on GitHub the first page
    is reported, on GitLab and Bitbucket nothing. *)
Lemma failing_page_of_commits_witness :
  List.filter GitLabSpec.is_finding
    (trace (@GitLab.ScanProjectCommits Sample.libs SampleOutage.gitlab 5 ""
              Sample.gl_own Sample.cfg ["noreply"] true)) = []
  /\ List.filter bitbucket_is_block
       (trace (@Bitbucket.ScanRepoCommits Sample.libs SampleOutage.bitbucket 5
                 "alice" "dotfiles" "Dotfiles" Sample.cfg ["noreply"] true))
     = []
  /\ List.filter github_is_block
       (trace (@GitHub.ScanRepoCommits Sample.libs SampleOutage.github 5 ""
                 "alice/dotfiles" Sample.cfg ["noreply"]))
     = concat (map (@GitHubSpec.commit_events Sample.libs SampleOutage.github
                      Sample.cfg ["noreply"])
                 [Sample.gh_c3; Sample.gh_c2]).
Proof.
  destruct (@failing_page_of_commits Sample.libs SampleOutage.github
              SampleOutage.gitlab SampleOutage.bitbucket 5 Sample.cfg
              ["noreply"]) as (Hgl & Hbb & Hgh).
  split; [|split].
  - apply (Hgl "" Sample.gl_own [[Sample.gl_c3; Sample.gl_c2]] true);
      [|vm_compute; reflexivity|cbn; lia].
    intros [|k] page Hk; try discriminate; injection Hk as <-.
    split; [discriminate|vm_compute; reflexivity].
  - apply (Hbb "alice" "dotfiles" "Dotfiles"
             [ {| Bitbucket.Values := [Sample.bb_c3; Sample.bb_c2];
                  Bitbucket.Next := Sample.bb_next "2" |};
               {| Bitbucket.Values := [];
                  Bitbucket.Next := Sample.bb_next "3" |} ]
             (Sample.bb_next "3") true);
      [|discriminate|vm_compute; reflexivity|cbn; lia].
    cbn [bitbucket_lists_commits Bitbucket.Next].
    repeat split; try discriminate; vm_compute; reflexivity.
  - apply (Hgh "" "alice/dotfiles" [[Sample.gh_c3; Sample.gh_c2]]);
      [apply sample_cfg_compiles|apply sample_cfg_compiles|
       |vm_compute; reflexivity|cbn; lia].
    intros [|k] page Hk; try discriminate; injection Hk as <-.
    split; [discriminate|vm_compute; reflexivity].
Defined.

(** ** An expression that does not compile *)

Section BadSignature.
Context `{libs : GoLibs}.

Lemma signature_rounds_panics {E} (text : string) (cfg : Config)
  (printOS printUtility : string -> E) :
  Exists (fun p => regexp_Compile (Regex p) = None)
    (OperatingSystems cfg ++ Utilities cfg) ->
  snd (signature_rounds text cfg printOS printUtility) = Panic.
Proof.
  intros Hbad. unfold signature_rounds.
  destruct (SearchPatterns_cases text (OperatingSystems cfg))
    as [[Hos ->]|[_ ->]]; [|reflexivity].
  rewrite (bind_or_panic_some _ _ _ eq_refl), for_range_emit, bind_pair.
  cbn [snd].
  apply Exists_app in Hbad as [Hbad|Hbad].
  - apply List.Exists_exists in Hbad as (p & Hp & Hnone).
    rewrite List.Forall_forall in Hos. destruct (Hos p Hp) as [re Hre].
    congruence.
  - destruct (SearchPatterns_cases text (Utilities cfg))
      as [[Hut _]|[_ ->]]; [|reflexivity].
    apply List.Exists_exists in Hbad as (p & Hp & Hnone).
    rewrite List.Forall_forall in Hut. destruct (Hut p Hp) as [re Hre].
    congruence.
Qed.

Lemma for_range_panics {E A} (body : A -> Run E unit) (x : A) (rest : list A) :
  snd (body x) = Panic -> for_range (x :: rest) body = (fst (body x), Panic).
Proof.
  intros Hpanic. cbn [for_range]. unfold mbind, Run_bind, run_bind.
  now rewrite Hpanic.
Qed.

End BadSignature.

Section BadSignatureRuns.
Context `{libs : GoLibs} {gh : GitHub.World}.

(** X11. [SearchPatterns] compiles the expressions of the configuration
    anew for every commit.  When one of them is invalid, whether or not
    anything matches, each scanner panics on the first commit it
    processes, after the email blocks of that commit and what the
    signature loops printed before they reached the invalid expression;
    the commits after it are not processed. *)
Theorem invalid_signature_panics (cfg : Config) (blacklist : list Regexp) :
  Exists (fun p => regexp_Compile (Regex p) = None)
    (OperatingSystems cfg ++ Utilities cfg) ->
  (forall c rest,
      GitHub.ProcessCommits (c :: rest) cfg blacklist
      = (GitHubSpec.email_events blacklist c
         ++ trace (signature_rounds (GitHub.json_Marshal c) cfg
                     (GitHubSpec.os_event c) (GitHubSpec.utility_event c)),
         Panic))
  /\ (forall projectURL c rest,
        GitLab.ProcessCommits (c :: rest) cfg blacklist projectURL
        = (GitLabSpec.email_events blacklist projectURL c
           ++ trace (signature_rounds (GitLab.Title c) cfg
                       (GitLabSpec.os_event projectURL c)
                       (GitLabSpec.utility_event projectURL c)),
           Panic))
  /\ (forall repoName c rest,
        Bitbucket.ProcessCommits (c :: rest) cfg blacklist repoName
        = (BitbucketSpec.email_events blacklist repoName c
           ++ trace (signature_rounds (Bitbucket.commitText c repoName) cfg
                       (BitbucketSpec.os_event repoName c)
                       (BitbucketSpec.utility_event repoName c)),
           Panic)).
Proof.
  intros Hbad. unfold trace. repeat apply conj.
  - intros c rest. unfold GitHub.ProcessCommits.
    rewrite for_range_panics; rewrite GitHubFacts.gh_ProcessCommit_split;
      [reflexivity|]. cbn [snd]. now apply signature_rounds_panics.
  - intros projectURL c rest. unfold GitLab.ProcessCommits.
    rewrite for_range_panics; rewrite GitLabFacts.gl_ProcessCommit_split;
      [reflexivity|]. cbn [snd]. now apply signature_rounds_panics.
  - intros repoName c rest. unfold Bitbucket.ProcessCommits.
    rewrite for_range_panics; rewrite BitbucketFacts.bb_ProcessCommit_split;
      [reflexivity|]. cbn [snd]. now apply signature_rounds_panics.
Qed.

End BadSignatureRuns.

(** ** What the blacklist bears on *)

(** Two loops whose iterations end alike and agree on the events that
    [keep] selects. *)
Lemma for_range_agree {E A} (keep : E -> bool) (body1 body2 : A -> Run E unit)
  (xs : list A) :
  (forall x,
      snd (body1 x) = snd (body2 x)
      /\ List.filter keep (fst (body1 x)) = List.filter keep (fst (body2 x))) ->
  snd (for_range xs body1) = snd (for_range xs body2)
  /\ List.filter keep (fst (for_range xs body1))
     = List.filter keep (fst (for_range xs body2)).
Proof.
  intros Hbody. induction xs as [|x xs [IHo IHt]]; [now split|].
  cbn [for_range]. unfold mbind, Run_bind, run_bind.
  destruct (Hbody x) as [Ho Ht]. rewrite <- Ho.
  destruct (snd (body1 x)) as [[]| | |]; cbn [fst snd]; try now split.
  rewrite !List.filter_app, Ht, IHt. now split.
Qed.

Section Blacklist.
Context `{libs : GoLibs} {gh : GitHub.World}.

(** X12. The blacklist bears on the email blocks and on nothing else:
    with any two blacklists a scanner processes a list of commits with
    the same outcome and prints the same blocks other than email blocks,
    in the same order. *)
Theorem blacklist_only_bears_on_email_blocks (cfg : Config)
  (blacklist blacklist' : list Regexp) :
  (forall items,
      outcome (GitHub.ProcessCommits items cfg blacklist)
      = outcome (GitHub.ProcessCommits items cfg blacklist')
      /\ List.filter (fun e => negb (GitHubSpec.is_email e))
           (trace (GitHub.ProcessCommits items cfg blacklist))
         = List.filter (fun e => negb (GitHubSpec.is_email e))
             (trace (GitHub.ProcessCommits items cfg blacklist')))
  /\ (forall commits projectURL,
        outcome (GitLab.ProcessCommits commits cfg blacklist projectURL)
        = outcome (GitLab.ProcessCommits commits cfg blacklist' projectURL)
        /\ List.filter (fun e => negb (GitLabSpec.is_email e))
             (trace (GitLab.ProcessCommits commits cfg blacklist projectURL))
           = List.filter (fun e => negb (GitLabSpec.is_email e))
               (trace (GitLab.ProcessCommits commits cfg blacklist'
                         projectURL)))
  /\ (forall commits repoName,
        outcome (Bitbucket.ProcessCommits commits cfg blacklist repoName)
        = outcome (Bitbucket.ProcessCommits commits cfg blacklist' repoName)
        /\ List.filter (fun e => negb (BitbucketSpec.is_email e))
             (trace (Bitbucket.ProcessCommits commits cfg blacklist repoName))
           = List.filter (fun e => negb (BitbucketSpec.is_email e))
               (trace (Bitbucket.ProcessCommits commits cfg blacklist'
                         repoName))).
Proof.
  unfold outcome, trace. repeat apply conj.
  - intros items. apply for_range_agree. intros c.
    rewrite !GitHubFacts.gh_ProcessCommit_split. cbn [fst snd].
    split; [reflexivity|]. rewrite !List.filter_app. f_equal.
    transitivity (@nil GitHub.Event); [|symmetry];
      apply filter_keep_none, List.Forall_forall; intros e He;
      apply GitHubFacts.gh_in_email_events in He as (who & _ & _ & ->);
      reflexivity.
  - intros commits projectURL. apply for_range_agree. intros c.
    rewrite !GitLabFacts.gl_ProcessCommit_split. cbn [fst snd].
    split; [reflexivity|]. rewrite !List.filter_app. f_equal.
    transitivity (@nil GitLab.Event); [|symmetry];
      apply filter_keep_none, List.Forall_forall; intros e He;
      apply GitLabFacts.gl_in_email_events in He as (_ & ->);
      reflexivity.
  - intros commits repoName. apply for_range_agree. intros c.
    rewrite !BitbucketFacts.bb_ProcessCommit_split. cbn [fst snd].
    split; [reflexivity|]. rewrite !List.filter_app. f_equal.
    transitivity (@nil Bitbucket.Event); [|symmetry];
      apply filter_keep_none, List.Forall_forall; intros e He;
      apply BitbucketFacts.bb_in_email_events in He as (who & _ & _ & ->);
      reflexivity.
Qed.

(** X13. The GitHub scanner prints one email block for the author and
    one for the committer of a commit, without comparing them: when the
    two are the same identity and its address passes the gate, the commit
    yields the same email block twice, and no other email block. *)
Theorem same_author_and_committer_prints_twice (cfg : Config)
  (blacklist : list Regexp) (c : GitHub.CommitItem) :
  let author := GitHub.Author (GitHub.Commit c) in
  let committer := GitHub.Committer (GitHub.Commit c) in
  GitHub.Name committer = GitHub.Name author ->
  GitHub.Email committer = GitHub.Email author ->
  IsValidEmail (GitHub.Email author) = Some true ->
  IsBlacklisted (GitHub.Email author) blacklist = false ->
  let block :=
    GitHub.PrintEmail (GitHub.Email author) (GitHub.Name author)
      (formatCommitDate (GitHub.Date author)) (GitHub.HTMLURL c) in
  List.filter GitHubSpec.is_email
    (trace (GitHub.ProcessCommit cfg blacklist c))
  = [block; block].
Proof.
  intros author committer Hname Hemail Hvalid Hclear block. unfold trace.
  rewrite GitHubFacts.gh_ProcessCommit_split. cbn [fst].
  rewrite List.filter_app.
  rewrite (filter_keep_none GitHubSpec.is_email
             (fst (signature_rounds _ _ _ _))).
  2:{ apply List.Forall_forall. intros e He.
      now apply signature_rounds_events in He as [(m & _ & ->)|(m & _ & ->)]. }
  rewrite app_nil_r.
  unfold GitHubSpec.email_events, GitHub.identities. cbn [map concat snd fst].
  fold author committer. rewrite Hname, Hemail.
  assert (Hgate : email_gate (GitHub.Email author) blacklist = true).
  { apply email_gate_iff. now split. }
  rewrite Hgate. reflexivity.
Qed.

(** X14. The signature blocks of the GitHub and the GitLab scanner show
    the address of the author without passing it through the gate: for an
    address that is invalid or blacklisted the commit yields no email
    block, and still the block of every signature that matches the commit
    shows it. *)
Theorem signature_blocks_show_rejected_address (cfg : Config)
  (blacklist : list Regexp) :
  Forall compiles (OperatingSystems cfg) ->
  Forall compiles (Utilities cfg) ->
  (forall c,
      let author := GitHub.Author (GitHub.Commit c) in
      let run := GitHub.ProcessCommit cfg blacklist c in
      IsValidEmail (GitHub.Email author) = Some false
      \/ IsBlacklisted (GitHub.Email author) blacklist = true ->
      (forall name date location,
          ~ In (GitHub.PrintEmail (GitHub.Email author) name date location)
               (trace run))
      /\ (forall p re,
            In p (OperatingSystems cfg) ->
            regexp_Compile (Regex p) = Some re ->
            MatchString re (GitHub.json_Marshal c) = true ->
            In (GitHub.PrintOS (ID p) (GitHub.Email author)
                  (formatCommitDate (GitHub.Date author)) (GitHub.HTMLURL c))
               (trace run))
      /\ (forall p re,
            In p (Utilities cfg) ->
            regexp_Compile (Regex p) = Some re ->
            MatchString re (GitHub.json_Marshal c) = true ->
            In (GitHub.PrintUtility (ID p) (GitHub.Email author)
                  (formatCommitDate (GitHub.Date author)) (GitHub.HTMLURL c))
               (trace run)))
  /\ (forall projectURL c,
        let run := GitLab.ProcessCommit cfg blacklist projectURL c in
        IsValidEmail (GitLab.AuthorEmail c) = Some false
        \/ IsBlacklisted (GitLab.AuthorEmail c) blacklist = true ->
        (forall name date location,
            ~ In (GitLab.PrintEmail (GitLab.AuthorEmail c) name date location)
                 (trace run))
        /\ (forall p re,
              In p (OperatingSystems cfg) ->
              regexp_Compile (Regex p) = Some re ->
              MatchString re (GitLab.Title c) = true ->
              In (GitLab.PrintOS (ID p) (GitLab.AuthorName c)
                    (GitLab.AuthorEmail c)
                    (formatCommitDate (GitLab.AuthoredDate c)) projectURL)
                 (trace run))
        /\ (forall p re,
              In p (Utilities cfg) ->
              regexp_Compile (Regex p) = Some re ->
              MatchString re (GitLab.Title c) = true ->
              In (GitLab.PrintUtility (ID p) (GitLab.AuthorName c)
                    (GitLab.AuthorEmail c)
                    (formatCommitDate (GitLab.AuthoredDate c)) projectURL)
                 (trace run))).
Proof.
  intros Hos Hut. split.
  - intros c author run Hrej. subst run. unfold trace.
    rewrite GitHubFacts.gh_ProcessCommit_ok by assumption. cbn [fst].
    unfold GitHubSpec.commit_events. repeat apply conj.
    + intros name date location Hin.
      apply in_app_or in Hin as [Hin|Hin].
      * apply GitHubFacts.gh_in_email_events in Hin
          as (who & _ & [Hvalid Hclear] & Heq).
        injection Heq as Hwho _ _ _. fold author in Hwho.
        rewrite <- Hwho in Hvalid, Hclear.
        destruct Hrej as [Hrej|Hrej]; congruence.
      * apply in_app_or in Hin as [Hin|Hin];
          apply in_map_iff in Hin as (m & Hm & _); discriminate.
    + intros p re Hp Hre Hmatch. apply in_or_app. right.
      apply in_or_app. left.
      apply (in_map (GitHubSpec.os_event c)), in_matched. eauto 10.
    + intros p re Hp Hre Hmatch. apply in_or_app. right.
      apply in_or_app. right.
      apply (in_map (GitHubSpec.utility_event c)), in_matched. eauto 10.
  - intros projectURL c run Hrej. subst run. unfold trace.
    rewrite GitLabFacts.gl_ProcessCommit_ok by assumption. cbn [fst].
    unfold GitLabSpec.commit_events. repeat apply conj.
    + intros name date location Hin.
      apply in_app_or in Hin as [Hin|Hin].
      * apply GitLabFacts.gl_in_email_events in Hin as ([Hvalid Hclear] & _).
        destruct Hrej as [Hrej|Hrej]; congruence.
      * apply in_app_or in Hin as [Hin|Hin];
          apply in_map_iff in Hin as (m & Hm & _); discriminate.
    + intros p re Hp Hre Hmatch. apply in_or_app. right.
      apply in_or_app. left.
      apply (in_map (GitLabSpec.os_event projectURL c)), in_matched. eauto 10.
    + intros p re Hp Hre Hmatch. apply in_or_app. right.
      apply in_or_app. right.
      apply (in_map (GitLabSpec.utility_event projectURL c)), in_matched.
      eauto 10.
Qed.

End Blacklist.

(** An alternation, which the sample engine does not compile, among the
    utilities: the first commit panics and the second is not reached. *)
Lemma invalid_signature_panics_witness :
  outcome (GitLab.ProcessCommits [Sample.gl_c1; Sample.gl_c3] sample_bad_cfg
             (["noreply"] : list (@Regexp Sample.libs))
             "https://gitlab.com/alice/dotfiles")
  = Panic.
Proof.
  assert (Hbad : Exists (fun p => @regexp_Compile Sample.libs (Regex p) = None)
                   (OperatingSystems sample_bad_cfg
                    ++ Utilities sample_bad_cfg)).
  { apply Exists_cons_tl, Exists_cons_hd. vm_compute. reflexivity. }
  pose proof (proj1 (proj2 (@invalid_signature_panics Sample.libs
                              Sample.github sample_bad_cfg ["noreply"] Hbad))
                "https://gitlab.com/alice/dotfiles" Sample.gl_c1
                [Sample.gl_c3]) as Hrun.
  unfold outcome. now rewrite Hrun.
Defined.

(** A commit that Alice wrote and committed herself. *)
Lemma same_author_and_committer_prints_twice_witness :
  let block :=
    GitHub.PrintEmail "alice@example.com" "Alice" "2024-01-02 03:04:05 UTC"
      "https://github.com/alice/dotfiles/commit/a9" in
  List.filter GitHubSpec.is_email
    (trace (@GitHub.ProcessCommit Sample.libs Sample.github Sample.cfg
              ["noreply"] sample_own_commit))
  = [block; block].
Proof.
  exact (@same_author_and_committer_prints_twice Sample.libs Sample.github
           Sample.cfg ["noreply"] sample_own_commit
           eq_refl eq_refl eq_refl eq_refl).
Defined.

(** A blacklisted address in the utility block of its commit. *)
Lemma signature_blocks_show_rejected_address_witness :
  @IsBlacklisted Sample.libs "noreply@example.com" ["noreply"] = true
  /\ In (GitLab.PrintUtility "zsh" "Bot" "noreply@example.com"
           "2024-01-02 03:04:05 UTC" "https://gitlab.com/alice/dotfiles")
        (trace (@GitLab.ProcessCommit Sample.libs Sample.cfg ["noreply"]
                  "https://gitlab.com/alice/dotfiles" sample_bot_commit)).
Proof.
  split; [reflexivity|].
  destruct (proj2 (@signature_blocks_show_rejected_address Sample.libs
                     Sample.github Sample.cfg ["noreply"]
                     (proj1 sample_cfg_compiles) (proj2 sample_cfg_compiles))
              "https://gitlab.com/alice/dotfiles" sample_bot_commit
              (or_intror eq_refl)) as (_ & _ & Hutility).
  apply (Hutility {| ID := "zsh"; Regex := "zsh" |} "zsh");
    [now left|reflexivity|reflexivity].
Defined.

(** ** A whole run of the Bitbucket scanner *)

Section BitbucketWholeRun.
Context `{libs : GoLibs} {bb : Bitbucket.World}.

(** X15. A whole run of the Bitbucket scanner, when the configuration
    loads, its patterns compile and the server delivers the listing and
    the commits: it lists the repositories, then takes every listed
    repository in the order of the listing (there is no fork filter),
    announces it, fetches all pages of its commits and passes them
    through the pipeline once, oldest first.  The run ends normally. *)
Theorem bitbucket_run_scans_every_repository (fuel : nat)
  (args : list string) (username : string) (cfg : Config)
  (blacklist : list Regexp) (listing : list Bitbucket.RepoPage)
  (commits : Bitbucket.Repo -> list Bitbucket.BitbucketCommitPage) :
  args !! 1%nat = Some username ->
  LoadPatterns "signatures.yaml" = Ok cfg ->
  LoadBlacklist "blacklist.txt" = Some (blacklist, None) ->
  Forall compiles (OperatingSystems cfg) ->
  Forall compiles (Utilities cfg) ->
  let url :=
    "https://api.bitbucket.org/2.0/repositories/" +:+ username
    +:+ "?pagelen=100" in
  let repos := concat (map Bitbucket.Repo_Values listing) in
  bitbucket_lists_repos url listing "" ->
  (length listing < fuel)%nat ->
  (forall r,
      In r repos ->
      BitbucketSpec.serves_commits
        (Bitbucket.commitsURL username (Bitbucket.Slug r)) (commits r)
      /\ (length (commits r) < fuel)%nat) ->
  let scan r :=
    Bitbucket.PrintScanningRepo (Bitbucket.Repo_Name r)
    :: BitbucketSpec.cursor_requests
         (Bitbucket.commitsURL username (Bitbucket.Slug r)) (commits r)
    ++ concat (map (BitbucketSpec.commit_events cfg blacklist
                      (Bitbucket.Repo_Name r))
                 (rev (concat (map Bitbucket.Values (commits r))))) in
  Bitbucket.main fuel args
  = (Bitbucket.PrintScanning username
     :: bitbucket_repos_requests url listing ++ concat (map scan repos),
     Done tt).
Proof.
  intros Hargs Hcfg Hbl Hos Hut url repos Hlisting Hfuel Hcommits scan.
  unfold Bitbucket.main. rewrite Hargs, Hcfg, Hbl.
  rewrite (bind_or_panic_some _ _ _ eq_refl). cbn [fst snd].
  rewrite bind_emit.
  rewrite (BitbucketListing.bb_list_ok fuel username listing Hlisting Hfuel).
  rewrite bind_pair. fold url repos.
  assert (Hbody : forall r,
             In r repos ->
             (emit (Bitbucket.PrintScanningRepo (Bitbucket.Repo_Name r));;
              Bitbucket.ScanRepoCommits fuel username (Bitbucket.Slug r)
                (Bitbucket.Repo_Name r) cfg blacklist true)
             = (scan r, Done tt)).
  { intros r Hr. destruct (Hcommits r Hr) as [Hserves Hlen].
    rewrite bind_emit.
    rewrite (BitbucketPages.ScanRepoCommits_pages _ _ _ _ _ _ _ true
               Hserves Hlen).
    cbn zeta. rewrite BitbucketFacts.bb_ProcessCommits_ok by assumption.
    reflexivity. }
  rewrite for_range_done.
  - cbn [fst snd]. do 4 f_equal.
    apply map_ext_in. intros r Hr. now rewrite (Hbody r Hr).
  - apply List.Forall_forall. intros r Hr. now rewrite (Hbody r Hr).
Qed.

End BitbucketWholeRun.

(** The run of the sample: one repository, its three pages of commits
    reversed. *)
Lemma bitbucket_run_scans_every_repository_witness :
  @Bitbucket.main Sample.libs Sample.bitbucket 5 ["dossier"; "alice"]
  = (Bitbucket.PrintScanning "alice"
     :: Bitbucket.HttpDo
          (BitbucketSpec.request
             "https://api.bitbucket.org/2.0/repositories/alice?pagelen=100")
     :: Bitbucket.PrintScanningRepo "Dotfiles"
     :: BitbucketSpec.cursor_requests
          (Bitbucket.commitsURL "alice" "dotfiles") Sample.bb_pages
     ++ concat (map (@BitbucketSpec.commit_events Sample.libs Sample.cfg
                       ["noreply"] "Dotfiles")
                  [Sample.bb_c1; Sample.bb_c2; Sample.bb_c3]),
     Done tt).
Proof.
  rewrite (@bitbucket_run_scans_every_repository Sample.libs Sample.bitbucket
             5 ["dossier"; "alice"] "alice" Sample.cfg ["noreply"]
             [ {| Bitbucket.Repo_Values := [Sample.bb_repo];
                  Bitbucket.Repo_Next := "" |} ]
             (fun _ => Sample.bb_pages)
             eq_refl eq_refl eq_refl
             (proj1 sample_cfg_compiles) (proj2 sample_cfg_compiles)).
  - cbn [map concat app bitbucket_repos_requests Bitbucket.Repo_Values
           Bitbucket.Repo_Next Bitbucket.Repo_Name Bitbucket.Slug
           Sample.bb_repo Sample.bb_pages Bitbucket.Values rev].
    now rewrite app_nil_r.
  - cbn [bitbucket_lists_repos Bitbucket.Repo_Next].
    split; [discriminate|]. split; [vm_compute; reflexivity|reflexivity].
  - cbn; lia.
  - intros r Hr. cbn in Hr. destruct Hr as [<-|[]].
    split; [exact sample_bitbucket_serves|cbn; lia].
Defined.

(** ** The pages of a search *)

Module GitHubSearchPages.
Import GitHub GitHubSpec.

Section Search.
Context `{World}.
Variables (githubToken username order : string) (cfg : Config)
  (blacklist : list Regexp).
Hypothesis Hos : Forall compiles (OperatingSystems cfg).
Hypothesis Hut : Forall compiles (Utilities cfg).

(** One round of the search loop on a page the server delivers. *)
Lemma gh_pass_step (fuel : nat) (page : Z) (items : list CommitItem) :
  github_search_page githubToken username order page = Some items ->
  ScanGlobalCommits_loop (S fuel) githubToken username cfg blacklist order page
  = let rest :=
      match items with
      | [] => mret tt
      | _ :: _ =>
          ScanGlobalCommits_loop fuel githubToken username cfg blacklist order
            (page + 1)
      end in
    (HttpDo (request githubToken (searchURL username order page))
     :: concat (map (commit_events cfg blacklist) items) ++ fst rest,
     snd rest).
Proof.
  unfold github_search_page. cbn [ScanGlobalCommits_loop].
  destruct (http_NewRequest _) eqn:Hnew; [discriminate|].
  rewrite (GitHubSearch.gh_search_makeRequest_ok _ _ Hnew), bind_pair.
  destruct (client_Do _) as [[body status]|]; [|discriminate].
  destruct (status =? 200) eqn:Hst; [|discriminate].
  destruct (json_Unmarshal_SearchResponse body) as [resp|] eqn:Hl;
    [|discriminate].
  intros [= <-]. cbn [negb].
  destruct (Items resp) as [|c items] eqn:Hitems; [reflexivity|].
  rewrite GitHubFacts.gh_ProcessCommits_ok, bind_pair by assumption.
  reflexivity.
Qed.

(** The rounds of the search loop on the pages the server delivers. *)
Lemma gh_pass_prefix (pages : list (list CommitItem)) :
  forall (fuel j : nat),
    (forall k page,
        pages !! k = Some page ->
        page <> []
        /\ github_search_page githubToken username order
             (Z.of_nat (j + k) + 1) = Some page) ->
    exists t,
      List.filter github_is_block t
      = concat (map (commit_events cfg blacklist) (concat pages))
      /\ ScanGlobalCommits_loop (length pages + fuel) githubToken username
           cfg blacklist order (Z.of_nat j + 1)
         = let rest :=
             ScanGlobalCommits_loop fuel githubToken username cfg blacklist
               order (Z.of_nat (j + length pages) + 1) in
           (t ++ fst rest, snd rest).
Proof.
  induction pages as [|page pages IH]; intros fuel j Hpages.
  - exists []. split; [reflexivity|].
    cbn. rewrite Nat.add_0_r.
    now destruct (ScanGlobalCommits_loop _ _ _ _ _ _ _).
  - destruct (Hpages 0%nat page eq_refl) as [Hne Hpage].
    rewrite Nat.add_0_r in Hpage.
    destruct (IH fuel (S j)) as (t & Ht & Hrun).
    { intros k p Hk. destruct (Hpages (S k) p Hk) as [Hp Hat].
      split; [exact Hp|].
      now replace (S j + k)%nat with (j + S k)%nat by lia. }
    exists (HttpDo (request githubToken
                      (searchURL username order (Z.of_nat j + 1)))
            :: concat (map (commit_events cfg blacklist) page) ++ t).
    split.
    + cbn [List.filter github_is_block is_email is_os is_utility orb concat].
      rewrite List.filter_app, (GitHubOutage.gh_out_blocks cfg blacklist),
        Ht, map_app, concat_app.
      reflexivity.
    + cbn [length Nat.add].
      rewrite (gh_pass_step _ _ _ Hpage). cbn zeta.
      destruct page as [|c page]; [congruence|].
      replace (Z.of_nat j + 1 + 1) with (Z.of_nat (S j) + 1) by lia.
      rewrite Hrun. cbn [fst snd].
      replace (S j + length pages)%nat with (j + S (length pages))%nat by lia.
      cbn [app]. now rewrite <- app_assoc.
Qed.

(** One round on anything but a page of results: the pass ends. *)
Lemma gh_pass_end (fuel : nat) (page : Z) :
  (forall c items,
      github_search_page githubToken username order page <> Some (c :: items)) ->
  snd (ScanGlobalCommits_loop (S fuel) githubToken username cfg blacklist
         order page) = Done tt
  /\ List.filter github_is_block
       (fst (ScanGlobalCommits_loop (S fuel) githubToken username cfg
               blacklist order page)) = [].
Proof.
  unfold github_search_page. cbn [ScanGlobalCommits_loop].
  destruct (http_NewRequest _) as [err|] eqn:Hnew.
  { intros _. unfold makeRequest. now rewrite Hnew, bind_ret. }
  rewrite (GitHubSearch.gh_search_makeRequest_ok _ _ Hnew), bind_pair.
  destruct (client_Do _) as [[body status]|err]; [|now split].
  destruct (status =? 200) eqn:Hst;
    [|cbn [negb]; now destruct (status =? 422)].
  destruct (json_Unmarshal_SearchResponse body) as [resp|err] eqn:Hl;
    [|now split].
  destruct (Items resp) as [|c items]; [now split|].
  intros Hend. now destruct (Hend c items).
Qed.

Lemma gh_pass_scan (fuel : nat) (pages : list (list CommitItem)) :
  github_lists_search githubToken username order pages ->
  (forall c items,
      github_search_page githubToken username order
        (Z.of_nat (length pages) + 1) <> Some (c :: items)) ->
  (length pages < fuel)%nat ->
  snd (ScanGlobalCommits_loop fuel githubToken username cfg blacklist order 1)
  = Done tt
  /\ List.filter github_is_block
       (fst (ScanGlobalCommits_loop fuel githubToken username cfg blacklist
               order 1))
     = concat (map (commit_events cfg blacklist) (concat pages)).
Proof.
  intros Hpages Hlast Hfuel.
  replace fuel with (length pages + S (fuel - S (length pages)))%nat by lia.
  change 1 with (Z.of_nat 0 + 1).
  destruct (gh_pass_prefix pages (S (fuel - S (length pages))) 0 Hpages)
    as (t & Ht & ->).
  cbn [Nat.add fst snd].
  destruct (gh_pass_end (fuel - S (length pages)) _ Hlast) as [Hdone Hnone].
  split; [exact Hdone|].
  now rewrite List.filter_app, Ht, Hnone, app_nil_r.
Qed.

End Search.
End GitHubSearchPages.

Section SearchPass.
Context `{libs : GoLibs} {gh : GitHub.World}.

(** X16. A search pass of the GitHub scanner asks for the order
    [asc] when it is ascending and [desc] otherwise, and passes each page
    of results to the pipeline as it arrives.  When the server delivers
    some pages of results and then anything else (an empty page, the
    status 422 of the result cap, another status, a body that does not
    decode, a request that fails), the pass returns normally and the
    blocks it printed are those of the commits of the delivered pages, in
    the order of the pages. *)
Theorem search_pass_reports_delivered_pages (fuel : nat)
  (githubToken username : string) (cfg : Config) (blacklist : list Regexp)
  (ascending : bool) (pages : list (list GitHub.CommitItem)) :
  Forall compiles (OperatingSystems cfg) ->
  Forall compiles (Utilities cfg) ->
  let order := if ascending then "asc" else "desc" in
  github_lists_search githubToken username order pages ->
  (forall c items,
      github_search_page githubToken username order
        (Z.of_nat (length pages) + 1) <> Some (c :: items)) ->
  (length pages < fuel)%nat ->
  let pass :=
    GitHub.ScanGlobalCommits fuel githubToken username cfg blacklist
      ascending in
  outcome pass = Done tt
  /\ List.filter github_is_block (trace pass)
     = concat (map (GitHubSpec.commit_events cfg blacklist) (concat pages)).
Proof.
  intros Hos Hut order Hpages Hlast Hfuel pass.
  subst pass. unfold outcome, trace, GitHub.ScanGlobalCommits.
  replace (if negb ascending then "desc" else "asc") with order
    by now destruct ascending.
  now apply GitHubSearchPages.gh_pass_scan.
Qed.

End SearchPass.

(** The ascending search of the sample: one page, then the result cap. *)
Lemma search_pass_reports_delivered_pages_witness :
  List.filter github_is_block
    (trace (@GitHub.ScanGlobalCommits Sample.libs Sample.github 5 "" "alice"
              Sample.cfg ["noreply"] true))
  = concat (map (@GitHubSpec.commit_events Sample.libs Sample.github
                   Sample.cfg ["noreply"])
              [Sample.gh_c1; Sample.gh_c2]).
Proof.
  apply (@search_pass_reports_delivered_pages Sample.libs Sample.github 5 ""
           "alice" Sample.cfg ["noreply"] true
           [[Sample.gh_c1; Sample.gh_c2]]
           (proj1 sample_cfg_compiles) (proj2 sample_cfg_compiles)).
  - intros [|k] page Hk; try discriminate; injection Hk as <-.
    split; [discriminate|vm_compute; reflexivity].
  - intros c items. vm_compute. discriminate.
  - cbn; lia.
Defined.

(** ** The findings of a whole run *)

Lemma filter_concat {A} (f : A -> bool) (ls : list (list A)) :
  List.filter f (concat ls) = concat (map (List.filter f) ls).
Proof.
  induction ls as [|l ls IH]; [reflexivity|].
  cbn [concat map]. now rewrite List.filter_app, IH.
Qed.

(** A loop whose iterations all return normally, by what each prints of
    the events that [keep] selects. *)
Lemma for_range_kept {E A} (keep : E -> bool) (body : A -> Run E unit)
  (kept : A -> list E) (xs : list A) :
  (forall x,
      In x xs ->
      snd (body x) = Done tt /\ List.filter keep (fst (body x)) = kept x) ->
  snd (for_range xs body) = Done tt
  /\ List.filter keep (fst (for_range xs body)) = concat (map kept xs).
Proof.
  intros Hbody. rewrite for_range_done.
  - split; [reflexivity|]. cbn [fst]. rewrite filter_concat, map_map.
    f_equal. apply map_ext_in. intros x Hx. now apply Hbody.
  - apply List.Forall_forall. intros x Hx. now apply Hbody.
Qed.

Module GitLabWhole.
Import GitLab GitLabSpec.

Section Whole.
Context `{World}.

(** The lookup of a user that is found is one request. *)
Lemma gl_whole_user (gitlabToken username : string) (userID : Z) :
  snd (GetUserID gitlabToken username) = Done (Ok userID) ->
  List.filter is_finding (fst (GetUserID gitlabToken username)) = [].
Proof.
  intros _. apply filter_keep_none, List.Forall_forall. intros e He.
  now apply GitLabForks.GetUserID_requests in He as ->.
Qed.

(** The two passes over a project whose commits the server delivers. *)
Lemma gl_whole_project (fuel : nat) (gitlabToken : string) (cfg : Config)
  (blacklist : list Regexp) (p : GitLabProject)
  (pages : list (list GitLabCommit)) :
  Forall compiles (OperatingSystems cfg) ->
  Forall compiles (Utilities cfg) ->
  serves_commits gitlabToken (p_ID p) pages ->
  (length pages < fuel)%nat ->
  let run :=
    emit (PrintScanningProject (Path p));;
    ScanProjectCommits fuel gitlabToken p cfg blacklist true;;
    ScanProjectCommits fuel gitlabToken p cfg blacklist false in
  snd run = Done tt
  /\ List.filter is_finding (fst run)
     = concat (map (commit_events cfg blacklist (WebURL p))
                 (rev (concat pages)))
       ++ concat (map (commit_events cfg blacklist (WebURL p))
                    (concat pages)).
Proof.
  intros Hos Hut Hserves Hfuel run. subst run.
  rewrite bind_emit.
  rewrite (GitLabPages.ScanProjectCommits_pages _ _ _ _ _ pages true)
    by assumption.
  rewrite (GitLabPages.ScanProjectCommits_pages _ _ _ _ _ pages false)
    by assumption.
  cbn zeta. rewrite !GitLabFacts.gl_ProcessCommits_ok by assumption.
  cbn [fst snd]. rewrite bind_pair. cbn [fst snd]. split; [reflexivity|].
  cbn [List.filter is_finding is_email is_os is_utility orb].
  rewrite !List.filter_app.
  rewrite !(filter_keep_none _ _ (gitlab_requests_not_findings _ _ _ _)).
  rewrite !(filter_keep_all _ _ (gitlab_commit_events_findings _ _ _ _)).
  reflexivity.
Qed.

End Whole.
End GitLabWhole.

Section GitLabRunFindings.
Context `{libs : GoLibs} {gl : GitLab.World}.

(** X17. The findings of a whole run of the GitLab scanner, when the
    configuration loads, its patterns compile, the user is found and the
    server delivers the listing and the commits: the run ends normally
    and the blocks it prints are, for every listed project that is not a
    fork, in the order of the listing, the blocks of its commits oldest
    first followed by the blocks of its commits newest first.  Forks
    contribute nothing. *)
Theorem gitlab_run_findings (fuel : nat) (args : list string)
  (username : string) (cfg : Config) (blacklist : list Regexp) (userID : Z)
  (listing : list (list GitLab.GitLabProject))
  (commits : GitLab.GitLabProject -> list (list GitLab.GitLabCommit)) :
  args !! 1%nat = Some username ->
  LoadPatterns "signatures.yaml" = Ok cfg ->
  LoadBlacklist "blacklist.txt" = Some (blacklist, None) ->
  Forall compiles (OperatingSystems cfg) ->
  Forall compiles (Utilities cfg) ->
  let gitlabToken := LoadEnvToken "GITLAB_TOKEN=" ".env" in
  outcome (GitLab.GetUserID gitlabToken username) = Done (Ok userID) ->
  gitlab_lists_projects gitlabToken userID listing ->
  gitlab_projects_page gitlabToken userID (Z.of_nat (length listing) + 1)
  = Some [] ->
  (length listing < fuel)%nat ->
  (forall p,
      In p (concat listing) ->
      GitLab.ForkedFromProject p = None ->
      GitLabSpec.serves_commits gitlabToken (GitLab.p_ID p) (commits p)
      /\ (length (commits p) < fuel)%nat) ->
  let blocks p all :=
    concat (map (GitLabSpec.commit_events cfg blacklist (GitLab.WebURL p))
              all) in
  outcome (GitLab.main fuel args) = Done tt
  /\ List.filter GitLabSpec.is_finding (trace (GitLab.main fuel args))
     = concat
         (map (fun p =>
                 blocks p (rev (concat (commits p)))
                 ++ blocks p (concat (commits p)))
              (List.filter
                 (fun p => negb (is_Some_b (GitLab.ForkedFromProject p)))
                 (concat listing))).
Proof.
  intros Hargs Hcfg Hbl Hos Hut gitlabToken Hid Hlisting Hlast Hfuel Hcommits
    blocks.
  unfold outcome, trace in *. unfold GitLab.main.
  rewrite Hargs, Hcfg, Hbl.
  rewrite (bind_or_panic_some _ _ _ eq_refl). cbn [fst snd].
  fold gitlabToken. rewrite !bind_emit. cbn [fst snd].
  pose proof (GitLabWhole.gl_whole_user gitlabToken username userID Hid)
    as Huser.
  destruct (GitLab.GetUserID gitlabToken username) as [t0 found].
  cbn [fst snd] in Hid, Huser. subst found. rewrite bind_pair.
  rewrite (GitLabListing.gl_list_ok gitlabToken userID fuel listing
             Hlisting Hlast Hfuel).
  rewrite bind_pair. cbn [fst snd].
  rewrite GitLabForks.gl_fork_scan_loop_skips_forks.
  destruct (for_range_kept GitLabSpec.is_finding
              (fun p =>
                 emit (GitLab.PrintScanningProject (GitLab.Path p));;
                 GitLab.ScanProjectCommits fuel gitlabToken p cfg blacklist
                   true;;
                 GitLab.ScanProjectCommits fuel gitlabToken p cfg blacklist
                   false)
              (fun p =>
                 blocks p (rev (concat (commits p)))
                 ++ blocks p (concat (commits p)))
              (List.filter
                 (fun p => negb (is_Some_b (GitLab.ForkedFromProject p)))
                 (concat listing))) as [Hdone Hkept].
  { intros p Hp. apply List.filter_In in Hp as [Hp Hown].
    assert (Hfork : GitLab.ForkedFromProject p = None)
      by now destruct (GitLab.ForkedFromProject p).
    destruct (Hcommits p Hp Hfork) as [Hserves Hlen].
    now apply GitLabWhole.gl_whole_project. }
  split; [exact Hdone|].
  assert (Htoken : GitLabSpec.is_finding
                     (if negb (String.eqb gitlabToken "")
                      then GitLab.PrintTokenFound else GitLab.PrintNoToken)
                   = false) by now destruct (negb _).
  cbn [List.filter]. rewrite Htoken.
  cbn [GitLabSpec.is_finding GitLabSpec.is_email GitLabSpec.is_os
         GitLabSpec.is_utility orb].
  rewrite !List.filter_app, Huser, Hkept.
  rewrite (filter_keep_none GitLabSpec.is_finding
             (gitlab_projects_requests gitlabToken userID _)).
  - reflexivity.
  - apply List.Forall_forall. intros e He.
    apply in_map_iff in He as (k & <- & _). reflexivity.
Qed.

End GitLabRunFindings.

(** The run of the sample: the fork is skipped and the three commits of
    [dotfiles] are processed oldest first, then newest first. *)
Lemma gitlab_run_findings_witness :
  List.filter GitLabSpec.is_finding
    (trace (@GitLab.main Sample.libs Sample.gitlab 5 ["dossier"; "alice"]))
  = concat (map (@GitLabSpec.commit_events Sample.libs Sample.cfg ["noreply"]
                   "https://gitlab.com/alice/dotfiles")
              [Sample.gl_c1; Sample.gl_c2; Sample.gl_c3])
    ++ concat (map (@GitLabSpec.commit_events Sample.libs Sample.cfg
                      ["noreply"] "https://gitlab.com/alice/dotfiles")
                 [Sample.gl_c3; Sample.gl_c2; Sample.gl_c1]).
Proof.
  destruct (@gitlab_run_findings Sample.libs Sample.gitlab 5
              ["dossier"; "alice"] "alice" Sample.cfg ["noreply"] 7
              [[Sample.gl_fork; Sample.gl_own]]
              (fun _ => [[Sample.gl_c3; Sample.gl_c2]; [Sample.gl_c1]])
              eq_refl eq_refl eq_refl
              (proj1 sample_cfg_compiles) (proj2 sample_cfg_compiles))
    as [_ Hrun].
  - vm_compute. reflexivity.
  - intros [|k] page Hk; try discriminate; injection Hk as <-.
    split; [discriminate|vm_compute; reflexivity].
  - vm_compute. reflexivity.
  - cbn; lia.
  - intros p Hp Hown. cbn in Hp.
    destruct Hp as [<-|[<-|[]]]; [discriminate|].
    split; [exact sample_gitlab_serves|cbn; lia].
  - rewrite Hrun. cbn [concat map List.filter app negb is_Some_b
                         GitLab.ForkedFromProject Sample.gl_fork
                         Sample.gl_own GitLab.WebURL rev].
    now rewrite app_nil_r.
Defined.

Module GitHubWhole.
Import GitHub GitHubSpec.

Section Whole.
Context `{World}.
Variables (githubToken : string) (cfg : Config) (blacklist : list Regexp).
Hypothesis Hos : Forall compiles (OperatingSystems cfg).
Hypothesis Hut : Forall compiles (Utilities cfg).

(** One round of the scan of a repository on anything but a page of
    commits: the scan ends. *)
Lemma gh_whole_end (fuel : nat) (repoFullName : string) (page : Z) :
  (forall c commits,
      commits_page githubToken repoFullName page <> Some (c :: commits)) ->
  snd (ScanRepoCommits_loop (S fuel) githubToken repoFullName cfg blacklist
         page) = Done tt
  /\ List.filter github_is_block
       (fst (ScanRepoCommits_loop (S fuel) githubToken repoFullName cfg
               blacklist page)) = [].
Proof.
  unfold commits_page. cbn [ScanRepoCommits_loop].
  destruct (http_NewRequest _) as [err|] eqn:Hnew.
  { intros _. unfold makeRequest. now rewrite Hnew, bind_ret. }
  rewrite (GitHubPages.gh_page_makeRequest_ok _ _ Hnew), bind_pair.
  destruct (client_Do _) as [[body status]|err]; [|now split].
  destruct (status =? 200) eqn:Hst; [|now split].
  destruct (json_Unmarshal_Commits body) as [[|c commits]|err] eqn:Hl;
    [now split| |now split].
  intros Hend. now destruct (Hend c commits).
Qed.

Lemma gh_whole_scan (fuel : nat) (repoFullName : string)
  (pages : list (list CommitItem)) :
  github_lists_commits githubToken repoFullName pages ->
  (forall c commits,
      commits_page githubToken repoFullName (Z.of_nat (length pages) + 1)
      <> Some (c :: commits)) ->
  (length pages < fuel)%nat ->
  snd (ScanRepoCommits fuel githubToken repoFullName cfg blacklist) = Done tt
  /\ List.filter github_is_block
       (fst (ScanRepoCommits fuel githubToken repoFullName cfg blacklist))
     = concat (map (commit_events cfg blacklist) (concat pages)).
Proof.
  intros Hpages Hlast Hfuel. unfold ScanRepoCommits.
  replace fuel with (length pages + S (fuel - S (length pages)))%nat by lia.
  change 1 with (Z.of_nat 0 + 1).
  destruct (GitHubOutage.gh_out_prefix githubToken repoFullName cfg blacklist
              Hos Hut pages (S (fuel - S (length pages))) 0 Hpages)
    as (t & Ht & ->).
  cbn [Nat.add fst snd].
  destruct (gh_whole_end (fuel - S (length pages)) repoFullName _ Hlast)
    as [Hdone Hnone].
  split; [exact Hdone|].
  now rewrite List.filter_app, Ht, Hnone, app_nil_r.
Qed.

End Whole.
End GitHubWhole.

Section GitHubRunFindings.
Context `{libs : GoLibs} {gh : GitHub.World}.

(** X18. The findings of a whole run of the GitHub scanner, when the
    configuration loads, its patterns compile and the server delivers
    pages of results to the two searches, the listing, and pages of
    commits for the repositories that are not forks: the run ends
    normally and the blocks it prints are those of the ascending search,
    then those of the descending search, then, for every listed
    repository that is not a fork, those of its commits.  Nothing is
    remembered between the passes: a commit that a search and the scan of
    its repository both deliver is reported by each of them. *)
Theorem github_run_findings (fuel : nat) (args : list string)
  (username : string) (cfg : Config) (blacklist : list Regexp)
  (oldest newest : list (list GitHub.CommitItem))
  (listing : list (list GitHub.Repo))
  (commits : GitHub.Repo -> list (list GitHub.CommitItem)) :
  args !! 1%nat = Some username ->
  LoadPatterns "signatures.yaml" = Ok cfg ->
  LoadBlacklist "blacklist.txt" = Some (blacklist, None) ->
  Forall compiles (OperatingSystems cfg) ->
  Forall compiles (Utilities cfg) ->
  let githubToken := LoadEnvToken "GITHUB_TOKEN=" ".env" in
  let ends {A} (page : option (list A)) :=
    forall x rest, page <> Some (x :: rest) in
  github_lists_search githubToken username "asc" oldest ->
  ends (github_search_page githubToken username "asc"
          (Z.of_nat (length oldest) + 1)) ->
  (length oldest < fuel)%nat ->
  github_lists_search githubToken username "desc" newest ->
  ends (github_search_page githubToken username "desc"
          (Z.of_nat (length newest) + 1)) ->
  (length newest < fuel)%nat ->
  github_lists_repos githubToken username listing ->
  github_repos_page githubToken username (Z.of_nat (length listing) + 1)
  = Some [] ->
  (length listing < fuel)%nat ->
  (forall r,
      In r (concat listing) ->
      GitHub.Fork r = false ->
      github_lists_commits githubToken (GitHub.FullName r) (commits r)
      /\ ends (GitHubSpec.commits_page githubToken (GitHub.FullName r)
                 (Z.of_nat (length (commits r)) + 1))
      /\ (length (commits r) < fuel)%nat) ->
  let blocks pages :=
    concat (map (GitHubSpec.commit_events cfg blacklist) (concat pages)) in
  outcome (GitHub.main fuel args) = Done tt
  /\ List.filter github_is_block (trace (GitHub.main fuel args))
     = blocks oldest ++ blocks newest
       ++ concat (map (fun r => blocks (commits r))
                    (List.filter (fun r => negb (GitHub.Fork r))
                       (concat listing))).
Proof.
  intros Hargs Hcfg Hbl Hos Hut githubToken ends Hold Hold_end Hold_fuel
    Hnew Hnew_end Hnew_fuel Hlisting Hlast Hfuel Hcommits blocks.
  unfold outcome, trace in *. unfold GitHub.main.
  rewrite Hargs, Hcfg, Hbl.
  rewrite (bind_or_panic_some _ _ _ eq_refl). cbn [fst snd].
  fold githubToken.
  destruct (GitHubSearchPages.gh_pass_scan githubToken username "asc" cfg
              blacklist Hos Hut fuel oldest Hold Hold_end Hold_fuel)
    as [Hdone1 Hkept1].
  destruct (GitHubSearchPages.gh_pass_scan githubToken username "desc" cfg
              blacklist Hos Hut fuel newest Hnew Hnew_end Hnew_fuel)
    as [Hdone2 Hkept2].
  unfold GitHub.ScanGlobalCommits. cbn [negb].
  destruct (GitHub.ScanGlobalCommits_loop fuel githubToken username cfg
              blacklist "asc" 1) as [t1 o1].
  destruct (GitHub.ScanGlobalCommits_loop fuel githubToken username cfg
              blacklist "desc" 1) as [t2 o2].
  cbn [fst snd] in Hdone1, Hkept1, Hdone2, Hkept2. subst o1 o2.
  rewrite (GitHubListing.gh_list_ok githubToken username fuel listing
             Hlisting Hlast Hfuel).
  repeat (first [rewrite bind_emit|rewrite bind_pair];
          cbn beta iota; cbn [fst snd]).
  rewrite GitHubForks.gh_fork_scan_loop_skips_forks.
  destruct (for_range_kept github_is_block
              (fun r =>
                 emit (GitHub.PrintScanningRepo (GitHub.FullName r));;
                 GitHub.ScanRepoCommits fuel githubToken (GitHub.FullName r)
                   cfg blacklist)
              (fun r => blocks (commits r))
              (List.filter (fun r => negb (GitHub.Fork r)) (concat listing)))
    as [Hdone3 Hkept3].
  { intros r Hr. apply List.filter_In in Hr as [Hr Hown].
    apply negb_true_iff in Hown.
    destruct (Hcommits r Hr Hown) as (Hpages & Hend & Hlen).
    destruct (GitHubWhole.gh_whole_scan githubToken cfg blacklist Hos Hut
                fuel (GitHub.FullName r) (commits r) Hpages Hend Hlen)
      as [Hdone Hkept].
    rewrite bind_emit. cbn [fst snd]. split; [exact Hdone|].
    cbn [List.filter github_is_block GitHubSpec.is_email GitHubSpec.is_os
           GitHubSpec.is_utility orb]. exact Hkept. }
  destruct (for_range _ _) as [t3 o3]. cbn [fst snd] in Hdone3, Hkept3.
  subst o3.
  split; [reflexivity|].
  assert (Htoken : github_is_block
                     (if negb (String.eqb githubToken "")
                      then GitHub.PrintTokenFound else GitHub.PrintNoToken)
                   = false) by now destruct (negb _).
  cbn [List.filter]. rewrite Htoken.
  cbn [github_is_block GitHubSpec.is_email GitHubSpec.is_os
         GitHubSpec.is_utility orb].
  rewrite List.filter_app. cbn [List.filter].
  cbn [github_is_block GitHubSpec.is_email GitHubSpec.is_os
         GitHubSpec.is_utility orb].
  rewrite List.filter_app. cbn [List.filter].
  cbn [github_is_block GitHubSpec.is_email GitHubSpec.is_os
         GitHubSpec.is_utility orb].
  cbn [fst]. rewrite List.filter_app, Hkept1, Hkept2, Hkept3.
  rewrite (filter_keep_none github_is_block
             (github_repos_requests githubToken username _)).
  - reflexivity.
  - apply List.Forall_forall. intros e He.
    apply in_map_iff in He as (k & <- & _). reflexivity.
Qed.

End GitHubRunFindings.

(** The run of the sample: the commits of [dotfiles] are reported by the
    searches and again by the scan of the repository; the fork is
    skipped. *)
Lemma github_run_findings_witness :
  let blocks commits :=
    concat (map (@GitHubSpec.commit_events Sample.libs Sample.github
                   Sample.cfg ["noreply"]) commits) in
  List.filter github_is_block
    (trace (@GitHub.main Sample.libs Sample.github 5 ["dossier"; "alice"]))
  = blocks [Sample.gh_c1; Sample.gh_c2] ++ blocks [Sample.gh_c3]
    ++ blocks [Sample.gh_c3; Sample.gh_c2; Sample.gh_c1].
Proof.
  cbn zeta.
  destruct (@github_run_findings Sample.libs Sample.github 5
              ["dossier"; "alice"] "alice" Sample.cfg ["noreply"]
              [[Sample.gh_c1; Sample.gh_c2]] [[Sample.gh_c3]]
              [[Sample.gh_fork; Sample.gh_own]]
              (fun _ => [[Sample.gh_c3; Sample.gh_c2]; [Sample.gh_c1]])
              eq_refl eq_refl eq_refl
              (proj1 sample_cfg_compiles) (proj2 sample_cfg_compiles))
    as [_ Hrun].
  - intros [|k] page Hk; try discriminate; injection Hk as <-.
    split; [discriminate|vm_compute; reflexivity].
  - intros c items. vm_compute. discriminate.
  - cbn; lia.
  - intros [|k] page Hk; try discriminate; injection Hk as <-.
    split; [discriminate|vm_compute; reflexivity].
  - intros c items. vm_compute. discriminate.
  - cbn; lia.
  - intros [|k] page Hk; try discriminate; injection Hk as <-.
    split; [discriminate|vm_compute; reflexivity].
  - vm_compute. reflexivity.
  - cbn; lia.
  - intros r Hr Hown. cbn in Hr.
    destruct Hr as [<-|[<-|[]]]; [discriminate|].
    split; [|split; [|cbn; lia]].
    + intros [|[|k]] page Hk; try discriminate; injection Hk as <-;
        (split; [discriminate|vm_compute; reflexivity]).
    + intros c items. vm_compute. discriminate.
  - rewrite Hrun. cbn [concat map List.filter app negb GitHub.Fork
                         Sample.gh_fork Sample.gh_own].
    now rewrite !app_nil_r.
Defined.

(** ** The two passes of a whole run of the GitLab scanner *)

Module GitLabTwice.
Import GitLab GitLabSpec.

Section Twice.
Context `{World}.

(** The lookup of a user that is found is one request. *)
Lemma gl_twice_lookup (gitlabToken username : string) (userID : Z) :
  snd (GetUserID gitlabToken username) = Done (Ok userID) ->
  GetUserID gitlabToken username
  = ([HttpDo (request gitlabToken
                ("https://gitlab.com/api/v4/users?username=" +:+ username))],
     Done (Ok userID)).
Proof.
  unfold GetUserID.
  destruct (http_NewRequest ("https://gitlab.com/api/v4/users?username="
                             +:+ username)) eqn:Hnew.
  { unfold makeRequest. rewrite Hnew, bind_ret. discriminate. }
  rewrite (GitLabPages.gl_page_makeRequest_ok gitlabToken _ Hnew), bind_pair.
  destruct (client_Do _) as [[body status]|]; [|discriminate].
  destruct (negb (status =? 200)); [discriminate|].
  destruct (json_Unmarshal_Users body) as [[|u users]|]; try discriminate.
  cbn [fst snd]. now intros [= ->].
Qed.

Lemma Permutation_concat_map {A B} (f g : A -> list B) (xs : list A) :
  (forall x, In x xs -> Permutation (f x) (g x)) ->
  Permutation (concat (map f xs)) (concat (map g xs)).
Proof.
  induction xs as [|x xs IH]; intros Hfg; [constructor|].
  cbn [map concat]. apply Permutation_app.
  - apply Hfg. now left.
  - apply IH. intros y Hy. apply Hfg. now right.
Qed.

End Twice.
End GitLabTwice.

Section GitLabTwoPasses.
Context `{libs : GoLibs} {gl : GitLab.World}.

(** C9. In a run of the GitLab scanner whose configuration loads, whose
    patterns compile, whose user is found and to which the server
    delivers the listing and the commits, [main] takes every listed
    project that is not a fork, in the order of the listing, fetches its
    whole history twice and passes it through the pipeline twice: first
    reversed to oldest-first, then in the order of the server.  The
    findings of the first pass are those of the second in another order,
    so the findings of the run are, project by project, those of one
    pass, each twice.  Forks are neither fetched nor processed. *)
Theorem gitlab_scans_twice (fuel : nat) (args : list string)
  (username : string) (cfg : Config) (blacklist : list Regexp) (userID : Z)
  (listing : list (list GitLab.GitLabProject))
  (commits : GitLab.GitLabProject -> list (list GitLab.GitLabCommit)) :
  args !! 1%nat = Some username ->
  LoadPatterns "signatures.yaml" = Ok cfg ->
  LoadBlacklist "blacklist.txt" = Some (blacklist, None) ->
  Forall compiles (OperatingSystems cfg) ->
  Forall compiles (Utilities cfg) ->
  let gitlabToken := LoadEnvToken "GITLAB_TOKEN=" ".env" in
  outcome (GitLab.GetUserID gitlabToken username) = Done (Ok userID) ->
  gitlab_lists_projects gitlabToken userID listing ->
  gitlab_projects_page gitlabToken userID (Z.of_nat (length listing) + 1)
  = Some [] ->
  (length listing < fuel)%nat ->
  (forall p,
      In p (concat listing) ->
      GitLab.ForkedFromProject p = None ->
      GitLabSpec.serves_commits gitlabToken (GitLab.p_ID p) (commits p)
      /\ (length (commits p) < fuel)%nat) ->
  let own :=
    List.filter (fun p => negb (is_Some_b (GitLab.ForkedFromProject p)))
      (concat listing) in
  let requests p :=
    GitLabSpec.page_requests gitlabToken (GitLab.p_ID p) 1
      (S (length (commits p))) in
  let newest_first p :=
    trace (GitLab.ProcessCommits (concat (commits p)) cfg blacklist
             (GitLab.WebURL p)) in
  let oldest_first p :=
    trace (GitLab.ProcessCommits (rev (concat (commits p))) cfg blacklist
             (GitLab.WebURL p)) in
  let scan p :=
    GitLab.PrintScanningProject (GitLab.Path p)
    :: requests p ++ oldest_first p ++ requests p ++ newest_first p in
  GitLab.main fuel args
  = ((if negb (String.eqb gitlabToken "") then GitLab.PrintTokenFound
      else GitLab.PrintNoToken)
     :: GitLab.PrintScanning username
     :: GitLab.HttpDo
          (GitLabSpec.request gitlabToken
             ("https://gitlab.com/api/v4/users?username=" +:+ username))
     :: gitlab_projects_requests gitlabToken userID (S (length listing))
     ++ concat (map scan own),
     Done tt)
  /\ (forall p,
        In p own ->
        GitLab.scanProject fuel gitlabToken cfg blacklist p = (scan p, Done tt)
        /\ Permutation (oldest_first p) (newest_first p)
        /\ List.filter GitLabSpec.is_finding (scan p)
           = oldest_first p ++ newest_first p)
  /\ List.filter GitLabSpec.is_finding (trace (GitLab.main fuel args))
     = concat (map (fun p => oldest_first p ++ newest_first p) own)
  /\ Permutation
       (List.filter GitLabSpec.is_finding (trace (GitLab.main fuel args)))
       (concat (map (fun p => newest_first p ++ newest_first p) own)).
Proof.
  intros Hargs Hcfg Hbl Hos Hut gitlabToken Hid Hlisting Hlast Hfuel Hcommits
    own requests newest_first oldest_first scan.
  unfold outcome in Hid.
  assert (Hproject : forall p,
             In p own ->
             GitLab.scanProject fuel gitlabToken cfg blacklist p
             = (scan p, Done tt)
             /\ Permutation (oldest_first p) (newest_first p)
             /\ List.filter GitLabSpec.is_finding (scan p)
                = oldest_first p ++ newest_first p).
  { intros p Hp. apply List.filter_In in Hp as [Hp Hown].
    assert (Hfork : GitLab.ForkedFromProject p = None)
      by now destruct (GitLab.ForkedFromProject p).
    destruct (Hcommits p Hp Hfork) as [Hserves Hlen].
    destruct (gitlab_two_passes fuel gitlabToken cfg blacklist p (commits p)
                Hfork Hserves Hlen Hos Hut) as (Hscan & Hperm & Hfilter).
    rewrite Hscan in Hfilter. cbn [fst] in Hfilter.
    split; [exact Hscan|]. split; [exact Hperm|exact Hfilter]. }
  assert (Hmain :
    GitLab.main fuel args
    = ((if negb (String.eqb gitlabToken "") then GitLab.PrintTokenFound
        else GitLab.PrintNoToken)
       :: GitLab.PrintScanning username
       :: GitLab.HttpDo
            (GitLabSpec.request gitlabToken
               ("https://gitlab.com/api/v4/users?username=" +:+ username))
       :: gitlab_projects_requests gitlabToken userID (S (length listing))
       ++ concat (map scan own),
       Done tt)).
  { unfold GitLab.main. rewrite Hargs, Hcfg, Hbl.
    rewrite (bind_or_panic_some _ _ _ eq_refl). cbn [fst snd].
    fold gitlabToken. rewrite !bind_emit. cbn [fst snd].
    rewrite (GitLabTwice.gl_twice_lookup gitlabToken username userID Hid).
    rewrite bind_pair.
    rewrite (GitLabListing.gl_list_ok gitlabToken userID fuel listing
               Hlisting Hlast Hfuel).
    rewrite bind_pair. cbn [fst snd app].
    rewrite (for_range_filter
               (fun p => negb (is_Some_b (GitLab.ForkedFromProject p)))
               (GitLab.scanProject fuel gitlabToken cfg blacklist)
               (GitLab.scanProject fuel gitlabToken cfg blacklist)).
    2:{ intros p. unfold GitLab.scanProject.
        now destruct (GitLab.ForkedFromProject p). }
    fold own. rewrite for_range_done.
    - cbn [fst snd]. do 6 f_equal.
      apply map_ext_in. intros p Hp.
      now rewrite (proj1 (Hproject p Hp)).
    - apply List.Forall_forall. intros p Hp.
      now rewrite (proj1 (Hproject p Hp)). }
  assert (Hfindings :
    List.filter GitLabSpec.is_finding (trace (GitLab.main fuel args))
    = concat (map (fun p => oldest_first p ++ newest_first p) own)).
  { unfold trace at 1. rewrite Hmain. cbn [fst List.filter].
    replace (GitLabSpec.is_finding
               (if negb (String.eqb gitlabToken "") then GitLab.PrintTokenFound
                else GitLab.PrintNoToken)) with false
      by now destruct (negb _).
    cbn [GitLabSpec.is_finding GitLabSpec.is_email GitLabSpec.is_os
           GitLabSpec.is_utility orb].
    rewrite List.filter_app.
    rewrite (filter_keep_none GitLabSpec.is_finding
               (gitlab_projects_requests gitlabToken userID _)).
    2:{ apply List.Forall_forall. intros e He.
        apply in_map_iff in He as (k & <- & _). reflexivity. }
    cbn [app]. rewrite filter_concat, map_map. f_equal.
    apply map_ext_in. intros p Hp. now apply Hproject. }
  split; [exact Hmain|]. split; [exact Hproject|]. split; [exact Hfindings|].
  rewrite Hfindings. apply GitLabTwice.Permutation_concat_map.
  intros p Hp. apply Permutation_app_tail. now apply Hproject.
Qed.

End GitLabTwoPasses.

(** The run of the sample: the fork is skipped, and the project of the
    account's own yields each of its findings twice. *)
Lemma gitlab_scans_twice_witness :
  let once :=
    trace (@GitLab.ProcessCommits Sample.libs
             [Sample.gl_c3; Sample.gl_c2; Sample.gl_c1] Sample.cfg
             ["noreply"] "https://gitlab.com/alice/dotfiles") in
  Permutation
    (List.filter GitLabSpec.is_finding
       (trace (@GitLab.main Sample.libs Sample.gitlab 5 ["dossier"; "alice"])))
    (once ++ once).
Proof.
  cbn zeta.
  destruct (@gitlab_scans_twice Sample.libs Sample.gitlab 5
              ["dossier"; "alice"] "alice" Sample.cfg ["noreply"] 7
              [[Sample.gl_fork; Sample.gl_own]]
              (fun _ => [[Sample.gl_c3; Sample.gl_c2]; [Sample.gl_c1]])
              eq_refl eq_refl eq_refl
              (proj1 sample_cfg_compiles) (proj2 sample_cfg_compiles))
    as (_ & _ & _ & Hperm).
  - vm_compute. reflexivity.
  - intros [|k] page Hk; try discriminate; injection Hk as <-.
    split; [discriminate|vm_compute; reflexivity].
  - vm_compute. reflexivity.
  - cbn; lia.
  - intros p Hp Hown. cbn in Hp.
    destruct Hp as [<-|[<-|[]]]; [discriminate|].
    split; [exact sample_gitlab_serves|cbn; lia].
  - cbn [concat map List.filter app negb is_Some_b GitLab.ForkedFromProject
           Sample.gl_fork Sample.gl_own GitLab.WebURL] in Hperm.
    rewrite app_nil_r in Hperm. exact Hperm.
Defined.
